(** * Sprint analysis pipeline: a shallow embedding and its properties

    The TypeScript services [MetricsCalculator], [RiskAssessor],
    [PredictionEngine], [RecommendationGenerator], [ReportGenerator],
    [StorageService], [AnalysisOrchestrator], the batch fetch of
    [BitbucketDataCollector] and the request loop of [JiraDataCollector] are
    embedded as Rocq functions.

    Conventions of the embedding
    - a JavaScript [number] is kept as the rational it denotes ([Q]); counts
      and values produced by [Math.floor]/[Math.round] are integers ([Z]).
      The arithmetic of [MetricsCalculator], of the score and the PR-delay
      detector of [RiskAssessor], and the conversions to hours and the
      dwell-time average of [PredictionEngine] and [RecommendationGenerator]
      is binary64 arithmetic: every operation rounds its exact result to 53
      significant bits ([JS.fl], through [JS.add], [JS.sub], [JS.mul] and
      [JS.div]).  The other arithmetic (the threshold tests on a given
      completion rate, the probability bookkeeping of [PredictionEngine],
      the scaling of story points) is on the rationals.  Where the source
      divides by a value that can be zero, the IEEE result ([Infinity]) is
      written out at the place it is consumed;
    - a timestamp string is represented by the epoch milliseconds that
      [new Date(s).getTime()] yields for it (a [Z]; the time values of
      [Date] are integers of magnitude at most [8.64e15], below [2^53]);
    - [string | null] is [option string]; JavaScript truthiness is written
      out ([truthy_string], [or_default]);
    - a [Map] is an association list in insertion order, which is the order
      [entries()] and [values()] iterate in;
    - [Array.prototype.sort] is the stable sort the language requires;
    - template literals are kept as lists of fragments ([text]), so that no
      number formatting has to be modelled;
    - in-place mutation ([Array.prototype.reverse], [Array.prototype.sort]
      on a caller's array) is explicit state passing: a function that mutates
      its argument returns the new contents next to its result; where
      sharing matters the arrays are kept in a store and passed by
      reference;
    - [toLowerCase] acts on the ASCII letters;
    - one clock reading stands for the [Date.now()] and [new Date()] calls of
      one operation;
    - Forge storage is a list of keyed objects with a flag telling whether
      the backend answers; an asynchronous method of the storage service is
      a function from the storage to its outcome and the storage it
      leaves. *)

From Stdlib Require Import List Bool Arith ZArith QArith Qround Qminmax Qpower Qabs.
From Stdlib Require Import Lia Lqa.
From Stdlib Require Import String Ascii.
From Stdlib Require Import Permutation Sorted.
Import ListNotations.

Local Open Scope string_scope.
Local Open Scope Z_scope.
Local Open Scope list_scope.

(* ================================================================== *)
(** ** JavaScript primitives used by the services *)

Module JS.

(** [String.prototype.toLowerCase], on the ASCII letters. *)
Definition lower_ascii (c : ascii) : ascii :=
  let n := nat_of_ascii c in
  if (andb (65 <=? n) (n <=? 90))%nat then ascii_of_nat (n + 32) else c.

Fixpoint toLowerCase (s : string) : string :=
  match s with
  | EmptyString => EmptyString
  | String c r => String (lower_ascii c) (toLowerCase r)
  end.

(** [String.prototype.includes]: [sub] occurs in [s] as a substring. *)
Fixpoint includes (s sub : string) : bool :=
  if String.prefix sub s then true
  else match s with
       | EmptyString => false
       | String _ r => includes r sub
       end.

(** Truthiness of a [string | null]: [null] and the empty string are falsy. *)
Definition truthy_string (o : option string) : bool :=
  match o with
  | Some s => negb (String.eqb s EmptyString)
  | None => false
  end.

(** [x || d] on a [number | null]: [null] and [0] select [d]. *)
Definition or_default (o : option Q) (d : Q) : Q :=
  match o with
  | Some q => if Qeq_bool q 0 then d else q
  | None => d
  end.

(** *** Binary64 rounding

    [fl q] is the rational with a significand of 53 bits that is nearest to
    [q], halves going to the even significand: the value one IEEE 754
    binary64 operation returns when its exact result is [q].  The exponent
    range of binary64 is not modelled; it is left only below [2^-1022] and
    above [2^1024], and the services compute with counts, hours and
    percentages. *)

(** The position of the leading bit of a positive rational: the [e] with
    [2^e <= q < 2^(e+1)]. *)
Definition ilog2 (q : Q) : Z :=
  let c := Z.log2 (Qnum q) - Z.log2 (Zpos (Qden q)) in
  if Qle_bool (2 ^ c) q then c else c - 1.

(** The nearest integer, halves to the even one. *)
Definition rne (q : Q) : Z :=
  let f := Qfloor q in
  match (q - inject_Z f ?= 1 # 2)%Q with
  | Lt => f
  | Gt => f + 1
  | Eq => if Z.even f then f else f + 1
  end.

(** Rounding of a positive rational: the significand is the rational scaled
    into [[2^52, 2^53)] by a power of two and rounded to an integer. *)
Definition ulpExp (q : Q) : Z := ilog2 q - 52.

Definition flpos (q : Q) : Q :=
  let e := ulpExp q in
  (inject_Z (rne (q / 2 ^ e)) * 2 ^ e)%Q.

Definition fl (q : Q) : Q :=
  match Qnum q with
  | Z0 => 0%Q
  | Zpos _ => Qred (flpos q)
  | Zneg _ => Qred (- flpos (- q))
  end.

(** [x + y], [x - y], [x * y] and [x / y] on numbers; the divisor is not
    zero. *)
Definition add (x y : Q) : Q := fl (x + y).
Definition sub (x y : Q) : Q := fl (x - y).
Definition mul (x y : Q) : Q := fl (x * y).
Definition div (x y : Q) : Q := fl (x / y).

(** [Math.round]: the nearest integer, halves towards plus infinity. *)
Definition round (q : Q) : Z := Qfloor (q + (1 # 2)).

Definition ceil (q : Q) : Z := Qceiling q.

(** [x > y], [x >= y], [x < y] on numbers. *)
Definition gtb (x y : Q) : bool := negb (Qle_bool x y).
Definition ltb (x y : Q) : bool := negb (Qle_bool y x).
Definition leb (x y : Q) : bool := Qle_bool x y.

(** Milliseconds to hours: [(t2 - t1) / (1000 * 60 * 60)] for the
    difference [ms] of two timestamps.  The difference is a number itself,
    rounded when it lies beyond [2^53]. *)
Definition hours (ms : Z) : Q := div (fl (inject_Z ms)) (inject_Z (1000 * 60 * 60)).

(** [xs.reduce((sum, x) => sum + x, 0)]. *)
Definition sumQ (l : list Q) : Q := fold_left add l 0%Q.
Definition sumZ (l : list Z) : Z := fold_left Z.add l 0.

Definition lenQ {A} (l : list A) : Q := inject_Z (Z.of_nat (List.length l)).
Definition lenZ {A} (l : list A) : Z := Z.of_nat (List.length l).

(** Stable insertion sort.  [le a b] stands for [compare(a, b) <= 0]: the
    comparator does not ask for [a] to come after [b]. *)
Section Sort.
Context {A : Type} (le : A -> A -> bool).

Fixpoint insert (x : A) (l : list A) : list A :=
  match l with
  | [] => [x]
  | y :: r => if le x y then x :: y :: r else y :: insert x r
  end.

Fixpoint sort (l : list A) : list A :=
  match l with
  | [] => []
  | x :: r => insert x (sort r)
  end.
End Sort.

(** [if (x) xs.push(x)] for an [x] that is an object or [null]. *)
Definition push_opt {A} (o : option A) : list A :=
  match o with Some x => [x] | None => [] end.

(** [Array.prototype.slice(0, n)]. *)
Definition slice0 {A} (n : nat) (l : list A) : list A := firstn n l.

(** [Math.max(...xs)] on a non-empty list of integers. *)
Definition maxZ (d : Z) (l : list Z) : Z := fold_left Z.max l d.

(** Fragments of a template literal. *)
Inductive num : Type :=
| Finite (q : Q)
| Infinity.

Inductive frag : Type :=
| Lit (s : string)               (* literal text or an interpolated string *)
| Num (x : Q)                    (* an interpolated number *)
| Int (n : Z)                    (* an interpolated integer *)
| Fixed (digits : nat) (x : num) (* x.toFixed(digits) *).

Definition text := list frag.

(** The double-quote character of a template. *)
Definition dq : frag := Lit (String (ascii_of_nat 34) EmptyString).

(** Counting occurrences in a [Map<string, number>]:
    [m.set(k, (m.get(k) || 0) + 1)], insertion order kept. *)
Fixpoint bump (k : string) (m : list (string * Z)) : list (string * Z) :=
  match m with
  | [] => [(k, 1)]
  | (k', n) :: r =>
      if String.eqb k' k then (k', n + 1) :: r else (k', n) :: bump k r
  end.

End JS.

(* ================================================================== *)
(** ** Data model (src/types) *)

Module StatusTransition.
Record t := mk {
  fromStatus : string;
  toStatus : string;
  timestamp : Z
}.
End StatusTransition.

Module IssueData.
Record t := mk {
  id : string;
  key : string;
  summary : string;
  assignee : option string;
  storyPoints : option Q;
  status : string;
  statusTransitions : list StatusTransition.t;
  linkedPRs : list string
}.

Definition with_transitions (i : t) (ts : list StatusTransition.t) : t :=
  mk (id i) (key i) (summary i) (assignee i) (storyPoints i) (status i) ts
     (linkedPRs i).
End IssueData.

Module SprintData.
Inductive sprint_state := active | closed | future.
Record t := mk {
  id : string;
  name : string;
  state : sprint_state;
  startDate : Z;
  endDate : Z;
  goal : option string
}.
End SprintData.

Module ReviewerData.
Record t := mk {
  username : string;
  approvedAt : option Z;
  commentCount : Z
}.
End ReviewerData.

Module PullRequestData.
Inductive pr_state := OPEN | MERGED | DECLINED.
Record t := mk {
  id : string;
  title : string;
  author : string;
  createdAt : Z;
  firstReviewAt : option Z;
  mergedAt : option Z;
  state : pr_state;
  reviewers : list ReviewerData.t;
  revisionCount : Z;
  linkedIssues : list string
}.
End PullRequestData.

Module SprintMetrics.
Record t := mk {
  cycleTime : Q;
  leadTime : Q;
  throughput : Z;
  velocity : Q;
  wipCount : Z;
  carryOverCount : Z;
  completionRate : Q
}.
End SprintMetrics.

Module PRMetrics.
Record t := mk {
  averageLatency : Q;
  averageTimeToFirstReview : Q;
  averageReviewCycles : Q;
  averageRevisions : Q
}.
End PRMetrics.

Module HistoricalMetrics.
Record t := mk {
  sprintId : string;
  sprintName : string;
  completedAt : Z;
  metrics : SprintMetrics.t;
  prMetrics : PRMetrics.t
}.
End HistoricalMetrics.

Inductive RiskLevel := Low | Medium | High.

Module RiskFactor.
Inductive category_t := PR_DELAYS | HIGH_WIP | COMPLEXITY | CARRYOVER | BOTTLENECK.
Record t := mk {
  category : category_t;
  severity : Z;
  description : JS.text
}.
End RiskFactor.

Module RiskAssessment.
Record t := mk {
  level : RiskLevel;
  score : Z;
  factors : list RiskFactor.t;
  justification : JS.text
}.
End RiskAssessment.

Inductive Impact := ImpactHigh | ImpactMedium | ImpactLow.

Module Recommendation.
Inductive category_t := SCOPE | REVIEWER | WIP | PROCESS | PLANNING.
Record t := mk {
  priority : Z;
  category : category_t;
  title : JS.text;
  description : JS.text;
  impact : Impact
}.
End Recommendation.

Module BottleneckInfo.
Inductive type_t := STATUS | REVIEWER | DEPENDENCY.
Record t := mk {
  location : string;
  type : type_t;
  affectedIssues : list string;
  severity : Z;
  description : JS.text
}.
End BottleneckInfo.

Module SpilloverPrediction.
Record t := mk {
  issueKey : string;
  probability : Q;
  reasons : list JS.text
}.
End SpilloverPrediction.


(* ================================================================== *)
(** ** MetricsCalculator (src/services/MetricsCalculator.ts) *)

Module MetricsCalculator.

Definition ACTIVE_STATUSES : list string :=
  [ "in progress"; "in development"; "in review"; "code review";
    "testing"; "qa"; "ready for review" ].

Definition COMPLETED_STATUSES : list string :=
  [ "done"; "closed"; "resolved"; "completed" ].

Definition isActiveStatus (status : string) : bool :=
  let normalized := JS.toLowerCase status in
  existsb (fun activeStatus => JS.includes normalized activeStatus) ACTIVE_STATUSES.

Definition isCompletedStatus (status : string) : bool :=
  let normalized := JS.toLowerCase status in
  existsb (fun completedStatus => JS.includes normalized completedStatus)
          COMPLETED_STATUSES.

(** [calculateCycleTime(transitions)].  The source calls
    [transitions.reverse()], which reverses the caller's array in place; the
    second component is the array after the call. *)
Definition calculateCycleTime (transitions : list StatusTransition.t)
  : Q * list StatusTransition.t :=
  let startTransition :=
    find (fun t => isActiveStatus (StatusTransition.toStatus t)) transitions in
  let reversed := rev transitions in
  let endTransition :=
    find (fun t => isCompletedStatus (StatusTransition.toStatus t)) reversed in
  match startTransition, endTransition with
  | Some s, Some e =>
      let startTime := StatusTransition.timestamp s in
      let endTime := StatusTransition.timestamp e in
      (JS.hours (endTime - startTime), reversed)
  | _, _ => (0%Q, reversed)
  end.

(** Transition arrays are objects: they live in a store and are addressed
    by reference, and two issue objects may hold the same array. *)
Definition Arrays := list (list StatusTransition.t).

Definition readArray (store : Arrays) (a : nat) : list StatusTransition.t :=
  nth a store [].

Fixpoint writeArray (store : Arrays) (a : nat) (v : list StatusTransition.t)
  : Arrays :=
  match store, a with
  | [], _ => []
  | _ :: r, O => v :: r
  | x :: r, S a' => x :: writeArray r a' v
  end.

(** [calculateCycleTime] called on the array behind the reference [a]. *)
Definition calculateCycleTimeIn (store : Arrays) (a : nat) : Q * Arrays :=
  let (time, after) := calculateCycleTime (readArray store a) in
  (time, writeArray store a after).

(** [issues.map(issue => this.calculateCycleTime(issue.statusTransitions))]
    for issues whose transition arrays are behind the references [refs]. *)
Fixpoint cycleTimesIn (store : Arrays) (refs : list nat) : list Q * Arrays :=
  match refs with
  | [] => ([], store)
  | a :: r =>
      let (time, store1) := calculateCycleTimeIn store a in
      let (times, store2) := cycleTimesIn store1 r in
      (time :: times, store2)
  end.

(** [getIssueCreationTime(issue)]; [now] is [Date.now()]. *)
Definition getIssueCreationTime (now : Z) (issue : IssueData.t) : Z :=
  match IssueData.statusTransitions issue with
  | [] => now
  | t0 :: _ =>
      fold_left
        (fun earliest transition =>
           let time := StatusTransition.timestamp transition in
           if time <? earliest then time else earliest)
        (IssueData.statusTransitions issue)
        (StatusTransition.timestamp t0)
  end.

(** [calculateLeadTime(issue)]; it reverses [issue.statusTransitions] in
    place as well. *)
Definition calculateLeadTime (now : Z) (issue : IssueData.t) : Q * IssueData.t :=
  let creationTime := getIssueCreationTime now issue in
  let reversed := rev (IssueData.statusTransitions issue) in
  let issue' := IssueData.with_transitions issue reversed in
  match find (fun t => isCompletedStatus (StatusTransition.toStatus t)) reversed with
  | None => (0%Q, issue')
  | Some completionTransition =>
      let completionTime := StatusTransition.timestamp completionTransition in
      (JS.hours (completionTime - creationTime), issue')
  end.

(** The tail of the two averaging helpers: drop the non-positive values and
    take the mean of the rest, [0] when nothing is left. *)
Definition averageOfValid (times : list Q) : Q :=
  let valid := filter (fun time => JS.gtb time 0) times in
  match valid with
  | [] => 0%Q
  | _ => JS.div (JS.sumQ valid) (JS.lenQ valid)
  end.

(** [calculateAverageCycleTime(issues)], with the issues as the call leaves
    them (every issue's transitions reversed). *)
Definition calculateAverageCycleTime (issues : list IssueData.t)
  : Q * list IssueData.t :=
  match issues with
  | [] => (0%Q, [])
  | _ =>
      let results :=
        map (fun issue =>
               let (time, ts) := calculateCycleTime (IssueData.statusTransitions issue) in
               (time, IssueData.with_transitions issue ts))
            issues in
      (averageOfValid (map fst results), map snd results)
  end.

Definition calculateAverageLeadTime (now : Z) (issues : list IssueData.t)
  : Q * list IssueData.t :=
  match issues with
  | [] => (0%Q, [])
  | _ =>
      let results := map (calculateLeadTime now) issues in
      (averageOfValid (map fst results), map snd results)
  end.

Definition calculateVelocity (completedIssues : list IssueData.t) : Q :=
  fold_left (fun sum issue => JS.add sum (JS.or_default (IssueData.storyPoints issue) 0))
            completedIssues 0%Q.

Definition hasMergedAt (pr : PullRequestData.t) : bool :=
  match PullRequestData.mergedAt pr with Some _ => true | None => false end.

Definition hasFirstReviewAt (pr : PullRequestData.t) : bool :=
  match PullRequestData.firstReviewAt pr with Some _ => true | None => false end.

Definition isMergedState (pr : PullRequestData.t) : bool :=
  match PullRequestData.state pr with PullRequestData.MERGED => true | _ => false end.

Definition calculatePRLatency (pr : PullRequestData.t) : Q :=
  match PullRequestData.mergedAt pr with
  | None => 0%Q
  | Some mergedTime => JS.hours (mergedTime - PullRequestData.createdAt pr)
  end.

Definition calculateTimeToFirstReview (pr : PullRequestData.t) : Q :=
  match PullRequestData.firstReviewAt pr with
  | None => 0%Q
  | Some firstReviewTime => JS.hours (firstReviewTime - PullRequestData.createdAt pr)
  end.

Definition calculatePRMetrics (prs : list PullRequestData.t) : PRMetrics.t :=
  match prs with
  | [] => PRMetrics.mk 0 0 0 0
  | _ =>
      let mergedPRs := filter (fun pr => isMergedState pr && hasMergedAt pr) prs in
      let averageLatency :=
        match mergedPRs with
        | [] => 0%Q
        | _ => JS.div (fold_left (fun sum pr => JS.add sum (calculatePRLatency pr))
                                 mergedPRs 0%Q)
                      (JS.lenQ mergedPRs)
        end in
      let prsWithReview := filter hasFirstReviewAt prs in
      let averageTimeToFirstReview :=
        match prsWithReview with
        | [] => 0%Q
        | _ => JS.div (fold_left (fun sum pr => JS.add sum (calculateTimeToFirstReview pr))
                                 prsWithReview 0%Q)
                      (JS.lenQ prsWithReview)
        end in
      let averageReviewCycles :=
        JS.div (fold_left (fun sum pr => JS.add sum (JS.lenQ (PullRequestData.reviewers pr)))
                          prs 0%Q)
               (JS.lenQ prs) in
      let averageRevisions :=
        JS.div (fold_left
                  (fun sum pr => JS.add sum (inject_Z (PullRequestData.revisionCount pr)))
                  prs 0%Q)
               (JS.lenQ prs) in
      PRMetrics.mk averageLatency averageTimeToFirstReview averageReviewCycles
                   averageRevisions
  end.

Definition getCompletedIssues (issues : list IssueData.t) : list IssueData.t :=
  filter (fun issue => isCompletedStatus (IssueData.status issue)) issues.

Definition getActiveIssues (issues : list IssueData.t) : list IssueData.t :=
  filter (fun issue => isActiveStatus (IssueData.status issue)) issues.

Definition getCarryOverIssues (now : Z) (issues : list IssueData.t)
           (sprint : SprintData.t) : list IssueData.t :=
  let sprintStartTime := SprintData.startDate sprint in
  filter (fun issue => getIssueCreationTime now issue <? sprintStartTime) issues.

(** [calculateSprintMetrics(issues, sprint)].  The completed issues are the
    objects of [issues]; the two averaging passes reverse their transition
    arrays one after the other, and the lead-time pass sees the arrays the
    cycle-time pass left behind. *)
Definition calculateSprintMetrics (now : Z) (issues : list IssueData.t)
           (sprint : SprintData.t) : SprintMetrics.t :=
  let completedIssues := getCompletedIssues issues in
  let activeIssues := getActiveIssues issues in
  let carryOverIssues := getCarryOverIssues now issues sprint in
  let (cycleTime, completed1) := calculateAverageCycleTime completedIssues in
  let (leadTime, completed2) := calculateAverageLeadTime now completed1 in
  let throughput := JS.lenZ completedIssues in
  let velocity := calculateVelocity completed2 in
  let wipCount := JS.lenZ activeIssues in
  let carryOverCount := JS.lenZ carryOverIssues in
  let completionRate :=
    match issues with
    | [] => 0%Q
    | _ => JS.mul (JS.div (JS.lenQ completedIssues) (JS.lenQ issues)) 100
    end in
  SprintMetrics.mk cycleTime leadTime throughput velocity wipCount carryOverCount
                   completionRate.

(** One bucket of the dwell-time map. *)
Record DwellData := mkDwell {
  totalTime : Q;
  count : Z;
  issues : list string
}.

Definition DwellMap := list (string * DwellData).

Definition has (status : string) (m : DwellMap) : bool :=
  existsb (fun e => String.eqb (fst e) status) m.

(** In-place update of the bucket stored under [status]. *)
Fixpoint modify (status : string) (f : DwellData -> DwellData) (m : DwellMap)
  : DwellMap :=
  match m with
  | [] => []
  | (k, d) :: r =>
      if String.eqb k status then (k, f d) :: r else (k, d) :: modify status f r
  end.

(** The body of the inner loop of [calculateStatusDwellTimes] for the
    adjacent transitions [cur], [next] of the issue [issueKey]. *)
Definition recordDwell (issueKey : string) (m : DwellMap)
           (cur next : StatusTransition.t) : DwellMap :=
  let status := StatusTransition.toStatus cur in
  let dwellTime :=
    JS.hours (StatusTransition.timestamp next - StatusTransition.timestamp cur) in
  let m1 := if has status m then m else m ++ [(status, mkDwell 0 0 [])] in
  modify status
    (fun data =>
       mkDwell (JS.add (totalTime data) dwellTime) (count data + 1)
               (if existsb (String.eqb issueKey) (issues data)
                then issues data
                else issues data ++ [issueKey]))
    m1.

(** The loop [for (i = 0; i < transitions.length - 1; i++)]. *)
Fixpoint dwellOfTransitions (issueKey : string) (m : DwellMap)
         (transitions : list StatusTransition.t) : DwellMap :=
  match transitions with
  | cur :: ((next :: _) as rest) =>
      dwellOfTransitions issueKey (recordDwell issueKey m cur next) rest
  | _ => m
  end.

Definition calculateStatusDwellTimes (issues : list IssueData.t) : DwellMap :=
  fold_left
    (fun m issue =>
       dwellOfTransitions (IssueData.key issue) m (IssueData.statusTransitions issue))
    issues [].

Definition calculateAverageDwellTime (dwellTimes : DwellMap) : Q :=
  let totalTime := fold_left (fun acc e => JS.add acc (totalTime (snd e))) dwellTimes 0%Q in
  let totalCount := fold_left (fun acc e => acc + count (snd e)) dwellTimes 0 in
  if 0 <? totalCount then JS.div totalTime (inject_Z totalCount) else 0%Q.

(** The condition under which the loop of [identifyBottlenecks] pushes an
    entry. *)
Definition flagged (avgDwellTime : Q) (status : string) (data : DwellData) : bool :=
  if isCompletedStatus status then false
  else
    let avgTime := JS.div (totalTime data) (inject_Z (count data)) in
    JS.gtb avgTime 1 && JS.gtb avgTime (JS.mul avgDwellTime (3 # 2))
    && (2 <=? count data).

(** [Math.min(10, Math.floor((avgTime / avgDwellTime) * 3))] for
    [avgTime > 1]: a zero [avgDwellTime] makes the quotient [Infinity] and the
    minimum [10]. *)
Definition bottleneckSeverity (avgTime avgDwellTime : Q) : Z :=
  if Qeq_bool avgDwellTime 0 then 10
  else Z.min 10 (Qfloor (JS.mul (JS.div avgTime avgDwellTime) 3)).

Definition bottleneckOf (avgDwellTime : Q) (status : string) (data : DwellData)
  : BottleneckInfo.t :=
  let avgTime := JS.div (totalTime data) (inject_Z (count data)) in
  let above :=
    if Qeq_bool avgDwellTime 0 then JS.Infinity
    else JS.Finite (JS.mul (JS.sub (JS.div avgTime avgDwellTime) 1) 100) in
  BottleneckInfo.mk status BottleneckInfo.STATUS (issues data)
    (bottleneckSeverity avgTime avgDwellTime)
    [ JS.Lit "Issues spend an average of "; JS.Fixed 1 (JS.Finite avgTime);
      JS.Lit " hours in "; JS.dq; JS.Lit status; JS.dq; JS.Lit " status, which is ";
      JS.Fixed 0 above; JS.Lit "% above average." ].

(** [bottlenecks.sort((a, b) => b.severity - a.severity)]. *)
Definition bySeverityDesc (a b : BottleneckInfo.t) : bool :=
  BottleneckInfo.severity b - BottleneckInfo.severity a <=? 0.

Definition identifyBottlenecks (issues : list IssueData.t) : list BottleneckInfo.t :=
  let statusDwellTimes := calculateStatusDwellTimes issues in
  let avgDwellTime := calculateAverageDwellTime statusDwellTimes in
  let bottlenecks :=
    map (fun e => bottleneckOf avgDwellTime (fst e) (snd e))
        (filter (fun e => flagged avgDwellTime (fst e) (snd e)) statusDwellTimes) in
  JS.sort bySeverityDesc bottlenecks.

End MetricsCalculator.


(* ================================================================== *)
(** ** RiskAssessor (src/services/RiskAssessor.ts) *)

Module RiskAssessor.

Definition LOW_RISK_THRESHOLD : Z := 33.
Definition MEDIUM_RISK_THRESHOLD : Z := 66.
Definition HIGH_WIP_THRESHOLD : Z := 5.
Definition LOW_COMPLETION_RATE_THRESHOLD : Q := 70.
Definition REVIEWER_OVERLOAD_THRESHOLD : Z := 8.
(** The literal [1.3]. *)
Definition PR_DELAY_MULTIPLIER : Q := JS.fl (13 # 10).

Definition levelName (level : RiskLevel) : string :=
  match level with Low => "Low" | Medium => "Medium" | High => "High" end.

Definition detectPRDelays (prMetrics : PRMetrics.t)
           (historicalData : option HistoricalMetrics.t) : option RiskFactor.t :=
  let latency := PRMetrics.averageLatency prMetrics in
  let toReview := PRMetrics.averageTimeToFirstReview prMetrics in
  match historicalData with
  | None =>
      if JS.gtb latency 48 || JS.gtb toReview 24 then
        let severity := Z.min 10 (Qfloor (JS.div latency 10)) in
        Some (RiskFactor.mk RiskFactor.PR_DELAYS severity
                [ JS.Lit "PR latency is "; JS.Fixed 1 (JS.Finite latency);
                  JS.Lit " hours with "; JS.Fixed 1 (JS.Finite toReview);
                  JS.Lit " hours to first review." ])
      else None
  | Some h =>
      let historicalLatency := PRMetrics.averageLatency (HistoricalMetrics.prMetrics h) in
      let threshold := JS.mul historicalLatency PR_DELAY_MULTIPLIER in
      if JS.gtb latency threshold then
        (* a zero baseline makes the percentage [Infinity] and the severity 10 *)
        let zeroBase := Qeq_bool historicalLatency 0 in
        let percentageIncrease :=
          JS.mul (JS.sub (JS.div latency historicalLatency) 1) 100 in
        let severity :=
          if zeroBase then 10 else Z.min 10 (Qfloor (JS.div percentageIncrease 10)) in
        Some (RiskFactor.mk RiskFactor.PR_DELAYS severity
                [ JS.Lit "PR latency is ";
                  JS.Fixed 0 (if zeroBase then JS.Infinity
                              else JS.Finite percentageIncrease);
                  JS.Lit "% above historical baseline (";
                  JS.Fixed 1 (JS.Finite latency); JS.Lit " vs ";
                  JS.Fixed 1 (JS.Finite historicalLatency); JS.Lit " hours)." ])
      else None
  end.

(** The filter of [detectHighWIP]: the lower-cased status contains
    [progress] or [review]. *)
Definition isWipStatus (status : string) : bool :=
  JS.includes (JS.toLowerCase status) "progress"
  || JS.includes (JS.toLowerCase status) "review".

(** The loop that fills [wipByDeveloper]. *)
Definition groupByAssignee (activeIssues : list IssueData.t) : list (string * Z) :=
  fold_left
    (fun m issue =>
       match IssueData.assignee issue with
       | Some a => if JS.truthy_string (Some a) then JS.bump a m else m
       | None => m
       end)
    activeIssues [].

Definition detectHighWIP (sprintMetrics : SprintMetrics.t)
           (issues : option (list IssueData.t)) : option RiskFactor.t :=
  match issues with
  | Some issues =>
      let activeIssues := filter (fun issue => isWipStatus (IssueData.status issue)) issues in
      let wipByDeveloper := groupByAssignee activeIssues in
      let overloadedDevs :=
        filter (fun e => HIGH_WIP_THRESHOLD <=? snd e) wipByDeveloper in
      match overloadedDevs with
      | [] => None
      | e0 :: rest =>
          let maxWIP := JS.maxZ (snd e0) (map snd rest) in
          let severity := Z.min 10 ((maxWIP - HIGH_WIP_THRESHOLD) * 2 + 5) in
          Some (RiskFactor.mk RiskFactor.HIGH_WIP severity
                  [ JS.Int (JS.lenZ overloadedDevs); JS.Lit " developer(s) have ";
                    JS.Int HIGH_WIP_THRESHOLD; JS.Lit "+ active issues (max: ";
                    JS.Int maxWIP; JS.Lit ")." ])
      end
  | None =>
      let wipCount := SprintMetrics.wipCount sprintMetrics in
      if HIGH_WIP_THRESHOLD * 2 <=? wipCount then
        let severity := Z.min 10 (wipCount / 3) in
        Some (RiskFactor.mk RiskFactor.HIGH_WIP severity
                [ JS.Lit "High WIP with "; JS.Int wipCount; JS.Lit " active issues." ])
      else None
  end.

Definition detectCarryOverRisk (sprintMetrics : SprintMetrics.t) : option RiskFactor.t :=
  let rate := SprintMetrics.completionRate sprintMetrics in
  if JS.ltb rate LOW_COMPLETION_RATE_THRESHOLD then
    let deficit := (LOW_COMPLETION_RATE_THRESHOLD - rate)%Q in
    let severity := Z.min 10 (Qfloor (deficit / 5) + 3) in
    Some (RiskFactor.mk RiskFactor.CARRYOVER severity
            [ JS.Lit "Completion rate is "; JS.Fixed 0 (JS.Finite rate);
              JS.Lit "%, indicating ";
              JS.Int (SprintMetrics.carryOverCount sprintMetrics);
              JS.Lit " likely carry-over tasks." ])
  else None.

Definition isOpen (pr : PullRequestData.t) : bool :=
  match PullRequestData.state pr with PullRequestData.OPEN => true | _ => false end.

(** The nested loops counting the open requests of every reviewer. *)
Definition countByReviewer (prs : list PullRequestData.t) : list (string * Z) :=
  fold_left
    (fun m pr =>
       if isOpen pr then
         fold_left (fun m' reviewer => JS.bump (ReviewerData.username reviewer) m')
                   (PullRequestData.reviewers pr) m
       else m)
    prs [].

Definition detectReviewerBottlenecks (prs : option (list PullRequestData.t))
  : option RiskFactor.t :=
  match prs with
  | None => None
  | Some [] => None
  | Some prs =>
      let prsByReviewer := countByReviewer prs in
      let overloadedReviewers :=
        filter (fun e => REVIEWER_OVERLOAD_THRESHOLD <=? snd e) prsByReviewer in
      match overloadedReviewers with
      | [] => None
      | e0 :: rest =>
          let maxPRs := JS.maxZ (snd e0) (map snd rest) in
          let severity := Z.min 10 ((maxPRs - REVIEWER_OVERLOAD_THRESHOLD) / 2 + 6) in
          Some (RiskFactor.mk RiskFactor.BOTTLENECK severity
                  [ JS.Int (JS.lenZ overloadedReviewers); JS.Lit " reviewer(s) have ";
                    JS.Int REVIEWER_OVERLOAD_THRESHOLD; JS.Lit "+ pending PRs (max: ";
                    JS.Int maxPRs; JS.Lit ")." ])
      end
  end.

Definition detectLowCompletionRate (sprintMetrics : SprintMetrics.t)
  : option RiskFactor.t :=
  let rate := SprintMetrics.completionRate sprintMetrics in
  if JS.ltb rate 50 && JS.gtb (SprintMetrics.velocity sprintMetrics) 0 then
    let severity := Z.min 10 (Qfloor ((50 - rate) / 5) + 5) in
    Some (RiskFactor.mk RiskFactor.COMPLEXITY severity
            [ JS.Lit "Very low completion rate ("; JS.Fixed 0 (JS.Finite rate);
              JS.Lit "%) suggests task complexity issues." ])
  else None.

Definition identifyRiskFactors (sprintMetrics : SprintMetrics.t)
           (prMetrics : PRMetrics.t) (historicalData : option HistoricalMetrics.t)
           (issues : option (list IssueData.t))
           (prs : option (list PullRequestData.t)) : list RiskFactor.t :=
  JS.push_opt (detectPRDelays prMetrics historicalData)
  ++ JS.push_opt (detectHighWIP sprintMetrics issues)
  ++ JS.push_opt (detectCarryOverRisk sprintMetrics)
  ++ JS.push_opt (detectReviewerBottlenecks prs)
  ++ JS.push_opt (detectLowCompletionRate sprintMetrics).

Definition calculateRiskScore (factors : list RiskFactor.t) : Z :=
  match factors with
  | [] => 0
  | _ =>
      let totalSeverity :=
        fold_left (fun sum factor => sum + RiskFactor.severity factor) factors 0 in
      let averageSeverity := JS.div (inject_Z totalSeverity) (JS.lenQ factors) in
      let score := JS.mul (JS.div averageSeverity 10) 100 in
      Z.min 100 (JS.round score)
  end.

Definition classifyRiskLevel (score : Z) : RiskLevel :=
  if score <=? LOW_RISK_THRESHOLD then Low
  else if score <=? MEDIUM_RISK_THRESHOLD then Medium
  else High.

(** [factors.sort((a, b) => b.severity - a.severity)]. *)
Definition bySeverityDesc (a b : RiskFactor.t) : bool :=
  RiskFactor.severity b - RiskFactor.severity a <=? 0.

(** [descriptions.join(' ')]. *)
Fixpoint joinWithSpace (l : list JS.text) : JS.text :=
  match l with
  | [] => []
  | [d] => d
  | d :: r => d ++ JS.Lit " " :: joinWithSpace r
  end.

(** [generateJustification(level, factors, sprintMetrics)].  The sort is in
    place, so the caller's [factors] array is the sorted one afterwards;
    the second component is that array. *)
Definition generateJustification (level : RiskLevel) (factors : list RiskFactor.t)
           (sprintMetrics : SprintMetrics.t) : JS.text * list RiskFactor.t :=
  match factors with
  | [] =>
      ([ JS.Lit "Sprint is at "; JS.Lit (levelName level);
         JS.Lit " risk. All metrics are within normal ranges with a ";
         JS.Fixed 0 (JS.Finite (SprintMetrics.completionRate sprintMetrics));
         JS.Lit "% completion rate." ], [])
  | _ =>
      let sorted := JS.sort bySeverityDesc factors in
      let factorDescriptions := map RiskFactor.description (JS.slice0 3 sorted) in
      let factorText := joinWithSpace factorDescriptions in
      ([ JS.Lit "Sprint is at "; JS.Lit (levelName level); JS.Lit " risk. " ]
         ++ factorText, sorted)
  end.

Definition assessSprintRisk (sprintMetrics : SprintMetrics.t) (prMetrics : PRMetrics.t)
           (historicalData : option HistoricalMetrics.t)
           (issues : option (list IssueData.t))
           (prs : option (list PullRequestData.t)) : RiskAssessment.t :=
  let factors := identifyRiskFactors sprintMetrics prMetrics historicalData issues prs in
  let score := calculateRiskScore factors in
  let level := classifyRiskLevel score in
  let (justification, factors') := generateJustification level factors sprintMetrics in
  RiskAssessment.mk level score factors' justification.

End RiskAssessor.


(* ================================================================== *)
(** ** PredictionEngine (src/services/PredictionEngine.ts) *)

Module PredictionEngine.

Definition NOT_STARTED_STATUSES : list string := [ "to do"; "backlog"; "open"; "new" ].

Definition IN_PROGRESS_STATUSES : list string :=
  [ "in progress"; "in development"; "in review"; "code review";
    "testing"; "qa"; "ready for review" ].

Definition COMPLETED_STATUSES : list string :=
  [ "done"; "closed"; "resolved"; "completed" ].

Definition DEFAULT_HOURS_PER_STORY_POINT : Q := 8.

Definition matchesAny (keywords : list string) (status : string) : bool :=
  let normalized := JS.toLowerCase status in
  existsb (fun s => JS.includes normalized s) keywords.

Definition isNotStartedStatus := matchesAny NOT_STARTED_STATUSES.
Definition isInProgressStatus := matchesAny IN_PROGRESS_STATUSES.
Definition isCompletedStatus := matchesAny COMPLETED_STATUSES.

Definition calculateDaysRemaining (sprint : SprintData.t) (currentDate : Z) : Q :=
  let diffTime := SprintData.endDate sprint - currentDate in
  (inject_Z diffTime / inject_Z (1000 * 60 * 60 * 24))%Q.

Definition calculateHoursPerStoryPoint (sprintMetrics : option SprintMetrics.t) : Q :=
  match sprintMetrics with
  | None => DEFAULT_HOURS_PER_STORY_POINT
  | Some m =>
      if Qeq_bool (SprintMetrics.velocity m) 0 then DEFAULT_HOURS_PER_STORY_POINT
      else if (0 <? SprintMetrics.throughput m) && JS.gtb (SprintMetrics.velocity m) 0
      then (SprintMetrics.cycleTime m
            / (SprintMetrics.velocity m / inject_Z (SprintMetrics.throughput m)))%Q
      else DEFAULT_HOURS_PER_STORY_POINT
  end.

(** [calculateTimeInCurrentStatus(issue)]; [now] is [Date.now()].  A
    non-empty transition array is reversed in place; the second component is
    the issue after the call. *)
Definition calculateTimeInCurrentStatus (now : Z) (issue : IssueData.t)
  : Q * IssueData.t :=
  match IssueData.statusTransitions issue with
  | [] => (0%Q, issue)
  | _ =>
      let currentStatus := IssueData.status issue in
      let reversed := rev (IssueData.statusTransitions issue) in
      let issue' := IssueData.with_transitions issue reversed in
      match find (fun t => String.eqb (StatusTransition.toStatus t) currentStatus)
                 reversed with
      | None => (0%Q, issue')
      | Some lastTransition =>
          (JS.hours (now - StatusTransition.timestamp lastTransition), issue')
      end
  end.

(** The loop of [calculateAverageStatusDwellTime]. *)
Fixpoint totalDwell (acc : Q) (transitions : list StatusTransition.t) : Q :=
  match transitions with
  | cur :: ((next :: _) as rest) =>
      totalDwell
        (JS.add acc
                (JS.hours (StatusTransition.timestamp next - StatusTransition.timestamp cur)))
        rest
  | _ => acc
  end.

Definition calculateAverageStatusDwellTime (issue : IssueData.t) : Q :=
  let transitions := IssueData.statusTransitions issue in
  if (List.length transitions <? 2)%nat then 0%Q
  else JS.div (totalDwell 0 transitions) (JS.lenQ transitions - 1).

(** The running state of [calculateCompletionProbability]. *)
Record Scoring := mkScoring {
  probability : Q;
  reasons : list JS.text
}.

(** [probability += delta; reasons.push(reason)]. *)
Definition adjust (s : Scoring) (delta : Q) (reason : JS.text) : Scoring :=
  mkScoring (probability s + delta)%Q (reasons s ++ [reason]).

Definition timeFactor (s : Scoring) (estimatedHoursNeeded hoursRemaining : Q) : Scoring :=
  let shown :=
    [ JS.Fixed 0 (JS.Finite estimatedHoursNeeded); JS.Lit "h needed vs ";
      JS.Fixed 0 (JS.Finite hoursRemaining); JS.Lit "h remaining" ] in
  if JS.leb estimatedHoursNeeded (hoursRemaining * (1 # 2)) then
    adjust s (3 # 10) (JS.Lit "Estimated " :: shown)
  else if JS.leb estimatedHoursNeeded hoursRemaining then
    adjust s (1 # 10) (JS.Lit "Tight timeline: " :: shown)
  else
    adjust s (- (3 # 10)) (JS.Lit "Insufficient time: " :: shown).

(** Factor 2; the in-progress branch calls [calculateTimeInCurrentStatus]
    and so may leave the issue with its transitions reversed. *)
Definition statusFactor (now : Z) (s : Scoring) (issue : IssueData.t)
           (hoursPerStoryPoint storyPoints : Q)
           (sprintMetrics : option SprintMetrics.t) : Scoring * IssueData.t :=
  if isNotStartedStatus (IssueData.status issue) then
    (adjust s (- (2 # 10))
       [ JS.Lit "Issue not yet started (status: "; JS.Lit (IssueData.status issue);
         JS.Lit ")" ], issue)
  else if isInProgressStatus (IssueData.status issue) then
    let (timeInProgress, issue') := calculateTimeInCurrentStatus now issue in
    let avgCycleTime :=
      JS.or_default (option_map SprintMetrics.cycleTime sprintMetrics)
                    (hoursPerStoryPoint * storyPoints) in
    if JS.gtb timeInProgress (avgCycleTime * (7 # 10)) then
      (adjust s (2 # 10)
         [ JS.Lit "Issue in progress for "; JS.Fixed 0 (JS.Finite timeInProgress);
           JS.Lit "h (";
           JS.Fixed 0 (if Qeq_bool avgCycleTime 0 then JS.Infinity
                       else JS.Finite (timeInProgress / avgCycleTime * 100));
           JS.Lit "% of avg cycle time)" ], issue')
    else
      (adjust s (1 # 10)
         [ JS.Lit "Issue recently started (";
           JS.Fixed 0 (JS.Finite timeInProgress); JS.Lit "h in progress)" ], issue')
  else (s, issue).

Definition dwellFactor (s : Scoring) (issue : IssueData.t) (hoursPerStoryPoint : Q)
  : Scoring :=
  let statusDwellTime := calculateAverageStatusDwellTime issue in
  if JS.gtb statusDwellTime (hoursPerStoryPoint * 2) then
    adjust s (- (15 # 100))
      [ JS.Lit "High status dwell time ("; JS.Fixed 0 (JS.Finite statusDwellTime);
        JS.Lit "h average per status)" ]
  else s.

Definition complexityFactor (s : Scoring) (storyPoints : Q) : Scoring :=
  if JS.leb 8 storyPoints then
    adjust s (- (1 # 10))
      [ JS.Lit "High complexity ("; JS.Num storyPoints; JS.Lit " story points)" ]
  else if JS.leb 5 storyPoints then
    adjust s (- (5 # 100))
      [ JS.Lit "Medium-high complexity ("; JS.Num storyPoints;
        JS.Lit " story points)" ]
  else s.

Definition assigneeFactor (s : Scoring) (issue : IssueData.t) : Scoring :=
  if JS.truthy_string (IssueData.assignee issue) then s
  else adjust s (- (15 # 100)) [ JS.Lit "Issue is unassigned" ].

Definition linkedPRFactor (s : Scoring) (issue : IssueData.t) : Scoring :=
  match IssueData.linkedPRs issue with
  | [] => s
  | prs =>
      adjust s (1 # 10) [ JS.Lit "Has "; JS.Int (JS.lenZ prs); JS.Lit " linked PR(s)" ]
  end.

(** [Math.max(0, Math.min(1, probability))]. *)
Definition clamp01 (p : Q) : Q := Qmax 0 (Qmin 1 p).

Definition calculateCompletionProbability (now : Z) (issue : IssueData.t)
           (daysRemaining hoursPerStoryPoint : Q)
           (sprintMetrics : option SprintMetrics.t) : Scoring * IssueData.t :=
  let s0 := mkScoring (1 # 2) [] in
  let storyPoints := JS.or_default (IssueData.storyPoints issue) 3 in
  let estimatedHoursNeeded := (storyPoints * hoursPerStoryPoint)%Q in
  let hoursRemaining := (daysRemaining * 8)%Q in
  let s1 := timeFactor s0 estimatedHoursNeeded hoursRemaining in
  let (s2, issue') :=
    statusFactor now s1 issue hoursPerStoryPoint storyPoints sprintMetrics in
  let s3 := dwellFactor s2 issue' hoursPerStoryPoint in
  let s4 := complexityFactor s3 storyPoints in
  let s5 := assigneeFactor s4 issue' in
  let s6 := linkedPRFactor s5 issue' in
  (mkScoring (clamp01 (probability s6)) (reasons s6), issue').

(** [predictions.sort((a, b) => b.probability - a.probability)]. *)
Definition byProbabilityDesc (a b : SpilloverPrediction.t) : bool :=
  Qle_bool (SpilloverPrediction.probability b - SpilloverPrediction.probability a) 0.

Definition SPRINT_ENDED_REASON : JS.text :=
  [ JS.Lit "Sprint has ended and issue is not completed" ].

(** The body of the scoring loop for one issue: its prediction, if it is
    kept. *)
Definition predictOne (now : Z) (daysRemaining hoursPerStoryPoint : Q)
           (sprintMetrics : option SprintMetrics.t) (issue : IssueData.t)
  : option SpilloverPrediction.t :=
  let prediction :=
    fst (calculateCompletionProbability now issue daysRemaining hoursPerStoryPoint
                                        sprintMetrics) in
  if JS.ltb (probability prediction) (7 # 10) then
    Some (SpilloverPrediction.mk (IssueData.key issue)
                                 (1 - probability prediction)%Q
                                 (reasons prediction))
  else None.

(** [predictSpillover(issues, sprint, currentDate, sprintMetrics)]; [now] is
    what [Date.now()] returns during the call. *)
Definition predictSpillover (now : Z) (issues : list IssueData.t)
           (sprint : SprintData.t) (currentDate : Z)
           (sprintMetrics : option SprintMetrics.t) : list SpilloverPrediction.t :=
  let activeIssues :=
    filter (fun issue => negb (isCompletedStatus (IssueData.status issue))) issues in
  let daysRemaining := calculateDaysRemaining sprint currentDate in
  if JS.leb daysRemaining 0 then
    map (fun issue =>
           SpilloverPrediction.mk (IssueData.key issue) 1 [ SPRINT_ENDED_REASON ])
        activeIssues
  else
    let hoursPerStoryPoint := calculateHoursPerStoryPoint sprintMetrics in
    let predictions :=
      flat_map
        (fun issue =>
           JS.push_opt
             (predictOne now daysRemaining hoursPerStoryPoint sprintMetrics issue))
        activeIssues in
    JS.sort byProbabilityDesc predictions.

(** The [issues] array after [predictSpillover]: while the sprint runs, the
    scoring loop leaves every issue it scored as
    [calculateCompletionProbability] left it. *)
Definition issuesAfterPredictSpillover (now : Z) (issues : list IssueData.t)
           (sprint : SprintData.t) (currentDate : Z)
           (sprintMetrics : option SprintMetrics.t) : list IssueData.t :=
  let daysRemaining := calculateDaysRemaining sprint currentDate in
  if JS.leb daysRemaining 0 then issues
  else
    let hoursPerStoryPoint := calculateHoursPerStoryPoint sprintMetrics in
    map (fun issue =>
           if isCompletedStatus (IssueData.status issue) then issue
           else snd (calculateCompletionProbability now issue daysRemaining
                                                    hoursPerStoryPoint sprintMetrics))
        issues.

End PredictionEngine.


(* ================================================================== *)
(** ** RecommendationGenerator (src/services/RecommendationGenerator.ts) *)

Module RecommendationGenerator.

Definition HIGH_WIP_THRESHOLD : Z := 5.
Definition REVIEWER_OVERLOAD_THRESHOLD : Z := 8.
Definition LOW_COMPLETION_RATE_THRESHOLD : Q := 70.
Definition HIGH_RISK_SCORE_THRESHOLD : Z := 66.
Definition MEDIUM_RISK_SCORE_THRESHOLD : Z := 33.

Definition isCompletedStatus (status : string) : bool :=
  let completedStatuses := [ "done"; "closed"; "resolved"; "completed" ] in
  let normalized := JS.toLowerCase status in
  existsb (fun completedStatus => JS.includes normalized completedStatus)
          completedStatuses.

(** [isTaskStalled(issue)]; [now] is [Date.now()]. *)
Definition isTaskStalled (now : Z) (issue : IssueData.t) : bool :=
  match IssueData.statusTransitions issue with
  | [] => false
  | t0 :: _ =>
      let lastTransition := last (IssueData.statusTransitions issue) t0 in
      let hoursSinceLastTransition :=
        JS.hours (now - StatusTransition.timestamp lastTransition) in
      JS.gtb hoursSinceLastTransition 72
  end.

Definition identifyRiskyTasks (now : Z) (issues : list IssueData.t)
  : list IssueData.t :=
  let incompleteIssues :=
    filter (fun issue => negb (isCompletedStatus (IssueData.status issue))) issues in
  filter
    (fun issue =>
       let isBlocked := JS.includes (JS.toLowerCase (IssueData.status issue)) "blocked" in
       let isHighComplexity := JS.leb 8 (JS.or_default (IssueData.storyPoints issue) 0) in
       let isStalled := isTaskStalled now issue in
       isBlocked || isHighComplexity || isStalled)
    incompleteIssues.

Definition generateScopeRecommendations (now : Z) (riskAssessment : RiskAssessment.t)
           (sprintMetrics : SprintMetrics.t) (issues : list IssueData.t)
  : list Recommendation.t :=
  if HIGH_RISK_SCORE_THRESHOLD <=? RiskAssessment.score riskAssessment then
    let incompleteIssues :=
      filter (fun issue => negb (isCompletedStatus (IssueData.status issue))) issues in
    let currentPoints :=
      fold_left (fun sum issue => (sum + JS.or_default (IssueData.storyPoints issue) 0)%Q)
                incompleteIssues 0%Q in
    let suggestedReduction := JS.ceil (currentPoints * (2 # 10)) in
    let first :=
      Recommendation.mk 1 Recommendation.SCOPE
        [ JS.Lit "Reduce sprint scope to manage high risk" ]
        [ JS.Lit "Consider reducing scope by "; JS.Int suggestedReduction;
          JS.Lit " story points (20% of remaining work). Focus on completing high-priority tasks and postpone lower-priority items to reduce risk and improve completion rate." ]
        ImpactHigh in
    let riskyTasks := identifyRiskyTasks now issues in
    match riskyTasks with
    | [] => [ first ]
    | _ =>
        let taskList :=
          String.concat ", " (map IssueData.key (JS.slice0 3 riskyTasks)) in
        [ first;
          Recommendation.mk 2 Recommendation.SCOPE
            [ JS.Lit "Postpone blocked or risky tasks" ]
            [ JS.Lit "Consider postponing tasks that are blocked or have high complexity: ";
              JS.Lit taskList;
              JS.Lit ". These tasks are at high risk of spillover and may impact team velocity." ]
            ImpactHigh ]
    end
  else if JS.ltb (SprintMetrics.completionRate sprintMetrics) LOW_COMPLETION_RATE_THRESHOLD
          && (MEDIUM_RISK_SCORE_THRESHOLD <=? RiskAssessment.score riskAssessment) then
    [ Recommendation.mk 3 Recommendation.SCOPE
        [ JS.Lit "Adjust scope to improve completion rate" ]
        [ JS.Lit "Current completion rate is ";
          JS.Fixed 0 (JS.Finite (SprintMetrics.completionRate sprintMetrics));
          JS.Lit "%. Consider moving 1-2 lower-priority tasks to the backlog to ensure the team can complete committed work." ]
        ImpactMedium ]
  else [].

(** [calculateReviewerWorkload(prs)]. *)
Definition calculateReviewerWorkload (prs : list PullRequestData.t)
  : list (string * Z) :=
  fold_left
    (fun workload pr =>
       match PullRequestData.state pr with
       | PullRequestData.OPEN =>
           fold_left
             (fun w reviewer => JS.bump (ReviewerData.username reviewer) w)
             (PullRequestData.reviewers pr) workload
       | _ => workload
       end)
    prs [].

(** [.sort((a, b) => b[1] - a[1])] on map entries. *)
Definition byCountDesc (a b : string * Z) : bool := snd b - snd a <=? 0.

Definition generateReviewerRecommendations (prs : list PullRequestData.t)
           (prMetrics : PRMetrics.t) : list Recommendation.t :=
  let reviewerWorkload := calculateReviewerWorkload prs in
  let overloadedReviewers :=
    JS.sort byCountDesc
      (filter (fun e => REVIEWER_OVERLOAD_THRESHOLD <=? snd e) reviewerWorkload) in
  let overload :=
    match overloadedReviewers with
    | [] => []
    | (topReviewer, prCount) :: _ =>
        let underutilizedReviewers :=
          map fst (filter (fun e => snd e <? 3) reviewerWorkload) in
        match underutilizedReviewers with
        | _ :: _ =>
            [ Recommendation.mk 1 Recommendation.REVIEWER
                [ JS.Lit "Redistribute PR reviews to balance workload" ]
                [ JS.Lit topReviewer; JS.Lit " has "; JS.Int prCount;
                  JS.Lit " pending PRs. Redistribute reviews to ";
                  JS.Lit (String.concat ", " (JS.slice0 2 underutilizedReviewers));
                  JS.Lit " to reduce bottlenecks and improve review turnaround time." ]
                ImpactHigh ]
        | [] =>
            [ Recommendation.mk 2 Recommendation.REVIEWER
                [ JS.Lit "Address reviewer overload" ]
                [ JS.Int (JS.lenZ overloadedReviewers); JS.Lit " reviewer(s) have ";
                  JS.Int REVIEWER_OVERLOAD_THRESHOLD;
                  JS.Lit "+ pending PRs. Consider adding more reviewers or prioritizing critical PRs to reduce review delays." ]
                ImpactHigh ]
        end
    end in
  let response :=
    if JS.gtb (PRMetrics.averageTimeToFirstReview prMetrics) 24 then
      [ Recommendation.mk 3 Recommendation.REVIEWER
          [ JS.Lit "Improve review response time" ]
          [ JS.Lit "Average time to first review is ";
            JS.Fixed 1 (JS.Finite (PRMetrics.averageTimeToFirstReview prMetrics));
            JS.Lit " hours. Set a team goal of responding to PRs within 8-12 hours to maintain development momentum." ]
          ImpactMedium ]
    else [] in
  overload ++ response.

(** [calculateWIPByDeveloper(issues)]. *)
Definition calculateWIPByDeveloper (issues : list IssueData.t) : list (string * Z) :=
  let activeIssues :=
    filter (fun issue =>
              JS.includes (JS.toLowerCase (IssueData.status issue)) "progress"
              || JS.includes (JS.toLowerCase (IssueData.status issue)) "review")
           issues in
  fold_left
    (fun wipMap issue =>
       if JS.truthy_string (IssueData.assignee issue) then
         match IssueData.assignee issue with
         | Some a => JS.bump a wipMap
         | None => wipMap
         end
       else wipMap)
    activeIssues [].

Definition generateWIPRecommendations (_sprintMetrics : SprintMetrics.t)
           (issues : list IssueData.t) (bottlenecks : option (list BottleneckInfo.t))
  : list Recommendation.t :=
  let wipByDeveloper := calculateWIPByDeveloper issues in
  let overloadedDevs := filter (fun e => HIGH_WIP_THRESHOLD <=? snd e) wipByDeveloper in
  let wip :=
    match overloadedDevs with
    | [] => []
    | (topDev, wipCount) :: _ =>
        let limit :=
          Recommendation.mk 2 Recommendation.WIP
            [ JS.Lit "Implement WIP limits to improve flow" ]
            [ JS.Int (JS.lenZ overloadedDevs); JS.Lit " developer(s) have ";
              JS.Int HIGH_WIP_THRESHOLD; JS.Lit "+ active issues (";
              JS.Lit topDev; JS.Lit ": "; JS.Int wipCount;
              JS.Lit "). Implement a WIP limit of 3-4 issues per developer to improve focus and completion rate." ]
            ImpactHigh in
        let underutilizedDevs := filter (fun e => snd e <? 2) wipByDeveloper in
        match underutilizedDevs with
        | [] => [ limit ]
        | _ =>
            [ limit;
              Recommendation.mk 3 Recommendation.WIP
                [ JS.Lit "Rebalance task assignments" ]
                [ JS.Lit "Redistribute tasks from overloaded developers to team members with lower WIP. This will help prevent bottlenecks and improve overall team throughput." ]
                ImpactMedium ]
        end
    end in
  let bottleneck :=
    match bottlenecks with
    | Some (topBottleneck :: _) =>
        match BottleneckInfo.type topBottleneck with
        | BottleneckInfo.STATUS =>
            [ Recommendation.mk 2 Recommendation.PROCESS
                [ JS.Lit "Address bottleneck in "; JS.dq;
                  JS.Lit (BottleneckInfo.location topBottleneck); JS.dq;
                  JS.Lit " status" ]
                ([ JS.Int (JS.lenZ (BottleneckInfo.affectedIssues topBottleneck));
                   JS.Lit " issues are delayed in "; JS.dq;
                   JS.Lit (BottleneckInfo.location topBottleneck); JS.dq;
                   JS.Lit ". " ]
                   ++ BottleneckInfo.description topBottleneck
                   ++ [ JS.Lit " Investigate and remove blockers to improve flow." ])
                ImpactHigh ]
        | _ => []
        end
    | _ => []
    end in
  wip ++ bottleneck.

Definition categoryName (c : RiskFactor.category_t) : string :=
  match c with
  | RiskFactor.PR_DELAYS => "PR_DELAYS"
  | RiskFactor.HIGH_WIP => "HIGH_WIP"
  | RiskFactor.COMPLEXITY => "COMPLEXITY"
  | RiskFactor.CARRYOVER => "CARRYOVER"
  | RiskFactor.BOTTLENECK => "BOTTLENECK"
  end.

(** [s.replace('_', ' ')]: the first underscore only. *)
Fixpoint replaceUnderscore (s : string) : string :=
  match s with
  | EmptyString => EmptyString
  | String c r =>
      if Ascii.eqb c "_"%char then String " "%char r
      else String c (replaceUnderscore r)
  end.

Definition generateProcessRecommendations (riskAssessment : RiskAssessment.t)
           (sprintMetrics : SprintMetrics.t) (prMetrics : PRMetrics.t)
  : list Recommendation.t :=
  let revisions :=
    if JS.gtb (PRMetrics.averageRevisions prMetrics) 3 then
      [ Recommendation.mk 4 Recommendation.PROCESS
          [ JS.Lit "Reduce PR revision cycles" ]
          [ JS.Lit "Average of ";
            JS.Fixed 1 (JS.Finite (PRMetrics.averageRevisions prMetrics));
            JS.Lit " revisions per PR. Consider implementing PR checklists, clearer acceptance criteria, or pair programming to reduce rework." ]
          ImpactMedium ]
    else [] in
  let retrospective :=
    match RiskAssessment.factors riskAssessment with
    | [] => []
    | factors =>
        let topFactors :=
          String.concat " and "
            (map (fun f =>
                    replaceUnderscore (JS.toLowerCase (categoryName (RiskFactor.category f))))
                 (JS.slice0 2 factors)) in
        [ Recommendation.mk 5 Recommendation.PLANNING
            [ JS.Lit "Focus retrospective on key risk areas" ]
            [ JS.Lit "In the next retrospective, prioritize discussion on ";
              JS.Lit topFactors;
              JS.Lit ". Use data from this analysis to identify root causes and actionable improvements." ]
            ImpactMedium ]
    end in
  let estimation :=
    if JS.ltb (SprintMetrics.completionRate sprintMetrics) 60 then
      [ Recommendation.mk 4 Recommendation.PLANNING
          [ JS.Lit "Improve sprint planning and estimation" ]
          [ JS.Lit "Completion rate of ";
            JS.Fixed 0 (JS.Finite (SprintMetrics.completionRate sprintMetrics));
            JS.Lit "% suggests estimation or planning issues. Review task breakdown and consider using historical data for more accurate estimates." ]
          ImpactMedium ]
    else [] in
  revisions ++ retrospective ++ estimation.

Definition impactOrder (i : Impact) : Z :=
  match i with ImpactHigh => 0 | ImpactMedium => 1 | ImpactLow => 2 end.

(** The comparator of [prioritizeRecommendations]. *)
Definition compareRecommendations (a b : Recommendation.t) : Z :=
  if negb (Recommendation.priority a =? Recommendation.priority b) then
    Recommendation.priority a - Recommendation.priority b
  else impactOrder (Recommendation.impact a) - impactOrder (Recommendation.impact b).

Definition byPriorityThenImpact (a b : Recommendation.t) : bool :=
  compareRecommendations a b <=? 0.

(** [{ ...rec, priority: index + 1 }]. *)
Definition withPriority (rec : Recommendation.t) (p : Z) : Recommendation.t :=
  Recommendation.mk p (Recommendation.category rec) (Recommendation.title rec)
                    (Recommendation.description rec) (Recommendation.impact rec).

(** [.map((rec, index) => ({ ...rec, priority: index + 1 }))], the list
    starting at position [index]. *)
Fixpoint renumberFrom (index : Z) (l : list Recommendation.t) : list Recommendation.t :=
  match l with
  | [] => []
  | rec :: r => withPriority rec (index + 1) :: renumberFrom (index + 1) r
  end.

Definition prioritizeRecommendations (recommendations : list Recommendation.t)
  : list Recommendation.t :=
  let sorted := JS.sort byPriorityThenImpact recommendations in
  renumberFrom 0 (JS.slice0 7 sorted).

Definition generateRecommendations (now : Z) (riskAssessment : RiskAssessment.t)
           (sprintMetrics : SprintMetrics.t) (prMetrics : PRMetrics.t)
           (issues : list IssueData.t) (prs : list PullRequestData.t)
           (bottlenecks : option (list BottleneckInfo.t)) : list Recommendation.t :=
  let scopeRecs := generateScopeRecommendations now riskAssessment sprintMetrics issues in
  let reviewerRecs := generateReviewerRecommendations prs prMetrics in
  let wipRecs := generateWIPRecommendations sprintMetrics issues bottlenecks in
  let processRecs :=
    generateProcessRecommendations riskAssessment sprintMetrics prMetrics in
  prioritizeRecommendations (scopeRecs ++ reviewerRecs ++ wipRecs ++ processRecs).

End RecommendationGenerator.


(* ================================================================== *)
(** ** Report types and AnalysisOrchestrator
       (src/services/AnalysisOrchestrator.ts) *)

Module ReviewerAssignment.
Record t := mk {
  reviewer : string;
  recommendedPRCount : Z;
  rationale : JS.text
}.
End ReviewerAssignment.

Module NextSprintSuggestions.
Record t := mk {
  targetStoryPoints : Z;
  tasksToInclude : list string;
  tasksToPostpone : list string;
  reviewerAssignments : list ReviewerAssignment.t
}.
End NextSprintSuggestions.

Module SprintReport.
Record risk_t := mkRisk {
  level : RiskLevel;
  justification : JS.text
}.
Record metrics_t := mkMetrics {
  sprint : SprintMetrics.t;
  pullRequests : PRMetrics.t
}.
Record t := mk {
  summary : JS.text;
  keyFindings : list JS.text;
  riskAssessment : risk_t;
  recommendations : list Recommendation.t;
  nextSprintSuggestions : option NextSprintSuggestions.t;
  metrics : metrics_t;
  generatedAt : Z
}.
End SprintReport.

Module AnalysisOrchestrator.

(** A thrown value: an [Error] with its message, or anything else. *)
Inductive thrown : Type :=
| Error (message : string)
| NotAnError.

(** The outcome of awaiting a promise. *)
Inductive outcome (A : Type) : Type :=
| Resolved (a : A)
| Rejected (e : thrown).
Arguments Resolved {A} a.
Arguments Rejected {A} e.

Definition bind {A B} (m : outcome A) (k : A -> outcome B) : outcome B :=
  match m with
  | Resolved a => k a
  | Rejected e => Rejected e
  end.

Notation "x <- m ;; k" := (bind m (fun x => k))
  (at level 61, m at next level, right associativity).

(** [try { m } catch { return d }]. *)
Definition catchWith {A} (m : outcome A) (d : A) : outcome A :=
  match m with
  | Resolved a => Resolved a
  | Rejected _ => Resolved d
  end.

(** [Promise.all([p, q])]: both promises are already started; a rejection
    of either rejects the join, with the rejection that happens first
    ([qFirst] tells whether [q] settles before [p]). *)
Definition all2 {A B} (qFirst : bool) (p : outcome A) (q : outcome B)
  : outcome (A * B) :=
  match p, q with
  | Resolved a, Resolved b => Resolved (a, b)
  | Rejected e, Resolved _ => Rejected e
  | Resolved _, Rejected e => Rejected e
  | Rejected e1, Rejected e2 => Rejected (if qFirst then e2 else e1)
  end.

(** What the collaborators answer during one analysis pass. *)
Record Collaborators := mkCollaborators {
  getReport : outcome (option SprintReport.t);
  getCachedSprintData : outcome (option (SprintData.t * list IssueData.t));
  getCachedPRData : outcome (option (list PullRequestData.t));
  getSprintData : outcome SprintData.t;
  getSprintIssues : outcome (list IssueData.t);
  issuesSettleFirst : bool;
  getHistoricalSprints : outcome (list SprintData.t);
  getHistoricalMetric : string -> outcome (option HistoricalMetrics.t);
  getPullRequestsForSprint : list string -> outcome (list PullRequestData.t);
  cacheSprintData : outcome unit;
  cachePRData : outcome unit;
  cachePRSettlesFirst : bool;
  storeReport : outcome unit;
  storeHistoricalMetrics : outcome unit;
  clock : Z
}.

Record Collected := mkCollected {
  sprint : SprintData.t;
  issues : list IssueData.t;
  prs : list PullRequestData.t;
  historicalMetrics : option HistoricalMetrics.t
}.

Definition errorMessage (error : thrown) (fallback : string) : string :=
  match error with
  | Error message => message
  | NotAnError => fallback
  end.

Definition handleAnalysisError (now : Z) (error : thrown) (sprintId : string)
  : SprintReport.t :=
  let errorMessage := errorMessage error "Unknown error occurred" in
  SprintReport.mk
    [ JS.Lit "Analysis failed for sprint "; JS.Lit sprintId; JS.Lit ". ";
      JS.Lit errorMessage ]
    [ [ JS.Lit "Unable to complete analysis due to an error." ];
      [ JS.Lit "Please check system logs for details." ];
      [ JS.Lit "Try refreshing the analysis or contact support if the issue persists." ] ]
    (SprintReport.mkRisk High
       [ JS.Lit "Analysis could not be completed due to system error." ])
    [ Recommendation.mk 1 Recommendation.PROCESS
        [ JS.Lit "Retry analysis" ]
        [ JS.Lit "Click the refresh button to retry the analysis. If the issue persists, contact your system administrator." ]
        ImpactHigh ]
    None
    (SprintReport.mkMetrics (SprintMetrics.mk 0 0 0 0 0 0 0) (PRMetrics.mk 0 0 0 0))
    now.

Section Orchestration.

(** The two services whose results only pass through the orchestrator. *)
Variable generateNextSprintSuggestions :
  SprintMetrics.t -> HistoricalMetrics.t -> RiskAssessment.t ->
  list IssueData.t -> list PullRequestData.t -> NextSprintSuggestions.t.

Variable generateReport :
  Z -> SprintData.t -> SprintMetrics.t -> PRMetrics.t -> RiskAssessment.t ->
  list Recommendation.t -> list IssueData.t -> list PullRequestData.t ->
  option (list BottleneckInfo.t) -> option NextSprintSuggestions.t -> SprintReport.t.

Variable c : Collaborators.

Definition getCachedReport : outcome (option SprintReport.t) :=
  catchWith (getReport c) None.

Definition fetchJiraData : outcome (SprintData.t * list IssueData.t) :=
  match all2 (issuesSettleFirst c) (getSprintData c) (getSprintIssues c) with
  | Resolved r => Resolved r
  | Rejected error =>
      Rejected (Error ("Failed to fetch sprint data from Jira: "
                       ++ errorMessage error "Unknown error")%string)
  end.

Definition fetchBitbucketData (issues : list IssueData.t)
  : outcome (list PullRequestData.t) :=
  let issueKeys := map IssueData.key issues in
  catchWith (getPullRequestsForSprint c issueKeys) [].

Definition getHistoricalMetrics (currentSprintId : string)
  : outcome (option HistoricalMetrics.t) :=
  catchWith
    (historicalSprints <- getHistoricalSprints c ;;
     let pastSprints :=
       filter (fun s => negb (String.eqb (SprintData.id s) currentSprintId))
              historicalSprints in
     match pastSprints with
     | [] => Resolved None
     | mostRecentSprint :: _ => getHistoricalMetric c (SprintData.id mostRecentSprint)
     end)
    None.

(** [boardId ? this.getHistoricalMetrics(boardId, sprintId) : null]. *)
Definition historyFor (sprintId : string) (boardId : option string)
  : outcome (option HistoricalMetrics.t) :=
  if JS.truthy_string boardId then getHistoricalMetrics sprintId else Resolved None.

Definition fetchAndCache (sprintId : string) (boardId : option string)
  : outcome Collected :=
  fetched <- all2 false fetchJiraData (historyFor sprintId boardId) ;;
  let '((sprint, issues), historicalMetrics) := fetched in
  prs <- fetchBitbucketData issues ;;
  _ <- all2 (cachePRSettlesFirst c) (cacheSprintData c) (cachePRData c) ;;
  Resolved (mkCollected sprint issues prs historicalMetrics).

Definition collectData (sprintId : string) (boardId : option string)
           (forceRefresh : bool) : outcome Collected :=
  if negb forceRefresh then
    cachedSprintData <- getCachedSprintData c ;;
    cachedPRData <- getCachedPRData c ;;
    match cachedSprintData, cachedPRData with
    | Some (sprint, issues), Some prs =>
        historicalMetrics <- historyFor sprintId boardId ;;
        Resolved (mkCollected sprint issues prs historicalMetrics)
    | _, _ => fetchAndCache sprintId boardId
    end
  else fetchAndCache sprintId boardId.

Definition isActive (s : SprintData.t) : bool :=
  match SprintData.state s with SprintData.active => true | _ => false end.

Definition isClosed (s : SprintData.t) : bool :=
  match SprintData.state s with SprintData.closed => true | _ => false end.

(** Steps 3 to 8 of [analyzeSprint] on the collected data.  One clock
    reading stands for every [new Date()] and [Date.now()] of the pass.  The
    spillover step only logs its predictions, but it leaves the transition
    arrays of the issues it scored reversed for the steps after it. *)
Definition buildReport (d : Collected)
  : SprintReport.t * SprintMetrics.t * PRMetrics.t :=
  let now := clock c in
  let sprintMetrics := MetricsCalculator.calculateSprintMetrics now (issues d) (sprint d) in
  let prMetrics := MetricsCalculator.calculatePRMetrics (prs d) in
  let bottlenecks := MetricsCalculator.identifyBottlenecks (issues d) in
  let riskAssessment :=
    RiskAssessor.assessSprintRisk sprintMetrics prMetrics (historicalMetrics d)
                                  (Some (issues d)) (Some (prs d)) in
  let issues1 :=
    if isActive (sprint d) then
      PredictionEngine.issuesAfterPredictSpillover now (issues d) (sprint d) now
                                                   (Some sprintMetrics)
    else issues d in
  let recommendations :=
    RecommendationGenerator.generateRecommendations
      now riskAssessment sprintMetrics prMetrics issues1 (prs d) (Some bottlenecks) in
  let nextSprintSuggestions :=
    option_map
      (fun h => generateNextSprintSuggestions sprintMetrics h riskAssessment issues1 (prs d))
      (historicalMetrics d) in
  (generateReport now (sprint d) sprintMetrics prMetrics riskAssessment recommendations
                  issues1 (prs d) (Some bottlenecks) nextSprintSuggestions,
   sprintMetrics, prMetrics).

(** [cacheReport] and the orchestrator's [storeHistoricalMetrics]: failures
    are logged and dropped. *)
Definition cacheReport : outcome unit := catchWith (storeReport c) tt.
Definition storeHistory : outcome unit := catchWith (storeHistoricalMetrics c) tt.

(** Steps 2 to 10: what runs after the report cache has been consulted. *)
Definition analyzeFresh (sprintId : string) (boardId : option string)
           (forceRefresh : bool) : outcome SprintReport.t :=
  d <- collectData sprintId boardId forceRefresh ;;
  let '(report, _, _) := buildReport d in
  _ <- cacheReport ;;
  _ <- (if isClosed (sprint d) then storeHistory else Resolved tt) ;;
  Resolved report.

(** The body of the [try] block of [analyzeSprint]. *)
Definition analyzeSprintBody (sprintId : string) (boardId : option string)
           (forceRefresh : bool) : outcome SprintReport.t :=
  if negb forceRefresh then
    cachedReport <- getCachedReport ;;
    match cachedReport with
    | Some report => Resolved report
    | None => analyzeFresh sprintId boardId forceRefresh
    end
  else analyzeFresh sprintId boardId forceRefresh.

(** [analyzeSprint]: what the returned promise resolves to. *)
Definition analyzeSprint (sprintId : string) (boardId : option string)
           (forceRefresh : bool) : SprintReport.t :=
  match analyzeSprintBody sprintId boardId forceRefresh with
  | Resolved report => report
  | Rejected error => handleAnalysisError (clock c) error sprintId
  end.

End Orchestration.

End AnalysisOrchestrator.

From Stdlib Require DecimalString.

(* ================================================================== *)
(** ** RecommendationGenerator, continued: the next-sprint suggestions *)

Module NextSprint.

(** [calculateTargetStoryPoints(sprintMetrics, historicalData, riskAssessment)]. *)
Definition calculateTargetStoryPoints (sprintMetrics : SprintMetrics.t)
           (historicalData : HistoricalMetrics.t) (riskAssessment : RiskAssessment.t)
  : Z :=
  let baselineVelocity := SprintMetrics.velocity (HistoricalMetrics.metrics historicalData) in
  let currentVelocity := SprintMetrics.velocity sprintMetrics in
  let averageVelocity := ((baselineVelocity + currentVelocity) / 2)%Q in
  let adjustmentFactor :=
    match RiskAssessment.level riskAssessment with
    | High => (8 # 10)%Q
    | Medium => (9 # 10)%Q
    | Low =>
        if JS.gtb (SprintMetrics.completionRate sprintMetrics) 90 then (11 # 10)%Q
        else 1%Q
    end in
  let targetPoints := JS.round (averageVelocity * adjustmentFactor) in
  Z.max 1 targetPoints.

Definition isHigh (level : RiskLevel) : bool :=
  match level with High => true | _ => false end.

(** [identifyTaskAdjustments(issues, sprintMetrics, riskAssessment)]: the
    pair [(tasksToInclude, tasksToPostpone)]; [now] is [Date.now()]. *)
Definition identifyTaskAdjustments (now : Z) (issues : list IssueData.t)
           (sprintMetrics : SprintMetrics.t) (riskAssessment : RiskAssessment.t)
  : list string * list string :=
  let incompleteIssues :=
    filter (fun issue =>
              negb (RecommendationGenerator.isCompletedStatus (IssueData.status issue)))
           issues in
  let tasksToInclude :=
    map IssueData.key
        (JS.slice0 5
           (filter (fun issue =>
                      JS.includes (JS.toLowerCase (IssueData.status issue)) "progress"
                      || JS.includes (JS.toLowerCase (IssueData.status issue)) "review")
                   incompleteIssues)) in
  let tasksToPostpone :=
    if isHigh (RiskAssessment.level riskAssessment)
       || JS.ltb (SprintMetrics.completionRate sprintMetrics) 70 then
      let riskyTasks := RecommendationGenerator.identifyRiskyTasks now issues in
      map IssueData.key (JS.slice0 3 riskyTasks)
    else [] in
  (tasksToInclude, tasksToPostpone).

(** The average of [generateReviewerAssignments]:
    [size > 0 ? totalPRs / size : 0]. *)
Definition averageWorkload (reviewerWorkload : list (string * Z)) : Q :=
  let totalPRs := JS.sumZ (map snd reviewerWorkload) in
  match reviewerWorkload with
  | [] => 0%Q
  | _ => (inject_Z totalPRs / JS.lenQ reviewerWorkload)%Q
  end.

(** The body of the loop of [generateReviewerAssignments]. *)
Definition assignmentFor (avgPRs : Q) (entry : string * Z) : ReviewerAssignment.t :=
  let (reviewer, currentPRs) := entry in
  if RecommendationGenerator.REVIEWER_OVERLOAD_THRESHOLD <=? currentPRs then
    ReviewerAssignment.mk reviewer (Qfloor avgPRs)
      [ JS.Lit "Currently overloaded with "; JS.Int currentPRs;
        JS.Lit " PRs. Reduce to average workload." ]
  else if JS.ltb (inject_Z currentPRs) (avgPRs * (5 # 10)) then
    ReviewerAssignment.mk reviewer (JS.ceil avgPRs)
      [ JS.Lit "Currently underutilized with "; JS.Int currentPRs;
        JS.Lit " PRs. Can take on more reviews." ]
  else
    ReviewerAssignment.mk reviewer (JS.round avgPRs)
      [ JS.Lit "Maintain current balanced workload of ~"; JS.Int currentPRs;
        JS.Lit " PRs." ].

(** [generateReviewerAssignments(prs)]. *)
Definition generateReviewerAssignments (prs : list PullRequestData.t)
  : list ReviewerAssignment.t :=
  let reviewerWorkload := RecommendationGenerator.calculateReviewerWorkload prs in
  let avgPRs := averageWorkload reviewerWorkload in
  let assignments := map (assignmentFor avgPRs) reviewerWorkload in
  JS.slice0 5 assignments.

(** [generateNextSprintSuggestions(sprintMetrics, historicalData,
    riskAssessment, issues, prs)]; [now] is [Date.now()]. *)
Definition generateNextSprintSuggestions (now : Z) (sprintMetrics : SprintMetrics.t)
           (historicalData : HistoricalMetrics.t) (riskAssessment : RiskAssessment.t)
           (issues : list IssueData.t) (prs : list PullRequestData.t)
  : NextSprintSuggestions.t :=
  let targetStoryPoints :=
    calculateTargetStoryPoints sprintMetrics historicalData riskAssessment in
  let (tasksToInclude, tasksToPostpone) :=
    identifyTaskAdjustments now issues sprintMetrics riskAssessment in
  let reviewerAssignments := generateReviewerAssignments prs in
  NextSprintSuggestions.mk targetStoryPoints tasksToInclude tasksToPostpone
                           reviewerAssignments.

End NextSprint.

(* ================================================================== *)
(** ** ReportGenerator (src/services/ReportGenerator.ts) *)

Module ReportGenerator.

(** [generateSummary(sprint, sprintMetrics, riskAssessment)]. *)
Definition generateSummary (sprint : SprintData.t) (sprintMetrics : SprintMetrics.t)
           (riskAssessment : RiskAssessment.t) : JS.text :=
  let sprintName := JS.Lit (SprintData.name sprint) in
  let completionRate :=
    JS.Fixed 0 (JS.Finite (SprintMetrics.completionRate sprintMetrics)) in
  let riskLevel := JS.Lit (RiskAssessor.levelName (RiskAssessment.level riskAssessment)) in
  let velocity := JS.Num (SprintMetrics.velocity sprintMetrics) in
  match SprintData.state sprint with
  | SprintData.closed =>
      if JS.leb 90 (SprintMetrics.completionRate sprintMetrics) then
        [ sprintName; JS.Lit " completed successfully with "; completionRate;
          JS.Lit "% completion rate and "; velocity;
          JS.Lit " story points delivered. The sprint had "; riskLevel;
          JS.Lit " risk and met team expectations." ]
      else if JS.leb 70 (SprintMetrics.completionRate sprintMetrics) then
        [ sprintName; JS.Lit " completed with "; completionRate;
          JS.Lit "% completion rate and "; velocity;
          JS.Lit " story points delivered. The sprint had "; riskLevel;
          JS.Lit " risk with some tasks carrying over to the next sprint." ]
      else
        [ sprintName; JS.Lit " completed with "; completionRate;
          JS.Lit "% completion rate and "; velocity;
          JS.Lit " story points delivered. The sprint had "; riskLevel;
          JS.Lit " risk with significant challenges impacting delivery." ]
  | _ =>
      match RiskAssessment.level riskAssessment with
      | Low =>
          [ sprintName; JS.Lit " is progressing well with "; completionRate;
            JS.Lit "% completion rate and "; riskLevel;
            JS.Lit " risk. The team is on track to meet sprint goals." ]
      | Medium =>
          [ sprintName; JS.Lit " is at "; riskLevel; JS.Lit " risk with ";
            completionRate;
            JS.Lit "% completion rate. Some adjustments may be needed to ensure successful delivery." ]
      | High =>
          [ sprintName; JS.Lit " is at "; riskLevel; JS.Lit " risk with ";
            completionRate;
            JS.Lit "% completion rate. Immediate action is recommended to address blockers and improve sprint outcomes." ]
      end
  end.

(** [getWIPAssessment(wipCount)]. *)
Definition getWIPAssessment (wipCount : Z) : string :=
  if wipCount <=? 3 then "which is healthy"
  else if wipCount <=? 6 then "which is moderate"
  else if wipCount <=? 10 then "which is high and may impact flow"
  else "which is very high and likely causing bottlenecks".

Definition isMerged (pr : PullRequestData.t) : bool :=
  match PullRequestData.state pr with PullRequestData.MERGED => true | _ => false end.

(** [generatePRFinding(prMetrics, prs)]: declared [string | null]. *)
Definition generatePRFinding (prMetrics : PRMetrics.t) (prs : list PullRequestData.t)
  : option JS.text :=
  let openPRs := JS.lenZ (filter RiskAssessor.isOpen prs) in
  let mergedPRs := JS.lenZ (filter isMerged prs) in
  if JS.gtb (PRMetrics.averageLatency prMetrics) 48 then
    Some [ JS.Int mergedPRs; JS.Lit " PRs merged with ";
           JS.Fixed 1 (JS.Finite (PRMetrics.averageLatency prMetrics));
           JS.Lit " hour average latency ("; JS.Int openPRs;
           JS.Lit " still open), indicating review delays." ]
  else if JS.gtb (PRMetrics.averageTimeToFirstReview prMetrics) 24 then
    Some [ JS.Int (JS.lenZ prs); JS.Lit " PRs processed with ";
           JS.Fixed 1 (JS.Finite (PRMetrics.averageTimeToFirstReview prMetrics));
           JS.Lit " hour average time to first review, suggesting reviewer availability issues." ]
  else if (mergedPRs <? openPRs) && (5 <? openPRs) then
    Some [ JS.Int openPRs; JS.Lit " PRs are currently open (vs "; JS.Int mergedPRs;
           JS.Lit " merged), indicating a potential review backlog." ]
  else
    Some [ JS.Int mergedPRs; JS.Lit " PRs merged with ";
           JS.Fixed 1 (JS.Finite (PRMetrics.averageLatency prMetrics));
           JS.Lit " hour average latency and ";
           JS.Fixed 1 (JS.Finite (PRMetrics.averageRevisions prMetrics));
           JS.Lit " revisions per PR." ].

(** The loop that fills [assigneeCounts]. *)
Definition countByAssignee (issues : list IssueData.t) : list (string * Z) :=
  fold_left
    (fun assigneeCounts issue =>
       if JS.truthy_string (IssueData.assignee issue) then
         match IssueData.assignee issue with
         | Some a => JS.bump a assigneeCounts
         | None => assigneeCounts
         end
       else assigneeCounts)
    issues [].

(** [Math.min(...xs)] on a non-empty list of integers. *)
Definition minZ (d : Z) (l : list Z) : Z := fold_left Z.min l d.

(** [generateWorkloadFinding(issues)]. *)
Definition generateWorkloadFinding (issues : list IssueData.t) : option JS.text :=
  let assigneeCounts := countByAssignee issues in
  match map snd assigneeCounts with
  | [] => None
  | c0 :: rest =>
      let counts := c0 :: rest in
      let maxIssues := JS.maxZ c0 rest in
      let minIssues := minZ c0 rest in
      let avgIssues := (inject_Z (JS.sumZ counts) / JS.lenQ counts)%Q in
      if JS.gtb (inject_Z maxIssues) (avgIssues * (15 # 10))
         && (1 <? JS.lenZ assigneeCounts) then
        Some [ JS.Lit "Workload imbalance detected: "; JS.Int (JS.lenZ assigneeCounts);
               JS.Lit " developers with "; JS.Int minIssues; JS.Lit "-";
               JS.Int maxIssues; JS.Lit " issues each (avg: ";
               JS.Fixed 1 (JS.Finite avgIssues); JS.Lit ")." ]
      else None
  end.

(** [generateKeyFindings(sprintMetrics, prMetrics, issues, prs, bottlenecks)]. *)
Definition generateKeyFindings (sprintMetrics : SprintMetrics.t) (prMetrics : PRMetrics.t)
           (issues : list IssueData.t) (prs : list PullRequestData.t)
           (bottlenecks : option (list BottleneckInfo.t)) : list JS.text :=
  let throughput := SprintMetrics.throughput sprintMetrics in
  let wipCount := SprintMetrics.wipCount sprintMetrics in
  let finding1 :=
    [ [ JS.Lit "Completed "; JS.Int throughput; JS.Lit " issues (";
        JS.Fixed 0 (JS.Finite (SprintMetrics.completionRate sprintMetrics));
        JS.Lit "% completion rate) with "; JS.Num (SprintMetrics.velocity sprintMetrics);
        JS.Lit " story points delivered." ] ] in
  let finding2 :=
    if 0 <? wipCount then
      (* a zero total makes the percentage [Infinity] *)
      let wipPercentage :=
        if throughput + wipCount =? 0 then JS.Infinity
        else JS.Finite (inject_Z wipCount / inject_Z (throughput + wipCount) * 100)%Q in
      [ [ JS.Lit "Current WIP is "; JS.Int wipCount; JS.Lit " issues (";
          JS.Fixed 0 wipPercentage; JS.Lit "% of total work), ";
          JS.Lit (getWIPAssessment wipCount); JS.Lit "." ] ]
    else [] in
  let finding3 :=
    if JS.gtb (SprintMetrics.cycleTime sprintMetrics) 0 then
      [ [ JS.Lit "Average cycle time is ";
          JS.Fixed 1 (JS.Finite (SprintMetrics.cycleTime sprintMetrics));
          JS.Lit " hours and lead time is ";
          JS.Fixed 1 (JS.Finite (SprintMetrics.leadTime sprintMetrics));
          JS.Lit " hours." ] ]
    else [] in
  let finding4 :=
    match prs with
    | [] => []
    | _ => JS.push_opt (generatePRFinding prMetrics prs)
    end in
  let finding5 :=
    match bottlenecks with
    | Some (topBottleneck :: _) =>
        [ JS.Lit "Bottleneck detected: " :: BottleneckInfo.description topBottleneck ]
    | _ => []
    end in
  let finding6 :=
    if 0 <? SprintMetrics.carryOverCount sprintMetrics then
      [ [ JS.Int (SprintMetrics.carryOverCount sprintMetrics);
          JS.Lit " tasks are carry-overs from previous sprints, indicating potential scope or estimation issues." ] ]
    else [] in
  let finding7 := JS.push_opt (generateWorkloadFinding issues) in
  JS.slice0 7
    (finding1 ++ finding2 ++ finding3 ++ finding4 ++ finding5 ++ finding6 ++ finding7).

(** [formatRiskAssessment(riskAssessment)]. *)
Definition formatRiskAssessment (riskAssessment : RiskAssessment.t) : SprintReport.risk_t :=
  SprintReport.mkRisk (RiskAssessment.level riskAssessment)
                      (RiskAssessment.justification riskAssessment).

(** [(a, b) => a.priority - b.priority]. *)
Definition byPriority (a b : Recommendation.t) : bool :=
  Recommendation.priority a - Recommendation.priority b <=? 0.

(** [formatRecommendations(recommendations)]: the array, which is sorted in
    place, after the call. *)
Definition formatRecommendations (recommendations : list Recommendation.t)
  : list Recommendation.t :=
  JS.sort byPriority recommendations.

(** [generateReport(...)]; [now] is the clock reading behind [generatedAt]. *)
Definition generateReport (now : Z) (sprint : SprintData.t)
           (sprintMetrics : SprintMetrics.t) (prMetrics : PRMetrics.t)
           (riskAssessment : RiskAssessment.t) (recommendations : list Recommendation.t)
           (issues : list IssueData.t) (prs : list PullRequestData.t)
           (bottlenecks : option (list BottleneckInfo.t))
           (nextSprintSuggestions : option NextSprintSuggestions.t) : SprintReport.t :=
  let summary := generateSummary sprint sprintMetrics riskAssessment in
  let keyFindings := generateKeyFindings sprintMetrics prMetrics issues prs bottlenecks in
  let formattedRiskAssessment := formatRiskAssessment riskAssessment in
  let formattedRecommendations := formatRecommendations recommendations in
  SprintReport.mk summary keyFindings formattedRiskAssessment formattedRecommendations
                  nextSprintSuggestions
                  (SprintReport.mkMetrics sprintMetrics prMetrics)
                  now.

End ReportGenerator.

(* ================================================================== *)
(** ** StorageService (src/services/StorageService.ts) *)

Module StorageService.

Definition SPRINT_DATA_PREFIX : string := "sprint_data:".
Definition PR_DATA_PREFIX : string := "pr_data:".
Definition HISTORICAL_METRICS_PREFIX : string := "historical_metrics:".
Definition REPORT_PREFIX : string := "report:".
Definition CACHE_METADATA_PREFIX : string := "cache_meta:".

Definition SPRINT_DATA_TTL : Z := 15 * 60 * 1000.
Definition PR_DATA_TTL : Z := 10 * 60 * 1000.
Definition REPORT_TTL : Z := 60 * 60 * 1000.
Definition HISTORICAL_METRICS_TTL : Z := 24 * 60 * 60 * 1000.

(** The [data] of a cache entry. *)
Inductive payload : Type :=
| SprintPayload (sprint : SprintData.t) (issues : list IssueData.t)
| PRPayload (prs : list PullRequestData.t).

(** The objects the service keeps in Forge storage: cache entries
    [{ data, cachedAt, ttl }], metadata [{ expiresAt }], historical metrics
    and reports. *)
Inductive value : Type :=
| Entry (data : payload) (cachedAt ttl : Z)
| Metadata (expiresAt : Z)
| Metric (metric : HistoricalMetrics.t)
| Report (report : SprintReport.t).

(** Forge storage: the stored entries, and whether the backend answers; an
    unavailable backend rejects every request. *)
Record Forge := mkForge {
  entries : list (string * value);
  available : bool
}.

Definition lookup (key : string) (es : list (string * value)) : option value :=
  option_map snd (find (fun e => String.eqb (fst e) key) es).

Definition remove (key : string) (es : list (string * value)) : list (string * value) :=
  filter (fun e => negb (String.eqb (fst e) key)) es.

Definition put (key : string) (v : value) (es : list (string * value))
  : list (string * value) :=
  (key, v) :: remove key es.

(** An asynchronous computation over the storage: its outcome and the
    storage it leaves. *)
Definition M (A : Type) : Type := Forge -> AnalysisOrchestrator.outcome A * Forge.

Definition ret {A} (a : A) : M A := fun s => (AnalysisOrchestrator.Resolved a, s).

Definition bind {A B} (m : M A) (k : A -> M B) : M B :=
  fun s =>
    match m s with
    | (AnalysisOrchestrator.Resolved a, s') => k a s'
    | (AnalysisOrchestrator.Rejected e, s') => (AnalysisOrchestrator.Rejected e, s')
    end.

Notation "x <- m ;; k" := (bind m (fun x => k))
  (at level 61, m at next level, right associativity).

(** [try { m } catch (error) { handler }]. *)
Definition tryCatch {A} (m : M A) (handler : M A) : M A :=
  fun s =>
    match m s with
    | (AnalysisOrchestrator.Resolved a, s') => (AnalysisOrchestrator.Resolved a, s')
    | (AnalysisOrchestrator.Rejected _, s') => handler s'
    end.

Definition unavailable {A} : AnalysisOrchestrator.outcome A :=
  AnalysisOrchestrator.Rejected (AnalysisOrchestrator.Error "Storage unavailable").

(** [storage.get(key)], [storage.set(key, value)], [storage.delete(key)]. *)
Definition storage_get (key : string) : M (option value) :=
  fun s =>
    if available s then (AnalysisOrchestrator.Resolved (lookup key (entries s)), s)
    else (unavailable, s).

Definition storage_set (key : string) (v : value) : M unit :=
  fun s =>
    if available s then
      (AnalysisOrchestrator.Resolved tt, mkForge (put key v (entries s)) (available s))
    else (unavailable, s).

Definition storage_delete (key : string) : M unit :=
  fun s =>
    if available s then
      (AnalysisOrchestrator.Resolved tt, mkForge (remove key (entries s)) (available s))
    else (unavailable, s).

(** [Date.now() > metadata.expiresAt]; an object without [expiresAt] never
    compares as expired. *)
Definition expired (now : Z) (metadata : value) : bool :=
  match metadata with
  | Metadata expiresAt => expiresAt <? now
  | _ => false
  end.

(** [cacheEntry.data]; [undefined] for an object without [data]. *)
Definition dataOf (cacheEntry : value) : option payload :=
  match cacheEntry with
  | Entry data _ _ => Some data
  | _ => None
  end.

(** [clearCacheEntry(key, metaKey)]. *)
Definition clearCacheEntry (key metaKey : string) : M unit :=
  tryCatch (_ <- storage_delete key ;; storage_delete metaKey) (ret tt).

(** The body shared by [cacheSprintData] and [cachePRData]. *)
Definition cacheData (now : Z) (key : string) (data : payload) (ttl : Z) : M unit :=
  let metaKey := (CACHE_METADATA_PREFIX ++ key)%string in
  let cacheEntry := Entry data now ttl in
  _ <- storage_set key cacheEntry ;;
  storage_set metaKey (Metadata (now + ttl)).

(** The body shared by [getCachedSprintData] and [getCachedPRData]. *)
Definition getCachedData (now : Z) (key : string) : M (option payload) :=
  let metaKey := (CACHE_METADATA_PREFIX ++ key)%string in
  tryCatch
    (cacheEntry <- storage_get key ;;
     metadata <- storage_get metaKey ;;
     match cacheEntry, metadata with
     | Some cacheEntry, Some metadata =>
         if expired now metadata then
           _ <- clearCacheEntry key metaKey ;; ret None
         else ret (dataOf cacheEntry)
     | _, _ => ret None
     end)
    (ret None).

(** [cacheSprintData(sprintId, { sprint, issues })]; [now] is [Date.now()]. *)
Definition cacheSprintData (now : Z) (sprintId : string) (sprint : SprintData.t)
           (issues : list IssueData.t) : M unit :=
  cacheData now (SPRINT_DATA_PREFIX ++ sprintId)%string (SprintPayload sprint issues)
            SPRINT_DATA_TTL.

(** [getCachedSprintData(sprintId)]. *)
Definition getCachedSprintData (now : Z) (sprintId : string) : M (option payload) :=
  getCachedData now (SPRINT_DATA_PREFIX ++ sprintId)%string.

(** [cachePRData(sprintId, prs)]. *)
Definition cachePRData (now : Z) (sprintId : string) (prs : list PullRequestData.t)
  : M unit :=
  cacheData now (PR_DATA_PREFIX ++ sprintId)%string (PRPayload prs) PR_DATA_TTL.

(** [getCachedPRData(sprintId)]. *)
Definition getCachedPRData (now : Z) (sprintId : string) : M (option payload) :=
  getCachedData now (PR_DATA_PREFIX ++ sprintId)%string.

(** The body shared by [getHistoricalMetric] and [getReport]: the stored
    object is returned as it is, and missing metadata does not invalidate
    it. *)
Definition getStored (now : Z) (key : string) : M (option value) :=
  let metaKey := (CACHE_METADATA_PREFIX ++ key)%string in
  tryCatch
    (stored <- storage_get key ;;
     metadata <- storage_get metaKey ;;
     match stored with
     | None => ret None
     | Some stored =>
         match metadata with
         | Some metadata =>
             if expired now metadata then
               _ <- clearCacheEntry key metaKey ;; ret None
             else ret (Some stored)
         | None => ret (Some stored)
         end
     end)
    (ret None).

(** [storeHistoricalMetrics(sprintId, sprintName, completedAt, metrics,
    prMetrics)]. *)
Definition storeHistoricalMetrics (now : Z) (sprintId sprintName : string)
           (completedAt : Z) (metrics : SprintMetrics.t) (prMetrics : PRMetrics.t)
  : M unit :=
  let historicalMetric :=
    HistoricalMetrics.mk sprintId sprintName completedAt metrics prMetrics in
  let key := (HISTORICAL_METRICS_PREFIX ++ sprintId)%string in
  let metaKey := (CACHE_METADATA_PREFIX ++ key)%string in
  _ <- storage_set key (Metric historicalMetric) ;;
  storage_set metaKey (Metadata (now + HISTORICAL_METRICS_TTL)).

(** [getHistoricalMetric(sprintId)]. *)
Definition getHistoricalMetric (now : Z) (sprintId : string) : M (option value) :=
  getStored now (HISTORICAL_METRICS_PREFIX ++ sprintId)%string.

(** [storeReport(sprintId, report)]. *)
Definition storeReport (now : Z) (sprintId : string) (report : SprintReport.t) : M unit :=
  let key := (REPORT_PREFIX ++ sprintId)%string in
  let metaKey := (CACHE_METADATA_PREFIX ++ key)%string in
  _ <- storage_set key (Report report) ;;
  storage_set metaKey (Metadata (now + REPORT_TTL)).

(** [getReport(sprintId)]. *)
Definition getReport (now : Z) (sprintId : string) : M (option value) :=
  getStored now (REPORT_PREFIX ++ sprintId)%string.

(** [invalidateSprintCache(sprintId)]: the three deletions are started
    together; they touch different keys, so their order does not matter. *)
Definition invalidateSprintCache (sprintId : string) : M unit :=
  let sprintDataKey := (SPRINT_DATA_PREFIX ++ sprintId)%string in
  let sprintDataMetaKey := (CACHE_METADATA_PREFIX ++ sprintDataKey)%string in
  let prDataKey := (PR_DATA_PREFIX ++ sprintId)%string in
  let prDataMetaKey := (CACHE_METADATA_PREFIX ++ prDataKey)%string in
  let reportKey := (REPORT_PREFIX ++ sprintId)%string in
  let reportMetaKey := (CACHE_METADATA_PREFIX ++ reportKey)%string in
  _ <- clearCacheEntry sprintDataKey sprintDataMetaKey ;;
  _ <- clearCacheEntry prDataKey prDataMetaKey ;;
  clearCacheEntry reportKey reportMetaKey.

(** [isCacheValid(key)]. *)
Definition isCacheValid (now : Z) (key : string) : M bool :=
  let metaKey := (CACHE_METADATA_PREFIX ++ key)%string in
  tryCatch
    (metadata <- storage_get metaKey ;;
     match metadata with
     | None => ret false
     | Some (Metadata expiresAt) => ret (now <=? expiresAt)
     | Some _ => ret false
     end)
    (ret false).

End StorageService.

(* ================================================================== *)
(** ** BitbucketDataCollector (src/services/BitbucketDataCollector.ts):
       the batch fetch *)

Module BitbucketDataCollector.

(** What one call of [getPullRequestsForIssue] yields once it has passed
    the availability check: the pull requests it returns, and whether
    [bitbucketAvailable] is still set when it finishes.  A call that throws
    inside returns nothing and clears the flag; a call whose Bitbucket
    requests exhaust their retries clears it too, and still returns the pull
    requests built from the summaries. *)
Record issueResult := mkIssueResult {
  pullRequests : list PullRequestData.t;
  stillAvailable : bool
}.

(** [getPullRequestsForIssue(issueKey)]: the pull requests returned and the
    flag afterwards, [bitbucketAvailable] being the flag when the call
    starts. *)
Definition getPullRequestsForIssue (bitbucketAvailable : bool) (result : issueResult)
  : list PullRequestData.t * bool :=
  if negb bitbucketAvailable then ([], bitbucketAvailable)
  else (pullRequests result, stillAvailable result).

(** [issueKeys.slice(i, i + batchSize)] for [i = 0, 5, 10, ...]; [fuel]
    bounds the number of batches. *)
Fixpoint batchesOf {A} (fuel : nat) (l : list A) : list (list A) :=
  match fuel, l with
  | _, [] => []
  | O, _ => []
  | S fuel', _ => firstn 5 l :: batchesOf fuel' (skipn 5 l)
  end.

(** [if (!seenPRIds.has(pr.id)) { seenPRIds.add(pr.id); allPRs.push(pr); }]. *)
Definition collect (state : list string * list PullRequestData.t)
           (pr : PullRequestData.t) : list string * list PullRequestData.t :=
  let (seenPRIds, allPRs) := state in
  if existsb (String.eqb (PullRequestData.id pr)) seenPRIds then state
  else (PullRequestData.id pr :: seenPRIds, allPRs ++ [pr]).

(** One turn of the batch loop.  The calls of a batch are all started
    before any of them finishes, so each sees the flag as it was when the
    batch started; afterwards the flag is set only if it was and no call
    cleared it. *)
Definition processBatch
           (state : bool * (list string * list PullRequestData.t))
           (batch : list (string * issueResult))
  : bool * (list string * list PullRequestData.t) :=
  let (bitbucketAvailable, collected) := state in
  let batchResults :=
    map (fun asked => getPullRequestsForIssue bitbucketAvailable (snd asked)) batch in
  let collected' :=
    fold_left (fun c prs => fold_left collect prs c) (map fst batchResults) collected in
  (forallb snd batchResults && bitbucketAvailable, collected').

(** [getPullRequestsForSprint(issueKeys)].  [asked] pairs every issue key
    with what its call yields if it runs; the result is the returned array
    and the flag afterwards. *)
Definition getPullRequestsForSprint (bitbucketAvailable : bool)
           (asked : list (string * issueResult)) : list PullRequestData.t * bool :=
  if negb bitbucketAvailable then ([], bitbucketAvailable)
  else
    let '(bitbucketAvailable', (_, allPRs)) :=
      fold_left processBatch (batchesOf (List.length asked) asked)
                (bitbucketAvailable, ([], [])) in
    (allPRs, bitbucketAvailable').

End BitbucketDataCollector.

(* ================================================================== *)
(** ** JiraDataCollector (src/services/JiraDataCollector.ts): requests
       with retries *)

Module JiraDataCollector.

Definition MAX_RETRIES : nat := 3.
Definition INITIAL_BACKOFF_MS : Z := 1000.

(** [INITIAL_BACKOFF_MS * Math.pow(2, attempt)]. *)
Definition calculateBackoff (attempt : nat) : Z :=
  INITIAL_BACKOFF_MS * 2 ^ Z.of_nat attempt.

(** What the request code reads of a response: [status], [statusText],
    [ok], [headers.get('Retry-After')] and what [text()] settles to. *)
Record response := mkResponse {
  status : Z;
  statusText : string;
  ok : bool;
  retryAfter : option string;
  text : AnalysisOrchestrator.outcome string
}.

(** What [api.asUser().requestJira] does at one attempt. *)
Inductive reply : Type :=
| Responds (r : response)
| Throws (e : AnalysisOrchestrator.thrown).

(** A number in a template literal. *)
Definition toString (n : Z) : string :=
  DecimalString.NilZero.string_of_int (Z.to_int n).

Definition isDigit (c : ascii) : bool :=
  (48 <=? nat_of_ascii c)%nat && (nat_of_ascii c <=? 57)%nat.

(** [message.match(/(\d{3})/)]: the first three digits in a row. *)
Fixpoint firstThreeDigits (s : string) : option string :=
  match s with
  | EmptyString => None
  | String a r =>
      match r with
      | String b (String c _) =>
          if isDigit a && isDigit b && isDigit c then
            Some (String a (String b (String c EmptyString)))
          else firstThreeDigits r
      | _ => None
      end
  end.

Definition isWhiteSpace (c : ascii) : bool :=
  existsb (Nat.eqb (nat_of_ascii c)) [ 9; 10; 11; 12; 13; 32 ]%nat.

Fixpoint trimStart (s : string) : string :=
  match s with
  | EmptyString => EmptyString
  | String c r => if isWhiteSpace c then trimStart r else s
  end.

(** The value of a digit in the radix, if it is one. *)
Definition digitValue (radix : Z) (c : ascii) : option Z :=
  let n := Z.of_nat (nat_of_ascii c) in
  let v :=
    if (48 <=? n) && (n <=? 57) then Some (n - 48)
    else if (97 <=? n) && (n <=? 122) then Some (n - 87)
    else if (65 <=? n) && (n <=? 90) then Some (n - 55)
    else None in
  match v with
  | Some d => if d <? radix then Some d else None
  | None => None
  end.

Fixpoint parseDigits (radix : Z) (s : string) (acc : option Z) : option Z :=
  match s with
  | EmptyString => acc
  | String c r =>
      match digitValue radix c with
      | Some d =>
          parseDigits radix r
                      (Some (match acc with Some a => a * radix + d | None => d end))
      | None => acc
      end
  end.

(** [parseInt(s)]; [None] is [NaN]. *)
Definition parseInt (s : string) : option Z :=
  let trimmed := trimStart s in
  let (sign, unsigned) :=
    match trimmed with
    | String "-" r => (-1, r)
    | String "+" r => (1, r)
    | _ => (1, trimmed)
    end in
  let (radix, digits) :=
    match unsigned with
    | String "0" (String "x" r) => (16, r)
    | String "0" (String "X" r) => (16, r)
    | _ => (10, unsigned)
    end in
  option_map (Z.mul sign) (parseDigits radix digits None).

(** What a call of [makeRequest] did: what it settled to, the waits it
    slept through ([None] for [NaN]) and the number of requests it sent. *)
Record trace := mkTrace {
  outcome : AnalysisOrchestrator.outcome response;
  waits : list (option Z);
  requests : nat
}.

Definition after (wait : list (option Z)) (rest : trace) : trace :=
  mkTrace (outcome rest) (wait ++ waits rest) (S (requests rest)).

(** The test of the [catch] block: the error is an [Error] whose message
    contains a [4] and whose first three digits in a row are not [429]. *)
Definition isClientError (error : AnalysisOrchestrator.thrown) : bool :=
  match error with
  | AnalysisOrchestrator.Error message =>
      if JS.includes message "4" then
        match firstThreeDigits message with
        | Some statusMatch => negb (String.eqb statusMatch "429")
        | None => false
        end
      else false
  | AnalysisOrchestrator.NotAnError => false
  end.

(** [${lastError?.message}]. *)
Definition lastMessage (lastError : option AnalysisOrchestrator.thrown) : string :=
  match lastError with
  | Some (AnalysisOrchestrator.Error message) => message
  | _ => "undefined"
  end.

(** The loop of [makeRequest] from the attempt numbered [attempt], with
    [remaining] attempts left; [api] tells what the request of every attempt
    does. *)
Fixpoint attemptsFrom (remaining attempt : nat)
         (lastError : option AnalysisOrchestrator.thrown) (api : nat -> reply) : trace :=
  match remaining with
  | O =>
      mkTrace
        (AnalysisOrchestrator.Rejected
           (AnalysisOrchestrator.Error
              ("Failed to fetch from Jira after " ++ toString (Z.of_nat MAX_RETRIES)
               ++ " attempts: " ++ lastMessage lastError)%string))
        [] 0
  | S remaining' =>
      let caught (error : AnalysisOrchestrator.thrown) : trace :=
        if isClientError error then
          mkTrace (AnalysisOrchestrator.Rejected error) [] 1
        else if (attempt <? MAX_RETRIES - 1)%nat then
          after [ Some (calculateBackoff attempt) ]
                (attemptsFrom remaining' (S attempt) (Some error) api)
        else after [] (attemptsFrom remaining' (S attempt) (Some error) api) in
      match api attempt with
      | Throws error => caught error
      | Responds r =>
          if status r =? 429 then
            let waitTime :=
              if JS.truthy_string (retryAfter r) then
                match retryAfter r with
                | Some header => option_map (fun seconds => seconds * 1000) (parseInt header)
                | None => Some (calculateBackoff attempt)
                end
              else Some (calculateBackoff attempt) in
            after [ waitTime ] (attemptsFrom remaining' (S attempt) lastError api)
          else if negb (ok r) then
            match text r with
            | AnalysisOrchestrator.Resolved errorBody =>
                caught (AnalysisOrchestrator.Error
                          ("Jira API error: " ++ toString (status r) ++ " "
                           ++ statusText r ++ " - " ++ errorBody)%string)
            | AnalysisOrchestrator.Rejected error => caught error
            end
          else mkTrace (AnalysisOrchestrator.Resolved r) [] 1
      end
  end.

(** [makeRequest(url)]. *)
Definition makeRequest (api : nat -> reply) : trace :=
  attemptsFrom MAX_RETRIES 0 None api.

End JiraDataCollector.


(* ================================================================== *)
(** * Vocabulary of the properties and sample data *)

(** ** Transitions *)

Definition targetsActive (t : StatusTransition.t) : bool :=
  MetricsCalculator.isActiveStatus (StatusTransition.toStatus t).

Definition targetsCompleted (t : StatusTransition.t) : bool :=
  MetricsCalculator.isCompletedStatus (StatusTransition.toStatus t).

(** A transition at [h] hours after the epoch. *)
Definition transitionAt (from to : string) (h : Z) : StatusTransition.t :=
  StatusTransition.mk from to (h * 3600000).

Definition sampleTransitions : list StatusTransition.t :=
  [ transitionAt "To Do" "In Progress" 10;
    transitionAt "In Progress" "Code Review" 14;
    transitionAt "Code Review" "Done" 18 ].

Definition neverActive : list StatusTransition.t :=
  [ transitionAt "To Do" "Blocked" 10; transitionAt "Blocked" "Done" 18 ].

Definition neverCompleted : list StatusTransition.t :=
  [ transitionAt "To Do" "In Progress" 10;
    transitionAt "In Progress" "Code Review" 14 ].

(** An issue that is reopened after its first completion. *)
Definition reopenedTransitions : list StatusTransition.t :=
  [ transitionAt "To Do" "In Progress" 10;
    transitionAt "In Progress" "Done" 18;
    transitionAt "Done" "In Progress" 20;
    transitionAt "In Progress" "Done" 30 ].

(** Two calls of [calculateCycleTime] on the same array, one after the
    other: both results and the array after the second call. *)
Definition calculateCycleTimeTwice (transitions : list StatusTransition.t)
  : Q * Q * list StatusTransition.t :=
  let (first, afterFirst) := MetricsCalculator.calculateCycleTime transitions in
  let (second, afterSecond) := MetricsCalculator.calculateCycleTime afterFirst in
  (first, second, afterSecond).

(** ** Hours *)

(** Milliseconds in hours: the quotient by 3600000 on the rationals, and
    the quotient as computed on binary64 numbers, where the milliseconds
    (a difference of timestamps) are rounded first and the quotient after. *)
Definition exactHours (ms : Z) : Q := inject_Z ms / 3600000.

Definition inHours (ms : Z) : Q := JS.fl (JS.fl (inject_Z ms) / 3600000).

(** ** Arithmetic means *)

Fixpoint total (l : list Q) : Q :=
  match l with
  | [] => 0%Q
  | x :: r => (x + total r)%Q
  end.

(** The arithmetic mean, [0] for the empty list. *)
Definition mean (l : list Q) : Q :=
  match l with
  | [] => 0%Q
  | _ => (total l / inject_Z (Z.of_nat (List.length l)))%Q
  end.

(** The mean as a [reduce] and a division compute it on binary64 numbers:
    the running sum starts at [0], and every addition and the final division
    round ([JS.fl]). *)
Definition runningSum (l : list Q) : Q :=
  fold_left (fun sum x => JS.fl (sum + x)) l 0%Q.

Definition computedMean (l : list Q) : Q :=
  match l with
  | [] => 0%Q
  | _ => JS.fl (runningSum l / inject_Z (Z.of_nat (List.length l)))
  end.

(** The largest relative error of a sum of [n] roundings:
    [(1 + 2^-53)^n - 1]. *)
Fixpoint roundings (n : nat) : Q :=
  match n with
  | O => 0%Q
  | S k => (roundings k * (1 + (1 # 9007199254740992)) + (1 # 9007199254740992))%Q
  end.

(** ** Pull requests *)

(** Created-to-merged milliseconds of the requests that are merged (state
    [MERGED] with a merge timestamp). *)
Definition mergeDelays (prs : list PullRequestData.t) : list Z :=
  flat_map
    (fun pr =>
       match PullRequestData.state pr, PullRequestData.mergedAt pr with
       | PullRequestData.MERGED, Some merged => [ merged - PullRequestData.createdAt pr ]
       | _, _ => []
       end)
    prs.

(** Created-to-first-review milliseconds of the requests that have a
    first-review timestamp. *)
Definition reviewDelays (prs : list PullRequestData.t) : list Z :=
  flat_map
    (fun pr =>
       match PullRequestData.firstReviewAt pr with
       | Some reviewed => [ reviewed - PullRequestData.createdAt pr ]
       | None => []
       end)
    prs.


(** Created-to-merged hours of the merged requests, created-to-first-review
    hours of the reviewed ones. *)
Definition mergeLatencies (prs : list PullRequestData.t) : list Q :=
  map inHours (mergeDelays prs).

Definition firstReviewDelays (prs : list PullRequestData.t) : list Q :=
  map inHours (reviewDelays prs).

Definition reviewerCounts (prs : list PullRequestData.t) : list Q :=
  map (fun pr => inject_Z (Z.of_nat (List.length (PullRequestData.reviewers pr)))) prs.

Definition revisionCounts (prs : list PullRequestData.t) : list Q :=
  map (fun pr => inject_Z (PullRequestData.revisionCount pr)) prs.

Definition samplePR (state : PullRequestData.pr_state) (created : Z)
           (firstReview merged : option Z) (reviewers : nat) (revisions : Z)
  : PullRequestData.t :=
  PullRequestData.mk "1" "PR" "John" (created * 3600000)
    (option_map (fun h => h * 3600000) firstReview)
    (option_map (fun h => h * 3600000) merged)
    state
    (repeat (ReviewerData.mk "Jane" None 0) reviewers)
    revisions [].

(** One merged request, one still open and unreviewed. *)
Definition samplePRs : list PullRequestData.t :=
  [ samplePR PullRequestData.MERGED 10 (Some 12) (Some 18) 1 3;
    samplePR PullRequestData.OPEN 10 None None 0 1 ].

(** Open requests only, none of them reviewed. *)
Definition openPRs : list PullRequestData.t :=
  [ samplePR PullRequestData.OPEN 10 None None 2 1 ].

(** ** Risk factors *)

Definition severities (factors : list RiskFactor.t) : list Q :=
  map (fun f => inject_Z (RiskFactor.severity f)) factors.

(** Mean severity of the detected factors, [0] when none fired. *)
Definition meanSeverity (factors : list RiskFactor.t) : Q := mean (severities factors).

Definition factorOf (severity : Z) : RiskFactor.t :=
  RiskFactor.mk RiskFactor.CARRYOVER severity [].

Definition totalSeverity (factors : list RiskFactor.t) : Z :=
  JS.sumZ (map RiskFactor.severity factors).

(** The score as a formula on the rationals: [round(100 * mean / 10)],
    capped at [100]. *)
Definition exactScore (factors : list RiskFactor.t) : Z :=
  Z.min 100 (JS.round (100 * meanSeverity factors / 10)).

(** The same formula evaluated as the source writes it,
    [(mean / 10) * 100], on binary64 numbers. *)
Definition computedScore (mu : Q) : Z :=
  Z.min 100 (JS.round (JS.fl (JS.fl (JS.fl mu / 10) * 100))).

(** Four factors of severities 6, 6, 6 and 5: a mean of 5.75. *)
Definition fourFactors : list RiskFactor.t :=
  [ factorOf 6; factorOf 6; factorOf 6; factorOf 5 ].

(** The scores of [n] factors with a total severity of [t] agree, unless
    [n = 4] and [t = 23], where the computed one is one less. *)
Definition scoresAgree (n t : Z) : bool :=
  let exact := Z.min 100 (JS.round (100 * (inject_Z t / inject_Z n) / 10)) in
  computedScore (inject_Z t / inject_Z n)
  =? (if (n =? 4) && (t =? 23) then exact - 1 else exact).

(** ** Recommendations *)

(** The order of the pre-truncation sort: priority ascending, then impact
    with High before Medium before Low. *)
Definition notAfter (i j : Impact) : Prop :=
  match i, j with
  | ImpactHigh, _ => True
  | ImpactMedium, ImpactHigh => False
  | ImpactMedium, _ => True
  | ImpactLow, ImpactLow => True
  | ImpactLow, _ => False
  end.

Definition precedes (a b : Recommendation.t) : Prop :=
  Recommendation.priority a < Recommendation.priority b
  \/ (Recommendation.priority a = Recommendation.priority b
      /\ notAfter (Recommendation.impact a) (Recommendation.impact b)).

(** A recommendation of the given priority and impact. *)
Definition recommendationOf (priority : Z) (impact : Impact) : Recommendation.t :=
  Recommendation.mk priority Recommendation.PROCESS [] [] impact.

(** A recommendation without its priority. *)
Definition content (r : Recommendation.t)
  : Recommendation.category_t * JS.text * JS.text * Impact :=
  (Recommendation.category r, Recommendation.title r, Recommendation.description r,
   Recommendation.impact r).

(** Everything the four generators produce, before prioritisation. *)
Definition generatedRecommendations (now : Z) (riskAssessment : RiskAssessment.t)
           (sprintMetrics : SprintMetrics.t) (prMetrics : PRMetrics.t)
           (issues : list IssueData.t) (prs : list PullRequestData.t)
           (bottlenecks : option (list BottleneckInfo.t)) : list Recommendation.t :=
  RecommendationGenerator.generateScopeRecommendations now riskAssessment sprintMetrics
                                                       issues
  ++ RecommendationGenerator.generateReviewerRecommendations prs prMetrics
  ++ RecommendationGenerator.generateWIPRecommendations sprintMetrics issues bottlenecks
  ++ RecommendationGenerator.generateProcessRecommendations riskAssessment sprintMetrics
                                                            prMetrics.

(** The priorities [1 .. k]. *)
Definition oneTo (k : nat) : list Z := map Z.of_nat (seq 1 k).

(** ** Spillover *)

(** The issue is not in a completed status. *)
Definition incomplete (issue : IssueData.t) : bool :=
  negb (PredictionEngine.isCompletedStatus (IssueData.status issue)).



(** The prediction has the key [issue.key], probability exactly [1] and the
    sprint-ended reason as its only reason. *)
Definition endedPredictionOf (issue : IssueData.t) (p : SpilloverPrediction.t) : Prop :=
  SpilloverPrediction.issueKey p = IssueData.key issue
  /\ SpilloverPrediction.probability p = 1%Q
  /\ SpilloverPrediction.reasons p = [ PredictionEngine.SPRINT_ENDED_REASON ].

Definition sprintEnding (endHour : Z) : SprintData.t :=
  SprintData.mk "1" "Sprint 1" SprintData.active 0 (endHour * 3600000) None.

Definition sampleIssue (key status : string) (assignee : option string)
           (points : option Q) : IssueData.t :=
  IssueData.mk key key EmptyString assignee points status [] [].

Definition sampleIssues : list IssueData.t :=
  [ sampleIssue "ISSUE-1" "In Progress" (Some "user1") (Some 5%Q);
    sampleIssue "ISSUE-2" "To Do" None (Some 13%Q);
    sampleIssue "ISSUE-3" "Done" (Some "user2") (Some 3%Q) ].



(** ** Bottlenecks *)

(** Average dwell time of one bucket: [totalTime / count] on binary64
    numbers. *)
Definition bucketAverage (data : MetricsCalculator.DwellData) : Q :=
  JS.fl (MetricsCalculator.totalTime data / inject_Z (MetricsCalculator.count data)).

(** Severity descending. *)
Definition moreSevere (a b : BottleneckInfo.t) : Prop :=
  BottleneckInfo.severity b <= BottleneckInfo.severity a.

(** One issue that enters status [A] twice, for 10 hours each time, and
    passes through [B] twice and [C] once for an hour each. *)
Definition bouncingIssue : list IssueData.t :=
  [ IssueData.mk "1" "PROJ-1" "Issue 1" (Some "John") (Some 5%Q) "D"
      [ transitionAt "To Do" "A" 0; transitionAt "A" "B" 10;
        transitionAt "B" "A" 11; transitionAt "A" "B" 21;
        transitionAt "B" "C" 22; transitionAt "C" "D" 23 ]
      [] ].

(** What a bottleneck says, its description apart. *)
Definition bottleneckSummary (b : BottleneckInfo.t)
  : string * BottleneckInfo.type_t * list string * Z :=
  (BottleneckInfo.location b, BottleneckInfo.type b, BottleneckInfo.affectedIssues b,
   BottleneckInfo.severity b).

(** ** Work in progress per assignee *)

(** The issue is assigned to [assignee] (an empty name counts as
    unassigned, as [if (issue.assignee)] has it). *)
Definition assignedTo (assignee : string) (issue : IssueData.t) : bool :=
  match IssueData.assignee issue with
  | Some a => String.eqb a assignee && negb (String.eqb a EmptyString)
  | None => false
  end.

(** Issues of [assignee] whose lower-cased status contains [progress] or
    [review]. *)
Definition wipOf (assignee : string) (issues : list IssueData.t) : Z :=
  JS.lenZ (filter (fun issue => RiskAssessor.isWipStatus (IssueData.status issue)
                                && assignedTo assignee issue) issues).

(** Issues of [assignee] whose status matches one of the configured active
    keywords. *)
Definition activeOf (assignee : string) (issues : list IssueData.t) : Z :=
  JS.lenZ (filter (fun issue => MetricsCalculator.isActiveStatus (IssueData.status issue)
                                && assignedTo assignee issue) issues).

Definition isHighWIP (f : RiskFactor.t) : bool :=
  match RiskFactor.category f with RiskFactor.HIGH_WIP => true | _ => false end.

(** The value stored under [k] in a counting map, [0] when absent. *)
Definition countIn (k : string) (m : list (string * Z)) : Z :=
  match find (fun e => String.eqb (fst e) k) m with
  | Some e => snd e
  | None => 0
  end.

(** Five issues of John, all in the status [status]. *)
Definition fiveIssuesIn (status : string) : list IssueData.t :=
  map (fun key => sampleIssue key status (Some "John") None)
      [ "PROJ-1"; "PROJ-2"; "PROJ-3"; "PROJ-4"; "PROJ-5" ].

Definition quietSprint : SprintMetrics.t := SprintMetrics.mk 0 0 0 0 0 0 100.

(** ** Degraded reports *)

(** The shape of the error report: risk level High, exactly one
    recommendation (priority 1, category PROCESS, advising a retry), and all
    sprint and pull-request metrics zero. *)
Definition degraded (r : SprintReport.t) : Prop :=
  SprintReport.level (SprintReport.riskAssessment r) = High
  /\ (exists description,
         SprintReport.recommendations r
         = [ Recommendation.mk 1 Recommendation.PROCESS [ JS.Lit "Retry analysis" ]
                               description ImpactHigh ])
  /\ SprintReport.sprint (SprintReport.metrics r) = SprintMetrics.mk 0 0 0 0 0 0 0
  /\ SprintReport.pullRequests (SprintReport.metrics r) = PRMetrics.mk 0 0 0 0.

(** One of the two issue-tracker requests of [fetchJiraData] is rejected. *)
Definition trackerFails (c : AnalysisOrchestrator.Collaborators) : Prop :=
  (exists e, AnalysisOrchestrator.getSprintData c = AnalysisOrchestrator.Rejected e)
  \/ (exists e, AnalysisOrchestrator.getSprintIssues c = AnalysisOrchestrator.Rejected e).

Definition reportCached (c : AnalysisOrchestrator.Collaborators) : bool :=
  match AnalysisOrchestrator.getReport c with
  | AnalysisOrchestrator.Resolved (Some _) => true
  | _ => false
  end.

Definition dataCached (c : AnalysisOrchestrator.Collaborators) : bool :=
  match AnalysisOrchestrator.getCachedSprintData c,
        AnalysisOrchestrator.getCachedPRData c with
  | AnalysisOrchestrator.Resolved (Some _), AnalysisOrchestrator.Resolved (Some _) => true
  | _, _ => false
  end.

(** The pass is answered from a cache (the report cache or the raw-data
    cache), so that the issue tracker is not asked. *)
Definition servedFromCache (c : AnalysisOrchestrator.Collaborators)
           (forceRefresh : bool) : bool :=
  negb forceRefresh && (reportCached c || dataCached c).

(** Collaborators of a pass in which the issue tracker is unavailable and
    nothing is cached. *)
Definition trackerDown : AnalysisOrchestrator.Collaborators :=
  AnalysisOrchestrator.mkCollaborators
    (AnalysisOrchestrator.Resolved None)
    (AnalysisOrchestrator.Resolved None)
    (AnalysisOrchestrator.Resolved None)
    (AnalysisOrchestrator.Rejected (AnalysisOrchestrator.Error "Jira API unavailable"))
    (AnalysisOrchestrator.Resolved [])
    false
    (AnalysisOrchestrator.Resolved [])
    (fun _ => AnalysisOrchestrator.Resolved None)
    (fun _ => AnalysisOrchestrator.Resolved [])
    (AnalysisOrchestrator.Resolved tt)
    (AnalysisOrchestrator.Resolved tt)
    false
    (AnalysisOrchestrator.Resolved tt)
    (AnalysisOrchestrator.Resolved tt)
    1700000000000.

Definition noSuggestions (_ : SprintMetrics.t) (_ : HistoricalMetrics.t)
           (_ : RiskAssessment.t) (_ : list IssueData.t) (_ : list PullRequestData.t)
  : NextSprintSuggestions.t :=
  NextSprintSuggestions.mk 1 [] [] [].

(** A report assembler that copies its inputs into the report, with an empty
    summary and no findings. *)
Definition plainReport (now : Z) (_ : SprintData.t) (sprintMetrics : SprintMetrics.t)
           (prMetrics : PRMetrics.t) (riskAssessment : RiskAssessment.t)
           (recommendations : list Recommendation.t) (_ : list IssueData.t)
           (_ : list PullRequestData.t) (_ : option (list BottleneckInfo.t))
           (next : option NextSprintSuggestions.t) : SprintReport.t :=
  SprintReport.mk [] []
    (SprintReport.mkRisk (RiskAssessment.level riskAssessment)
                         (RiskAssessment.justification riskAssessment))
    recommendations next (SprintReport.mkMetrics sprintMetrics prMetrics) now.

(** ** Data of the repository's unit tests *)

Definition doneIssue (key assignee : string) (points : Q)
           (transitions : list StatusTransition.t) : IssueData.t :=
  IssueData.mk key key "Issue" (Some assignee) (Some points) "Done" transitions [].

(** Two issues that wait in [Code Review] for 10 and 8 hours, one that
    skips it. *)
Definition reviewBottleneckIssues : list IssueData.t :=
  [ doneIssue "PROJ-1" "John" 5
      [ transitionAt "To Do" "In Progress" 10;
        transitionAt "In Progress" "Code Review" 12;
        transitionAt "Code Review" "Done" 22 ];
    doneIssue "PROJ-2" "Jane" 3
      [ transitionAt "To Do" "In Progress" 34;
        transitionAt "In Progress" "Code Review" 36;
        transitionAt "Code Review" "Done" 44 ];
    doneIssue "PROJ-3" "Bob" 2
      [ transitionAt "To Do" "In Progress" 58;
        transitionAt "In Progress" "Done" 60 ] ].

(** Two merged requests: latencies 8 and 4 hours, first reviews after 2 and
    1 hours, 3 and 1 revisions. *)
Definition mergedPRs : list PullRequestData.t :=
  [ samplePR PullRequestData.MERGED 10 (Some 12) (Some 18) 1 3;
    samplePR PullRequestData.MERGED 20 (Some 21) (Some 24) 1 1 ].

(* ================================================================== *)
(** * Vocabulary of the further properties *)

(** ** Sprint metrics *)

Definition completed (issue : IssueData.t) : bool :=
  MetricsCalculator.isCompletedStatus (IssueData.status issue).

(** Three issues, none of them completed. *)
Definition openIssues : list IssueData.t :=
  [ sampleIssue "ISSUE-1" "In Progress" (Some "user1") (Some 5%Q);
    sampleIssue "ISSUE-2" "To Do" None (Some 13%Q);
    sampleIssue "ISSUE-3" "Code Review" (Some "user2") None ].

Definition timestamps (issue : IssueData.t) : list Z :=
  map StatusTransition.timestamp (IssueData.statusTransitions issue).

(** [calculateLeadTime] on an issue whose transitions [calculateCycleTime]
    has been called on before, as in [calculateSprintMetrics]. *)
Definition leadTimeAfterCycleTime (now : Z) (issue : IssueData.t) : Q :=
  let (_, after) :=
    MetricsCalculator.calculateCycleTime (IssueData.statusTransitions issue) in
  fst (MetricsCalculator.calculateLeadTime now (IssueData.with_transitions issue after)).

(** A completed issue that was reopened once. *)
Definition reopenedIssue : IssueData.t :=
  doneIssue "PROJ-7" "John" 3 reopenedTransitions.

(** ** Dwell-time buckets *)

(** A bucket is well formed for the issue keys [keys]: it has recorded at
    least one interval, and its affected issues are distinct, taken from
    [keys], at least one and no more than the intervals recorded. *)
Definition bucketOk (keys : list string) (data : MetricsCalculator.DwellData) : Prop :=
  1 <= MetricsCalculator.count data
  /\ NoDup (MetricsCalculator.issues data)
  /\ (1 <= List.length (MetricsCalculator.issues data))%nat
  /\ Z.of_nat (List.length (MetricsCalculator.issues data)) <= MetricsCalculator.count data
  /\ incl (MetricsCalculator.issues data) keys.

(** The update [recordDwell] applies to the bucket of the current status. *)
Definition addInterval (issueKey : string) (dwellTime : Q)
           (data : MetricsCalculator.DwellData) : MetricsCalculator.DwellData :=
  MetricsCalculator.mkDwell
    (JS.add (MetricsCalculator.totalTime data) dwellTime)
    (MetricsCalculator.count data + 1)
    (if existsb (String.eqb issueKey) (MetricsCalculator.issues data)
     then MetricsCalculator.issues data
     else MetricsCalculator.issues data ++ [issueKey]).

(** ** Risk factors of a pass *)

Definition categories (factors : list RiskFactor.t) : list RiskFactor.category_t :=
  map RiskFactor.category factors.

(** Severity descending. *)
Definition graver (a b : RiskFactor.t) : Prop :=
  RiskFactor.severity b <= RiskFactor.severity a.

Definition hasCategory (c : RiskFactor.category_t) (factors : list RiskFactor.t) : Prop :=
  exists f, In f factors /\ RiskFactor.category f = c.

(** Open requests on which [reviewer] is a reviewer (a request counts once
    for every reviewer entry carrying the name). *)
Definition openReviewsOf (reviewer : string) (prs : list PullRequestData.t) : Z :=
  JS.lenZ
    (filter (fun r => String.eqb (ReviewerData.username r) reviewer)
            (flat_map PullRequestData.reviewers (filter RiskAssessor.isOpen prs))).

Definition metricsWithRate (rate velocity : Q) : SprintMetrics.t :=
  SprintMetrics.mk 0 0 0 velocity 0 0 rate.

Definition metricsWithWip (wipCount : Z) : SprintMetrics.t :=
  SprintMetrics.mk 0 0 0 0 wipCount 0 100.

Definition baseline (latency : Q) : HistoricalMetrics.t :=
  HistoricalMetrics.mk "0" "Sprint 0" 0 quietSprint (PRMetrics.mk latency 0 0 0).

(** [((ratio - 1) * 100) / 10] on binary64 numbers. *)
Definition tenthOfIncrease (ratio : Q) : Q :=
  JS.fl (JS.fl (JS.fl (ratio - 1) * 100) / 10).

(** [n] open requests, each reviewed by [reviewer]. *)
Definition openRequestsFor (reviewer : string) (n : nat) : list PullRequestData.t :=
  repeat (PullRequestData.mk "1" "PR" "John" 0 None None PullRequestData.OPEN
                             [ ReviewerData.mk reviewer None 0 ] 1 [])
         n.

(** ** Dwell time of one issue *)

Definition firstTimestamp (transitions : list StatusTransition.t) : Z :=
  match transitions with
  | [] => 0
  | t0 :: _ => StatusTransition.timestamp t0
  end.

Definition lastTimestamp (transitions : list StatusTransition.t) : Z :=
  match transitions with
  | [] => 0
  | t0 :: _ => StatusTransition.timestamp (last transitions t0)
  end.

(** The milliseconds between adjacent transitions. *)
Fixpoint intervals (transitions : list StatusTransition.t) : list Z :=
  match transitions with
  | cur :: ((next :: _) as rest) =>
      (StatusTransition.timestamp next - StatusTransition.timestamp cur) :: intervals rest
  | _ => []
  end.

(** No transition is earlier than the one before it. *)
Definition chronological (transitions : list StatusTransition.t) : Prop :=
  Forall (fun d => 0 <= d) (intervals transitions).

(** An issue with the transitions at the given milliseconds. *)
Definition issueAt (status : string) (timestamps : list Z) : IssueData.t :=
  IssueData.mk "7" "PROJ-7" "Issue 7" (Some "John") (Some 1%Q) status
    (map (StatusTransition.mk "To Do" status) timestamps) [].

(** Four transitions over 48 hours, the inner two at odd seconds. *)
Definition unevenIssue : IssueData.t :=
  issueAt "In Progress" [ 0; 138298000; 152068000; 172800000 ].

(** Four transitions whose last timestamp is the first one again. *)
Definition loopingIssue : IssueData.t :=
  issueAt "In Progress" [ 0; 4792; 78297; 0 ].

(** The issue differs from [before] in the order of its transitions at
    most: they are as before, or reversed. *)
Definition sameButOrder (before after : IssueData.t) : Prop :=
  after = before
  \/ after = IssueData.with_transitions before (rev (IssueData.statusTransitions before)).

(** An issue in progress that waited 100 hours in [To Do]. *)
Definition slowIssue (status : string) : IssueData.t :=
  IssueData.mk "9" "PROJ-9" "Issue 9" (Some "John") (Some 1%Q) status
    [ transitionAt "Backlog" "To Do" 0; transitionAt "To Do" status 100 ] [].

(** What a pass over an issue may leave of it: an issue the pass scored is
    the same but for the order of its transitions, any other is untouched. *)
Definition afterScoring (scored : bool) (before after : IssueData.t) : Prop :=
  if scored then sameButOrder before after else after = before.

(** ** Recommendations of one generator *)

(** Some recommendation of [recs] has the impact [impact]. *)
Definition hasImpact (impact : Impact) (recs : list Recommendation.t) : Prop :=
  exists rec, In rec recs /\ Recommendation.impact rec = impact.

(** Some recommendation of [recs] is of the category [category]. *)
Definition hasAdvice (category : Recommendation.category_t)
           (recs : list Recommendation.t) : Prop :=
  exists rec, In rec recs /\ Recommendation.category rec = category.

(** ** Next-sprint suggestions *)

(** The issue is not in a completed status, as the recommendation generator
    reads statuses. *)
Definition unfinished (issue : IssueData.t) : bool :=
  negb (RecommendationGenerator.isCompletedStatus (IssueData.status issue)).

(** An assessment of the given level. *)
Definition assessmentAt (level : RiskLevel) : RiskAssessment.t :=
  RiskAssessment.mk level 0 [] [].

(** A past sprint that delivered [velocity] story points. *)
Definition pastSprint (velocity : Q) : HistoricalMetrics.t :=
  HistoricalMetrics.mk "0" "Sprint 0" 0 (metricsWithRate 100 velocity)
                       (PRMetrics.mk 0 0 0 0).

(** ** Report *)

Definition indicator (b : bool) : nat := if b then 1%nat else 0%nat.

Definition notEmpty {A} (l : list A) : bool :=
  match l with [] => false | _ => true end.

(** Some bottleneck was passed in. *)
Definition hasBottleneck (bottlenecks : option (list BottleneckInfo.t)) : bool :=
  match bottlenecks with Some l => notEmpty l | None => false end.

Definition isSome {A} (o : option A) : bool :=
  match o with Some _ => true | None => false end.

(** The opening words of a text. *)
Definition opening (t : JS.text) : JS.frag := hd (JS.Lit EmptyString) t.

(** The number of issues assigned to [assignee]. *)
Definition assignedCount (assignee : string) (issues : list IssueData.t) : Z :=
  JS.lenZ (filter (assignedTo assignee) issues).

(** [n] issues of [assignee], in progress. *)
Definition issuesOf (assignee : string) (n : nat) : list IssueData.t :=
  repeat (sampleIssue "PROJ-1" "In Progress" (Some assignee) None) n.

(** ** Collaborators of a pass *)

(** The collaborators, with every failure the orchestrator catches replaced
    by the answer it falls back on: no cached report, no pull requests, no
    past sprints, no stored metrics, and stores that succeed. *)
Definition tolerant (c : AnalysisOrchestrator.Collaborators)
  : AnalysisOrchestrator.Collaborators :=
  AnalysisOrchestrator.mkCollaborators
    (AnalysisOrchestrator.catchWith (AnalysisOrchestrator.getReport c) None)
    (AnalysisOrchestrator.getCachedSprintData c)
    (AnalysisOrchestrator.getCachedPRData c)
    (AnalysisOrchestrator.getSprintData c)
    (AnalysisOrchestrator.getSprintIssues c)
    (AnalysisOrchestrator.issuesSettleFirst c)
    (AnalysisOrchestrator.catchWith (AnalysisOrchestrator.getHistoricalSprints c) [])
    (fun sprintId =>
       AnalysisOrchestrator.catchWith (AnalysisOrchestrator.getHistoricalMetric c sprintId)
                                      None)
    (fun issueKeys =>
       AnalysisOrchestrator.catchWith
         (AnalysisOrchestrator.getPullRequestsForSprint c issueKeys) [])
    (AnalysisOrchestrator.cacheSprintData c)
    (AnalysisOrchestrator.cachePRData c)
    (AnalysisOrchestrator.cachePRSettlesFirst c)
    (AnalysisOrchestrator.Resolved tt)
    (AnalysisOrchestrator.Resolved tt)
    (AnalysisOrchestrator.clock c).

(** The collaborators with other answers from the three caches. *)
Definition withCaches
           (report : AnalysisOrchestrator.outcome (option SprintReport.t))
           (sprintData :
              AnalysisOrchestrator.outcome (option (SprintData.t * list IssueData.t)))
           (prData : AnalysisOrchestrator.outcome (option (list PullRequestData.t)))
           (c : AnalysisOrchestrator.Collaborators)
  : AnalysisOrchestrator.Collaborators :=
  AnalysisOrchestrator.mkCollaborators
    report sprintData prData
    (AnalysisOrchestrator.getSprintData c)
    (AnalysisOrchestrator.getSprintIssues c)
    (AnalysisOrchestrator.issuesSettleFirst c)
    (AnalysisOrchestrator.getHistoricalSprints c)
    (AnalysisOrchestrator.getHistoricalMetric c)
    (AnalysisOrchestrator.getPullRequestsForSprint c)
    (AnalysisOrchestrator.cacheSprintData c)
    (AnalysisOrchestrator.cachePRData c)
    (AnalysisOrchestrator.cachePRSettlesFirst c)
    (AnalysisOrchestrator.storeReport c)
    (AnalysisOrchestrator.storeHistoricalMetrics c)
    (AnalysisOrchestrator.clock c).

(** The collaborators with other answers from the issue tracker and the
    pull-request source, and other outcomes of the two cache writes. *)
Definition withSources
           (sprintData : AnalysisOrchestrator.outcome SprintData.t)
           (sprintIssues : AnalysisOrchestrator.outcome (list IssueData.t))
           (pullRequests :
              list string -> AnalysisOrchestrator.outcome (list PullRequestData.t))
           (cacheWrites : AnalysisOrchestrator.outcome unit)
           (c : AnalysisOrchestrator.Collaborators)
  : AnalysisOrchestrator.Collaborators :=
  AnalysisOrchestrator.mkCollaborators
    (AnalysisOrchestrator.getReport c)
    (AnalysisOrchestrator.getCachedSprintData c)
    (AnalysisOrchestrator.getCachedPRData c)
    sprintData sprintIssues
    (AnalysisOrchestrator.issuesSettleFirst c)
    (AnalysisOrchestrator.getHistoricalSprints c)
    (AnalysisOrchestrator.getHistoricalMetric c)
    pullRequests cacheWrites cacheWrites
    (AnalysisOrchestrator.cachePRSettlesFirst c)
    (AnalysisOrchestrator.storeReport c)
    (AnalysisOrchestrator.storeHistoricalMetrics c)
    (AnalysisOrchestrator.clock c).

(** Collaborators of a pass in which everything answers and nothing is
    cached, except that writing the sprint data to the cache fails. *)
Definition cacheWriteFails : AnalysisOrchestrator.Collaborators :=
  AnalysisOrchestrator.mkCollaborators
    (AnalysisOrchestrator.Resolved None)
    (AnalysisOrchestrator.Resolved None)
    (AnalysisOrchestrator.Resolved None)
    (AnalysisOrchestrator.Resolved
       (SprintData.mk "7" "Sprint 7" SprintData.active 0 1209600000 None))
    (AnalysisOrchestrator.Resolved sampleIssues)
    false
    (AnalysisOrchestrator.Resolved [])
    (fun _ => AnalysisOrchestrator.Resolved None)
    (fun _ => AnalysisOrchestrator.Resolved [])
    (AnalysisOrchestrator.Rejected (AnalysisOrchestrator.Error "Storage quota exceeded"))
    (AnalysisOrchestrator.Resolved tt)
    false
    (AnalysisOrchestrator.Resolved tt)
    (AnalysisOrchestrator.Resolved tt)
    1700000000000.

(** Collaborators of a pass whose raw data is cached, the report not. *)
Definition rawDataCached : AnalysisOrchestrator.Collaborators :=
  withCaches
    (AnalysisOrchestrator.Resolved None)
    (AnalysisOrchestrator.Resolved
       (Some (SprintData.mk "7" "Sprint 7" SprintData.active 0 1209600000 None,
              sampleIssues)))
    (AnalysisOrchestrator.Resolved (Some []))
    trackerDown.

(** The orchestrator as its constructor wires it: with the recommendation
    generator's next-sprint suggestions and the report generator. *)
Definition runAnalysis (c : AnalysisOrchestrator.Collaborators) (sprintId : string)
           (boardId : option string) (forceRefresh : bool) : SprintReport.t :=
  AnalysisOrchestrator.analyzeSprint
    (NextSprint.generateNextSprintSuggestions (AnalysisOrchestrator.clock c))
    ReportGenerator.generateReport c sprintId boardId forceRefresh.

(** What the raw-data caches of [rawDataCached] hold. *)
Definition cachedData : AnalysisOrchestrator.Collected :=
  AnalysisOrchestrator.mkCollected
    (SprintData.mk "7" "Sprint 7" SprintData.active 0 1209600000 None)
    sampleIssues [] None.

(** ** Storage *)

(** The metadata key of a key. *)
Definition metaKeyOf (key : string) : string :=
  (StorageService.CACHE_METADATA_PREFIX ++ key)%string.

(** An empty storage that answers. *)
Definition emptyStorage : StorageService.Forge := StorageService.mkForge [] true.

(** What a request answers ([fst]) and the storage it leaves ([snd]). *)
Definition answer {A} (r : AnalysisOrchestrator.outcome A * StorageService.Forge)
  : AnalysisOrchestrator.outcome A := fst r.

Definition storageAfter {A} (r : AnalysisOrchestrator.outcome A * StorageService.Forge)
  : StorageService.Forge := snd r.

(** The answer of a read made [later], for something written at [now] to
    live [ttl] milliseconds. *)
Definition unlessExpired {A} (now ttl later : Z) (a : A) : option A :=
  if later <=? now + ttl then Some a else None.

(** The four families of data keys, by their prefix. *)
Inductive dataKey : string -> Prop :=
| SprintDataKey (id : string) : dataKey (StorageService.SPRINT_DATA_PREFIX ++ id)%string
| PRDataKey (id : string) : dataKey (StorageService.PR_DATA_PREFIX ++ id)%string
| MetricKey (id : string) : dataKey (StorageService.HISTORICAL_METRICS_PREFIX ++ id)%string
| ReportKey (id : string) : dataKey (StorageService.REPORT_PREFIX ++ id)%string.

Definition sprintSeven : SprintData.t :=
  SprintData.mk "7" "Sprint 7" SprintData.active 0 1209600000 None.

(** A storage holding the sprint data of sprint 7 and of sprint 8. *)
Definition sampleStorage : StorageService.Forge :=
  storageAfter
    (StorageService.cacheSprintData
       0 "8" sprintSeven []
       (storageAfter
          (StorageService.cacheSprintData 0 "7" sprintSeven sampleIssues emptyStorage))).

(** ** Pull requests of a sprint *)

(** The first pull request of every id, in order, skipping the ids in
    [seen]. *)
Fixpoint firstById (seen : list string) (prs : list PullRequestData.t)
  : list PullRequestData.t :=
  match prs with
  | [] => []
  | pr :: rest =>
      if existsb (String.eqb (PullRequestData.id pr)) seen then firstById seen rest
      else pr :: firstById (PullRequestData.id pr :: seen) rest
  end.

(** The calls that run: those of every batch up to and including the first
    batch in which some call clears the availability flag. *)
Fixpoint reached (batches : list (list (string * BitbucketDataCollector.issueResult)))
  : list (string * BitbucketDataCollector.issueResult) :=
  match batches with
  | [] => []
  | batch :: rest =>
      batch ++ (if forallb (fun asked => BitbucketDataCollector.stillAvailable (snd asked))
                           batch
                then reached rest else [])
  end.

(** The pull requests the calls in [asked] return, in order. *)
Definition returnedBy (asked : list (string * BitbucketDataCollector.issueResult))
  : list PullRequestData.t :=
  flat_map (fun a => BitbucketDataCollector.pullRequests (snd a)) asked.

(** A pull request with the given id and title. *)
Definition prNamed (id title : string) : PullRequestData.t :=
  PullRequestData.mk id title "John" 0 None None PullRequestData.OPEN [] 0 [].

(** The ids seen once [prs] have been collected. *)
Fixpoint seenAfter (seen : list string) (prs : list PullRequestData.t) : list string :=
  match prs with
  | [] => seen
  | pr :: rest =>
      if existsb (String.eqb (PullRequestData.id pr)) seen then seenAfter seen rest
      else seenAfter (PullRequestData.id pr :: seen) rest
  end.

(** ** Requests to the issue tracker *)

(** The message of the error [makeRequest] raises for a response that is
    not [ok]. *)
Definition httpErrorMessage (r : JiraDataCollector.response) (errorBody : string)
  : string :=
  ("Jira API error: " ++ JiraDataCollector.toString (JiraDataCollector.status r) ++ " "
   ++ JiraDataCollector.statusText r ++ " - " ++ errorBody)%string.

(** A response that is not [ok], with a readable body. *)
Definition httpError (status : Z) (statusText errorBody : string)
  : JiraDataCollector.response :=
  JiraDataCollector.mkResponse status statusText false None
                               (AnalysisOrchestrator.Resolved errorBody).

(** The response tells that the rate limit is hit. *)
Definition rateLimited (reply : JiraDataCollector.reply) : Prop :=
  exists r, reply = JiraDataCollector.Responds r /\ JiraDataCollector.status r = 429.

(** What the three-digit status [s] must render to. *)
Definition rendersAsStatus (s : Z) : bool :=
  match JiraDataCollector.toString s with
  | String a (String b (String c EmptyString)) =>
      JiraDataCollector.isDigit a && JiraDataCollector.isDigit b
      && JiraDataCollector.isDigit c
      && (Z.eqb s 429 || negb (String.eqb (JiraDataCollector.toString s) "429"))
      && (negb ((400 <=? s) && (s <=? 499)) || Ascii.eqb a "4")
  | _ => false
  end.

(** The request is sent once and the error raised, without a wait. *)
Definition thrownAtOnce (error : AnalysisOrchestrator.thrown) : JiraDataCollector.trace :=
  JiraDataCollector.mkTrace (AnalysisOrchestrator.Rejected error) [] 1.

(** The call waited [wait] after its first request and sent another. *)
Definition retriedAfter (wait : Z) (t : JiraDataCollector.trace) : Prop :=
  hd_error (JiraDataCollector.waits t) = Some (Some wait)
  /\ (2 <= JiraDataCollector.requests t)%nat.

(** An issue tracker that answers every request with the same reply. *)
Definition alwaysReplies (reply : JiraDataCollector.reply) : nat -> JiraDataCollector.reply :=
  fun _ => reply.

(* ================================================================== *)
(** * Properties *)

(** ** Binary64 rounding *)

Lemma pow2_pos (e : Z) : (0 < 2 ^ e)%Q.
Proof. apply Qpower_0_lt. reflexivity. Qed.

Lemma pow2_plus (a b : Z) : (2 ^ (a + b) == 2 ^ a * 2 ^ b)%Q.
Proof. apply Qpower_plus. discriminate. Qed.

Lemma pow2_succ (a : Z) : (2 ^ (a + 1) == 2 * 2 ^ a)%Q.
Proof. rewrite pow2_plus. change (2 ^ 1)%Q with 2%Q. ring. Qed.

Lemma pow2_le (a b : Z) : a <= b -> (2 ^ a <= 2 ^ b)%Q.
Proof. intros H. apply Qpower_le_compat_l; [exact H | discriminate]. Qed.

Lemma pow2_lt (a b : Z) : a < b -> (2 ^ a < 2 ^ b)%Q.
Proof. intros H. apply Qpower_lt_compat_l; [exact H | reflexivity]. Qed.

Lemma pow2_inject (n : Z) : 0 <= n -> (inject_Z (2 ^ n) == 2 ^ n)%Q.
Proof. intros H. now rewrite Zpower_Qpower. Qed.

Lemma log2_bounds (n : Z) :
  0 < n -> (2 ^ Z.log2 n <= inject_Z n /\ inject_Z n < 2 ^ (Z.log2 n + 1))%Q.
Proof.
  intros H. destruct (Z.log2_spec n H) as [H1 H2].
  pose proof (Z.log2_nonneg n) as H0.
  split.
  - rewrite <- pow2_inject by exact H0. now rewrite <- Zle_Qle.
  - rewrite <- pow2_inject by lia. rewrite <- Zlt_Qlt.
    now rewrite <- Z.add_1_r in H2.
Qed.

Lemma ilog2_spec (q : Q) :
  (0 < q)%Q -> (2 ^ JS.ilog2 q <= q /\ q < 2 ^ (JS.ilog2 q + 1))%Q.
Proof.
  intros Hq. unfold JS.ilog2.
  destruct q as [a b]. cbn [Qnum Qden].
  assert (Ha : 0 < a) by (unfold Qlt in Hq; simpl in Hq; lia).
  destruct (log2_bounds a Ha) as [Ha1 Ha2].
  destruct (log2_bounds (Zpos b) eq_refl) as [Hb1 Hb2].
  set (la := Z.log2 a) in *. set (lb := Z.log2 (Zpos b)) in *.
  assert (Hqb : ((a # b) * inject_Z (Zpos b) == inject_Z a)%Q).
  { unfold Qeq, Qmult, inject_Z. simpl. lia. }
  set (q := (a # b)%Q) in *.
  assert (Hup : (q < 2 ^ (la - lb + 1))%Q).
  { apply Qmult_lt_r with (z := (2 ^ lb)%Q); [apply pow2_pos|].
    rewrite <- pow2_plus. replace (la - lb + 1 + lb) with (la + 1) by lia.
    apply Qle_lt_trans with (y := (q * inject_Z (Zpos b))%Q).
    - apply Qmult_le_l; [exact Hq | exact Hb1].
    - now rewrite Hqb. }
  assert (Hlow : (2 ^ (la - lb - 1) < q)%Q).
  { apply Qmult_lt_r with (z := inject_Z (Zpos b)); [reflexivity|].
    rewrite Hqb.
    apply Qlt_le_trans with (y := (2 ^ (la - lb - 1) * 2 ^ (lb + 1))%Q).
    - apply Qmult_lt_l; [apply pow2_pos | exact Hb2].
    - rewrite <- pow2_plus. replace (la - lb - 1 + (lb + 1)) with la by lia.
      exact Ha1. }
  destruct (Qle_bool (2 ^ (la - lb)) q) eqn:E.
  - apply Qle_bool_iff in E. split; assumption.
  - split.
    + apply Qlt_le_weak. exact Hlow.
    + replace (la - lb - 1 + 1) with (la - lb) by lia.
      apply Qnot_le_lt. intros H. apply Qle_bool_iff in H. congruence.
Qed.

Lemma ilog2_unique (q : Q) (a : Z) :
  (2 ^ a <= q)%Q -> (q < 2 ^ (a + 1))%Q -> JS.ilog2 q = a.
Proof.
  intros H1 H2.
  assert (Hq : (0 < q)%Q) by (eapply Qlt_le_trans; [apply pow2_pos | exact H1]).
  destruct (ilog2_spec q Hq) as [H3 H4].
  assert (JS.ilog2 q < a + 1).
  { apply Qpower_lt_compat_l_inv with (q := 2%Q); [|reflexivity].
    eapply Qle_lt_trans; eassumption. }
  assert (a < JS.ilog2 q + 1).
  { apply Qpower_lt_compat_l_inv with (q := 2%Q); [|reflexivity].
    eapply Qle_lt_trans; eassumption. }
  lia.
Qed.

Lemma ilog2_comp (x y : Q) : (0 < x)%Q -> (x == y)%Q -> JS.ilog2 x = JS.ilog2 y.
Proof.
  intros Hx Hxy. symmetry. destruct (ilog2_spec x Hx) as [H1 H2].
  apply ilog2_unique; rewrite <- Hxy; assumption.
Qed.

Lemma ilog2_monotone (x y : Q) :
  (0 < x)%Q -> (x <= y)%Q -> JS.ilog2 x <= JS.ilog2 y.
Proof.
  intros Hx Hxy.
  assert (Hy : (0 < y)%Q) by (eapply Qlt_le_trans; eassumption).
  destruct (ilog2_spec x Hx) as [H1 _]. destruct (ilog2_spec y Hy) as [_ H2].
  assert (JS.ilog2 x < JS.ilog2 y + 1); [|lia].
  apply Qpower_lt_compat_l_inv with (q := 2%Q); [|reflexivity].
  eapply Qle_lt_trans; [exact H1|]. eapply Qle_lt_trans; eassumption.
Qed.

(** rne *)

Lemma rne_cases (q : Q) :
  let f := Qfloor q in
  (JS.rne q = f /\ (q - inject_Z f <= 1 # 2)%Q)
  \/ (JS.rne q = f + 1 /\ (1 # 2 <= q - inject_Z f)%Q).
Proof.
  cbv zeta. unfold JS.rne.
  destruct (q - inject_Z (Qfloor q) ?= 1 # 2)%Q eqn:E.
  - apply <- Qeq_alt in E. destruct (Z.even (Qfloor q)); [left | right]; split;
      try reflexivity; rewrite E; apply Qle_refl.
  - apply <- Qlt_alt in E. left. split; [reflexivity | now apply Qlt_le_weak].
  - apply <- Qgt_alt in E. right. split; [reflexivity | now apply Qlt_le_weak].
Qed.

Lemma floor_bounds (q : Q) :
  (inject_Z (Qfloor q) <= q /\ q < inject_Z (Qfloor q) + 1)%Q.
Proof.
  split; [apply Qfloor_le|].
  pose proof (Qlt_floor q) as H. rewrite inject_Z_plus in H. exact H.
Qed.

Lemma rne_error (q : Q) : (Qabs (inject_Z (JS.rne q) - q) <= 1 # 2)%Q.
Proof.
  destruct (floor_bounds q) as [H1 H2].
  apply Qabs_Qle_condition.
  destruct (rne_cases q) as [[-> H]|[-> H]].
  - split; lra.
  - rewrite inject_Z_plus. change (inject_Z 1) with 1%Q. split; lra.
Qed.

Lemma floor_unique (q : Q) (n : Z) :
  (inject_Z n <= q)%Q -> (q < inject_Z n + 1)%Q -> Qfloor q = n.
Proof.
  intros H1 H2. destruct (floor_bounds q) as [H3 H4].
  assert (n < Qfloor q + 1).
  { rewrite Zlt_Qlt, inject_Z_plus. change (inject_Z 1) with 1%Q. lra. }
  assert (Qfloor q < n + 1).
  { rewrite Zlt_Qlt, inject_Z_plus. change (inject_Z 1) with 1%Q. lra. }
  lia.
Qed.

Lemma rne_comp (x y : Q) : (x == y)%Q -> JS.rne x = JS.rne y.
Proof.
  intros H. unfold JS.rne.
  assert (Hf : Qfloor x = Qfloor y) by now apply Qfloor_comp.
  rewrite Hf.
  assert (Hc : (x - inject_Z (Qfloor y) ?= 1 # 2)%Q
               = (y - inject_Z (Qfloor y) ?= 1 # 2)%Q).
  { apply Qcompare_comp; [|reflexivity]. now rewrite H. }
  now rewrite Hc.
Qed.

Lemma rne_Z (n : Z) : JS.rne (inject_Z n) = n.
Proof.
  unfold JS.rne. rewrite Qfloor_Z.
  assert (H : (inject_Z n - inject_Z n ?= 1 # 2)%Q = Lt).
  { apply -> Qlt_alt. lra. }
  now rewrite H.
Qed.

Lemma rne_spec (q : Q) :
  let f := Qfloor q in
  ((q - inject_Z f < 1 # 2)%Q /\ JS.rne q = f)
  \/ ((1 # 2 < q - inject_Z f)%Q /\ JS.rne q = f + 1)
  \/ ((q - inject_Z f == 1 # 2)%Q
      /\ JS.rne q = if Z.even f then f else f + 1).
Proof.
  cbv zeta. unfold JS.rne.
  destruct (q - inject_Z (Qfloor q) ?= 1 # 2)%Q eqn:E.
  - right. right. split; [apply <- Qeq_alt; exact E | reflexivity].
  - left. split; [apply <- Qlt_alt; exact E | reflexivity].
  - right. left. split; [apply <- Qgt_alt; exact E | reflexivity].
Qed.

Lemma rne_monotone (x y : Q) : (x <= y)%Q -> JS.rne x <= JS.rne y.
Proof.
  intros H.
  pose proof (Qfloor_resp_le x y H) as Hf.
  destruct (Z.eq_dec (Qfloor x) (Qfloor y)) as [E|E].
  - pose proof (rne_spec x) as Hx. pose proof (rne_spec y) as Hy.
    cbv zeta in Hx, Hy. rewrite E in Hx.
    destruct Hx as [[Hx ->]|[[Hx ->]|[Hx ->]]];
      destruct Hy as [[Hy ->]|[[Hy ->]|[Hy ->]]];
      try (destruct (Z.even (Qfloor y))); try lia; exfalso; lra.
  - destruct (rne_cases x) as [[-> _]|[-> _]]; destruct (rne_cases y) as [[-> _]|[-> _]];
      lia.
Qed.

Lemma rne_ge (x : Q) (n : Z) : (inject_Z n <= x)%Q -> n <= JS.rne x.
Proof. intros H. rewrite <- (rne_Z n). now apply rne_monotone. Qed.

Lemma rne_le (x : Q) (n : Z) : (x <= inject_Z n)%Q -> JS.rne x <= n.
Proof. intros H. rewrite <- (rne_Z n). now apply rne_monotone. Qed.

(** flpos *)

Lemma flpos_unfold (q : Q) :
  JS.flpos q = (inject_Z (JS.rne (q / 2 ^ JS.ulpExp q)) * 2 ^ JS.ulpExp q)%Q.
Proof. reflexivity. Qed.

Lemma scaled_comp (x : Q) (e : Z) : (x / 2 ^ e * 2 ^ e == x)%Q.
Proof. field. pose proof (pow2_pos e). lra. Qed.

Lemma div_pow2_le (x y : Q) (e : Z) : (x <= y)%Q -> (x / 2 ^ e <= y / 2 ^ e)%Q.
Proof.
  intros H. apply Qmult_le_compat_r; [exact H|].
  apply Qlt_le_weak, Qinv_lt_0_compat, pow2_pos.
Qed.

Lemma div_pow2 (a e : Z) : (2 ^ a / 2 ^ e == 2 ^ (a - e))%Q.
Proof.
  replace a with (a - e + e) at 1 by lia. rewrite pow2_plus. field.
  pose proof (pow2_pos e). lra.
Qed.

Lemma flpos_comp (x y : Q) : (0 < x)%Q -> (x == y)%Q -> (JS.flpos x == JS.flpos y)%Q.
Proof.
  intros Hx Hxy. rewrite !flpos_unfold. unfold JS.ulpExp.
  rewrite (ilog2_comp x y Hx Hxy).
  set (e := JS.ilog2 y - 52).
  rewrite (rne_comp (x / 2 ^ e) (y / 2 ^ e)); [reflexivity|].
  now rewrite Hxy.
Qed.

Lemma flpos_nonneg (x : Q) : (0 < x)%Q -> (0 <= JS.flpos x)%Q.
Proof.
  intros Hx. rewrite flpos_unfold. set (e := JS.ulpExp x).
  apply Qmult_le_0_compat; [|apply Qlt_le_weak, pow2_pos].
  change 0%Q with (inject_Z 0). rewrite <- Zle_Qle. apply rne_ge.
  change (inject_Z 0) with 0%Q.
  apply Qmult_le_0_compat; [now apply Qlt_le_weak|].
  apply Qlt_le_weak, Qinv_lt_0_compat, pow2_pos.
Qed.

Lemma flpos_upper (x : Q) : (0 < x)%Q -> (JS.flpos x <= 2 ^ (JS.ulpExp x + 53))%Q.
Proof.
  intros Hx. rewrite flpos_unfold. set (e := JS.ulpExp x).
  rewrite pow2_plus, (Qmult_comm (2 ^ e)).
  apply Qmult_le_compat_r; [|apply Qlt_le_weak, pow2_pos].
  change (2 ^ 53)%Q with (inject_Z (2 ^ 53)).
  rewrite <- Zle_Qle. apply rne_le.
  change (inject_Z (2 ^ 53)) with (2 ^ 53)%Q.
  destruct (ilog2_spec x Hx) as [_ H].
  apply Qle_trans with (y := (2 ^ (JS.ilog2 x + 1) / 2 ^ e)%Q).
  - apply div_pow2_le. now apply Qlt_le_weak.
  - rewrite div_pow2. apply pow2_le. unfold e, JS.ulpExp. lia.
Qed.

Lemma flpos_lower (x : Q) : (0 < x)%Q -> (2 ^ JS.ilog2 x <= JS.flpos x)%Q.
Proof.
  intros Hx. rewrite flpos_unfold.
  assert (He : JS.ulpExp x = JS.ilog2 x - 52) by (unfold JS.ulpExp; lia).
  rewrite He. set (e := JS.ilog2 x - 52).
  replace (JS.ilog2 x) with (52 + e) at 1 by (unfold e; lia).
  rewrite pow2_plus.
  apply Qmult_le_compat_r; [|apply Qlt_le_weak, pow2_pos].
  change (2 ^ 52)%Q with (inject_Z (2 ^ 52)).
  rewrite <- Zle_Qle. apply rne_ge.
  change (inject_Z (2 ^ 52)) with (2 ^ 52)%Q.
  destruct (ilog2_spec x Hx) as [H _].
  apply Qle_trans with (y := (2 ^ JS.ilog2 x / 2 ^ e)%Q).
  - rewrite div_pow2. apply pow2_le. unfold e. lia.
  - now apply div_pow2_le.
Qed.

Lemma flpos_monotone (x y : Q) :
  (0 < x)%Q -> (x <= y)%Q -> (JS.flpos x <= JS.flpos y)%Q.
Proof.
  intros Hx Hxy.
  assert (Hy : (0 < y)%Q) by (eapply Qlt_le_trans; eassumption).
  pose proof (ilog2_monotone x y Hx Hxy) as Hlog.
  destruct (Z.eq_dec (JS.ulpExp x) (JS.ulpExp y)) as [E|E].
  - rewrite !flpos_unfold, E. set (e := JS.ulpExp y).
    apply Qmult_le_compat_r; [|apply Qlt_le_weak, pow2_pos].
    rewrite <- Zle_Qle. apply rne_monotone. now apply div_pow2_le.
  - assert (Hlt : JS.ulpExp x < JS.ulpExp y) by (unfold JS.ulpExp in *; lia).
    apply Qle_trans with (y := (2 ^ (JS.ulpExp x + 53))%Q); [now apply flpos_upper|].
    apply Qle_trans with (y := (2 ^ JS.ilog2 y)%Q).
    + apply pow2_le. unfold JS.ulpExp in *. lia.
    + apply flpos_lower. exact Hy.
Qed.

Lemma ilog2_lt (x : Q) (a : Z) : (0 < x)%Q -> (x < 2 ^ a)%Q -> JS.ilog2 x < a.
Proof.
  intros Hx H. destruct (ilog2_spec x Hx) as [H1 _].
  apply Qpower_lt_compat_l_inv with (q := 2%Q); [|reflexivity].
  eapply Qle_lt_trans; eassumption.
Qed.

Lemma ilog2_ge (x : Q) (a : Z) : (2 ^ a <= x)%Q -> a <= JS.ilog2 x.
Proof.
  intros H.
  assert (Hx : (0 < x)%Q) by (eapply Qlt_le_trans; [apply pow2_pos | exact H]).
  destruct (ilog2_spec x Hx) as [_ H2].
  assert (a < JS.ilog2 x + 1); [|lia].
  apply Qpower_lt_compat_l_inv with (q := 2%Q); [|reflexivity].
  eapply Qle_lt_trans; eassumption.
Qed.

(** A binary64 number: [m * 2^e] with [|m| < 2^53] and [e >= -1074]. *)
Lemma flpos_exact (x : Q) (m e : Z) :
  0 < m < 2 ^ 53 -> (x == inject_Z m * 2 ^ e)%Q -> (JS.flpos x == x)%Q.
Proof.
  intros Hm Hx.
  assert (Hpos : (0 < x)%Q).
  { rewrite Hx. apply Qmult_lt_0_compat; [|apply pow2_pos].
    change 0%Q with (inject_Z 0). rewrite <- Zlt_Qlt. lia. }
  assert (Hlog : JS.ilog2 x < e + 53).
  { apply ilog2_lt; [exact Hpos|]. rewrite Hx, pow2_plus, (Qmult_comm (2 ^ e)).
    apply Qmult_lt_compat_r; [apply pow2_pos|].
    change (2 ^ 53)%Q with (inject_Z (2 ^ 53)). rewrite <- Zlt_Qlt. lia. }
  rewrite flpos_unfold.
  assert (Hle : JS.ulpExp x <= e) by (unfold JS.ulpExp; lia).
  set (u := JS.ulpExp x) in *.
  assert (Hint : (x / 2 ^ u == inject_Z (m * 2 ^ (e - u)))%Q).
  { rewrite inject_Z_mult, pow2_inject by lia. rewrite Hx.
    unfold Qdiv. rewrite <- Qmult_assoc.
    apply Qmult_comp; [reflexivity|]. apply div_pow2. }
  rewrite (rne_comp _ _ Hint), rne_Z, <- Hint. apply scaled_comp.
Qed.

(** fl *)

Lemma fl_pos (x : Q) : (0 < x)%Q -> (JS.fl x == JS.flpos x)%Q.
Proof.
  intros H. unfold JS.fl. destruct x as [[|p|p] d]; try (now inversion H).
  cbn [Qnum]. apply Qred_correct.
Qed.

Lemma fl_neg (x : Q) : (x < 0)%Q -> (JS.fl x == - JS.flpos (- x))%Q.
Proof.
  intros H. unfold JS.fl. destruct x as [[|p|p] d]; try (now inversion H).
  cbn [Qnum]. apply Qred_correct.
Qed.

Lemma fl_zero (x : Q) : (x == 0)%Q -> JS.fl x = 0%Q.
Proof.
  intros H. unfold JS.fl. destruct x as [[|p|p] d]; try reflexivity;
    unfold Qeq in H; simpl in H; lia.
Qed.

Lemma fl_comp (x y : Q) : (x == y)%Q -> JS.fl x = JS.fl y.
Proof.
  intros H.
  destruct (Q_dec x 0) as [[Hx|Hx]|Hx].
  - assert (Hy : (y < 0)%Q) by now rewrite <- H.
    unfold JS.fl. destruct x as [[|p|p] d]; try (now inversion Hx).
    destruct y as [[|q|q] c]; try (now inversion Hy).
    cbn [Qnum]. apply Qred_complete. apply Qopp_comp.
    apply flpos_comp; [|now rewrite H]. reflexivity.
  - assert (Hy : (0 < y)%Q) by now rewrite <- H.
    unfold JS.fl. destruct x as [[|p|p] d]; try (now inversion Hx).
    destruct y as [[|q|q] c]; try (now inversion Hy).
    cbn [Qnum]. apply Qred_complete. now apply flpos_comp.
  - rewrite (fl_zero x Hx). symmetry. apply fl_zero. now rewrite <- H.
Qed.

#[global] Instance fl_Proper : Proper (Qeq ==> Qeq) JS.fl.
Proof. intros x y H. now rewrite (fl_comp x y H). Qed.

Lemma fl_opp (x : Q) : (JS.fl (- x) == - JS.fl x)%Q.
Proof.
  destruct (Q_dec x 0) as [[Hx|Hx]|Hx].
  - rewrite fl_pos by lra. rewrite (fl_neg x Hx). ring.
  - rewrite fl_neg by lra. rewrite (fl_pos x Hx).
    assert (H : (- - x == x)%Q) by ring.
    rewrite (flpos_comp (- - x) x); [reflexivity | lra | exact H].
  - rewrite (fl_zero x Hx), (fl_zero (- x)) by lra. reflexivity.
Qed.

Lemma fl_nonneg (x : Q) : (0 <= x)%Q -> (0 <= JS.fl x)%Q.
Proof.
  intros H. destruct (Qle_lt_or_eq _ _ H) as [Hx|Hx].
  - rewrite fl_pos by exact Hx. now apply flpos_nonneg.
  - rewrite (fl_zero x) by (now symmetry). apply Qle_refl.
Qed.

Lemma fl_nonpos (x : Q) : (x <= 0)%Q -> (JS.fl x <= 0)%Q.
Proof.
  intros H. assert (H' : (0 <= JS.fl (- x))%Q) by (apply fl_nonneg; lra).
  rewrite fl_opp in H'. lra.
Qed.

Lemma fl_monotone (x y : Q) : (x <= y)%Q -> (JS.fl x <= JS.fl y)%Q.
Proof.
  intros H.
  destruct (Qlt_le_dec 0 x) as [Hx|Hx].
  - rewrite (fl_pos x Hx), (fl_pos y) by lra. now apply flpos_monotone.
  - destruct (Qlt_le_dec 0 y) as [Hy|Hy].
    + apply Qle_trans with (y := 0%Q); [now apply fl_nonpos | apply fl_nonneg; lra].
    + destruct (Qle_lt_or_eq _ _ Hy) as [Hy'|Hy'].
      * assert (Hx' : (x < 0)%Q) by lra.
        rewrite (fl_neg x Hx'), (fl_neg y Hy').
        apply Qopp_le_compat. apply flpos_monotone; lra.
      * rewrite (fl_zero y Hy'). now apply fl_nonpos.
Qed.

Lemma fl_exact (x : Q) (m e : Z) :
  Z.abs m < 2 ^ 53 -> (x == inject_Z m * 2 ^ e)%Q -> (JS.fl x == x)%Q.
Proof.
  intros Hm Hx. pose proof (pow2_pos e) as Hp.
  destruct (Z.lt_trichotomy m 0) as [Hneg|[Hzero|Hpos]].
  - assert (Hx' : (x < 0)%Q).
    { rewrite Hx. setoid_replace 0%Q with (0 * 2 ^ e)%Q by ring.
      apply Qmult_lt_compat_r; [exact Hp|].
      change 0%Q with (inject_Z 0). rewrite <- Zlt_Qlt. exact Hneg. }
    rewrite (fl_neg x Hx').
    rewrite (flpos_exact (- x) (- m) e); [ring | lia |].
    rewrite Hx, inject_Z_opp. ring.
  - subst m. rewrite (fl_zero x); [|rewrite Hx; simpl; ring].
    rewrite Hx. simpl. ring.
  - assert (Hx' : (0 < x)%Q).
    { rewrite Hx. apply Qmult_lt_0_compat; [|exact Hp].
      change 0%Q with (inject_Z 0). rewrite <- Zlt_Qlt. exact Hpos. }
    rewrite (fl_pos x Hx'). apply (flpos_exact x m e); [lia | exact Hx].
Qed.

Lemma fl_Z (n : Z) : Z.abs n <= 2 ^ 53 -> (JS.fl (inject_Z n) == inject_Z n)%Q.
Proof.
  intros H.
  destruct (Z.eq_dec (Z.abs n) (2 ^ 53)) as [E|E].
  - apply (fl_exact _ (n / 2) 1).
    + assert (n = 2 ^ 53 \/ n = - 2 ^ 53) as [-> | ->] by lia; reflexivity.
    + assert (n = 2 ^ 53 \/ n = - 2 ^ 53) as [-> | ->] by lia; reflexivity.
  - apply (fl_exact _ n 0); [lia|]. change (2 ^ 0)%Q with 1%Q. ring.
Qed.

(** The relative error of one rounding is at most [2^-53] in the normal
    range. *)
Lemma flpos_error (x : Q) :
  (0 < x)%Q -> (Qabs (JS.flpos x - x) <= x * (1 # 9007199254740992))%Q.
Proof.
  intros Hx.
  destruct (ilog2_spec x Hx) as [H1 _].
  rewrite flpos_unfold. unfold JS.ulpExp. set (e := JS.ilog2 x - 52) in *.
  pose proof (pow2_pos e) as Hp.
  pose proof (rne_error (x / 2 ^ e)) as Hr.
  set (r := inject_Z (JS.rne (x / 2 ^ e))) in *.
  assert (Hd : (r * 2 ^ e - x == (r - x / 2 ^ e) * 2 ^ e)%Q).
  { field. lra. }
  rewrite Hd, Qabs_Qmult, (Qabs_pos (2 ^ e)) by lra.
  apply Qle_trans with (y := ((1 # 2) * 2 ^ e)%Q).
  - apply Qmult_le_compat_r; [exact Hr | lra].
  - assert (Hs : (2 ^ JS.ilog2 x == 2 ^ 53 * ((1 # 2) * 2 ^ e))%Q).
    { replace (JS.ilog2 x) with (52 + e) by (unfold e; lia).
      rewrite pow2_plus. change (2 ^ 53)%Q with (2 * 2 ^ 52)%Q. field. }
    rewrite Hs in H1.
    change (2 ^ 53)%Q with (inject_Z (2 ^ 53)) in H1.
    set (h := ((1 # 2) * 2 ^ e)%Q) in *.
    assert (Hq : (x * (1 # 9007199254740992) == x / inject_Z (2 ^ 53))%Q) by reflexivity.
    rewrite Hq. apply Qle_shift_div_l; [reflexivity|].
    rewrite Qmult_comm. exact H1.
Qed.

Lemma fl_error (x : Q) : (Qabs (JS.fl x - x) <= Qabs x * (1 # 9007199254740992))%Q.
Proof.
  destruct (Q_dec x 0) as [[Hx|Hx]|Hx].
  - rewrite (Qabs_neg x) by lra.
    rewrite (fl_neg x Hx).
    setoid_replace (- JS.flpos (- x) - x)%Q with (- (JS.flpos (- x) - - x))%Q by ring.
    rewrite Qabs_opp. apply flpos_error. lra.
  - rewrite (Qabs_pos x) by lra.
    rewrite (fl_pos x Hx). now apply flpos_error.
  - rewrite (fl_zero x Hx), Hx. discriminate.
Qed.

(** The significand of a rounded positive rational. *)
Lemma significand_bounds (x : Q) :
  (0 < x)%Q -> 2 ^ 52 <= JS.rne (x / 2 ^ JS.ulpExp x) <= 2 ^ 53.
Proof.
  intros Hx. destruct (ilog2_spec x Hx) as [H1 H2].
  set (e := JS.ulpExp x).
  assert (He : JS.ilog2 x = 52 + e) by (unfold e, JS.ulpExp; lia).
  split.
  - apply rne_ge. change (inject_Z (2 ^ 52)) with (2 ^ 52)%Q.
    apply Qle_trans with (y := (2 ^ JS.ilog2 x / 2 ^ e)%Q).
    + rewrite div_pow2. apply pow2_le. lia.
    + now apply div_pow2_le.
  - apply rne_le. change (inject_Z (2 ^ 53)) with (2 ^ 53)%Q.
    apply Qle_trans with (y := (2 ^ (JS.ilog2 x + 1) / 2 ^ e)%Q).
    + apply div_pow2_le. now apply Qlt_le_weak.
    + rewrite div_pow2. apply pow2_le. lia.
Qed.

(** What [fl] returns is a binary64 number: a significand below [2^53]
    times a power of two. *)
Lemma flpos_representable (x : Q) :
  (0 < x)%Q ->
  exists m e, 0 < m < 2 ^ 53 /\ (JS.flpos x == inject_Z m * 2 ^ e)%Q.
Proof.
  intros Hx. pose proof (significand_bounds x Hx) as [Hlo Hhi].
  rewrite flpos_unfold. set (r := JS.rne _) in *. set (e := JS.ulpExp x).
  destruct (Z.eq_dec r (2 ^ 53)) as [E|E].
  - exists (2 ^ 52), (e + 1). split; [lia|].
    rewrite E, pow2_succ. change (inject_Z (2 ^ 53)) with (2 * inject_Z (2 ^ 52))%Q.
    ring.
  - exists r, e. split; [lia | reflexivity].
Qed.

Lemma fl_representable (x : Q) :
  exists m e, Z.abs m < 2 ^ 53 /\ (JS.fl x == inject_Z m * 2 ^ e)%Q.
Proof.
  destruct (Q_dec x 0) as [[Hx|Hx]|Hx].
  - assert (Hx' : (0 < - x)%Q) by lra.
    destruct (flpos_representable (- x) Hx') as [m [e [Hm H]]].
    exists (- m), e. split; [lia|].
    rewrite (fl_neg x Hx), H, inject_Z_opp. ring.
  - destruct (flpos_representable x Hx) as [m [e [Hm H]]].
    exists m, e. split; [lia|]. now rewrite (fl_pos x Hx).
  - exists 0, 0. split; [lia|]. rewrite (fl_zero x Hx). reflexivity.
Qed.

Lemma fl_fl (x : Q) : (JS.fl (JS.fl x) == JS.fl x)%Q.
Proof.
  destruct (fl_representable x) as [m [e [Hm H]]].
  now apply (fl_exact _ m e).
Qed.

(** [rne] is a nearest integer. *)
Lemma rne_nearest (y : Q) (n : Z) :
  (Qabs (inject_Z (JS.rne y) - y) <= Qabs (inject_Z n - y))%Q.
Proof.
  destruct (floor_bounds y) as [H1 H2].
  set (f := Qfloor y) in *.
  assert (Hn : (inject_Z n <= inject_Z f \/ inject_Z f + 1 <= inject_Z n)%Q).
  { destruct (Z_le_gt_dec n f) as [H|H].
    - left. now rewrite <- Zle_Qle.
    - right. change 1%Q with (inject_Z 1). rewrite <- inject_Z_plus, <- Zle_Qle. lia. }
  pose proof (rne_spec y) as Hs. cbv zeta in Hs. fold f in Hs.
  assert (Hcases : (inject_Z (JS.rne y) == inject_Z f /\ y - inject_Z f <= 1 # 2
                    \/ inject_Z (JS.rne y) == inject_Z f + 1 /\ 1 # 2 <= y - inject_Z f)%Q).
  { destruct Hs as [[Hs ->]|[[Hs ->]|[Hs ->]]].
    - left. split; [reflexivity | lra].
    - right. rewrite inject_Z_plus. split; [reflexivity | lra].
    - destruct (Z.even f); [left | right; rewrite inject_Z_plus];
        (split; [reflexivity | lra]). }
  set (r := inject_Z (JS.rne y)) in *. set (qf := inject_Z f) in *.
  set (qn := inject_Z n) in *. clearbody r qf qn.
  apply Qabs_Qle_condition.
  destruct Hn as [Hn|Hn].
  - rewrite (Qabs_neg (qn - y)) by lra.
    destruct Hcases as [[-> Hc]|[-> Hc]]; split; lra.
  - rewrite (Qabs_pos (qn - y)) by lra.
    destruct Hcases as [[-> Hc]|[-> Hc]]; split; lra.
Qed.

(** No binary64 number is nearer to [x] than [fl x]. *)
Lemma flpos_nearest (x : Q) (m e : Z) :
  (0 < x)%Q -> Z.abs m < 2 ^ 53 ->
  (Qabs (JS.flpos x - x) <= Qabs (inject_Z m * 2 ^ e - x))%Q.
Proof.
  intros Hx Hm.
  pose proof (significand_bounds x Hx) as [Hlo Hhi].
  destruct (ilog2_spec x Hx) as [H1 _].
  rewrite flpos_unfold. set (u := JS.ulpExp x) in *.
  assert (Hu : JS.ilog2 x = 52 + u) by (unfold u, JS.ulpExp; lia).
  pose proof (pow2_pos u) as Hp.
  set (y := (x / 2 ^ u)%Q) in *.
  assert (Hy : (x == y * 2 ^ u)%Q) by (unfold y; now rewrite scaled_comp).
  set (r := JS.rne y) in *.
  assert (Hscale : forall a : Q,
             (Qabs (a * 2 ^ u - x) == Qabs (a - y) * 2 ^ u)%Q).
  { intros a. rewrite Hy.
    setoid_replace (a * 2 ^ u - y * 2 ^ u)%Q with ((a - y) * 2 ^ u)%Q by ring.
    rewrite Qabs_Qmult, (Qabs_pos (2 ^ u)) by lra. reflexivity. }
  destruct (Z_le_gt_dec u e) as [Hue|Hue].
  - (* the candidate is a multiple of the unit in the last place *)
    assert (Hd : (inject_Z m * 2 ^ e == inject_Z (m * 2 ^ (e - u)) * 2 ^ u)%Q).
    { rewrite inject_Z_mult, pow2_inject by lia.
      rewrite <- Qmult_assoc, <- pow2_plus.
      replace (e - u + u) with e by lia. reflexivity. }
    rewrite Hd, !Hscale.
    apply Qmult_le_compat_r; [apply rne_nearest | lra].
  - (* the candidate lies below the binade of [x] *)
    assert (Hbelow : (inject_Z m * 2 ^ e <= 2 ^ 52 * 2 ^ u)%Q).
    { apply Qle_trans with (y := (2 ^ 53 * 2 ^ e)%Q).
      - apply Qmult_le_compat_r; [|apply Qlt_le_weak, pow2_pos].
        change (2 ^ 53)%Q with (inject_Z (2 ^ 53)). rewrite <- Zle_Qle. lia.
      - rewrite <- !pow2_plus. apply pow2_le. lia. }
    assert (Hx52 : (2 ^ 52 * 2 ^ u <= x)%Q) by (rewrite <- pow2_plus, <- Hu; exact H1).
    rewrite (Qabs_neg (inject_Z m * 2 ^ e - x)) by lra.
    apply Qle_trans with (y := (x - 2 ^ 52 * 2 ^ u)%Q); [|lra].
    rewrite Hscale.
    apply Qle_trans with (y := (Qabs (inject_Z (2 ^ 52) - y) * 2 ^ u)%Q).
    + apply Qmult_le_compat_r; [apply rne_nearest | lra].
    + change (inject_Z (2 ^ 52)) with (2 ^ 52)%Q.
      rewrite <- Hscale. rewrite Qabs_neg by lra. lra.
Qed.

Lemma fl_nearest (x : Q) (m e : Z) :
  Z.abs m < 2 ^ 53 ->
  (Qabs (JS.fl x - x) <= Qabs (inject_Z m * 2 ^ e - x))%Q.
Proof.
  intros Hm.
  destruct (Q_dec x 0) as [[Hx|Hx]|Hx].
  - rewrite (fl_neg x Hx).
    setoid_replace (- JS.flpos (- x) - x)%Q with (- (JS.flpos (- x) - - x))%Q by ring.
    setoid_replace (inject_Z m * 2 ^ e - x)%Q
      with (- (inject_Z (- m) * 2 ^ e - - x))%Q by (rewrite inject_Z_opp; ring).
    rewrite !Qabs_opp. apply flpos_nearest; [lra | lia].
  - rewrite (fl_pos x Hx). now apply flpos_nearest.
  - rewrite (fl_zero x Hx), Hx.
    setoid_replace (0 - 0)%Q with 0%Q by ring. apply Qabs_nonneg.
Qed.

(** Two binary64 numbers are at least one unit in the last place of the
    smaller one apart: a relative distance of more than [2^-53]. *)
Lemma representable_multiple (x : Q) :
  (0 < x)%Q -> (JS.fl x == x)%Q ->
  (x == inject_Z (JS.rne (x / 2 ^ JS.ulpExp x)) * 2 ^ JS.ulpExp x)%Q.
Proof.
  intros Hx H. rewrite <- flpos_unfold, <- (fl_pos x Hx). now symmetry.
Qed.

Lemma spacing (t d : Q) :
  (0 < t)%Q -> (JS.fl t == t)%Q -> (JS.fl d == d)%Q -> (t < d)%Q ->
  (t * (1 + (1 # 9007199254740992)) < d)%Q.
Proof.
  intros Ht Hft Hfd Hlt.
  assert (Hd : (0 < d)%Q) by lra.
  pose proof (representable_multiple t Ht Hft) as Et.
  pose proof (representable_multiple d Hd Hfd) as Ed.
  pose proof (ilog2_monotone t d Ht (Qlt_le_weak _ _ Hlt)) as Hlog.
  destruct (ilog2_spec t Ht) as [_ Hup].
  set (et := JS.ulpExp t) in *. set (ed := JS.ulpExp d) in *.
  set (kt := JS.rne (t / 2 ^ et)) in *. set (kd := JS.rne (d / 2 ^ ed)) in *.
  assert (Hle : et <= ed) by (unfold et, ed, JS.ulpExp; lia).
  pose proof (pow2_pos et) as Hp.
  assert (Ed' : (d == inject_Z (kd * 2 ^ (ed - et)) * 2 ^ et)%Q).
  { rewrite Ed, inject_Z_mult, pow2_inject by lia.
    rewrite <- Qmult_assoc, <- pow2_plus.
    replace (ed - et + et) with ed by lia. reflexivity. }
  set (k := kd * 2 ^ (ed - et)) in *.
  assert (Hk : kt < k).
  { rewrite Zlt_Qlt. apply Qmult_lt_r with (z := (2 ^ et)%Q); [exact Hp|].
    now rewrite <- Et, <- Ed'. }
  assert (Hstep : (t + 2 ^ et <= d)%Q).
  { rewrite Et at 1. rewrite Ed'.
    setoid_replace (inject_Z kt * 2 ^ et + 2 ^ et)%Q
      with (inject_Z (kt + 1) * 2 ^ et)%Q
      by (rewrite inject_Z_plus; change (inject_Z 1) with 1%Q; ring).
    apply Qmult_le_compat_r; [|lra]. rewrite <- Zle_Qle. lia. }
  assert (Hulp : (t * (1 # 9007199254740992) < 2 ^ et)%Q).
  { assert (Hq : (t * (1 # 9007199254740992) == t / inject_Z (2 ^ 53))%Q) by reflexivity.
    rewrite Hq. apply Qlt_shift_div_r; [reflexivity|].
    change (inject_Z (2 ^ 53)) with (2 ^ 53)%Q. rewrite <- pow2_plus.
    replace (et + 53) with (JS.ilog2 t + 1) by (unfold et, JS.ulpExp; lia).
    exact Hup. }
  lra.
Qed.

Lemma fl_le_Z (x : Q) (n : Z) :
  Z.abs n <= 2 ^ 53 -> (x <= inject_Z n)%Q -> (JS.fl x <= inject_Z n)%Q.
Proof.
  intros Hn H. apply Qle_trans with (y := JS.fl (inject_Z n)).
  - now apply fl_monotone.
  - rewrite (fl_Z n Hn). apply Qle_refl.
Qed.

Lemma fl_ge_Z (x : Q) (n : Z) :
  Z.abs n <= 2 ^ 53 -> (inject_Z n <= x)%Q -> (inject_Z n <= JS.fl x)%Q.
Proof.
  intros Hn H. apply Qle_trans with (y := JS.fl (inject_Z n)).
  - rewrite (fl_Z n Hn). apply Qle_refl.
  - now apply fl_monotone.
Qed.

(** Hours: the milliseconds and the quotient by 3600000 are rounded in
    turn, hence the result is the exact quotient up to two roundings; up to
    [2^53] milliseconds are not rounded, and whole hours are exact. *)
Lemma hours_rounded (ms : Z) :
  JS.hours ms = JS.fl (JS.fl (inject_Z ms) / 3600000).
Proof. reflexivity. Qed.

Lemma hours_small (ms : Z) :
  Z.abs ms <= 9007199254740992 -> JS.hours ms = JS.fl (inject_Z ms / 3600000).
Proof.
  intros H. rewrite hours_rounded. apply fl_comp.
  rewrite (fl_Z ms H). reflexivity.
Qed.

Lemma twice_rounded (m : Q) :
  (Qabs (JS.fl (JS.fl m / 3600000) - m / 3600000)
   <= Qabs (m / 3600000) * roundings 2)%Q.
Proof.
  pose proof (fl_error m) as H1.
  pose proof (fl_error (JS.fl m / 3600000)) as H2.
  assert (Habs : forall x : Q, (Qabs (x / 3600000) == Qabs x / 3600000)%Q).
  { intros x. unfold Qdiv. rewrite Qabs_Qmult. reflexivity. }
  rewrite Habs in H2 |- *.
  pose proof (Qabs_nonneg m) as HM.
  assert (Ha : (Qabs (JS.fl m) <= Qabs m + Qabs m * (1 # 9007199254740992))%Q).
  { setoid_replace (JS.fl m) with (m + (JS.fl m - m))%Q at 1 by ring.
    eapply Qle_trans; [apply Qabs_triangle|]. lra. }
  apply Qabs_Qle_condition in H1.
  set (f := JS.fl (JS.fl m / 3600000)) in *.
  set (a := JS.fl m) in *. set (A := Qabs a) in *. set (M := Qabs m) in *.
  assert (H2' : (Qabs (f - a / 3600000)
                 <= (M + M * (1 # 9007199254740992)) / 3600000
                    * (1 # 9007199254740992))%Q).
  { eapply Qle_trans; [exact H2|].
    apply Qmult_le_compat_r; [|discriminate].
    apply Qmult_le_compat_r; [exact Ha | discriminate]. }
  apply Qabs_Qle_condition in H2'.
  cbn [roundings].
  clearbody f a A M.
  apply Qabs_Qle_condition.
  unfold Qdiv in *. change (/ 3600000)%Q with (1 # 3600000)%Q in *.
  split; lra.
Qed.

Lemma hours_error (ms : Z) :
  (Qabs (JS.hours ms - inject_Z ms / 3600000)
   <= Qabs (inject_Z ms / 3600000) * roundings 2)%Q.
Proof. rewrite hours_rounded. apply twice_rounded. Qed.

Lemma hours_whole (h : Z) :
  Z.abs (h * 3600000) <= 9007199254740992 ->
  (JS.hours (h * 3600000) == inject_Z h)%Q.
Proof.
  intros H. rewrite (hours_small _ H).
  assert (Hq : (inject_Z (h * 3600000) / 3600000 == inject_Z h)%Q).
  { rewrite inject_Z_mult. change (inject_Z 3600000) with 3600000%Q. field. }
  rewrite (fl_comp _ _ Hq). apply fl_Z. lia.
Qed.

Lemma hours_measured (ms : Z) :
  JS.hours ms = JS.fl (JS.fl (inject_Z ms) / 3600000)
  /\ (Qabs (JS.hours ms - inject_Z ms / 3600000)
      <= Qabs (inject_Z ms / 3600000) * roundings 2)%Q
  /\ (Z.abs ms <= 9007199254740992 ->
      JS.hours ms = JS.fl (inject_Z ms / 3600000)
      /\ (Qabs (JS.hours ms - inject_Z ms / 3600000)
          <= Qabs (inject_Z ms / 3600000) * (1 # 9007199254740992))%Q
      /\ (forall h, ms = h * 3600000 -> (JS.hours ms == inject_Z h)%Q)).
Proof.
  split; [apply hours_rounded|]. split; [apply hours_error|].
  intros Hsmall. split; [now apply hours_small|].
  split; [rewrite (hours_small ms Hsmall); apply fl_error|].
  intros h Hh. subst ms. now apply hours_whole.
Qed.

Lemma hours_nonneg (ms : Z) : 0 <= ms -> (0 <= JS.hours ms)%Q.
Proof.
  intros H. rewrite hours_rounded. apply fl_nonneg.
  apply Qle_shift_div_l; [reflexivity|]. rewrite Qmult_0_l.
  apply fl_nonneg. change 0%Q with (inject_Z 0). now rewrite <- Zle_Qle.
Qed.

Lemma hours_nonpositive (ms : Z) : ms <= 0 -> (JS.hours ms <= 0)%Q.
Proof.
  intros H. rewrite hours_rounded. apply fl_nonpos.
  apply Qle_shift_div_r; [reflexivity|]. rewrite Qmult_0_l.
  apply fl_nonpos. change 0%Q with (inject_Z 0). now rewrite <- Zle_Qle.
Qed.

(** ** Sums and means of binary64 numbers *)

Lemma roundings_nonneg (n : nat) : (0 <= roundings n)%Q.
Proof.
  induction n as [|k IH]; [apply Qle_refl|]. cbn [roundings].
  set (r := roundings k) in *. clearbody r.
  assert (H : (0 <= r * (1 + (1 # 9007199254740992)))%Q)
    by (apply Qmult_le_0_compat; [exact IH | discriminate]).
  lra.
Qed.

(** [(1 + 2^-53)^n - 1 <= n * 2^-52] for every [n] up to [2^52]. *)
Lemma roundings_bound (n : nat) :
  Z.of_nat n <= 4503599627370496 ->
  (roundings n <= inject_Z (Z.of_nat n) * (1 # 4503599627370496))%Q.
Proof.
  induction n as [|k IH]; intros Hn.
  - cbn [roundings]. change (inject_Z (Z.of_nat 0)) with 0%Q. lra.
  - cbn [roundings]. specialize (IH ltac:(lia)).
    rewrite Nat2Z.inj_succ, <- Z.add_1_r, inject_Z_plus.
    change (inject_Z 1) with 1%Q.
    assert (Hk : (inject_Z (Z.of_nat k) <= 4503599627370496)%Q)
      by (change 4503599627370496%Q with (inject_Z 4503599627370496);
          rewrite <- Zle_Qle; lia).
    assert (Hk0 : (0 <= inject_Z (Z.of_nat k))%Q)
      by (change 0%Q with (inject_Z 0); rewrite <- Zle_Qle; lia).
    pose proof (roundings_nonneg k) as Hr.
    set (r := roundings k) in *. set (K := inject_Z (Z.of_nat k)) in *.
    clearbody r K. lra.
Qed.

Lemma total_abs_nonneg (l : list Q) : (0 <= total (map Qabs l))%Q.
Proof.
  induction l as [|x r IH]; [apply Qle_refl|]. cbn [map total].
  pose proof (Qabs_nonneg x). lra.
Qed.

Lemma total_abs (l : list Q) : (Qabs (total l) <= total (map Qabs l))%Q.
Proof.
  induction l as [|x r IH]; [discriminate|]. cbn [map total].
  eapply Qle_trans; [apply Qabs_triangle|]. lra.
Qed.

(** One more rounded addition: the invariant of the running sum. *)
Lemma running_step (a S A x : Q) (m : nat) :
  (Qabs (a - S) <= roundings m * A)%Q -> (Qabs S <= A)%Q ->
  (Qabs (JS.fl (a + x) - (S + x)) <= roundings (Datatypes.S m) * (A + Qabs x))%Q
  /\ (Qabs (S + x) <= A + Qabs x)%Q.
Proof.
  intros Ha HS.
  pose proof (roundings_nonneg m) as Hr.
  pose proof (Qabs_nonneg x) as Hx0. pose proof (Qabs_nonneg S) as HS0.
  assert (HA : (0 <= A)%Q) by lra.
  pose proof (fl_error (a + x)) as He.
  pose proof (Qle_Qabs x) as Hx1.
  assert (Hx2 : (- x <= Qabs x)%Q) by (rewrite <- Qabs_opp; apply Qle_Qabs).
  split.
  - cbn [roundings].
    set (R := roundings m) in *.
    assert (HP : (0 <= R * A)%Q) by now apply Qmult_le_0_compat.
    assert (HX : (0 <= R * Qabs x)%Q) by now apply Qmult_le_0_compat.
    setoid_replace ((R * (1 + (1 # 9007199254740992)) + (1 # 9007199254740992))
                    * (A + Qabs x))%Q
      with (R * A * (1 + (1 # 9007199254740992))
            + R * Qabs x * (1 + (1 # 9007199254740992))
            + (1 # 9007199254740992) * A + (1 # 9007199254740992) * Qabs x)%Q by ring.
    apply Qabs_Qle_condition in Ha. apply Qabs_Qle_condition in HS.
    assert (Hax : (Qabs (a + x) <= A + R * A + Qabs x)%Q).
    { apply Qabs_Qle_condition. split; lra. }
    assert (He' : (Qabs (JS.fl (a + x) - (a + x))
                   <= (A + R * A + Qabs x) * (1 # 9007199254740992))%Q).
    { eapply Qle_trans; [exact He|]. apply Qmult_le_compat_r; [exact Hax | discriminate]. }
    apply Qabs_Qle_condition in He'.
    set (f := JS.fl (a + x)) in *. set (P := (R * A)%Q) in *.
    set (X := (R * Qabs x)%Q) in *. set (ax := Qabs x) in *.
    clearbody f P X ax R.
    apply Qabs_Qle_condition. split; lra.
  - apply Qabs_Qle_condition in HS. apply Qabs_Qle_condition. split; lra.
Qed.

Lemma running_error (l : list Q) (a S A : Q) (m : nat) :
  (Qabs (a - S) <= roundings m * A)%Q -> (Qabs S <= A)%Q ->
  (Qabs (fold_left (fun sum x => JS.fl (sum + x)) l a - (S + total l))
   <= roundings (m + List.length l) * (A + total (map Qabs l)))%Q.
Proof.
  revert a S A m. induction l as [|x r IH]; intros a S A m Ha HS.
  - cbn [fold_left total map List.length]. rewrite Nat.add_0_r.
    setoid_replace (S + 0)%Q with S by ring.
    setoid_replace (A + 0)%Q with A by ring. exact Ha.
  - cbn [fold_left total map List.length].
    destruct (running_step a S A x m Ha HS) as [H1 H2].
    specialize (IH (JS.fl (a + x)) (S + x)%Q (A + Qabs x)%Q (Datatypes.S m) H1 H2).
    rewrite Nat.add_succ_r.
    setoid_replace (S + (x + total r))%Q with (S + x + total r)%Q by ring.
    setoid_replace (A + (Qabs x + total (map Qabs r)))%Q
      with (A + Qabs x + total (map Qabs r))%Q by ring.
    exact IH.
Qed.

(** The running sum of [n] numbers is their sum up to [n] roundings. *)
Lemma runningSum_error (l : list Q) :
  (Qabs (runningSum l - total l) <= roundings (List.length l) * total (map Qabs l))%Q.
Proof.
  pose proof (running_error l 0 0 0 0) as H.
  cbn [roundings Nat.add] in H.
  setoid_replace (0 + total l)%Q with (total l) in H by ring.
  setoid_replace (0 + total (map Qabs l))%Q with (total (map Qabs l)) in H by ring.
  apply H; discriminate.
Qed.

Lemma length_pos_Q {A} (x : A) (l : list A) :
  (0 < inject_Z (Z.of_nat (List.length (x :: l))))%Q.
Proof.
  change 0%Q with (inject_Z 0). rewrite <- Zlt_Qlt. cbn [List.length]. lia.
Qed.

(** The computed mean of [n] numbers is their mean up to [n + 1]
    roundings. *)
Lemma computedMean_error (l : list Q) :
  (Qabs (computedMean l - mean l)
   <= roundings (S (List.length l)) * mean (map Qabs l))%Q.
Proof.
  destruct l as [|x r] eqn:E; [discriminate|]. rewrite <- E.
  assert (Hn : (0 < inject_Z (Z.of_nat (List.length l)))%Q)
    by (rewrite E; apply length_pos_Q).
  unfold computedMean, mean. rewrite E. cbn [map]. rewrite <- E.
  change (Qabs x :: map Qabs r) with (map Qabs (x :: r)). rewrite <- E.
  rewrite length_map.
  set (n := inject_Z (Z.of_nat (List.length l))) in *.
  pose proof (runningSum_error l) as Hs.
  pose proof (total_abs l) as Ht. pose proof (total_abs_nonneg l) as Ht0.
  pose proof (roundings_nonneg (List.length l)) as Hr.
  pose proof (fl_error (runningSum l / n)) as He.
  cbn [roundings].
  set (R := roundings (List.length l)) in *.
  set (s := runningSum l) in *. set (T := total l) in *.
  set (A := total (map Qabs l)) in *.
  assert (HP : (0 <= R * A)%Q) by now apply Qmult_le_0_compat.
  apply Qabs_Qle_condition in Hs. apply Qabs_Qle_condition in Ht.
  assert (Hsn : (Qabs (s / n) <= (A + R * A) / n)%Q).
  { unfold Qdiv. rewrite Qabs_Qmult, (Qabs_pos (Qinv n))
      by (apply Qlt_le_weak, Qinv_lt_0_compat, Hn).
    apply Qmult_le_compat_r; [|apply Qlt_le_weak, Qinv_lt_0_compat, Hn].
    apply Qabs_Qle_condition. split; lra. }
  assert (He' : (Qabs (JS.fl (s / n) - s / n)
                 <= (A + R * A) / n * (1 # 9007199254740992))%Q).
  { eapply Qle_trans; [exact He|]. apply Qmult_le_compat_r; [exact Hsn | discriminate]. }
  apply Qabs_Qle_condition in He'.
  assert (Hdiv : forall p q : Q, (p <= q)%Q -> (p / n <= q / n)%Q).
  { intros p q H. apply Qmult_le_compat_r; [exact H|].
    apply Qlt_le_weak, Qinv_lt_0_compat, Hn. }
  pose proof (Hdiv _ _ (proj1 Hs)) as Hs1. pose proof (Hdiv _ _ (proj2 Hs)) as Hs2.
  setoid_replace ((R * (1 + (1 # 9007199254740992)) + (1 # 9007199254740992)) * (A / n))%Q
    with (R * A / n * (1 + (1 # 9007199254740992)) + (1 # 9007199254740992) * (A / n))%Q
    by (field; lra).
  setoid_replace ((A + R * A) / n)%Q with (A / n + R * A / n)%Q in He' by (field; lra).
  setoid_replace ((s - T) / n)%Q with (s / n - T / n)%Q in Hs1 by (field; lra).
  setoid_replace ((s - T) / n)%Q with (s / n - T / n)%Q in Hs2 by (field; lra).
  setoid_replace (- (R * A) / n)%Q with (- (R * A / n))%Q in Hs1 by (field; lra).
  assert (HAn : (0 <= A / n)%Q)
    by (apply Qle_shift_div_l; [exact Hn | rewrite Qmult_0_l; exact Ht0]).
  assert (HPn : (0 <= R * A / n)%Q)
    by (apply Qle_shift_div_l; [exact Hn | rewrite Qmult_0_l; exact HP]).
  set (f := JS.fl (s / n)) in *. set (sn := (s / n)%Q) in *. set (Tn := (T / n)%Q) in *.
  set (An := (A / n)%Q) in *. set (Pn := (R * A / n)%Q) in *.
  clearbody f sn Tn An Pn.
  apply Qabs_Qle_condition. split; lra.
Qed.

Lemma computedMean_nonempty (l : list Q) :
  l <> [] ->
  computedMean l = JS.fl (runningSum l / inject_Z (Z.of_nat (List.length l))).
Proof. destruct l; [congruence | reflexivity]. Qed.

(** Sums of numbers of one sign keep it. *)
Lemma running_nonneg (l : list Q) (a : Q) :
  (0 <= a)%Q -> Forall (fun x => (0 <= x)%Q) l ->
  (0 <= fold_left (fun sum x => JS.fl (sum + x)) l a)%Q.
Proof.
  intros Ha Hl. revert a Ha. induction Hl as [|x r Hx _ IH]; intros a Ha; [exact Ha|].
  cbn [fold_left]. apply IH. apply fl_nonneg. lra.
Qed.

Lemma running_nonpos (l : list Q) (a : Q) :
  (a <= 0)%Q -> Forall (fun x => (x <= 0)%Q) l ->
  (fold_left (fun sum x => JS.fl (sum + x)) l a <= 0)%Q.
Proof.
  intros Ha Hl. revert a Ha. induction Hl as [|x r Hx _ IH]; intros a Ha; [exact Ha|].
  cbn [fold_left]. apply IH. apply fl_nonpos. lra.
Qed.

Lemma computedMean_nonneg (l : list Q) :
  Forall (fun x => (0 <= x)%Q) l -> (0 <= computedMean l)%Q.
Proof.
  intros H. unfold computedMean. destruct l as [|x r] eqn:E; [apply Qle_refl|].
  rewrite <- E in *. apply fl_nonneg. apply Qle_shift_div_l.
  - rewrite E. apply length_pos_Q.
  - rewrite Qmult_0_l. apply running_nonneg; [apply Qle_refl | exact H].
Qed.

Lemma computedMean_nonpos (l : list Q) :
  Forall (fun x => (x <= 0)%Q) l -> (computedMean l <= 0)%Q.
Proof.
  intros H. unfold computedMean. destruct l as [|x r] eqn:E; [apply Qle_refl|].
  rewrite <- E in *. apply fl_nonpos. apply Qle_shift_div_r.
  - rewrite E. apply length_pos_Q.
  - rewrite Qmult_0_l. apply running_nonpos; [apply Qle_refl | exact H].
Qed.

(** Hours against the exact quotients. *)
Lemma inHours_error (ms : Z) :
  (Qabs (inHours ms - exactHours ms) <= Qabs (exactHours ms) * roundings 2)%Q.
Proof. apply twice_rounded. Qed.

Lemma inHours_small (ms : Z) :
  Z.abs ms <= 9007199254740992 -> inHours ms = JS.fl (exactHours ms).
Proof. apply hours_small. Qed.

Lemma total_hours_error (l : list Z) :
  (Qabs (total (map inHours l) - total (map exactHours l))
   <= roundings 2 * total (map Qabs (map exactHours l)))%Q
  /\ (total (map Qabs (map inHours l))
      <= (1 + roundings 2) * total (map Qabs (map exactHours l)))%Q.
Proof.
  induction l as [|ms r [IH1 IH2]]; [split; discriminate|].
  cbn [map total].
  pose proof (inHours_error ms) as He.
  cbn [roundings] in He, IH1, IH2 |- *.
  set (x := inHours ms) in *. set (y := exactHours ms) in *.
  set (tx := total (map inHours r)) in *.
  set (ty := total (map exactHours r)) in *.
  set (ax := total (map Qabs (map inHours r))) in *.
  set (ay := total (map Qabs (map exactHours r))) in *.
  pose proof (Qabs_nonneg y) as Hy0.
  assert (Hxy : (Qabs x
                 <= Qabs y
                    + Qabs y * ((0 * (1 + (1 # 9007199254740992)) + (1 # 9007199254740992))
                                * (1 + (1 # 9007199254740992))
                                + (1 # 9007199254740992)))%Q).
  { setoid_replace x with (y + (x - y))%Q at 1 by ring.
    eapply Qle_trans; [apply Qabs_triangle|]. lra. }
  apply Qabs_Qle_condition in He. apply Qabs_Qle_condition in IH1.
  set (qy := Qabs y) in *. set (qx := Qabs x) in *.
  clearbody x y tx ty ax ay qx qy.
  split; [apply Qabs_Qle_condition; split; lra | lra].
Qed.

(** The computed mean of [n] durations in hours is the mean of the exact
    quotients up to [n + 3] roundings. *)
Lemma mean_hours_error (l : list Z) :
  (Qabs (computedMean (map inHours l) - mean (map exactHours l))
   <= roundings (S (S (S (List.length l)))) * mean (map Qabs (map exactHours l)))%Q.
Proof.
  destruct l as [|ms r] eqn:E; [discriminate|]. rewrite <- E.
  assert (Hn : (0 < inject_Z (Z.of_nat (List.length l)))%Q)
    by (rewrite E; apply length_pos_Q).
  pose proof (computedMean_error (map inHours l)) as Hc.
  destruct (total_hours_error l) as [Ht Ha].
  pose proof (roundings_nonneg (S (List.length l))) as Hr.
  pose proof (total_abs_nonneg (map exactHours l)) as Hy0.
  rewrite length_map in Hc.
  assert (Hmean : forall k : list Q, List.length k = List.length l ->
             (mean k == total k / inject_Z (Z.of_nat (List.length l)))%Q).
  { intros k Hk. unfold mean. destruct k as [|k0 kr]; [rewrite E in Hk; discriminate|].
    now rewrite Hk. }
  rewrite (Hmean (map Qabs (map inHours l))) in Hc by (now rewrite !length_map).
  rewrite (Hmean (map inHours l)) in Hc by (now rewrite length_map).
  rewrite (Hmean (map exactHours l)) by (now rewrite length_map).
  rewrite (Hmean (map Qabs (map exactHours l))) by (now rewrite !length_map).
  cbn [roundings] in Hr, Hc, Ht, Ha |- *.
  set (n := inject_Z (Z.of_nat (List.length l))) in *.
  set (R := roundings (List.length l)) in *.
  set (R1 := (R * (1 + (1 # 9007199254740992)) + (1 # 9007199254740992))%Q) in *.
  set (d := ((0 * (1 + (1 # 9007199254740992)) + (1 # 9007199254740992))
             * (1 + (1 # 9007199254740992)) + (1 # 9007199254740992))%Q) in *.
  set (tx := total (map inHours l)) in *. set (ty := total (map exactHours l)) in *.
  set (ax := total (map Qabs (map inHours l))) in *.
  set (ay := total (map Qabs (map exactHours l))) in *.
  set (c := computedMean (map inHours l)) in *.
  assert (Hdiv : forall p q : Q, (p <= q)%Q -> (p / n <= q / n)%Q).
  { intros p q H. apply Qmult_le_compat_r; [exact H|].
    apply Qlt_le_weak, Qinv_lt_0_compat, Hn. }
  apply Qabs_Qle_condition in Ht. destruct Ht as [Ht1 Ht2].
  apply Hdiv in Ht1. apply Hdiv in Ht2. apply Hdiv in Ha.
  assert (Hc' : (Qabs (c - tx / n) <= R1 * ((1 + d) * ay / n))%Q).
  { eapply Qle_trans; [exact Hc|]. rewrite !(Qmult_comm R1).
    apply Qmult_le_compat_r; [exact Ha | exact Hr]. }
  apply Qabs_Qle_condition in Hc'.
  setoid_replace ((tx - ty) / n)%Q with (tx / n - ty / n)%Q in Ht1 by (field; lra).
  setoid_replace ((tx - ty) / n)%Q with (tx / n - ty / n)%Q in Ht2 by (field; lra).
  setoid_replace (- (d * ay) / n)%Q with (- (d * (ay / n)))%Q in Ht1 by (field; lra).
  setoid_replace (d * ay / n)%Q with (d * (ay / n))%Q in Ht2 by (field; lra).
  setoid_replace (R1 * ((1 + d) * ay / n))%Q
    with (R1 * (ay / n) * (1 + d))%Q in Hc' by (field; lra).
  setoid_replace (((R1 * (1 + (1 # 9007199254740992)) + (1 # 9007199254740992))
                   * (1 + (1 # 9007199254740992)) + (1 # 9007199254740992))
                  * (ay / n))%Q
    with (R1 * (ay / n) * (1 + d) + d * (ay / n))%Q by (unfold d; ring).
  set (P := (R1 * (ay / n))%Q) in *. set (txn := (tx / n)%Q) in *.
  set (tyn := (ty / n)%Q) in *. set (ayn := (ay / n)%Q) in *.
  unfold d in *.
  clearbody P txn tyn ayn c.
  apply Qabs_Qle_condition. split; lra.
Qed.


(** ** The stable sort *)

Section SortFacts.
Context {A : Type} (le : A -> A -> bool).

Lemma insert_perm (x : A) (l : list A) : Permutation (JS.insert le x l) (x :: l).
Proof.
  induction l as [|y r IH]; simpl.
  - apply Permutation_refl.
  - destruct (le x y).
    + apply Permutation_refl.
    + apply Permutation_trans with (y :: x :: r).
      * now apply perm_skip.
      * apply perm_swap.
Qed.

Lemma sort_perm (l : list A) : Permutation (JS.sort le l) l.
Proof.
  induction l as [|x r IH]; simpl.
  - apply perm_nil.
  - apply Permutation_trans with (x :: JS.sort le r).
    + apply insert_perm.
    + now apply perm_skip.
Qed.

Lemma sort_length (l : list A) : List.length (JS.sort le l) = List.length l.
Proof. apply Permutation_length, sort_perm. Qed.

Lemma sort_In (l : list A) (x : A) : In x (JS.sort le l) <-> In x l.
Proof.
  split; apply Permutation_in; [apply sort_perm | apply Permutation_sym, sort_perm].
Qed.

(** The comparator is consistent: any two elements are ordered one way or
    the other, transitively. *)
Hypothesis le_total : forall a b, le a b = true \/ le b a = true.
Hypothesis le_trans : forall a b c, le a b = true -> le b c = true -> le a c = true.

Let leP (a b : A) : Prop := le a b = true.

Lemma insert_sorted (x : A) (l : list A) :
  StronglySorted leP l -> StronglySorted leP (JS.insert le x l).
Proof.
  induction 1 as [|y r Hr IH Hy]; simpl.
  - constructor; constructor.
  - destruct (le x y) eqn:Exy.
    + constructor.
      * now constructor.
      * constructor; [exact Exy|].
        eapply Forall_impl; [|exact Hy].
        intros z Hz. now apply le_trans with y.
    + constructor; [exact IH|].
      assert (Hyx : leP y x) by (destruct (le_total x y); [congruence|assumption]).
      apply (Permutation_Forall (Permutation_sym (insert_perm x r))).
      now constructor.
Qed.

Lemma sort_sorted (l : list A) : StronglySorted leP (JS.sort le l).
Proof.
  induction l as [|x r IH]; simpl.
  - constructor.
  - now apply insert_sorted.
Qed.

End SortFacts.

(** ** Lists *)

Lemma find_none_iff {A} (f : A -> bool) (l : list A) :
  find f l = None <-> Forall (fun x => f x = false) l.
Proof.
  induction l as [|x r IH]; simpl.
  - split; [constructor | reflexivity].
  - destruct (f x) eqn:E.
    + split; [discriminate|]. inversion 1; congruence.
    + rewrite IH. split; [now constructor | now inversion 1].
Qed.

(** The first element satisfying [f]. *)
Lemma find_first {A} (f : A -> bool) (pre post : list A) (x : A) :
  Forall (fun y => f y = false) pre -> f x = true ->
  find f (pre ++ x :: post) = Some x.
Proof.
  induction 1 as [|y r Hy _ IH]; simpl; intros Hx.
  - now rewrite Hx.
  - rewrite Hy. now apply IH.
Qed.

(** The last element satisfying [f] is the one a search of the reversed list
    finds. *)
Lemma find_rev_last {A} (f : A -> bool) (pre post : list A) (x : A) :
  Forall (fun y => f y = false) post -> f x = true ->
  find f (rev (pre ++ x :: post)) = Some x.
Proof.
  intros Hpost Hx.
  rewrite rev_app_distr. simpl. rewrite <- app_assoc. simpl.
  apply find_first; [|exact Hx].
  apply Forall_forall. intros y Hy. apply In_rev in Hy.
  rewrite Forall_forall in Hpost. now apply Hpost.
Qed.

(* ================================================================== *)
(** ** MetricsCalculator: cycle time *)

(** C9.  For every transition list, [calculateCycleTime] returns the hours
    from the first transition whose target status is active to the last
    transition whose target status is completed: the milliseconds between
    the two (a number, rounded when beyond [2^53]) divided by 3600000 in a
    binary64 division, hence the exact quotient up to two roundings of
    relative size [2^-53].  When the two are at most [2^53] milliseconds
    (some 285 000 years) apart, it is the exact quotient rounded once, and
    the very number of hours when they are whole hours apart.  It returns
    exactly [0] when no transition targets an active status, and also when
    no transition targets a completed status. *)
Theorem calculateCycleTime_first_active_to_last_completed
        (transitions : list StatusTransition.t) :
  (forall pre s post pre' e post',
      transitions = pre ++ s :: post ->
      Forall (fun t => targetsActive t = false) pre -> targetsActive s = true ->
      transitions = pre' ++ e :: post' ->
      Forall (fun t => targetsCompleted t = false) post' -> targetsCompleted e = true ->
      let ms := StatusTransition.timestamp e - StatusTransition.timestamp s in
      let cycleTime := fst (MetricsCalculator.calculateCycleTime transitions) in
      cycleTime = JS.fl (JS.fl (inject_Z ms) / 3600000)
      /\ (Qabs (cycleTime - inject_Z ms / 3600000)
          <= Qabs (inject_Z ms / 3600000) * roundings 2)%Q
      /\ (Z.abs ms <= 9007199254740992 ->
          cycleTime = JS.fl (inject_Z ms / 3600000)
          /\ (Qabs (cycleTime - inject_Z ms / 3600000)
              <= Qabs (inject_Z ms / 3600000) * (1 # 9007199254740992))%Q
          /\ (forall h, ms = h * 3600000 -> (cycleTime == inject_Z h)%Q)))
  /\ (Forall (fun t => targetsActive t = false) transitions ->
      fst (MetricsCalculator.calculateCycleTime transitions) = 0%Q)
  /\ (Forall (fun t => targetsCompleted t = false) transitions ->
      fst (MetricsCalculator.calculateCycleTime transitions) = 0%Q).
Proof.
  unfold MetricsCalculator.calculateCycleTime.
  fold targetsActive. fold targetsCompleted.
  split; [|split].
  - intros pre s post pre' e post' Hs Hpre Hact He Hpost Hdone.
    assert (Hend : find targetsCompleted (rev transitions) = Some e)
      by (rewrite He; now apply find_rev_last).
    assert (Hstart : find targetsActive transitions = Some s)
      by (rewrite Hs; now apply find_first).
    rewrite Hend, Hstart. cbn [fst]. cbv zeta.
    apply hours_measured.
  - intros Hnone. apply find_none_iff in Hnone. rewrite Hnone. reflexivity.
  - intros Hnone.
    assert (Hrev : find targetsCompleted (rev transitions) = None).
    { apply find_none_iff. apply Forall_forall. intros t Ht.
      apply In_rev in Ht. rewrite Forall_forall in Hnone. now apply Hnone. }
    rewrite Hrev. now destruct (find targetsActive transitions).
Qed.

Lemma calculateCycleTime_samples :
  (fst (MetricsCalculator.calculateCycleTime sampleTransitions) == 8)%Q
  /\ fst (MetricsCalculator.calculateCycleTime neverActive) = 0%Q
  /\ fst (MetricsCalculator.calculateCycleTime neverCompleted) = 0%Q.
Proof.
  split; [|split].
  - destruct (proj1 (calculateCycleTime_first_active_to_last_completed sampleTransitions)
                [] (transitionAt "To Do" "In Progress" 10)
                [ transitionAt "In Progress" "Code Review" 14;
                  transitionAt "Code Review" "Done" 18 ]
                [ transitionAt "To Do" "In Progress" 10;
                  transitionAt "In Progress" "Code Review" 14 ]
                (transitionAt "Code Review" "Done" 18) []
                eq_refl (Forall_nil _) eq_refl eq_refl (Forall_nil _) eq_refl)
      as [_ [_ Hsmall]].
    destruct Hsmall as [_ [_ Hwhole]]; [vm_compute; discriminate|].
    apply (Hwhole 8). reflexivity.
  - apply (proj1 (proj2 (calculateCycleTime_first_active_to_last_completed neverActive))).
    repeat constructor.
  - apply (proj2 (proj2 (calculateCycleTime_first_active_to_last_completed neverCompleted))).
    repeat constructor.
Defined.

(** A cycle time of half a second: [500 / 3600000] is not a binary64
    number, and the result is the one nearest to it. *)
Example calculateCycleTime_half_a_second :
  fst (MetricsCalculator.calculateCycleTime
         [ StatusTransition.mk "To Do" "In Progress" 1000;
           StatusTransition.mk "In Progress" "Done" 1500 ])
  = (5124095576030431 # 36893488147419103232)%Q.
Proof. vm_compute. reflexivity. Qed.

Lemma calculateCycleTime_array_after (transitions : list StatusTransition.t) :
  snd (MetricsCalculator.calculateCycleTime transitions) = rev transitions.
Proof.
  unfold MetricsCalculator.calculateCycleTime.
  destruct (find _ transitions); [|reflexivity].
  now destruct (find _ (rev transitions)).
Qed.

Lemma read_write_same (store : MetricsCalculator.Arrays) (a : nat)
      (v : list StatusTransition.t) :
  (a < List.length store)%nat ->
  MetricsCalculator.readArray (MetricsCalculator.writeArray store a v) a = v.
Proof.
  unfold MetricsCalculator.readArray.
  revert a. induction store as [|x r IH]; intros a Ha; simpl in *; [lia|].
  destruct a as [|a']; [reflexivity|]. simpl. apply IH. lia.
Qed.

Lemma read_write_other (store : MetricsCalculator.Arrays) (a b : nat)
      (v : list StatusTransition.t) :
  b <> a ->
  MetricsCalculator.readArray (MetricsCalculator.writeArray store a v) b
  = MetricsCalculator.readArray store b.
Proof.
  unfold MetricsCalculator.readArray.
  revert a b. induction store as [|x r IH]; intros a b Hab; simpl.
  - reflexivity.
  - destruct a as [|a'], b as [|b']; simpl; try reflexivity; try congruence.
    apply IH. congruence.
Qed.

Lemma write_write (store : MetricsCalculator.Arrays) (a : nat)
      (v w : list StatusTransition.t) :
  MetricsCalculator.writeArray (MetricsCalculator.writeArray store a v) a w
  = MetricsCalculator.writeArray store a w.
Proof.
  revert a. induction store as [|x r IH]; intros a; simpl; [reflexivity|].
  destruct a as [|a']; simpl; [reflexivity|]. now rewrite IH.
Qed.

Lemma write_read (store : MetricsCalculator.Arrays) (a : nat) :
  MetricsCalculator.writeArray store a (MetricsCalculator.readArray store a) = store.
Proof.
  unfold MetricsCalculator.readArray.
  revert a. induction store as [|x r IH]; intros a; simpl; [reflexivity|].
  destruct a as [|a']; simpl; [reflexivity|]. now rewrite IH.
Qed.

(** C10.  [calculateCycleTime] is not read-only on its argument: for every
    transition list with at least one transition into an active status, the
    caller's array holds the same elements in reversed order after the call
    (and no other array changes); a second call on the same array therefore
    works on the reversed list, also when it is reached through another
    issue object holding the same array, and [calculateAverageCycleTime]
    leaves every issue it was given with its transitions reversed. *)
Theorem calculateCycleTime_reverses_its_argument
        (transitions : list StatusTransition.t) :
  existsb targetsActive transitions = true ->
  snd (MetricsCalculator.calculateCycleTime transitions) = rev transitions
  /\ Permutation (snd (MetricsCalculator.calculateCycleTime transitions)) transitions
  /\ calculateCycleTimeTwice transitions
     = (fst (MetricsCalculator.calculateCycleTime transitions),
        fst (MetricsCalculator.calculateCycleTime (rev transitions)),
        transitions)
  /\ (forall (store : MetricsCalculator.Arrays) (a : nat),
         (a < List.length store)%nat ->
         MetricsCalculator.readArray store a = transitions ->
         let after := snd (MetricsCalculator.calculateCycleTimeIn store a) in
         MetricsCalculator.readArray after a = rev transitions
         /\ (forall b, b <> a ->
                       MetricsCalculator.readArray after b
                       = MetricsCalculator.readArray store b)
         /\ MetricsCalculator.cycleTimesIn store [a; a]
            = ([ fst (MetricsCalculator.calculateCycleTime transitions);
                 fst (MetricsCalculator.calculateCycleTime (rev transitions)) ],
               store))
  /\ (forall issues : list IssueData.t,
         map IssueData.statusTransitions
             (snd (MetricsCalculator.calculateAverageCycleTime issues))
         = map (fun issue => rev (IssueData.statusTransitions issue)) issues).
Proof.
  intros _.
  split; [apply calculateCycleTime_array_after|].
  split.
  { rewrite calculateCycleTime_array_after. apply Permutation_sym, Permutation_rev. }
  split.
  { unfold calculateCycleTimeTwice.
    rewrite (surjective_pairing (MetricsCalculator.calculateCycleTime transitions)).
    rewrite calculateCycleTime_array_after.
    rewrite (surjective_pairing (MetricsCalculator.calculateCycleTime (rev transitions))).
    rewrite calculateCycleTime_array_after, rev_involutive. reflexivity. }
  split.
  { intros store a Ha Hread. cbv zeta.
    assert (Hcall : MetricsCalculator.calculateCycleTimeIn store a
                    = (fst (MetricsCalculator.calculateCycleTime transitions),
                       MetricsCalculator.writeArray store a (rev transitions))).
    { unfold MetricsCalculator.calculateCycleTimeIn. rewrite Hread.
      rewrite (surjective_pairing (MetricsCalculator.calculateCycleTime transitions)).
      now rewrite calculateCycleTime_array_after. }
    rewrite Hcall. cbn [snd].
    split; [now apply read_write_same|].
    split; [intros b Hb; now apply read_write_other|].
    cbn [MetricsCalculator.cycleTimesIn]. rewrite Hcall.
    unfold MetricsCalculator.calculateCycleTimeIn at 1.
    rewrite read_write_same by exact Ha.
    rewrite (surjective_pairing (MetricsCalculator.calculateCycleTime (rev transitions))).
    rewrite calculateCycleTime_array_after, rev_involutive, write_write.
    rewrite <- Hread, write_read. reflexivity. }
  intros issues. unfold MetricsCalculator.calculateAverageCycleTime.
  destruct issues as [|i0 r]; [reflexivity|].
  cbv beta iota zeta. unfold snd at 1.
  rewrite !map_map. apply map_ext. intros issue.
  rewrite (surjective_pairing
             (MetricsCalculator.calculateCycleTime (IssueData.statusTransitions issue))).
  simpl. apply calculateCycleTime_array_after.
Qed.

Lemma calculateCycleTime_reverses_sample :
  snd (MetricsCalculator.calculateCycleTime sampleTransitions) = rev sampleTransitions.
Proof.
  apply (calculateCycleTime_reverses_its_argument sampleTransitions).
  reflexivity.
Defined.

(** A second call on the same array can return a different cycle time: the
    reopened issue measures 20 hours first and -2 hours afterwards. *)
Example calculateCycleTime_twice_differs :
  let '(first, second, _) := calculateCycleTimeTwice reopenedTransitions in
  (first == 20)%Q /\ (second == -2)%Q.
Proof. vm_compute. split; reflexivity. Qed.

Lemma calculateAverageCycleTime_issues_after (issues : list IssueData.t) :
  snd (MetricsCalculator.calculateAverageCycleTime issues)
  = map (fun issue =>
           IssueData.with_transitions issue (rev (IssueData.statusTransitions issue)))
        issues.
Proof.
  destruct issues as [|i0 r]; [reflexivity|].
  unfold MetricsCalculator.calculateAverageCycleTime.
  cbv beta iota zeta. unfold snd at 1. rewrite map_map. apply map_ext.
  intros issue.
  rewrite (surjective_pairing
             (MetricsCalculator.calculateCycleTime (IssueData.statusTransitions issue))).
  cbn [snd]. now rewrite calculateCycleTime_array_after.
Qed.

Lemma calculateAverageLeadTime_issues_after (now : Z) (issues : list IssueData.t) :
  snd (MetricsCalculator.calculateAverageLeadTime now issues)
  = map (fun issue =>
           IssueData.with_transitions issue (rev (IssueData.statusTransitions issue)))
        issues.
Proof.
  destruct issues as [|i0 r]; [reflexivity|].
  unfold MetricsCalculator.calculateAverageLeadTime.
  cbv beta iota zeta. unfold snd at 1. rewrite map_map. apply map_ext.
  intros issue. unfold MetricsCalculator.calculateLeadTime.
  now destruct (find _ _).
Qed.

(** The two averaging passes of [calculateSprintMetrics] reverse the
    transitions of every completed issue once each, so the issues are as
    they were when the metrics are returned. *)
Lemma averaging_passes_restore_order (now : Z) (issues : list IssueData.t) :
  snd (MetricsCalculator.calculateAverageLeadTime
         now (snd (MetricsCalculator.calculateAverageCycleTime issues)))
  = issues.
Proof.
  rewrite calculateAverageLeadTime_issues_after, calculateAverageCycleTime_issues_after.
  rewrite map_map. rewrite <- (map_id issues) at 2. apply map_ext.
  intros [i k s a p st ts l]. unfold IssueData.with_transitions. cbn.
  now rewrite rev_involutive.
Qed.

(* ================================================================== *)
(** ** MetricsCalculator: pull-request metrics *)

Lemma fold_left_sum {A} (f : A -> Q) (l : list A) (a : Q) :
  (fold_left (fun sum x => sum + f x) l a == a + total (map f l))%Q.
Proof.
  revert a. induction l as [|x r IH]; intros a; simpl.
  - ring.
  - rewrite IH. ring.
Qed.

Lemma runningSum_of_fold {A} (f : A -> Q) (l : list A) (a : Q) :
  fold_left (fun sum x => JS.add sum (f x)) l a
  = fold_left (fun sum x => JS.fl (sum + x)) (map f l) a.
Proof.
  revert a. induction l as [|x r IH]; intros a; [reflexivity|].
  cbn [fold_left map]. apply IH.
Qed.

Lemma computedMean_of_fold {A} (f : A -> Q) (l : list A) :
  match l with
  | [] => 0%Q
  | _ => JS.div (fold_left (fun sum x => JS.add sum (f x)) l 0%Q) (JS.lenQ l)
  end = computedMean (map f l).
Proof.
  destruct l as [|x r]; [reflexivity|].
  unfold computedMean, runningSum, JS.div, JS.lenQ.
  rewrite runningSum_of_fold, length_map. reflexivity.
Qed.

Lemma mergeLatencies_filter (prs : list PullRequestData.t) :
  map MetricsCalculator.calculatePRLatency
      (filter (fun pr => MetricsCalculator.isMergedState pr
                         && MetricsCalculator.hasMergedAt pr) prs)
  = mergeLatencies prs.
Proof.
  unfold mergeLatencies, mergeDelays.
  induction prs as [|pr r IH]; [reflexivity|].
  cbn [filter flat_map]. rewrite map_app, <- IH.
  unfold MetricsCalculator.isMergedState, MetricsCalculator.hasMergedAt.
  destruct (PullRequestData.state pr); destruct (PullRequestData.mergedAt pr) eqn:E;
    cbn [andb map app]; try reflexivity.
  unfold MetricsCalculator.calculatePRLatency at 1. rewrite E. reflexivity.
Qed.

Lemma firstReviewDelays_filter (prs : list PullRequestData.t) :
  map MetricsCalculator.calculateTimeToFirstReview
      (filter MetricsCalculator.hasFirstReviewAt prs)
  = firstReviewDelays prs.
Proof.
  unfold firstReviewDelays, reviewDelays.
  induction prs as [|pr r IH]; [reflexivity|].
  cbn [filter flat_map]. rewrite map_app, <- IH.
  unfold MetricsCalculator.hasFirstReviewAt.
  destruct (PullRequestData.firstReviewAt pr) eqn:E; cbn [map app]; try reflexivity.
  unfold MetricsCalculator.calculateTimeToFirstReview at 1. rewrite E. reflexivity.
Qed.

Lemma reviewerCounts_abs (prs : list PullRequestData.t) :
  map Qabs (reviewerCounts prs) = reviewerCounts prs.
Proof.
  unfold reviewerCounts. rewrite map_map. apply map_ext. intros pr.
  destruct (List.length (PullRequestData.reviewers pr)); reflexivity.
Qed.

Lemma calculatePRMetrics_computed (prs : list PullRequestData.t) :
  let m := MetricsCalculator.calculatePRMetrics prs in
  PRMetrics.averageLatency m = computedMean (mergeLatencies prs)
  /\ PRMetrics.averageTimeToFirstReview m = computedMean (firstReviewDelays prs)
  /\ PRMetrics.averageReviewCycles m = computedMean (reviewerCounts prs)
  /\ PRMetrics.averageRevisions m = computedMean (revisionCounts prs).
Proof.
  cbv zeta.
  destruct prs as [|pr0 r] eqn:Eprs; [repeat split; reflexivity|].
  rewrite <- Eprs.
  assert (Hne : prs <> []) by (rewrite Eprs; discriminate).
  clear Eprs pr0 r.
  unfold MetricsCalculator.calculatePRMetrics.
  destruct prs as [|pr0 r] eqn:Eprs; [congruence|]. rewrite <- Eprs.
  cbn [PRMetrics.averageLatency PRMetrics.averageTimeToFirstReview
       PRMetrics.averageReviewCycles PRMetrics.averageRevisions].
  split.
  { rewrite <- mergeLatencies_filter.
    apply (computedMean_of_fold MetricsCalculator.calculatePRLatency). }
  split.
  { rewrite <- firstReviewDelays_filter.
    apply (computedMean_of_fold MetricsCalculator.calculateTimeToFirstReview). }
  split.
  { pose proof (computedMean_of_fold
                  (fun pr => JS.lenQ (PullRequestData.reviewers pr)) prs) as H.
    rewrite Eprs in H |- *. exact H. }
  pose proof (computedMean_of_fold
                (fun pr => inject_Z (PullRequestData.revisionCount pr)) prs) as H.
  rewrite Eprs in H |- *. exact H.
Qed.

(** C7.  [calculatePRMetrics] computes [averageLatency] as the mean
    created-to-merged hours over the merged requests only ([0] when none is
    merged), [averageTimeToFirstReview] as the mean over the requests with a
    first-review timestamp ([0] when there is none), and
    [averageReviewCycles] and [averageRevisions] as means over all requests;
    on the empty list the four fields are exactly [0].  Hours are
    milliseconds divided by 3600000, and a mean is the running sum divided
    by the number of values, all on binary64 numbers: a mean of [n] hours is
    the mean of the exact quotients up to [n + 3] roundings of relative size
    [2^-53], a mean of [n] counts the exact mean up to [n + 1]. *)
Theorem calculatePRMetrics_means (prs : list PullRequestData.t) :
  let m := MetricsCalculator.calculatePRMetrics prs in
  (PRMetrics.averageLatency m = computedMean (mergeLatencies prs)
   /\ PRMetrics.averageTimeToFirstReview m = computedMean (firstReviewDelays prs)
   /\ PRMetrics.averageReviewCycles m = computedMean (reviewerCounts prs)
   /\ PRMetrics.averageRevisions m = computedMean (revisionCounts prs))
  /\ ((Qabs (PRMetrics.averageLatency m - mean (map exactHours (mergeDelays prs)))
       <= roundings (3 + List.length (mergeDelays prs))
          * mean (map Qabs (map exactHours (mergeDelays prs))))%Q
      /\ (Qabs (PRMetrics.averageTimeToFirstReview m
                - mean (map exactHours (reviewDelays prs)))
          <= roundings (3 + List.length (reviewDelays prs))
             * mean (map Qabs (map exactHours (reviewDelays prs))))%Q
      /\ (Qabs (PRMetrics.averageReviewCycles m - mean (reviewerCounts prs))
          <= roundings (1 + List.length prs) * mean (reviewerCounts prs))%Q
      /\ (Qabs (PRMetrics.averageRevisions m - mean (revisionCounts prs))
          <= roundings (1 + List.length prs) * mean (map Qabs (revisionCounts prs)))%Q)
  /\ (mergeDelays prs = [] -> PRMetrics.averageLatency m = 0%Q)
  /\ (reviewDelays prs = [] -> PRMetrics.averageTimeToFirstReview m = 0%Q)
  /\ MetricsCalculator.calculatePRMetrics [] = PRMetrics.mk 0 0 0 0.
Proof.
  cbv zeta.
  destruct (calculatePRMetrics_computed prs) as [H1 [H2 [H3 H4]]].
  split; [repeat split; assumption|].
  rewrite H1, H2, H3, H4.
  split; [|split; [|split; [|reflexivity]]].
  - split; [exact (mean_hours_error (mergeDelays prs))|].
    split; [exact (mean_hours_error (reviewDelays prs))|].
    split.
    + pose proof (computedMean_error (reviewerCounts prs)) as H.
      rewrite reviewerCounts_abs in H. unfold reviewerCounts in H at 3.
      rewrite length_map in H. exact H.
    + pose proof (computedMean_error (revisionCounts prs)) as H.
      unfold revisionCounts in H at 3. rewrite length_map in H. exact H.
  - intros H. unfold mergeLatencies. rewrite H. reflexivity.
  - intros H. unfold firstReviewDelays. rewrite H. reflexivity.
Qed.

(** Two merged requests with latencies of 8 and 4 hours, first reviews after
    2 hours and 1 hour, one reviewer each and 3 and 1 revisions; and a list
    of open requests only. *)
Lemma calculatePRMetrics_samples :
  (PRMetrics.averageLatency (MetricsCalculator.calculatePRMetrics mergedPRs) == 6)%Q
  /\ (PRMetrics.averageTimeToFirstReview (MetricsCalculator.calculatePRMetrics mergedPRs)
      == 3 # 2)%Q
  /\ PRMetrics.averageLatency (MetricsCalculator.calculatePRMetrics openPRs) = 0%Q
  /\ PRMetrics.averageTimeToFirstReview (MetricsCalculator.calculatePRMetrics openPRs)
     = 0%Q.
Proof.
  pose proof (calculatePRMetrics_means mergedPRs) as Hmerged.
  pose proof (calculatePRMetrics_means openPRs) as Hopen.
  cbv zeta in Hmerged, Hopen.
  destruct Hmerged as [[H1 [H2 _]] _]. destruct Hopen as [_ [_ [H5 [H6 _]]]].
  split; [rewrite H1; vm_compute; reflexivity|].
  split; [rewrite H2; vm_compute; reflexivity|].
  split; [apply H5 | apply H6]; reflexivity.
Defined.

(** The mixed sample: one merged request (8 hours, reviewed after 2) and one
    open request. *)
Example calculatePRMetrics_mixed :
  let m := MetricsCalculator.calculatePRMetrics samplePRs in
  (PRMetrics.averageLatency m == 8)%Q
  /\ (PRMetrics.averageTimeToFirstReview m == 2)%Q
  /\ (PRMetrics.averageReviewCycles m == 1 # 2)%Q
  /\ (PRMetrics.averageRevisions m == 2)%Q.
Proof. vm_compute. repeat split. Qed.

(** Three merged requests with latencies of 0.1 s, 0.2 s and 0.3 s: the
    computed mean of the three quotients is not the quotient of their exact
    mean. *)
Example calculatePRMetrics_rounds :
  let prs := map (fun ms => PullRequestData.mk "1" "PR" "John" 0 None (Some ms)
                              PullRequestData.MERGED [] 0 [])
                 [ 100; 200; 300 ] in
  PRMetrics.averageLatency (MetricsCalculator.calculatePRMetrics prs)
  <> inHours 200.
Proof. vm_compute. discriminate. Qed.

(* ================================================================== *)
(** ** RiskAssessor: score and level *)

Lemma fold_left_severity (factors : list RiskFactor.t) (a : Z) :
  (inject_Z (fold_left (fun sum factor => (sum + RiskFactor.severity factor)%Z) factors a)
   == inject_Z a + total (severities factors))%Q.
Proof.
  revert a. induction factors as [|f r IH]; intros a; simpl.
  - ring.
  - rewrite IH, inject_Z_plus. ring.
Qed.

Lemma meanSeverity_quotient (factors : list RiskFactor.t) :
  factors <> [] ->
  (inject_Z (fold_left (fun sum factor => (sum + RiskFactor.severity factor)%Z) factors 0%Z)
   / JS.lenQ factors == meanSeverity factors)%Q.
Proof.
  intros Hne. unfold meanSeverity, mean, JS.lenQ.
  assert (Hlen : List.length (severities factors) = List.length factors)
    by apply length_map.
  rewrite fold_left_severity.
  destruct (severities factors) as [|s0 ss] eqn:Es.
  - destruct factors; [congruence | discriminate].
  - rewrite Hlen. field.
    destruct factors as [|f r]; [congruence|].
    cbn [List.length]. unfold Qeq. simpl. lia.
Qed.

Lemma calculateRiskScore_computed (factors : list RiskFactor.t) :
  RiskAssessor.calculateRiskScore factors = computedScore (meanSeverity factors).
Proof.
  destruct factors as [|f r] eqn:E; [reflexivity|].
  rewrite <- E.
  assert (Hne : factors <> []) by (rewrite E; discriminate).
  assert (Hbody : RiskAssessor.calculateRiskScore factors
                  = computedScore
                      (inject_Z (fold_left (fun sum factor => sum + RiskFactor.severity factor)
                                           factors 0)
                       / JS.lenQ factors))
    by (rewrite E; reflexivity).
  rewrite Hbody. unfold computedScore.
  now rewrite (fl_comp _ _ (meanSeverity_quotient factors Hne)).
Qed.

Lemma round_monotone (x y : Q) : (x <= y)%Q -> JS.round x <= JS.round y.
Proof.
  intros H. unfold JS.round. apply Qfloor_resp_le. lra.
Qed.

Lemma computedScore_monotone (x y : Q) :
  (x <= y)%Q -> computedScore x <= computedScore y.
Proof.
  intros H. unfold computedScore.
  apply Z.min_le_compat_l, round_monotone, fl_monotone.
  apply Qmult_le_compat_r; [|discriminate].
  apply fl_monotone. apply Qmult_le_compat_r; [|discriminate].
  now apply fl_monotone.
Qed.

Lemma computedScore_bounds (x : Q) : (0 <= x)%Q -> 0 <= computedScore x <= 100.
Proof.
  intros H. split; [|apply Z.le_min_l].
  change 0 with (computedScore 0). now apply computedScore_monotone.
Qed.

Lemma calculateRiskScore_le_100 (factors : list RiskFactor.t) :
  RiskAssessor.calculateRiskScore factors <= 100.
Proof. rewrite calculateRiskScore_computed. apply Z.le_min_l. Qed.

Lemma fold_left_add_shift (l : list Z) (a : Z) : fold_left Z.add l a = a + JS.sumZ l.
Proof.
  unfold JS.sumZ. revert a. induction l as [|x r IH]; intros a; simpl; [lia|].
  rewrite IH, (IH x). lia.
Qed.

Lemma totalSeverity_cons (f : RiskFactor.t) (r : list RiskFactor.t) :
  totalSeverity (f :: r) = RiskFactor.severity f + totalSeverity r.
Proof.
  unfold totalSeverity, JS.sumZ. cbn [map fold_left]. apply fold_left_add_shift.
Qed.

Lemma totalSeverity_fold (factors : list RiskFactor.t) :
  fold_left (fun sum factor => sum + RiskFactor.severity factor) factors 0
  = totalSeverity factors.
Proof.
  unfold totalSeverity, JS.sumZ.
  assert (H : forall a,
             fold_left (fun sum factor => sum + RiskFactor.severity factor) factors a
             = fold_left Z.add (map RiskFactor.severity factors) a).
  { induction factors as [|f r IH]; intros a; [reflexivity | apply IH]. }
  apply H.
Qed.

Lemma totalSeverity_bounds (factors : list RiskFactor.t) :
  Forall (fun f => 0 <= RiskFactor.severity f <= 10) factors ->
  0 <= totalSeverity factors <= 10 * Z.of_nat (List.length factors).
Proof.
  induction 1 as [|f r Hf _ IH]; [unfold totalSeverity, JS.sumZ; cbn; lia|].
  rewrite totalSeverity_cons. cbn [List.length]. lia.
Qed.

(** Every count of up to five factors and every total severity they can
    have. *)
Lemma scoresAgree_all :
  forallb (fun n => forallb (scoresAgree (Z.of_nat n)) (map Z.of_nat (seq 0 (10 * n + 1))))
          (seq 1 5)
  = true.
Proof. vm_compute. reflexivity. Qed.

Lemma scoresAgree_at (n : nat) (t : Z) :
  (1 <= n <= 5)%nat -> 0 <= t <= 10 * Z.of_nat n -> scoresAgree (Z.of_nat n) t = true.
Proof.
  intros Hn Ht.
  pose proof scoresAgree_all as Hall. rewrite forallb_forall in Hall.
  assert (Hin : In n (seq 1 5)) by (apply in_seq; lia).
  specialize (Hall n Hin). rewrite forallb_forall in Hall.
  apply Hall. apply in_map_iff. exists (Z.to_nat t).
  split; [lia | apply in_seq; lia].
Qed.

(** C2, amended.  [calculateRiskScore] evaluates [(mean / 10) * 100] on
    binary64 numbers, rounds the result and caps it at [100].  For the
    factor lists a pass can produce (at most five factors, severities from
    0 to 10) this is [round(100 * mean(severity) / 10)] capped at [100],
    except for four factors of total severity 23, where it is 57 and not 58.
    It returns [0] for the empty list and [100] for a single factor of
    severity [10], and is monotonic non-decreasing in the mean severity; the
    level is a function of the score alone: [Low] up to 33, [Medium] from 34
    to 66, [High] from 67. *)
Theorem calculateRiskScore_and_level :
  (forall factors,
      RiskAssessor.calculateRiskScore factors
      = Z.min 100 (JS.round (JS.fl (JS.fl (JS.fl (meanSeverity factors) / 10) * 100))))
  /\ (forall factors,
         (List.length factors <= 5)%nat ->
         Forall (fun f => 0 <= RiskFactor.severity f <= 10) factors ->
         RiskAssessor.calculateRiskScore factors
         = if (Nat.eqb (List.length factors) 4) && (totalSeverity factors =? 23)
           then Z.min 100 (JS.round (100 * meanSeverity factors / 10)) - 1
           else Z.min 100 (JS.round (100 * meanSeverity factors / 10)))
  /\ RiskAssessor.calculateRiskScore [] = 0
  /\ (forall category description,
         RiskAssessor.calculateRiskScore [RiskFactor.mk category 10 description] = 100)
  /\ (forall factors1 factors2,
         (meanSeverity factors1 <= meanSeverity factors2)%Q ->
         RiskAssessor.calculateRiskScore factors1
         <= RiskAssessor.calculateRiskScore factors2)
  /\ (forall score,
         (RiskAssessor.classifyRiskLevel score = Low <-> score <= 33)
         /\ (RiskAssessor.classifyRiskLevel score = Medium <-> 34 <= score <= 66)
         /\ (RiskAssessor.classifyRiskLevel score = High <-> 67 <= score))
  /\ (forall sprintMetrics prMetrics historicalData issues prs,
         let assessment :=
           RiskAssessor.assessSprintRisk sprintMetrics prMetrics historicalData issues prs in
         RiskAssessment.score assessment
         = RiskAssessor.calculateRiskScore
             (RiskAssessor.identifyRiskFactors sprintMetrics prMetrics historicalData
                                               issues prs)
         /\ RiskAssessment.level assessment
            = RiskAssessor.classifyRiskLevel (RiskAssessment.score assessment)).
Proof.
  split; [exact calculateRiskScore_computed|].
  split.
  { intros factors Hlen Hsev.
    destruct factors as [|f r] eqn:E; [reflexivity|]. rewrite <- E in *.
    assert (Hne : factors <> []) by (rewrite E; discriminate).
    pose proof (totalSeverity_bounds factors Hsev) as Htotal.
    assert (Hn : (1 <= List.length factors <= 5)%nat)
      by (split; [rewrite E; cbn [List.length]; lia | exact Hlen]).
    pose proof (scoresAgree_at (List.length factors) (totalSeverity factors) Hn Htotal)
      as Hagree.
    unfold scoresAgree in Hagree. apply Z.eqb_eq in Hagree.
    pose proof (meanSeverity_quotient factors Hne) as Hmean.
    rewrite totalSeverity_fold in Hmean. unfold JS.lenQ in Hmean.
    rewrite calculateRiskScore_computed.
    unfold computedScore in Hagree |- *.
    rewrite (fl_comp _ _ Hmean) in Hagree. rewrite Hagree.
    assert (Hexact : JS.round (100 * (inject_Z (totalSeverity factors)
                                      / inject_Z (Z.of_nat (List.length factors))) / 10)
                     = JS.round (100 * meanSeverity factors / 10)).
    { unfold JS.round. apply Qfloor_comp. now rewrite Hmean. }
    rewrite Hexact.
    replace (Z.of_nat (List.length factors) =? 4) with (Nat.eqb (List.length factors) 4);
      [reflexivity|].
    destruct (Nat.eqb_spec (List.length factors) 4) as [H4|H4].
    - rewrite H4. reflexivity.
    - symmetry. apply Z.eqb_neq. lia. }
  split; [reflexivity|].
  split; [intros; vm_compute; reflexivity|].
  split.
  { intros f1 f2 H. rewrite !calculateRiskScore_computed.
    now apply computedScore_monotone. }
  split.
  { intros score. unfold RiskAssessor.classifyRiskLevel,
      RiskAssessor.LOW_RISK_THRESHOLD, RiskAssessor.MEDIUM_RISK_THRESHOLD.
    destruct (score <=? 33) eqn:E1; [|destruct (score <=? 66) eqn:E2].
    - apply Z.leb_le in E1. repeat split; intros; try discriminate; try lia.
    - apply Z.leb_gt in E1. apply Z.leb_le in E2.
      repeat split; intros; try discriminate; try lia.
    - apply Z.leb_gt in E1. apply Z.leb_gt in E2.
      repeat split; intros; try discriminate; try lia. }
  intros sm pm h issues prs. cbv zeta.
  unfold RiskAssessor.assessSprintRisk.
  destruct (RiskAssessor.generateJustification _ _ _). split; reflexivity.
Qed.

Lemma calculateRiskScore_monotone_sample :
  RiskAssessor.calculateRiskScore [factorOf 3; factorOf 4]
  <= RiskAssessor.calculateRiskScore [factorOf 7]
  /\ RiskAssessor.calculateRiskScore [factorOf 6; factorOf 7] = 65.
Proof.
  split.
  - apply (proj1 (proj2 (proj2 (proj2 (proj2 calculateRiskScore_and_level))))).
    vm_compute. discriminate.
  - rewrite (proj1 (proj2 calculateRiskScore_and_level));
      [reflexivity | cbn [List.length]; lia | repeat constructor; cbn; lia].
Defined.

(** C2 as stated fails.  Four factors of severities 6, 6, 6 and 5 have the
    mean 5.75, so that [round(100 * mean / 10)] is [round(57.5) = 58]; the
    source computes [(5.75 / 10) * 100 = 57.49999999999999] and returns
    57. *)
Lemma calculateRiskScore_rounds_down :
  RiskAssessor.calculateRiskScore fourFactors = 57
  /\ exactScore fourFactors = 58
  /\ RiskAssessor.calculateRiskScore fourFactors <> exactScore fourFactors.
Proof. vm_compute. repeat split. discriminate. Qed.

(** The boundary scores 33, 34, 66 and 67. *)
Example classifyRiskLevel_boundaries :
  RiskAssessor.classifyRiskLevel 33 = Low
  /\ RiskAssessor.classifyRiskLevel 34 = Medium
  /\ RiskAssessor.classifyRiskLevel 66 = Medium
  /\ RiskAssessor.classifyRiskLevel 67 = High.
Proof. repeat split. Qed.

(* ================================================================== *)
(** ** RecommendationGenerator: prioritisation *)

Lemma impactOrder_notAfter (i j : Impact) :
  RecommendationGenerator.impactOrder i <= RecommendationGenerator.impactOrder j
  <-> notAfter i j.
Proof. destruct i, j; cbn; intuition lia. Qed.

Lemma notAfter_total (i j : Impact) : notAfter i j \/ notAfter j i.
Proof. destruct i, j; cbn; auto. Qed.

Lemma notAfter_trans (i j k : Impact) : notAfter i j -> notAfter j k -> notAfter i k.
Proof. destruct i, j, k; cbn; auto. Qed.

Lemma byPriorityThenImpact_precedes (a b : Recommendation.t) :
  RecommendationGenerator.byPriorityThenImpact a b = true <-> precedes a b.
Proof.
  unfold RecommendationGenerator.byPriorityThenImpact,
    RecommendationGenerator.compareRecommendations, precedes.
  rewrite Z.leb_le, <- impactOrder_notAfter.
  destruct (Recommendation.priority a =? Recommendation.priority b) eqn:E; cbn [negb].
  - apply Z.eqb_eq in E. lia.
  - apply Z.eqb_neq in E. lia.
Qed.

Lemma precedes_total (a b : Recommendation.t) : precedes a b \/ precedes b a.
Proof.
  unfold precedes.
  destruct (Z.lt_trichotomy (Recommendation.priority a) (Recommendation.priority b))
    as [H|[H|H]]; [now left; left| |right; left; lia].
  destruct (notAfter_total (Recommendation.impact a) (Recommendation.impact b)).
  - left. right. now split.
  - right. right. split; [lia|assumption].
Qed.

Lemma precedes_trans (a b c : Recommendation.t) :
  precedes a b -> precedes b c -> precedes a c.
Proof.
  unfold precedes. intros [Hab|[Hab Iab]] [Hbc|[Hbc Ibc]]; try (left; lia).
  right. split; [lia|]. eapply notAfter_trans; eassumption.
Qed.

Lemma StronglySorted_weaken {A} (R S : A -> A -> Prop) (l : list A) :
  (forall a b, R a b -> S a b) -> StronglySorted R l -> StronglySorted S l.
Proof.
  intros HRS. induction 1 as [|x r Hr IH Hx]; constructor; [exact IH|].
  eapply Forall_impl; [|exact Hx]. intros y. apply HRS.
Qed.

Lemma sort_recommendations_sorted (l : list Recommendation.t) :
  StronglySorted precedes (JS.sort RecommendationGenerator.byPriorityThenImpact l).
Proof.
  apply StronglySorted_weaken
    with (R := fun a b => RecommendationGenerator.byPriorityThenImpact a b = true).
  - intros a b. apply byPriorityThenImpact_precedes.
  - apply sort_sorted.
    + intros a b. rewrite !byPriorityThenImpact_precedes. apply precedes_total.
    + intros a b c. rewrite !byPriorityThenImpact_precedes. apply precedes_trans.
Qed.

Lemma renumberFrom_length (l : list Recommendation.t) (i : Z) :
  List.length (RecommendationGenerator.renumberFrom i l) = List.length l.
Proof. revert i. induction l as [|x r IH]; intros i; simpl; [|rewrite IH]; reflexivity. Qed.

Lemma renumberFrom_content (l : list Recommendation.t) (i : Z) :
  map content (RecommendationGenerator.renumberFrom i l) = map content l.
Proof.
  revert i. induction l as [|x r IH]; intros i; simpl; [|rewrite IH]; reflexivity.
Qed.

Lemma renumberFrom_priorities (l : list Recommendation.t) (i : nat) :
  map Recommendation.priority (RecommendationGenerator.renumberFrom (Z.of_nat i) l)
  = map Z.of_nat (seq (S i) (List.length l)).
Proof.
  revert i. induction l as [|x r IH]; intros i; [reflexivity|].
  cbn [RecommendationGenerator.renumberFrom map List.length seq].
  replace (Z.of_nat i + 1) with (Z.of_nat (S i)) by lia.
  rewrite IH. reflexivity.
Qed.

(** C8.  For every combination of inputs, [generateRecommendations] returns
    at most 7 recommendations; they are the first ones of the generated
    items sorted by priority ascending, then impact (High before Medium
    before Low); and the returned priorities are [1 .. k] without gaps. *)
Theorem generateRecommendations_top7_renumbered
        (now : Z) (riskAssessment : RiskAssessment.t) (sprintMetrics : SprintMetrics.t)
        (prMetrics : PRMetrics.t) (issues : list IssueData.t)
        (prs : list PullRequestData.t) (bottlenecks : option (list BottleneckInfo.t)) :
  let generated :=
    generatedRecommendations now riskAssessment sprintMetrics prMetrics issues prs
                             bottlenecks in
  let result :=
    RecommendationGenerator.generateRecommendations now riskAssessment sprintMetrics
                                                    prMetrics issues prs bottlenecks in
  (List.length result <= 7)%nat
  /\ List.length result = Nat.min 7 (List.length generated)
  /\ map Recommendation.priority result = oneTo (List.length result)
  /\ exists sorted,
      Permutation sorted generated
      /\ StronglySorted precedes sorted
      /\ map content result = map content (firstn 7 sorted).
Proof.
  cbv zeta.
  unfold RecommendationGenerator.generateRecommendations.
  fold (generatedRecommendations now riskAssessment sprintMetrics prMetrics issues prs
                                 bottlenecks).
  set (generated := generatedRecommendations _ _ _ _ _ _ _).
  unfold RecommendationGenerator.prioritizeRecommendations, JS.slice0.
  set (sorted := JS.sort RecommendationGenerator.byPriorityThenImpact generated).
  assert (Hlen : List.length (RecommendationGenerator.renumberFrom 0 (firstn 7 sorted))
                 = Nat.min 7 (List.length generated)).
  { rewrite renumberFrom_length, length_firstn. unfold sorted.
    now rewrite sort_length. }
  split; [rewrite Hlen; apply Nat.le_min_l|].
  split; [exact Hlen|].
  split.
  { unfold oneTo. rewrite renumberFrom_length.
    apply (renumberFrom_priorities (firstn 7 sorted) 0). }
  exists sorted. split; [apply sort_perm|].
  split; [apply sort_recommendations_sorted|].
  apply renumberFrom_content.
Qed.

(** Nine items of priorities 2 and 1 and mixed impacts: the seven kept are
    the priority-1 items, High then Medium then Low, followed by the
    priority-2 items in the same order of impact, numbered 1 to 7. *)
Example prioritizeRecommendations_mixed :
  map (fun r => (Recommendation.priority r, Recommendation.impact r))
      (RecommendationGenerator.prioritizeRecommendations
         [ recommendationOf 2 ImpactLow; recommendationOf 1 ImpactMedium;
           recommendationOf 2 ImpactHigh; recommendationOf 1 ImpactLow;
           recommendationOf 1 ImpactHigh; recommendationOf 2 ImpactMedium;
           recommendationOf 2 ImpactLow; recommendationOf 2 ImpactLow;
           recommendationOf 2 ImpactHigh ])
  = [ (1, ImpactHigh); (2, ImpactMedium); (3, ImpactLow); (4, ImpactHigh);
      (5, ImpactHigh); (6, ImpactMedium); (7, ImpactLow) ].
Proof. reflexivity. Qed.

(* ================================================================== *)
(** ** PredictionEngine: spillover *)

Lemma daysRemaining_nonpositive (sprint : SprintData.t) (currentDate : Z) :
  JS.leb (PredictionEngine.calculateDaysRemaining sprint currentDate) 0 = true
  <-> SprintData.endDate sprint <= currentDate.
Proof.
  unfold JS.leb, PredictionEngine.calculateDaysRemaining.
  rewrite Qle_bool_iff.
  set (d := SprintData.endDate sprint - currentDate).
  assert (Hk : (0 < inject_Z (1000 * 60 * 60 * 24))%Q) by reflexivity.
  split; intros H.
  - destruct (Z_le_gt_dec d 0) as [Hle|Hgt]; [unfold d in Hle; lia|].
    exfalso.
    assert (Hpos : (0 < inject_Z d)%Q)
      by (change 0%Q with (inject_Z 0); rewrite <- Zlt_Qlt; lia).
    assert (Hquot : (0 < inject_Z d / inject_Z (1000 * 60 * 60 * 24))%Q)
      by (apply Qlt_shift_div_l; [exact Hk | rewrite Qmult_0_l; exact Hpos]).
    apply (Qlt_not_le _ _ Hquot H).
  - apply Qle_shift_div_r; [exact Hk|].
    rewrite Qmult_0_l. change 0%Q with (inject_Z 0). rewrite <- Zle_Qle.
    unfold d. lia.
Qed.

Lemma predictSpillover_sources (now : Z) (issues : list IssueData.t)
      (sprint : SprintData.t) (currentDate : Z)
      (sprintMetrics : option SprintMetrics.t) (p : SpilloverPrediction.t) :
  In p (PredictionEngine.predictSpillover now issues sprint currentDate sprintMetrics) ->
  exists issue,
    In issue issues /\ incomplete issue = true
    /\ SpilloverPrediction.issueKey p = IssueData.key issue.
Proof.
  unfold PredictionEngine.predictSpillover.
  destruct (JS.leb _ 0).
  - intros H. apply in_map_iff in H. destruct H as [issue [Hp Hin]].
    apply filter_In in Hin. exists issue. subst p. tauto.
  - intros H. apply sort_In in H. apply in_flat_map in H.
    destruct H as [issue [Hin Hp]]. apply filter_In in Hin.
    exists issue. split; [tauto|]. split; [tauto|].
    unfold PredictionEngine.predictOne in Hp.
    destruct (JS.ltb _ _); simpl in Hp; [|contradiction].
    destruct Hp as [Hp|[]]. now subst p.
Qed.

(** C5.  For every sprint whose end date is at or before the current date,
    [predictSpillover] returns, for every issue whose status is not
    completed (in their order), one prediction with probability exactly [1]
    and the fixed sprint-ended reason; and whatever the end date, every
    prediction comes from an issue whose status is not completed. *)
Theorem predictSpillover_after_sprint_end
        (now : Z) (issues : list IssueData.t) (sprint : SprintData.t)
        (currentDate : Z) (sprintMetrics : option SprintMetrics.t) :
  (SprintData.endDate sprint <= currentDate ->
   Forall2 endedPredictionOf (filter incomplete issues)
           (PredictionEngine.predictSpillover now issues sprint currentDate
                                              sprintMetrics))
  /\ (forall p,
         In p (PredictionEngine.predictSpillover now issues sprint currentDate
                                                 sprintMetrics) ->
         exists issue,
           In issue issues
           /\ PredictionEngine.isCompletedStatus (IssueData.status issue) = false
           /\ SpilloverPrediction.issueKey p = IssueData.key issue).
Proof.
  split.
  - intros Hend. apply daysRemaining_nonpositive in Hend.
    unfold PredictionEngine.predictSpillover. rewrite Hend.
    fold incomplete. change (fun issue => incomplete issue) with incomplete.
    induction (filter incomplete issues) as [|issue r IH]; simpl; constructor.
    + repeat split.
    + exact IH.
  - intros p Hp. apply predictSpillover_sources in Hp.
    destruct Hp as [issue [Hin [Hinc Hkey]]]. exists issue.
    unfold incomplete in Hinc. apply negb_true_iff in Hinc. tauto.
Qed.

Lemma predictSpillover_ended_sample :
  Forall2 endedPredictionOf (filter incomplete sampleIssues)
          (PredictionEngine.predictSpillover 100 sampleIssues (sprintEnding 1) 3600000
                                             None).
Proof.
  apply (proj1 (predictSpillover_after_sprint_end 100 sampleIssues (sprintEnding 1)
                                                  3600000 None)).
  discriminate.
Defined.

Lemma ltb_lt (x y : Q) : JS.ltb x y = true <-> (x < y)%Q.
Proof.
  unfold JS.ltb. rewrite negb_true_iff.
  destruct (Qle_bool y x) eqn:E.
  - apply Qle_bool_iff in E. split; [discriminate|]. intros H.
    exfalso. apply (Qlt_not_le _ _ H E).
  - split; [|reflexivity]. intros _. apply Qnot_le_lt. intros H.
    apply Qle_bool_iff in H. congruence.
Qed.

Lemma gtb_gt (x y : Q) : JS.gtb x y = true <-> (y < x)%Q.
Proof. apply (ltb_lt y x). Qed.








(* ================================================================== *)
(** ** MetricsCalculator: bottlenecks *)

Lemma bySeverityDesc_moreSevere (a b : BottleneckInfo.t) :
  MetricsCalculator.bySeverityDesc a b = true <-> moreSevere a b.
Proof.
  unfold MetricsCalculator.bySeverityDesc, moreSevere. rewrite Z.leb_le. lia.
Qed.

(** What [identifyBottlenecks] does: a bucket of the dwell-time map is
    flagged exactly when its status is not a completed one, its average dwell
    time exceeds one hour and 1.5 times the global mean (averages and
    product on binary64 numbers), and at least two dwell intervals were
    recorded in it ([count], not the number of distinct issues); the result
    is sorted by severity descending. *)
Lemma identifyBottlenecks_characterisation (issues : list IssueData.t) :
  let dwellTimes := MetricsCalculator.calculateStatusDwellTimes issues in
  let globalMean := MetricsCalculator.calculateAverageDwellTime dwellTimes in
  (forall b,
      In b (MetricsCalculator.identifyBottlenecks issues)
      <-> exists status data,
          In (status, data) dwellTimes
          /\ MetricsCalculator.isCompletedStatus status = false
          /\ (1 < bucketAverage data)%Q
          /\ (JS.fl (globalMean * (3 # 2)) < bucketAverage data)%Q
          /\ 2 <= MetricsCalculator.count data
          /\ b = MetricsCalculator.bottleneckOf globalMean status data)
  /\ (forall b,
         In b (MetricsCalculator.identifyBottlenecks issues) ->
         BottleneckInfo.severity b <= 10)
  /\ StronglySorted moreSevere (MetricsCalculator.identifyBottlenecks issues).
Proof.
  cbv zeta. unfold MetricsCalculator.identifyBottlenecks.
  set (dwellTimes := MetricsCalculator.calculateStatusDwellTimes issues).
  set (globalMean := MetricsCalculator.calculateAverageDwellTime dwellTimes).
  assert (Hmem : forall b,
             In b (map (fun e => MetricsCalculator.bottleneckOf globalMean (fst e) (snd e))
                       (filter (fun e => MetricsCalculator.flagged globalMean (fst e) (snd e))
                               dwellTimes))
             <-> exists status data,
                 In (status, data) dwellTimes
                 /\ MetricsCalculator.isCompletedStatus status = false
                 /\ (1 < bucketAverage data)%Q
                 /\ (JS.fl (globalMean * (3 # 2)) < bucketAverage data)%Q
                 /\ 2 <= MetricsCalculator.count data
                 /\ b = MetricsCalculator.bottleneckOf globalMean status data).
  { intros b. rewrite in_map_iff. split.
    - intros [[status data] [Hb Hin]]. apply filter_In in Hin.
      destruct Hin as [Hin Hflag]. cbn [fst snd] in *.
      unfold MetricsCalculator.flagged, JS.mul, JS.div in Hflag.
      fold (bucketAverage data) in Hflag.
      destruct (MetricsCalculator.isCompletedStatus status) eqn:Ec; [discriminate|].
      apply andb_true_iff in Hflag. destruct Hflag as [Hflag Hcount].
      apply andb_true_iff in Hflag. destruct Hflag as [H1 H2].
      apply gtb_gt in H1. apply gtb_gt in H2. apply Z.leb_le in Hcount.
      exists status, data. repeat split; try assumption. now symmetry.
    - intros [status [data [Hin [Hc [H1 [H2 [Hcount Hb]]]]]]].
      exists (status, data). split; [now symmetry|].
      apply filter_In. split; [exact Hin|]. cbn [fst snd].
      unfold MetricsCalculator.flagged, JS.mul, JS.div. fold (bucketAverage data).
      rewrite Hc.
      apply gtb_gt in H1. apply gtb_gt in H2. apply Z.leb_le in Hcount.
      rewrite H1, H2, Hcount. reflexivity. }
  split; [intros b; rewrite sort_In; apply Hmem|].
  split.
  - intros b Hin. apply sort_In, Hmem in Hin.
    destruct Hin as [status [data [_ [_ [_ [_ [_ Hb]]]]]]]. subst b.
    cbn [MetricsCalculator.bottleneckOf BottleneckInfo.severity].
    unfold MetricsCalculator.bottleneckSeverity.
    destruct (Qeq_bool globalMean 0); [lia | apply Z.le_min_l].
  - apply StronglySorted_weaken
      with (R := fun a b => MetricsCalculator.bySeverityDesc a b = true).
    + intros a b. apply bySeverityDesc_moreSevere.
    + apply sort_sorted.
      * intros a b. rewrite !bySeverityDesc_moreSevere. unfold moreSevere. lia.
      * intros a b c. rewrite !bySeverityDesc_moreSevere. unfold moreSevere. lia.
Qed.

(** The comparisons and the severity are those of binary64 numbers.  A
    bucket averaging [17 / 3] hours against a global mean of [34 / 9] is at
    1.5 times the mean on the rationals and above it as computed; an average
    of 3 hours against a mean of [9 / 7] has the severity 6, the computed
    [(3 / (9 / 7)) * 3] being 6.999999999999999. *)
Example flagged_at_the_threshold :
  MetricsCalculator.flagged (JS.fl (34 # 9)) "Review"
                            (MetricsCalculator.mkDwell 17 3 [ "PROJ-1"; "PROJ-2" ])
  = true
  /\ ((17 # 3) == (34 # 9) * (3 # 2))%Q
  /\ MetricsCalculator.bottleneckSeverity 3 (JS.fl (9 # 7)) = 6
  /\ Qfloor (3 / (9 # 7) * 3) = 7.
Proof. vm_compute. repeat split. Qed.

(** C3, at an input where the code departs from it.  A single issue that
    enters status [A] twice gives the bucket of [A] two dwell intervals of 10
    hours against a global mean of 4.6 hours (the binary64 number nearest to
    it).  Only one distinct issue is affected, yet [identifyBottlenecks]
    flags [A] (with severity [floor(10 / 4.6 * 3) = 6]): the test of the
    source is on the number of recorded intervals. *)
Theorem identifyBottlenecks_flags_single_issue :
  map bottleneckSummary (MetricsCalculator.identifyBottlenecks bouncingIssue)
  = [ ("A", BottleneckInfo.STATUS, [ "PROJ-1" ], 6) ]
  /\ List.length bouncingIssue = 1%nat
  /\ MetricsCalculator.calculateAverageDwellTime
       (MetricsCalculator.calculateStatusDwellTimes bouncingIssue)
     = (2589569785738035 # 562949953421312)%Q
  /\ (Qabs ((2589569785738035 # 562949953421312) - (46 # 10))
      <= 1 # 1000000000000000)%Q.
Proof. vm_compute. repeat split. discriminate. Qed.

(* ================================================================== *)
(** ** RiskAssessor: work in progress per developer *)

Lemma countIn_bump (k k' : string) (m : list (string * Z)) :
  countIn k (JS.bump k' m) = countIn k m + (if String.eqb k' k then 1 else 0).
Proof.
  unfold countIn. induction m as [|[k0 n] r IH]; simpl.
  - destruct (String.eqb k' k); reflexivity.
  - destruct (String.eqb k0 k') eqn:E0; simpl.
    + apply String.eqb_eq in E0. subst k0.
      destruct (String.eqb k' k); [reflexivity | lia].
    + destruct (String.eqb k0 k) eqn:E1.
      * apply String.eqb_eq in E1. rewrite (String.eqb_sym k' k), <- E1, E0. lia.
      * exact IH.
Qed.

Lemma bump_keys (k : string) (m : list (string * Z)) :
  NoDup (map fst m) ->
  NoDup (map fst (JS.bump k m))
  /\ (forall x, In x (map fst (JS.bump k m)) <-> x = k \/ In x (map fst m)).
Proof.
  induction m as [|[k0 n] r IH]; simpl; intros Hnd.
  - split; [constructor; [intros []|constructor] | intros x; intuition].
  - inversion Hnd as [|? ? Hnotin Hnd']; subst.
    destruct (String.eqb k0 k) eqn:E; simpl.
    + apply String.eqb_eq in E. subst k0.
      split; [now constructor | intros x; intuition].
    + destruct (IH Hnd') as [IH1 IH2].
      split.
      * constructor; [|exact IH1]. rewrite IH2. intros [Heq|Hin]; [|contradiction].
        subst k0. rewrite String.eqb_refl in E. discriminate.
      * intros x. rewrite IH2. intuition.
Qed.

Lemma countIn_entry (k : string) (n : Z) (m : list (string * Z)) :
  NoDup (map fst m) -> In (k, n) m -> countIn k m = n.
Proof.
  unfold countIn. induction m as [|[k0 n0] r IH]; simpl; intros Hnd Hin; [contradiction|].
  inversion Hnd as [|? ? Hnotin Hnd']; subst.
  destruct Hin as [Heq|Hin].
  - inversion Heq; subst. now rewrite String.eqb_refl.
  - destruct (String.eqb k0 k) eqn:E.
    + apply String.eqb_eq in E. subst k0. exfalso. apply Hnotin.
      apply in_map_iff. now exists (k, n).
    + now apply IH.
Qed.

Lemma countIn_found (k : string) (m : list (string * Z)) :
  countIn k m <> 0 -> In (k, countIn k m) m.
Proof.
  unfold countIn. intros H.
  destruct (find _ m) as [[k0 n]|] eqn:E; [|congruence].
  apply find_some in E. destruct E as [Hin Hk]. simpl in Hk.
  apply String.eqb_eq in Hk. subst k0. exact Hin.
Qed.

(** The counting map of [detectHighWIP] holds, for every developer, the
    number of the active issues assigned to them, under distinct keys. *)
Lemma groupByAssignee_counts (issues : list IssueData.t) :
  NoDup (map fst (RiskAssessor.groupByAssignee issues))
  /\ forall a,
      countIn a (RiskAssessor.groupByAssignee issues)
      = JS.lenZ (filter (assignedTo a) issues).
Proof.
  unfold RiskAssessor.groupByAssignee.
  assert (H : forall l m,
             NoDup (map fst m) ->
             let step := fun (m : list (string * Z)) (issue : IssueData.t) =>
                           match IssueData.assignee issue with
                           | Some a => if JS.truthy_string (Some a) then JS.bump a m else m
                           | None => m
                           end in
             NoDup (map fst (fold_left step l m))
             /\ forall a, countIn a (fold_left step l m)
                          = countIn a m + JS.lenZ (filter (assignedTo a) l)).
  { induction l as [|issue r IH]; intros m Hnd; cbv zeta in *.
    - split; [exact Hnd | intros a; unfold JS.lenZ; simpl; lia].
    - cbn [fold_left filter].
      destruct (IssueData.assignee issue) as [b|] eqn:Eb.
      + assert (Ha : forall a, assignedTo a issue
                               = String.eqb b a && negb (String.eqb b EmptyString))
          by (intros a; unfold assignedTo; rewrite Eb; reflexivity).
        cbn [JS.truthy_string].
        destruct (String.eqb b EmptyString) eqn:Ee; cbn [negb].
        * destruct (IH m Hnd) as [IH1 IH2]. split; [exact IH1|].
          intros a. rewrite IH2, Ha. cbn [negb]. rewrite andb_false_r. reflexivity.
        * destruct (IH (JS.bump b m) (proj1 (bump_keys b m Hnd))) as [IH1 IH2].
          split; [exact IH1|]. intros a. rewrite IH2, countIn_bump, Ha.
          cbn [negb]. rewrite andb_true_r.
          destruct (String.eqb b a); unfold JS.lenZ; cbn [List.length]; lia.
      + assert (Ha : forall a, assignedTo a issue = false)
          by (intros a; unfold assignedTo; rewrite Eb; reflexivity).
        destruct (IH m Hnd) as [IH1 IH2]. split; [exact IH1|].
        intros a. now rewrite IH2, Ha. }
  destruct (H issues [] (NoDup_nil _)) as [H1 H2].
  split; [exact H1|]. intros a. rewrite H2. reflexivity.
Qed.

Lemma wipOf_counts (a : string) (issues : list IssueData.t) :
  wipOf a issues
  = countIn a (RiskAssessor.groupByAssignee
                 (filter (fun issue => RiskAssessor.isWipStatus (IssueData.status issue))
                         issues)).
Proof.
  rewrite (proj2 (groupByAssignee_counts _)). unfold wipOf. f_equal.
  induction issues as [|issue r IH]; [reflexivity|].
  cbn [filter].
  destruct (RiskAssessor.isWipStatus (IssueData.status issue)); cbn [andb filter].
  - destruct (assignedTo a issue); rewrite IH; reflexivity.
  - exact IH.
Qed.

Lemma maxZ_spec (d : Z) (l : list Z) :
  In (JS.maxZ d l) (d :: l) /\ forall x, In x (d :: l) -> x <= JS.maxZ d l.
Proof.
  unfold JS.maxZ. revert d. induction l as [|y r IH]; intros d; simpl.
  - split; [now left | intros x [->|[]]; lia].
  - destruct (IH (Z.max d y)) as [IH1 IH2]. split.
    + destruct IH1 as [IH1|IH1]; [|right; right; exact IH1].
      rewrite <- IH1.
      destruct (Z.max_spec d y) as [[_ Hm]|[_ Hm]]; rewrite Hm;
        [right; left | left]; reflexivity.
    + intros x [->|[->|Hx]].
      * apply Z.le_trans with (Z.max x y); [apply Z.le_max_l | apply IH2; now left].
      * apply Z.le_trans with (Z.max d x); [apply Z.le_max_r | apply IH2; now left].
      * apply IH2. now right.
Qed.

Lemma detector_categories (sprintMetrics : SprintMetrics.t) (prMetrics : PRMetrics.t)
      (historicalData : option HistoricalMetrics.t)
      (issues : option (list IssueData.t)) (prs : option (list PullRequestData.t)) :
  (forall f, RiskAssessor.detectPRDelays prMetrics historicalData = Some f ->
             RiskFactor.category f = RiskFactor.PR_DELAYS)
  /\ (forall f, RiskAssessor.detectHighWIP sprintMetrics issues = Some f ->
                RiskFactor.category f = RiskFactor.HIGH_WIP)
  /\ (forall f, RiskAssessor.detectCarryOverRisk sprintMetrics = Some f ->
                RiskFactor.category f = RiskFactor.CARRYOVER)
  /\ (forall f, RiskAssessor.detectReviewerBottlenecks prs = Some f ->
                RiskFactor.category f = RiskFactor.BOTTLENECK)
  /\ (forall f, RiskAssessor.detectLowCompletionRate sprintMetrics = Some f ->
                RiskFactor.category f = RiskFactor.COMPLEXITY).
Proof.
  repeat split; intros f.
  - unfold RiskAssessor.detectPRDelays.
    destruct historicalData; destruct (_ : bool); intros H; inversion H; reflexivity.
  - unfold RiskAssessor.detectHighWIP. destruct issues as [l|].
    + destruct (filter _ _); intros H; inversion H; reflexivity.
    + destruct (_ : bool); intros H; inversion H; reflexivity.
  - unfold RiskAssessor.detectCarryOverRisk.
    destruct (_ : bool); intros H; inversion H; reflexivity.
  - unfold RiskAssessor.detectReviewerBottlenecks.
    destruct prs as [[|pr r]|]; try discriminate.
    destruct (filter _ _); intros H; inversion H; reflexivity.
  - unfold RiskAssessor.detectLowCompletionRate.
    destruct (_ : bool); intros H; inversion H; reflexivity.
Qed.

Lemma no_highWIP_in (o : option RiskFactor.t) (c : RiskFactor.category_t) :
  c <> RiskFactor.HIGH_WIP ->
  (forall f, o = Some f -> RiskFactor.category f = c) ->
  filter isHighWIP (JS.push_opt o) = [].
Proof.
  intros Hc H. destruct o as [f|]; [|reflexivity]. simpl.
  unfold isHighWIP. rewrite (H f eq_refl). now destruct c.
Qed.

(** C4, amended.  When per-issue data is provided, [detectHighWIP] emits a
    [HIGH_WIP] factor exactly when some assignee has at least 5 active
    issues, an issue being active when its lower-cased status contains
    [progress] or [review]; the severity is
    [min(10, (maxWIP - 5) * 2 + 5)] for the largest such count [maxWIP]; and
    a pass holds at most one [HIGH_WIP] factor. *)
Theorem detectHighWIP_progress_or_review
        (sprintMetrics : SprintMetrics.t) (issues : list IssueData.t) :
  (forall f,
      RiskAssessor.detectHighWIP sprintMetrics (Some issues) = Some f ->
      RiskFactor.category f = RiskFactor.HIGH_WIP
      /\ exists a,
          5 <= wipOf a issues
          /\ (forall b, wipOf b issues <= wipOf a issues)
          /\ RiskFactor.severity f = Z.min 10 ((wipOf a issues - 5) * 2 + 5))
  /\ ((exists a, 5 <= wipOf a issues) ->
      exists f, RiskAssessor.detectHighWIP sprintMetrics (Some issues) = Some f)
  /\ (forall prMetrics historicalData prs,
         (List.length
            (filter isHighWIP
                    (RiskAssessor.identifyRiskFactors sprintMetrics prMetrics historicalData
                                                      (Some issues) prs)) <= 1)%nat).
Proof.
  pose proof (groupByAssignee_counts
                (filter (fun issue => RiskAssessor.isWipStatus (IssueData.status issue))
                        issues)) as [Hnd _].
  pose proof (fun a => wipOf_counts a issues) as Hwip.
  unfold RiskAssessor.detectHighWIP.
  set (m := RiskAssessor.groupByAssignee _) in *.
  set (overloaded := filter (fun e => RiskAssessor.HIGH_WIP_THRESHOLD <=? snd e) m).
  assert (Hover : forall a n, In (a, n) overloaded <-> In (a, n) m /\ 5 <= n).
  { intros a n. unfold overloaded. rewrite filter_In. cbn [snd].
    unfold RiskAssessor.HIGH_WIP_THRESHOLD. rewrite Z.leb_le. reflexivity. }
  assert (Hentry : forall a, 5 <= wipOf a issues -> In (a, wipOf a issues) overloaded).
  { intros a Ha. apply Hover. split; [|exact Ha].
    rewrite Hwip. apply countIn_found. rewrite <- Hwip. lia. }
  split; [|split].
  - intros f. destruct overloaded as [|e0 rest] eqn:Eo; [discriminate|].
    intros Hf. inversion Hf; subst f; clear Hf.
    cbn [RiskFactor.category RiskFactor.severity].
    split; [reflexivity|].
    destruct (maxZ_spec (snd e0) (map snd rest)) as [Hin Hmax].
    set (maxWIP := JS.maxZ (snd e0) (map snd rest)) in *.
    change (snd e0 :: map snd rest) with (map snd (e0 :: rest)) in Hin, Hmax.
    apply in_map_iff in Hin. destruct Hin as [[a n] [Hn Ha]]. cbn [snd] in Hn.
    subst n. apply Hover in Ha. destruct Ha as [Ham Ha5].
    assert (Hwa : wipOf a issues = maxWIP)
      by (rewrite Hwip; apply countIn_entry; assumption).
    exists a. rewrite Hwa. split; [exact Ha5|]. split.
    + intros b. destruct (Z_lt_ge_dec (wipOf b issues) 5) as [Hlt|Hge]; [lia|].
      apply Hmax. apply in_map_iff. exists (b, wipOf b issues).
      split; [reflexivity|]. apply Hentry. lia.
    + unfold RiskAssessor.HIGH_WIP_THRESHOLD. reflexivity.
  - intros [a Ha]. apply Hentry in Ha.
    destruct overloaded as [|e0 rest]; [contradiction|]. eexists. reflexivity.
  - intros prMetrics historicalData prs.
    destruct (detector_categories sprintMetrics prMetrics historicalData (Some issues) prs)
      as [H1 [_ [H3 [H4 H5]]]].
    unfold RiskAssessor.identifyRiskFactors. rewrite !filter_app.
    rewrite (no_highWIP_in (RiskAssessor.detectPRDelays prMetrics historicalData)
                           RiskFactor.PR_DELAYS) by (discriminate || exact H1).
    rewrite (no_highWIP_in (RiskAssessor.detectCarryOverRisk sprintMetrics)
                           RiskFactor.CARRYOVER) by (discriminate || exact H3).
    rewrite (no_highWIP_in (RiskAssessor.detectReviewerBottlenecks prs)
                           RiskFactor.BOTTLENECK) by (discriminate || exact H4).
    rewrite (no_highWIP_in (RiskAssessor.detectLowCompletionRate sprintMetrics)
                           RiskFactor.COMPLEXITY) by (discriminate || exact H5).
    rewrite !app_nil_r. cbn [app].
    destruct (RiskAssessor.detectHighWIP sprintMetrics (Some issues)) as [f|]; simpl.
    + destruct (isHighWIP f); simpl; lia.
    + lia.
Qed.

Lemma detectHighWIP_in_progress_sample :
  exists f,
    RiskAssessor.detectHighWIP quietSprint (Some (fiveIssuesIn "In Progress")) = Some f.
Proof.
  apply (proj1 (proj2 (detectHighWIP_progress_or_review
                         quietSprint (fiveIssuesIn "In Progress")))).
  exists "John". vm_compute. discriminate.
Defined.

(** C4 as stated fails in both directions.  Five issues of one developer in
    [Testing] are active by the configured keywords, and no factor is
    emitted; five issues in [Peer Review] are active by none of the
    keywords, and a [HIGH_WIP] factor is emitted. *)
Lemma detectHighWIP_ignores_configured_keywords :
  (5 <= activeOf "John" (fiveIssuesIn "Testing")
   /\ RiskAssessor.detectHighWIP quietSprint (Some (fiveIssuesIn "Testing")) = None)
  /\ (activeOf "John" (fiveIssuesIn "Peer Review") = 0
      /\ option_map RiskFactor.category
           (RiskAssessor.detectHighWIP quietSprint (Some (fiveIssuesIn "Peer Review")))
         = Some RiskFactor.HIGH_WIP).
Proof. vm_compute. repeat split; discriminate. Qed.

(* ================================================================== *)
(** ** AnalysisOrchestrator: error containment *)

Lemma handleAnalysisError_degraded (now : Z) (error : AnalysisOrchestrator.thrown)
      (sprintId : string) :
  degraded (AnalysisOrchestrator.handleAnalysisError now error sprintId).
Proof.
  unfold degraded. repeat split. eexists. reflexivity.
Qed.

Section OrchestratorFacts.

Variable generateNextSprintSuggestions :
  SprintMetrics.t -> HistoricalMetrics.t -> RiskAssessment.t ->
  list IssueData.t -> list PullRequestData.t -> NextSprintSuggestions.t.

Variable generateReport :
  Z -> SprintData.t -> SprintMetrics.t -> PRMetrics.t -> RiskAssessment.t ->
  list Recommendation.t -> list IssueData.t -> list PullRequestData.t ->
  option (list BottleneckInfo.t) -> option NextSprintSuggestions.t -> SprintReport.t.

Variable c : AnalysisOrchestrator.Collaborators.

Lemma fetchJiraData_rejects :
  trackerFails c -> exists e, AnalysisOrchestrator.fetchJiraData c
                              = AnalysisOrchestrator.Rejected e.
Proof.
  unfold AnalysisOrchestrator.fetchJiraData, AnalysisOrchestrator.all2.
  intros [[e He]|[e He]]; rewrite He.
  - destruct (AnalysisOrchestrator.getSprintIssues c); eexists; reflexivity.
  - destruct (AnalysisOrchestrator.getSprintData c); eexists; reflexivity.
Qed.

Lemma historyFor_resolves (sprintId : string) (boardId : option string) :
  exists h, AnalysisOrchestrator.historyFor c sprintId boardId
            = AnalysisOrchestrator.Resolved h.
Proof.
  unfold AnalysisOrchestrator.historyFor, AnalysisOrchestrator.getHistoricalMetrics,
    AnalysisOrchestrator.catchWith.
  destruct (JS.truthy_string boardId); [|eexists; reflexivity].
  destruct (AnalysisOrchestrator.bind _ _); eexists; reflexivity.
Qed.

Lemma fetchAndCache_rejects (sprintId : string) (boardId : option string) :
  trackerFails c ->
  exists e, AnalysisOrchestrator.fetchAndCache c sprintId boardId
            = AnalysisOrchestrator.Rejected e.
Proof.
  intros H. destruct (fetchJiraData_rejects H) as [e He].
  destruct (historyFor_resolves sprintId boardId) as [h Hh].
  unfold AnalysisOrchestrator.fetchAndCache. rewrite He, Hh. simpl.
  eexists. reflexivity.
Qed.

Lemma collectData_rejects (sprintId : string) (boardId : option string)
      (forceRefresh : bool) :
  trackerFails c -> negb forceRefresh && dataCached c = false ->
  exists e, AnalysisOrchestrator.collectData c sprintId boardId forceRefresh
            = AnalysisOrchestrator.Rejected e.
Proof.
  intros H Hcache. unfold AnalysisOrchestrator.collectData.
  destruct forceRefresh; cbn [negb andb] in *; [now apply fetchAndCache_rejects|].
  unfold dataCached in Hcache.
  destruct (AnalysisOrchestrator.getCachedSprintData c) as [[[s i]|]|e1];
    destruct (AnalysisOrchestrator.getCachedPRData c) as [[p|]|e2];
    cbn [AnalysisOrchestrator.bind]; try discriminate;
    try (now apply fetchAndCache_rejects); eexists; reflexivity.
Qed.

Lemma analyzeSprintBody_rejects (sprintId : string) (boardId : option string)
      (forceRefresh : bool) :
  trackerFails c -> servedFromCache c forceRefresh = false ->
  exists e,
    AnalysisOrchestrator.analyzeSprintBody generateNextSprintSuggestions generateReport
                                           c sprintId boardId forceRefresh
    = AnalysisOrchestrator.Rejected e.
Proof.
  intros H Hcache. unfold servedFromCache in Hcache.
  assert (Hfresh : negb forceRefresh && dataCached c = false ->
                   exists e,
                     AnalysisOrchestrator.analyzeFresh
                       generateNextSprintSuggestions generateReport c sprintId boardId
                       forceRefresh
                     = AnalysisOrchestrator.Rejected e).
  { intros Hd. destruct (collectData_rejects sprintId boardId forceRefresh H Hd) as [e He].
    unfold AnalysisOrchestrator.analyzeFresh. rewrite He. eexists. reflexivity. }
  unfold AnalysisOrchestrator.analyzeSprintBody.
  destruct forceRefresh; cbn [negb andb] in *; [apply Hfresh; reflexivity|].
  apply orb_false_iff in Hcache. destruct Hcache as [Hr Hd].
  unfold reportCached in Hr.
  unfold AnalysisOrchestrator.getCachedReport, AnalysisOrchestrator.catchWith.
  destruct (AnalysisOrchestrator.getReport c) as [[r|]|e0];
    cbn [AnalysisOrchestrator.bind]; try discriminate; apply Hfresh; exact Hd.
Qed.

(** A cached report is returned as it is, whatever the issue tracker would
    answer. *)
Lemma analyzeSprint_cached_report (sprintId : string) (boardId : option string)
      (report : SprintReport.t) :
  AnalysisOrchestrator.getReport c = AnalysisOrchestrator.Resolved (Some report) ->
  AnalysisOrchestrator.analyzeSprint generateNextSprintSuggestions generateReport c
                                     sprintId boardId false
  = report.
Proof.
  intros H.
  unfold AnalysisOrchestrator.analyzeSprint, AnalysisOrchestrator.analyzeSprintBody,
    AnalysisOrchestrator.getCachedReport.
  rewrite H. reflexivity.
Qed.

(** C1.  [analyzeSprint] always returns a report.  Whenever an error escapes
    the pipeline, the report is the one built by [handleAnalysisError], which
    is degraded: risk level High, exactly one recommendation (PROCESS,
    priority 1, advising a retry) and all sprint and pull-request metrics
    zero.  A failing issue-tracker fetch is such an error, unless the pass is
    answered from a cache and the tracker is not asked. *)
Theorem analyzeSprint_contains_errors
        (sprintId : string) (boardId : option string) (forceRefresh : bool) :
  let report :=
    AnalysisOrchestrator.analyzeSprint generateNextSprintSuggestions generateReport c
                                       sprintId boardId forceRefresh in
  (forall error,
      AnalysisOrchestrator.analyzeSprintBody generateNextSprintSuggestions generateReport
                                             c sprintId boardId forceRefresh
      = AnalysisOrchestrator.Rejected error ->
      report = AnalysisOrchestrator.handleAnalysisError
                 (AnalysisOrchestrator.clock c) error sprintId
      /\ degraded report)
  /\ (trackerFails c -> servedFromCache c forceRefresh = false -> degraded report).
Proof.
  cbv zeta.
  assert (Hescape : forall error,
             AnalysisOrchestrator.analyzeSprintBody
               generateNextSprintSuggestions generateReport c sprintId boardId forceRefresh
             = AnalysisOrchestrator.Rejected error ->
             AnalysisOrchestrator.analyzeSprint
               generateNextSprintSuggestions generateReport c sprintId boardId forceRefresh
             = AnalysisOrchestrator.handleAnalysisError
                 (AnalysisOrchestrator.clock c) error sprintId
             /\ degraded (AnalysisOrchestrator.analyzeSprint
                            generateNextSprintSuggestions generateReport c sprintId
                            boardId forceRefresh)).
  { intros error He. unfold AnalysisOrchestrator.analyzeSprint. rewrite He.
    split; [reflexivity | apply handleAnalysisError_degraded]. }
  split; [exact Hescape|].
  intros Hfail Hcache.
  destruct (analyzeSprintBody_rejects sprintId boardId forceRefresh Hfail Hcache)
    as [error He].
  apply (Hescape error He).
Qed.

End OrchestratorFacts.

Lemma analyzeSprint_tracker_down :
  degraded (AnalysisOrchestrator.analyzeSprint noSuggestions plainReport trackerDown
                                               "sprint-1" None false).
Proof.
  apply (analyzeSprint_contains_errors noSuggestions plainReport trackerDown
                                       "sprint-1" None false).
  - left. eexists. reflexivity.
  - reflexivity.
Defined.

(** The failing pass, evaluated: the summary carries the wrapped message. *)
Example analyzeSprint_tracker_down_summary :
  SprintReport.summary
    (AnalysisOrchestrator.analyzeSprint noSuggestions plainReport trackerDown
                                        "sprint-1" None false)
  = [ JS.Lit "Analysis failed for sprint "; JS.Lit "sprint-1"; JS.Lit ". ";
      JS.Lit "Failed to fetch sprint data from Jira: Jira API unavailable" ].
Proof. reflexivity. Qed.

(* ================================================================== *)
(** ** The repository's test scenarios, evaluated on the embedding *)

Example identifyBottlenecks_code_review :
  map bottleneckSummary (MetricsCalculator.identifyBottlenecks reviewBottleneckIssues)
  = [ ("Code Review", BottleneckInfo.STATUS, [ "PROJ-1"; "PROJ-2" ], 5) ].
Proof. vm_compute. reflexivity. Qed.

Example calculatePRMetrics_two_merged :
  let m := MetricsCalculator.calculatePRMetrics mergedPRs in
  (PRMetrics.averageLatency m == 6)%Q
  /\ (PRMetrics.averageTimeToFirstReview m == 3 # 2)%Q
  /\ (PRMetrics.averageRevisions m == 2)%Q.
Proof. vm_compute. repeat split. Qed.

Example calculateSprintMetrics_all_done :
  let m := MetricsCalculator.calculateSprintMetrics
             0 reviewBottleneckIssues (sprintEnding 24) in
  SprintMetrics.throughput m = 3
  /\ (SprintMetrics.velocity m == 10)%Q
  /\ (SprintMetrics.completionRate m == 100)%Q
  /\ (SprintMetrics.cycleTime m == 8)%Q.
Proof. vm_compute. repeat split. Qed.

(** Two days before the end of the sprint: the unassigned 13-point issue in
    [To Do] spills over for certain and comes first; the 5-point issue in
    progress follows; the completed issue is absent. *)
Example predictSpillover_two_days_left :
  map (fun p => (SpilloverPrediction.issueKey p,
                 Qred (SpilloverPrediction.probability p)))
      (PredictionEngine.predictSpillover 3600000 sampleIssues (sprintEnding 49) 3600000
                                         None)
  = [ ("ISSUE-2", 1%Q); ("ISSUE-1", 3 # 4) ].
Proof. vm_compute. reflexivity. Qed.

(* ================================================================== *)
(** * Further properties of the services *)

(** ** MetricsCalculator: sprint metrics *)

Lemma calculateSprintMetrics_fields (now : Z) (issues : list IssueData.t)
      (sprint : SprintData.t) :
  let m := MetricsCalculator.calculateSprintMetrics now issues sprint in
  let done := MetricsCalculator.getCompletedIssues issues in
  SprintMetrics.cycleTime m = fst (MetricsCalculator.calculateAverageCycleTime done)
  /\ SprintMetrics.leadTime m
     = fst (MetricsCalculator.calculateAverageLeadTime
              now (snd (MetricsCalculator.calculateAverageCycleTime done)))
  /\ SprintMetrics.throughput m = JS.lenZ done
  /\ SprintMetrics.velocity m = MetricsCalculator.calculateVelocity done
  /\ SprintMetrics.wipCount m = JS.lenZ (MetricsCalculator.getActiveIssues issues)
  /\ SprintMetrics.carryOverCount m
     = JS.lenZ (MetricsCalculator.getCarryOverIssues now issues sprint)
  /\ SprintMetrics.completionRate m
     = match issues with
       | [] => 0%Q
       | _ => JS.fl (JS.fl (JS.lenQ done / JS.lenQ issues) * 100)
       end.
Proof.
  cbv zeta. unfold MetricsCalculator.calculateSprintMetrics.
  pose proof (averaging_passes_restore_order
                now (MetricsCalculator.getCompletedIssues issues)) as Hrestore.
  destruct (MetricsCalculator.calculateAverageCycleTime
              (MetricsCalculator.getCompletedIssues issues)) as [cycleTime completed1].
  cbn [fst snd] in *.
  destruct (MetricsCalculator.calculateAverageLeadTime now completed1)
    as [leadTime completed2].
  cbn [fst snd] in *. subst completed2.
  repeat split.
Qed.

Lemma filter_length_le {A} (f : A -> bool) (l : list A) :
  (List.length (filter f l) <= List.length l)%nat.
Proof.
  induction l as [|x r IH]; simpl; [lia|]. destruct (f x); simpl; lia.
Qed.

Lemma lenZ_filter_bounds {A} (f : A -> bool) (l : list A) :
  0 <= JS.lenZ (filter f l) <= JS.lenZ l.
Proof.
  unfold JS.lenZ. pose proof (filter_length_le f l). lia.
Qed.

Lemma lenQ_cons_pos {A} (x : A) (l : list A) : (0 < JS.lenQ (x :: l))%Q.
Proof.
  unfold JS.lenQ. change 0%Q with (inject_Z 0). rewrite <- Zlt_Qlt.
  cbn [List.length]. lia.
Qed.

Lemma sumQ_nonneg (l : list Q) :
  Forall (fun t => (0 < t)%Q) l -> (0 <= JS.sumQ l)%Q.
Proof.
  unfold JS.sumQ.
  assert (H : forall l a, Forall (fun t => (0 < t)%Q) l -> (0 <= a)%Q ->
                          (0 <= fold_left JS.add l a)%Q).
  { clear l. induction l as [|x r IH]; intros a Hl Ha; simpl; [exact Ha|].
    inversion Hl; subst. apply IH; [assumption|]. apply fl_nonneg. lra. }
  intros Hl. apply H; [exact Hl | apply Qle_refl].
Qed.

Lemma averageOfValid_nonneg (times : list Q) :
  (0 <= MetricsCalculator.averageOfValid times)%Q.
Proof.
  unfold MetricsCalculator.averageOfValid.
  assert (Hpos : Forall (fun t => (0 < t)%Q) (filter (fun time => JS.gtb time 0) times)).
  { apply Forall_forall. intros t Ht. apply filter_In in Ht.
    now apply gtb_gt. }
  destruct (filter (fun time => JS.gtb time 0) times) as [|v0 vs];
    [apply Qle_refl|].
  apply fl_nonneg. apply Qle_shift_div_l; [apply lenQ_cons_pos|].
  rewrite Qmult_0_l. now apply sumQ_nonneg.
Qed.

Lemma averageCycleTime_nonneg (issues : list IssueData.t) :
  (0 <= fst (MetricsCalculator.calculateAverageCycleTime issues))%Q.
Proof.
  unfold MetricsCalculator.calculateAverageCycleTime.
  destruct issues; [apply Qle_refl | apply averageOfValid_nonneg].
Qed.

Lemma averageLeadTime_nonneg (now : Z) (issues : list IssueData.t) :
  (0 <= fst (MetricsCalculator.calculateAverageLeadTime now issues))%Q.
Proof.
  unfold MetricsCalculator.calculateAverageLeadTime.
  destruct issues; [apply Qle_refl | apply averageOfValid_nonneg].
Qed.

(** X1.  Whatever the issues, the sprint metrics stay in their ranges: the
    three counts lie between [0] and the number of issues, the completion
    rate between [0] and [100], and the average cycle and lead times are
    never negative (issues with a non-positive time are left out of the
    averages). *)
Theorem calculateSprintMetrics_ranges (now : Z) (issues : list IssueData.t)
        (sprint : SprintData.t) :
  let m := MetricsCalculator.calculateSprintMetrics now issues sprint in
  0 <= SprintMetrics.throughput m <= JS.lenZ issues
  /\ 0 <= SprintMetrics.wipCount m <= JS.lenZ issues
  /\ 0 <= SprintMetrics.carryOverCount m <= JS.lenZ issues
  /\ (0 <= SprintMetrics.completionRate m)%Q
  /\ (SprintMetrics.completionRate m <= 100)%Q
  /\ (0 <= SprintMetrics.cycleTime m)%Q
  /\ (0 <= SprintMetrics.leadTime m)%Q.
Proof.
  cbv zeta.
  destruct (calculateSprintMetrics_fields now issues sprint)
    as [Hc [Hl [Ht [_ [Hw [Hco Hr]]]]]].
  rewrite Hc, Hl, Ht, Hw, Hco, Hr.
  split; [apply lenZ_filter_bounds|].
  split; [apply lenZ_filter_bounds|].
  split; [apply lenZ_filter_bounds|].
  assert (Hrate : (0 <= match issues with
                        | [] => 0
                        | _ => JS.fl (JS.fl (JS.lenQ (MetricsCalculator.getCompletedIssues
                                                        issues)
                                             / JS.lenQ issues) * 100)
                        end)%Q
                  /\ (match issues with
                      | [] => 0
                      | _ => JS.fl (JS.fl (JS.lenQ (MetricsCalculator.getCompletedIssues
                                                      issues)
                                           / JS.lenQ issues) * 100)
                      end <= 100)%Q).
  { destruct issues as [|i0 r] eqn:E; [split; [apply Qle_refl | discriminate]|].
    rewrite <- E.
    assert (Hn : (0 < JS.lenQ issues)%Q) by (rewrite E; apply lenQ_cons_pos).
    assert (Hd : (0 <= JS.lenQ (MetricsCalculator.getCompletedIssues issues))%Q
                 /\ (JS.lenQ (MetricsCalculator.getCompletedIssues issues)
                     <= JS.lenQ issues)%Q).
    { unfold JS.lenQ. change 0%Q with (inject_Z 0). rewrite <- !Zle_Qle.
      apply (lenZ_filter_bounds _ issues). }
    destruct Hd as [Hd0 Hd1].
    set (d := JS.lenQ (MetricsCalculator.getCompletedIssues issues)) in *.
    set (n := JS.lenQ issues) in *.
    assert (Hq0 : (0 <= d / n)%Q)
      by (apply Qle_shift_div_l; [exact Hn | rewrite Qmult_0_l; exact Hd0]).
    assert (Hq1 : (d / n <= 1)%Q)
      by (apply Qle_shift_div_r; [exact Hn | rewrite Qmult_1_l; exact Hd1]).
    assert (Hf0 : (0 <= JS.fl (d / n))%Q) by now apply fl_nonneg.
    assert (Hf1 : (JS.fl (d / n) <= 1)%Q)
      by (apply (fl_le_Z _ 1); [vm_compute; discriminate | exact Hq1]).
    set (q := JS.fl (d / n)) in *. clearbody q.
    split; [apply fl_nonneg; lra|].
    apply (fl_le_Z _ 100); [vm_compute; discriminate|].
    change (inject_Z 100) with 100%Q. lra. }
  destruct Hrate as [Hr0 Hr1].
  split; [exact Hr0|]. split; [exact Hr1|].
  split; [apply averageCycleTime_nonneg | apply averageLeadTime_nonneg].
Qed.

(** X2.  When no issue is in a completed status, throughput, velocity, the
    average cycle and lead times and the completion rate are all zero. *)
Theorem calculateSprintMetrics_nothing_completed (now : Z) (issues : list IssueData.t)
        (sprint : SprintData.t) :
  Forall (fun issue => completed issue = false) issues ->
  let m := MetricsCalculator.calculateSprintMetrics now issues sprint in
  SprintMetrics.throughput m = 0
  /\ SprintMetrics.velocity m = 0%Q
  /\ SprintMetrics.cycleTime m = 0%Q
  /\ SprintMetrics.leadTime m = 0%Q
  /\ (SprintMetrics.completionRate m == 0)%Q.
Proof.
  intros Hnone. cbv zeta.
  assert (Hdone : MetricsCalculator.getCompletedIssues issues = []).
  { unfold MetricsCalculator.getCompletedIssues.
    induction Hnone as [|issue r Hi _ IH]; [reflexivity|].
    cbn [filter]. unfold completed in Hi. now rewrite Hi. }
  destruct (calculateSprintMetrics_fields now issues sprint)
    as [Hc [Hl [Ht [Hv [_ [_ Hr]]]]]].
  rewrite Hc, Hl, Ht, Hv, Hr, Hdone.
  repeat split. destruct issues as [|i0 r]; [reflexivity|].
  assert (Hq : (JS.lenQ (@nil IssueData.t) / JS.lenQ (i0 :: r) == 0)%Q)
    by (unfold JS.lenQ at 1; cbn [List.length]; unfold Qdiv; ring).
  rewrite (fl_comp _ _ Hq). reflexivity.
Qed.

Lemma calculateSprintMetrics_open_sample :
  SprintMetrics.throughput
    (MetricsCalculator.calculateSprintMetrics 0 openIssues (sprintEnding 24)) = 0.
Proof.
  apply (calculateSprintMetrics_nothing_completed 0 openIssues (sprintEnding 24)).
  repeat constructor.
Defined.

(** Eleven issues done out of twenty: [(11 / 20) * 100] is
    55.00000000000001 on binary64 numbers. *)
Example completionRate_eleven_of_twenty :
  SprintMetrics.completionRate
    (MetricsCalculator.calculateSprintMetrics
       0 (repeat (issueAt "Done" []) 11 ++ repeat (issueAt "To Do" []) 9)
       (sprintEnding 24))
  = (7740561859543041 # 140737488355328)%Q
  /\ (55 < 7740561859543041 # 140737488355328)%Q.
Proof. vm_compute. split; reflexivity. Qed.

(* ================================================================== *)
(** ** MetricsCalculator: creation time and lead time *)

Lemma earliest_fold (l : list StatusTransition.t) (a : Z) :
  let r := fold_left
             (fun earliest transition =>
                let time := StatusTransition.timestamp transition in
                if time <? earliest then time else earliest)
             l a in
  r <= a
  /\ (forall t, In t l -> r <= StatusTransition.timestamp t)
  /\ (r = a \/ In r (map StatusTransition.timestamp l)).
Proof.
  cbv zeta. revert a. induction l as [|x rest IH]; intros a; simpl.
  - split; [lia|]. split; [intros t []|now left].
  - destruct (IH (if StatusTransition.timestamp x <? a
                  then StatusTransition.timestamp x else a)) as [H1 [H2 H3]].
    destruct (StatusTransition.timestamp x <? a) eqn:E.
    + apply Z.ltb_lt in E. split; [lia|]. split.
      * intros t [->|Ht]; [exact H1 | now apply H2].
      * right. destruct H3 as [H3|H3]; [left; now symmetry | now right].
    + apply Z.ltb_ge in E. split; [exact H1|]. split.
      * intros t [->|Ht]; [lia | now apply H2].
      * destruct H3 as [H3|H3]; [now left | right; now right].
Qed.

Lemma getIssueCreationTime_least (now : Z) (issue : IssueData.t) :
  IssueData.statusTransitions issue <> [] ->
  In (MetricsCalculator.getIssueCreationTime now issue) (timestamps issue)
  /\ forall t, In t (timestamps issue) ->
               MetricsCalculator.getIssueCreationTime now issue <= t.
Proof.
  unfold MetricsCalculator.getIssueCreationTime, timestamps.
  destruct (IssueData.statusTransitions issue) as [|t0 rest] eqn:E; [congruence|].
  intros _.
  pose proof (earliest_fold (t0 :: rest) (StatusTransition.timestamp t0)) as H.
  cbv zeta in H |- *. destruct H as [H1 [H2 H3]].
  split.
  - destruct H3 as [H3|H3]; [|exact H3]. rewrite H3. now left.
  - intros t Ht. apply in_map_iff in Ht. destruct Ht as [x [<- Hx]].
    now apply H2.
Qed.

(** X3.  The creation time of an issue is the earliest timestamp among its
    transitions, whatever their order, and the current time when the issue
    has no transition. *)
Theorem getIssueCreationTime_earliest (now : Z) (issue : IssueData.t) :
  (IssueData.statusTransitions issue = [] ->
   MetricsCalculator.getIssueCreationTime now issue = now)
  /\ (IssueData.statusTransitions issue <> [] ->
      In (MetricsCalculator.getIssueCreationTime now issue) (timestamps issue)
      /\ forall t, In t (timestamps issue) ->
                   MetricsCalculator.getIssueCreationTime now issue <= t).
Proof.
  split.
  - intros Hnone. unfold MetricsCalculator.getIssueCreationTime.
    rewrite Hnone. reflexivity.
  - apply getIssueCreationTime_least.
Qed.

Lemma getIssueCreationTime_sample :
  In (MetricsCalculator.getIssueCreationTime 0 reopenedIssue) (timestamps reopenedIssue).
Proof.
  apply (getIssueCreationTime_earliest 0 reopenedIssue). discriminate.
Defined.

Lemma getIssueCreationTime_rev (now : Z) (issue : IssueData.t) :
  MetricsCalculator.getIssueCreationTime
    now (IssueData.with_transitions issue (rev (IssueData.statusTransitions issue)))
  = MetricsCalculator.getIssueCreationTime now issue.
Proof.
  set (issue' := IssueData.with_transitions issue
                   (rev (IssueData.statusTransitions issue))).
  assert (Hts : IssueData.statusTransitions issue'
                = rev (IssueData.statusTransitions issue)) by reflexivity.
  destruct (IssueData.statusTransitions issue) as [|t0 rest] eqn:E.
  - unfold MetricsCalculator.getIssueCreationTime. rewrite Hts, E. reflexivity.
  - destruct (getIssueCreationTime_least now issue) as [Hin Hle];
      [rewrite E; discriminate|].
    destruct (getIssueCreationTime_least now issue') as [Hin' Hle'].
    { rewrite Hts. intros Hnil. apply (f_equal (@rev _)) in Hnil.
      rewrite rev_involutive in Hnil. discriminate. }
    assert (Hsame : forall t, In t (timestamps issue') <-> In t (timestamps issue)).
    { intros t. unfold timestamps. rewrite Hts, E, map_rev. symmetry. apply in_rev. }
    apply Z.le_antisymm.
    + apply Hle'. now apply Hsame.
    + apply Hle. now apply Hsame.
Qed.

(** X4.  On its own, [calculateLeadTime] measures from the creation time to
    the last transition into a completed status.  Called after
    [calculateCycleTime] on the same issue, as [calculateSprintMetrics] does,
    it finds the array reversed and measures to the first such transition
    instead.  Either way the result is the milliseconds between the two (a
    number, rounded when beyond [2^53]) divided by 3600000 in a binary64
    division: the exact quotient up to two roundings of relative size
    [2^-53]; up to [2^53] milliseconds it is the exact quotient rounded
    once, and the very number of hours when the two are whole hours
    apart. *)
Theorem calculateLeadTime_first_or_last_completion
        (now : Z) (issue : IssueData.t)
        (pre post : list StatusTransition.t) (e : StatusTransition.t) :
  IssueData.statusTransitions issue = pre ++ e :: post ->
  targetsCompleted e = true ->
  let ms := StatusTransition.timestamp e
            - MetricsCalculator.getIssueCreationTime now issue in
  let measured (leadTime : Q) : Prop :=
    leadTime = JS.fl (JS.fl (inject_Z ms) / 3600000)
    /\ (Qabs (leadTime - inject_Z ms / 3600000)
        <= Qabs (inject_Z ms / 3600000) * roundings 2)%Q
    /\ (Z.abs ms <= 9007199254740992 ->
        leadTime = JS.fl (inject_Z ms / 3600000)
        /\ (Qabs (leadTime - inject_Z ms / 3600000)
            <= Qabs (inject_Z ms / 3600000) * (1 # 9007199254740992))%Q
        /\ (forall h, ms = h * 3600000 -> (leadTime == inject_Z h)%Q)) in
  (Forall (fun t => targetsCompleted t = false) post ->
   measured (fst (MetricsCalculator.calculateLeadTime now issue)))
  /\ (Forall (fun t => targetsCompleted t = false) pre ->
      measured (leadTimeAfterCycleTime now issue)).
Proof.
  intros Hts He. cbv zeta.
  split.
  - intros Hpost. unfold MetricsCalculator.calculateLeadTime.
    fold targetsCompleted. rewrite Hts.
    rewrite (find_rev_last _ _ _ _ Hpost He). cbn [fst].
    apply hours_measured.
  - intros Hpre. unfold leadTimeAfterCycleTime.
    rewrite (surjective_pairing
               (MetricsCalculator.calculateCycleTime (IssueData.statusTransitions issue))).
    rewrite calculateCycleTime_array_after.
    unfold MetricsCalculator.calculateLeadTime. fold targetsCompleted.
    rewrite getIssueCreationTime_rev.
    cbn [IssueData.with_transitions IssueData.statusTransitions].
    rewrite rev_involutive, Hts.
    rewrite (find_first _ _ _ _ Hpre He). cbn [fst].
    apply hours_measured.
Qed.

(** The reopened issue: 20 hours when [calculateLeadTime] is called alone,
    8 hours after [calculateCycleTime]. *)
Lemma calculateLeadTime_reopened_sample :
  (fst (MetricsCalculator.calculateLeadTime 0 reopenedIssue) == 20)%Q
  /\ (leadTimeAfterCycleTime 0 reopenedIssue == 8)%Q.
Proof.
  split.
  - destruct (proj1 (calculateLeadTime_first_or_last_completion
                       0 reopenedIssue
                       [ transitionAt "To Do" "In Progress" 10;
                         transitionAt "In Progress" "Done" 18;
                         transitionAt "Done" "In Progress" 20 ]
                       []
                       (transitionAt "In Progress" "Done" 30) eq_refl eq_refl))
      as [_ [_ Hsmall]]; [constructor|].
    destruct Hsmall as [_ [_ Hwhole]]; [vm_compute; discriminate|].
    apply (Hwhole 20). reflexivity.
  - destruct (proj2 (calculateLeadTime_first_or_last_completion
                       0 reopenedIssue
                       [ transitionAt "To Do" "In Progress" 10 ]
                       [ transitionAt "Done" "In Progress" 20;
                         transitionAt "In Progress" "Done" 30 ]
                       (transitionAt "In Progress" "Done" 18) eq_refl eq_refl))
      as [_ [_ Hsmall]]; [repeat constructor|].
    destruct Hsmall as [_ [_ Hwhole]]; [vm_compute; discriminate|].
    apply (Hwhole 8). reflexivity.
Defined.

(** The reopened issue: 20 hours when [calculateLeadTime] is called alone,
    8 hours as the lead time of [calculateSprintMetrics]. *)
Example leadTime_of_reopened_issue :
  (fst (MetricsCalculator.calculateLeadTime 0 reopenedIssue) == 20)%Q
  /\ (SprintMetrics.leadTime
        (MetricsCalculator.calculateSprintMetrics 0 [ reopenedIssue ] (sprintEnding 48))
      == 8)%Q.
Proof. vm_compute. split; reflexivity. Qed.

(* ================================================================== *)
(** ** MetricsCalculator: the dwell-time map *)

Lemma has_In (status : string) (m : MetricsCalculator.DwellMap) :
  MetricsCalculator.has status m = true <-> In status (map fst m).
Proof.
  unfold MetricsCalculator.has. rewrite existsb_exists, in_map_iff.
  split; intros [e [H1 H2]]; exists e.
  - apply String.eqb_eq in H2. tauto.
  - split; [tauto|]. apply String.eqb_eq. tauto.
Qed.

Lemma modify_present (status : string)
      (f : MetricsCalculator.DwellData -> MetricsCalculator.DwellData)
      (m : MetricsCalculator.DwellMap) (P : MetricsCalculator.DwellData -> Prop) :
  (forall d, P d -> P (f d)) ->
  Forall (fun e => P (snd e)) m ->
  map fst (MetricsCalculator.modify status f m) = map fst m
  /\ Forall (fun e => P (snd e)) (MetricsCalculator.modify status f m).
Proof.
  intros Hf. induction 1 as [|[k d] r Hd Hr IH]; simpl; [split; [reflexivity|constructor]|].
  destruct (String.eqb k status); simpl.
  - split; [reflexivity|]. constructor; [apply Hf, Hd | exact Hr].
  - destruct IH as [IH1 IH2]. split; [now rewrite IH1|]. now constructor.
Qed.

Lemma modify_appended (status : string)
      (f : MetricsCalculator.DwellData -> MetricsCalculator.DwellData)
      (m : MetricsCalculator.DwellMap) (z : MetricsCalculator.DwellData) :
  MetricsCalculator.has status m = false ->
  MetricsCalculator.modify status f (m ++ [(status, z)]) = m ++ [(status, f z)].
Proof.
  unfold MetricsCalculator.has.
  induction m as [|[k d] r IH]; simpl; intros H.
  - now rewrite String.eqb_refl.
  - apply orb_false_iff in H. destruct H as [Hk Hr]. rewrite Hk. now rewrite IH.
Qed.

Lemma addInterval_ok (keys : list string) (issueKey : string) (dwellTime : Q)
      (data : MetricsCalculator.DwellData) :
  In issueKey keys -> bucketOk keys data ->
  bucketOk keys (addInterval issueKey dwellTime data).
Proof.
  intros Hkey [Hc [Hnd [Hlen [Hle Hincl]]]].
  unfold bucketOk, addInterval.
  cbn [MetricsCalculator.count MetricsCalculator.issues].
  destruct (existsb (String.eqb issueKey) (MetricsCalculator.issues data)) eqn:E.
  - repeat split; try assumption; lia.
  - assert (Hnotin : ~ In issueKey (MetricsCalculator.issues data)).
    { intros Hin.
      assert (Ht : existsb (String.eqb issueKey) (MetricsCalculator.issues data) = true)
        by (apply existsb_exists; exists issueKey; split;
            [exact Hin | apply String.eqb_refl]).
      congruence. }
    rewrite length_app. cbn [List.length].
    repeat split; try lia.
    + apply NoDup_app; [exact Hnd | repeat constructor; intros [] |].
      intros x Hx [<-|[]]. contradiction.
    + apply incl_app; [exact Hincl|]. intros x [<-|[]]. exact Hkey.
Qed.

Lemma recordDwell_ok (keys : list string) (issueKey : string)
      (m : MetricsCalculator.DwellMap) (cur next : StatusTransition.t) :
  In issueKey keys ->
  NoDup (map fst m) -> Forall (fun e => bucketOk keys (snd e)) m ->
  NoDup (map fst (MetricsCalculator.recordDwell issueKey m cur next))
  /\ Forall (fun e => bucketOk keys (snd e))
            (MetricsCalculator.recordDwell issueKey m cur next).
Proof.
  intros Hkey Hnd Hok. unfold MetricsCalculator.recordDwell.
  set (status := StatusTransition.toStatus cur).
  set (dwellTime := JS.hours _).
  change (fun data => MetricsCalculator.mkDwell _ _ _)
    with (addInterval issueKey dwellTime).
  destruct (MetricsCalculator.has status m) eqn:E.
  - destruct (modify_present status (addInterval issueKey dwellTime) m (bucketOk keys)
                             (fun d => addInterval_ok keys issueKey dwellTime d Hkey) Hok)
      as [H1 H2].
    now rewrite H1.
  - rewrite (modify_appended _ _ _ _ E). split.
    + rewrite map_app. cbn [map fst]. apply NoDup_app; [exact Hnd | repeat constructor; intros [] |].
      intros x Hx [<-|[]].
      apply has_In in Hx. congruence.
    + apply Forall_app. split; [exact Hok|]. constructor; [|constructor].
      cbn [snd]. unfold bucketOk, addInterval. cbn.
      repeat split; try lia.
      * repeat constructor. intros [].
      * intros x [<-|[]]. exact Hkey.
Qed.

Lemma dwellOfTransitions_ok (keys : list string) (issueKey : string)
      (transitions : list StatusTransition.t) (m : MetricsCalculator.DwellMap) :
  In issueKey keys ->
  NoDup (map fst m) -> Forall (fun e => bucketOk keys (snd e)) m ->
  NoDup (map fst (MetricsCalculator.dwellOfTransitions issueKey m transitions))
  /\ Forall (fun e => bucketOk keys (snd e))
            (MetricsCalculator.dwellOfTransitions issueKey m transitions).
Proof.
  intros Hkey. revert m.
  induction transitions as [|cur rest IH]; intros m Hnd Hok; [now split|].
  destruct rest as [|next rest']; [now split|].
  cbn [MetricsCalculator.dwellOfTransitions].
  destruct (recordDwell_ok keys issueKey m cur next Hkey Hnd Hok) as [H1 H2].
  now apply IH.
Qed.

(** X5.  In the dwell-time map every status has one bucket, and every bucket
    has recorded at least one interval and lists its affected issues without
    duplicates: at least one of them, all taken from the input, and never
    more issues than intervals. *)
Theorem calculateStatusDwellTimes_buckets (issues : list IssueData.t) :
  let dwellTimes := MetricsCalculator.calculateStatusDwellTimes issues in
  NoDup (map fst dwellTimes)
  /\ forall status data,
      In (status, data) dwellTimes -> bucketOk (map IssueData.key issues) data.
Proof.
  cbv zeta. unfold MetricsCalculator.calculateStatusDwellTimes.
  set (keys := map IssueData.key issues).
  assert (H : forall l m,
             incl (map IssueData.key l) keys ->
             NoDup (map fst m) -> Forall (fun e => bucketOk keys (snd e)) m ->
             let m' := fold_left
                         (fun m issue =>
                            MetricsCalculator.dwellOfTransitions
                              (IssueData.key issue) m (IssueData.statusTransitions issue))
                         l m in
             NoDup (map fst m') /\ Forall (fun e => bucketOk keys (snd e)) m').
  { induction l as [|issue r IH]; intros m Hl Hnd Hok; cbv zeta; simpl; [now split|].
    destruct (dwellOfTransitions_ok keys (IssueData.key issue)
                (IssueData.statusTransitions issue) m) as [H1 H2];
      try assumption.
    { apply Hl. now left. }
    apply IH; try assumption. intros x Hx. apply Hl. now right. }
  destruct (H issues [] (incl_refl _) (NoDup_nil _) (Forall_nil _)) as [H1 H2].
  split; [exact H1|]. intros status data Hin.
  rewrite Forall_forall in H2. apply (H2 (status, data) Hin).
Qed.

(* ================================================================== *)
(** ** RiskAssessor: the detectors *)

Lemma Qfloor_lower (x : Q) (n : Z) : (inject_Z n <= x)%Q -> n <= Qfloor x.
Proof.
  intros H. rewrite <- (Qfloor_Z n). now apply Qfloor_resp_le.
Qed.

Lemma maxZ_ge_first (d : Z) (l : list Z) : d <= JS.maxZ d l.
Proof. apply (proj2 (maxZ_spec d l)). now left. Qed.

Lemma overloaded_first {A} (T : Z) (m : list (A * Z)) (e0 : A * Z) (rest : list (A * Z)) :
  filter (fun e => T <=? snd e) m = e0 :: rest -> T <= snd e0.
Proof.
  intros H.
  assert (Hin : In e0 (filter (fun e => T <=? snd e) m)) by (rewrite H; now left).
  apply filter_In in Hin. now apply Z.leb_le.
Qed.

(** X6.  The carry-over detector fires exactly when the completion rate is
    below 70, with a severity between 3 and 10; the complexity detector fires
    exactly when the rate is below 50 and some velocity was delivered, with a
    severity between 5 and 10; and whenever the complexity factor fires, the
    carry-over factor fires too, with a severity of at least 7. *)
Theorem detectCarryOver_and_complexity (sprintMetrics : SprintMetrics.t) :
  let rate := SprintMetrics.completionRate sprintMetrics in
  ((exists f, RiskAssessor.detectCarryOverRisk sprintMetrics = Some f)
   <-> (rate < 70)%Q)
  /\ (forall f, RiskAssessor.detectCarryOverRisk sprintMetrics = Some f ->
                RiskFactor.severity f = Z.min 10 (Qfloor ((70 - rate) / 5) + 3)
                /\ 3 <= RiskFactor.severity f <= 10)
  /\ ((exists f, RiskAssessor.detectLowCompletionRate sprintMetrics = Some f)
      <-> (rate < 50)%Q /\ (0 < SprintMetrics.velocity sprintMetrics)%Q)
  /\ (forall f, RiskAssessor.detectLowCompletionRate sprintMetrics = Some f ->
                RiskFactor.severity f = Z.min 10 (Qfloor ((50 - rate) / 5) + 5)
                /\ 5 <= RiskFactor.severity f <= 10
                /\ exists g, RiskAssessor.detectCarryOverRisk sprintMetrics = Some g
                             /\ 7 <= RiskFactor.severity g).
Proof.
  cbv zeta.
  set (rate := SprintMetrics.completionRate sprintMetrics).
  assert (Hfloor : forall base : Q, (rate < base)%Q -> 0 <= Qfloor ((base - rate) / 5)).
  { intros base H. apply Qfloor_lower. apply Qle_shift_div_l; [reflexivity|].
    change (inject_Z 0) with 0%Q. lra. }
  assert (Hcarry : forall f, RiskAssessor.detectCarryOverRisk sprintMetrics = Some f ->
                             (rate < 70)%Q
                             /\ RiskFactor.severity f
                                = Z.min 10 (Qfloor ((70 - rate) / 5) + 3)).
  { intros f. unfold RiskAssessor.detectCarryOverRisk. fold rate.
    unfold RiskAssessor.LOW_COMPLETION_RATE_THRESHOLD.
    destruct (JS.ltb rate 70) eqn:E; [|discriminate].
    intros H. inversion H; subst f. apply ltb_lt in E. split; [exact E | reflexivity]. }
  assert (Hcarry' : (rate < 70)%Q ->
                    exists f, RiskAssessor.detectCarryOverRisk sprintMetrics = Some f).
  { intros H. unfold RiskAssessor.detectCarryOverRisk. fold rate.
    unfold RiskAssessor.LOW_COMPLETION_RATE_THRESHOLD.
    apply ltb_lt in H. rewrite H. eexists. reflexivity. }
  split; [split; [intros [f Hf]; apply (Hcarry f Hf) | exact Hcarry']|].
  split.
  { intros f Hf. destruct (Hcarry f Hf) as [Hlt Hs]. split; [exact Hs|].
    rewrite Hs. pose proof (Hfloor 70%Q Hlt). lia. }
  assert (Hlow : forall f, RiskAssessor.detectLowCompletionRate sprintMetrics = Some f ->
                           (rate < 50)%Q /\ (0 < SprintMetrics.velocity sprintMetrics)%Q
                           /\ RiskFactor.severity f
                              = Z.min 10 (Qfloor ((50 - rate) / 5) + 5)).
  { intros f. unfold RiskAssessor.detectLowCompletionRate. fold rate.
    destruct (JS.ltb rate 50) eqn:E1; [|discriminate].
    destruct (JS.gtb (SprintMetrics.velocity sprintMetrics) 0) eqn:E2; [|discriminate].
    cbn [andb]. intros H. inversion H; subst f.
    apply ltb_lt in E1. apply gtb_gt in E2. repeat split; assumption. }
  split.
  { split; [intros [f Hf]; destruct (Hlow f Hf) as [H1 [H2 _]]; now split|].
    intros [H1 H2]. unfold RiskAssessor.detectLowCompletionRate. fold rate.
    apply ltb_lt in H1. apply gtb_gt in H2. rewrite H1, H2. eexists. reflexivity. }
  intros f Hf. destruct (Hlow f Hf) as [H1 [H2 Hs]]. split; [exact Hs|].
  split; [rewrite Hs; pose proof (Hfloor 50%Q H1); lia|].
  destruct Hcarry' as [g Hg]; [lra|]. exists g. split; [exact Hg|].
  destruct (Hcarry g Hg) as [_ Hgs]. rewrite Hgs.
  assert (4 <= Qfloor ((70 - rate) / 5)).
  { apply Qfloor_lower. apply Qle_shift_div_l; [reflexivity|].
    change (inject_Z 4) with 4%Q. lra. }
  lia.
Qed.

Lemma detectCarryOver_sample :
  exists f, RiskAssessor.detectCarryOverRisk (metricsWithRate 40 8) = Some f.
Proof.
  apply (proj1 (detectCarryOver_and_complexity (metricsWithRate 40 8))).
  reflexivity.
Defined.

(** A counting map filtered by a threshold, as the detectors and the
    recommendation generators do it: nothing is left exactly when every
    count is below the threshold; otherwise the maximum over what is left is
    the largest count of the map. *)
Lemma overloaded_spec (T : Z) (m : list (string * Z)) :
  1 <= T -> NoDup (map fst m) ->
  match filter (fun e => T <=? snd e) m with
  | [] => forall a, countIn a m < T
  | e0 :: rest =>
      exists a,
        T <= countIn a m
        /\ (forall b, countIn b m <= countIn a m)
        /\ JS.maxZ (snd e0) (map snd rest) = countIn a m
  end.
Proof.
  intros HT Hnd.
  assert (Hover : forall a n,
             In (a, n) (filter (fun e => T <=? snd e) m) <-> In (a, n) m /\ T <= n).
  { intros a n. rewrite filter_In. cbn [snd]. rewrite Z.leb_le. reflexivity. }
  destruct (filter (fun e => T <=? snd e) m) as [|e0 rest] eqn:E.
  - intros a. destruct (Z_lt_ge_dec (countIn a m) T) as [H|H]; [exact H|].
    exfalso. apply (proj2 (Hover a (countIn a m))).
    split; [apply countIn_found; lia | lia].
  - destruct (maxZ_spec (snd e0) (map snd rest)) as [Hin Hmax].
    set (mx := JS.maxZ (snd e0) (map snd rest)) in *.
    change (snd e0 :: map snd rest) with (map snd (e0 :: rest)) in Hin, Hmax.
    apply in_map_iff in Hin. destruct Hin as [[a n] [Hn Ha]]. cbn [snd] in Hn.
    subst n. apply Hover in Ha. destruct Ha as [Ham HaT].
    assert (Hca : countIn a m = mx) by (now apply countIn_entry).
    exists a. rewrite Hca. split; [exact HaT|]. split; [|reflexivity].
    intros b. destruct (Z_lt_ge_dec (countIn b m) T) as [H|H]; [lia|].
    apply Hmax. apply in_map_iff. exists (b, countIn b m). split; [reflexivity|].
    apply Hover. split; [apply countIn_found; lia | lia].
Qed.

Lemma bump_usernames (reviewers : list ReviewerData.t) (m : list (string * Z)) :
  NoDup (map fst m) ->
  let m' := fold_left (fun m' reviewer => JS.bump (ReviewerData.username reviewer) m')
                      reviewers m in
  NoDup (map fst m')
  /\ forall a,
      countIn a m'
      = countIn a m
        + JS.lenZ (filter (fun r => String.eqb (ReviewerData.username r) a) reviewers).
Proof.
  cbv zeta. revert m. induction reviewers as [|r rest IH]; intros m Hnd; simpl.
  - split; [exact Hnd | intros a; unfold JS.lenZ; simpl; lia].
  - destruct (IH (JS.bump (ReviewerData.username r) m)
                 (proj1 (bump_keys (ReviewerData.username r) m Hnd))) as [H1 H2].
    split; [exact H1|]. intros a. rewrite H2, countIn_bump.
    destruct (String.eqb (ReviewerData.username r) a);
      unfold JS.lenZ; cbn [List.length]; lia.
Qed.

(** The counting map of [detectReviewerBottlenecks] holds, under distinct
    keys, the number of open requests of every reviewer. *)
Lemma countByReviewer_counts (prs : list PullRequestData.t) :
  NoDup (map fst (RiskAssessor.countByReviewer prs))
  /\ forall a, countIn a (RiskAssessor.countByReviewer prs) = openReviewsOf a prs.
Proof.
  unfold RiskAssessor.countByReviewer, openReviewsOf.
  assert (H : forall l m,
             NoDup (map fst m) ->
             let m' := fold_left
                         (fun m pr =>
                            if RiskAssessor.isOpen pr
                            then fold_left
                                   (fun m' reviewer =>
                                      JS.bump (ReviewerData.username reviewer) m')
                                   (PullRequestData.reviewers pr) m
                            else m)
                         l m in
             NoDup (map fst m')
             /\ forall a,
                 countIn a m'
                 = countIn a m
                   + JS.lenZ (filter (fun r => String.eqb (ReviewerData.username r) a)
                                     (flat_map PullRequestData.reviewers
                                               (filter RiskAssessor.isOpen l)))).
  { induction l as [|pr rest IH]; intros m Hnd; cbv zeta; cbn [fold_left filter].
    - split; [exact Hnd | intros a; unfold JS.lenZ; simpl; lia].
    - destruct (RiskAssessor.isOpen pr).
      + destruct (bump_usernames (PullRequestData.reviewers pr) m Hnd) as [H1 H2].
        destruct (IH _ H1) as [H3 H4]. split; [exact H3|].
        intros a. rewrite H4, H2. cbn [flat_map]. rewrite filter_app.
        unfold JS.lenZ. rewrite length_app. lia.
      + apply IH, Hnd. }
  destruct (H prs [] (NoDup_nil _)) as [H1 H2].
  split; [exact H1|]. intros a. rewrite H2. reflexivity.
Qed.

(** X7.  The reviewer detector is silent without pull requests; otherwise it
    fires exactly when some reviewer is on at least 8 open requests
    (merged and declined requests do not count), with severity
    [min(10, floor((max - 8) / 2) + 6)] for the largest load [max], hence
    between 6 and 10. *)
Theorem detectReviewerBottlenecks_overload (prs : list PullRequestData.t) :
  RiskAssessor.detectReviewerBottlenecks None = None
  /\ RiskAssessor.detectReviewerBottlenecks (Some []) = None
  /\ ((exists f, RiskAssessor.detectReviewerBottlenecks (Some prs) = Some f)
      <-> exists a, 8 <= openReviewsOf a prs)
  /\ (forall f,
         RiskAssessor.detectReviewerBottlenecks (Some prs) = Some f ->
         RiskFactor.category f = RiskFactor.BOTTLENECK
         /\ 6 <= RiskFactor.severity f <= 10
         /\ exists a,
             (forall b, openReviewsOf b prs <= openReviewsOf a prs)
             /\ RiskFactor.severity f
                = Z.min 10 ((openReviewsOf a prs - 8) / 2 + 6)).
Proof.
  split; [reflexivity|]. split; [reflexivity|].
  destruct (countByReviewer_counts prs) as [Hnd Hcount].
  pose proof (overloaded_spec 8 (RiskAssessor.countByReviewer prs) ltac:(lia) Hnd) as Hov.
  assert (Hempty : prs = [] -> forall a, openReviewsOf a prs = 0)
    by (intros -> a; reflexivity).
  unfold RiskAssessor.detectReviewerBottlenecks.
  unfold RiskAssessor.REVIEWER_OVERLOAD_THRESHOLD.
  destruct prs as [|pr0 r] eqn:Eprs.
  { split.
    - split; [intros [f Hf]; discriminate|].
      intros [a Ha]. rewrite (Hempty eq_refl a) in Ha. lia.
    - intros f Hf. discriminate. }
  rewrite <- Eprs in *. clear Hempty.
  destruct (filter (fun e => 8 <=? snd e) (RiskAssessor.countByReviewer prs))
    as [|e0 rest] eqn:E.
  - split.
    + split; [intros [f Hf]; discriminate|].
      intros [a Ha]. specialize (Hov a). rewrite Hcount in Hov. lia.
    + intros f Hf. discriminate.
  - destruct Hov as [a [Ha8 [Hmax Hmx]]].
    rewrite Hcount in Ha8, Hmx.
    split.
    + split; [intros _; exists a; exact Ha8 | intros _; eexists; reflexivity].
    + intros f Hf. inversion Hf; subst f; clear Hf.
      cbn [RiskFactor.category RiskFactor.severity].
      split; [reflexivity|]. rewrite Hmx.
      split.
      * assert (0 <= (openReviewsOf a prs - 8) / 2) by (apply Z.div_pos; lia). lia.
      * exists a. split; [|reflexivity].
        intros b. rewrite <- !Hcount. apply Hmax.
Qed.

Lemma detectReviewerBottlenecks_sample :
  exists f,
    RiskAssessor.detectReviewerBottlenecks (Some (openRequestsFor "alice" 10)) = Some f.
Proof.
  apply (proj1 (proj2 (proj2 (detectReviewerBottlenecks_overload
                                (openRequestsFor "alice" 10))))).
  exists "alice". vm_compute. discriminate.
Defined.

(** X8.  Without per-issue data the WIP detector falls back on the aggregate
    count: it fires exactly when [wipCount >= 10], with severity
    [min(10, floor(wipCount / 3))], between 3 and 10.  With per-issue data
    the aggregate count is never consulted: the result is the same for any
    sprint metrics. *)
Theorem detectHighWIP_fallback (sprintMetrics : SprintMetrics.t) :
  let wipCount := SprintMetrics.wipCount sprintMetrics in
  ((exists f, RiskAssessor.detectHighWIP sprintMetrics None = Some f) <-> 10 <= wipCount)
  /\ (forall f,
         RiskAssessor.detectHighWIP sprintMetrics None = Some f ->
         RiskFactor.category f = RiskFactor.HIGH_WIP
         /\ RiskFactor.severity f = Z.min 10 (wipCount / 3)
         /\ 3 <= RiskFactor.severity f <= 10)
  /\ (forall issues otherMetrics,
         RiskAssessor.detectHighWIP sprintMetrics (Some issues)
         = RiskAssessor.detectHighWIP otherMetrics (Some issues)).
Proof.
  cbv zeta. unfold RiskAssessor.detectHighWIP, RiskAssessor.HIGH_WIP_THRESHOLD.
  change (5 * 2) with 10.
  destruct (10 <=? SprintMetrics.wipCount sprintMetrics) eqn:E.
  - apply Z.leb_le in E. split; [split; [intros _; exact E | intros _; eexists; reflexivity]|].
    split; [|reflexivity].
    intros f Hf. inversion Hf; subst f. cbn [RiskFactor.category RiskFactor.severity].
    split; [reflexivity|]. split; [reflexivity|].
    assert (3 <= SprintMetrics.wipCount sprintMetrics / 3)
      by (apply Z.div_le_lower_bound; lia).
    lia.
  - apply Z.leb_gt in E. split; [split; [intros [f Hf]; discriminate | lia]|].
    split; [intros f Hf; discriminate | reflexivity].
Qed.

Lemma detectHighWIP_fallback_sample :
  exists f, RiskAssessor.detectHighWIP (metricsWithWip 12) None = Some f.
Proof.
  apply (proj1 (detectHighWIP_fallback (metricsWithWip 12))).
  discriminate.
Defined.

Lemma tenthOfIncrease_monotone (x y : Q) :
  (x <= y)%Q -> (tenthOfIncrease x <= tenthOfIncrease y)%Q.
Proof.
  intros H. unfold tenthOfIncrease.
  apply fl_monotone. apply Qmult_le_compat_r; [|discriminate].
  apply fl_monotone. apply Qmult_le_compat_r; [|discriminate].
  apply fl_monotone. lra.
Qed.

Lemma PR_DELAY_MULTIPLIER_value :
  RiskAssessor.PR_DELAY_MULTIPLIER = (5854679515581645 # 4503599627370496)%Q.
Proof. vm_compute. reflexivity. Qed.

(** A latency above the threshold is more than 1.29 times a positive
    baseline, and more than 1.3 times when it is a binary64 number. *)
Lemma above_threshold (latency base : Q) :
  (0 < base)%Q ->
  (JS.fl (base * RiskAssessor.PR_DELAY_MULTIPLIER) < latency)%Q ->
  (129 # 100 < latency / base)%Q
  /\ ((JS.fl latency == latency)%Q -> (13 # 10 < latency / base)%Q).
Proof.
  intros Hbase Hlat. rewrite PR_DELAY_MULTIPLIER_value in Hlat.
  set (x := (base * (5854679515581645 # 4503599627370496))%Q) in *.
  assert (Hx : (x == base * (5854679515581645 # 4503599627370496))%Q) by reflexivity.
  pose proof (fl_error x) as Herr.
  rewrite (Qabs_pos x) in Herr by lra.
  apply Qabs_Qle_condition in Herr. destruct Herr as [Herr _].
  set (threshold := JS.fl x) in *.
  split.
  - apply Qlt_shift_div_l; [exact Hbase|]. clearbody x threshold. lra.
  - intros Hrep.
    assert (Hpos : (0 < threshold)%Q) by (clearbody x threshold; lra).
    pose proof (spacing threshold latency Hpos (fl_fl x) Hrep Hlat) as Hspace.
    apply Qlt_shift_div_l; [exact Hbase|]. clearbody x threshold. lra.
Qed.

Lemma tenthOfIncrease_floor (ratio bound : Q) (n : Z) :
  (bound <= ratio)%Q -> Qle_bool (inject_Z n) (tenthOfIncrease (JS.fl bound)) = true ->
  n <= Qfloor (tenthOfIncrease (JS.fl ratio)).
Proof.
  intros H Hn. apply Qle_bool_iff in Hn. apply Qfloor_lower.
  apply Qle_trans with (y := tenthOfIncrease (JS.fl bound)); [exact Hn|].
  now apply tenthOfIncrease_monotone, fl_monotone.
Qed.

(** X9.  Against a historical baseline the PR-delay detector fires exactly
    when the average latency exceeds the baseline latency times 1.3 (a
    binary64 product).  With a positive baseline the severity is
    [min(10, floor(percentage increase / 10))], every operation of the
    percentage being a binary64 one; it lies between 2 and 10, and between 3
    and 10 when the latency is a binary64 number.  With a baseline of zero
    every positive latency is a delay of severity 10.  A latency of 14 hours
    against a baseline of 10 has severity 3, where the percentage on the
    rationals (40) would give 4. *)
Theorem detectPRDelays_against_baseline
        (prMetrics : PRMetrics.t) (history : HistoricalMetrics.t) :
  let latency := PRMetrics.averageLatency prMetrics in
  let base := PRMetrics.averageLatency (HistoricalMetrics.prMetrics history) in
  ((exists f, RiskAssessor.detectPRDelays prMetrics (Some history) = Some f)
   <-> (JS.fl (base * JS.fl (13 # 10)) < latency)%Q)
  /\ (forall f,
         RiskAssessor.detectPRDelays prMetrics (Some history) = Some f ->
         RiskFactor.category f = RiskFactor.PR_DELAYS
         /\ RiskFactor.severity f <= 10
         /\ ((0 < base)%Q ->
             RiskFactor.severity f
             = Z.min 10 (Qfloor (JS.fl (JS.fl (JS.fl (JS.fl (latency / base) - 1) * 100) / 10)))
             /\ 2 <= RiskFactor.severity f
             /\ ((JS.fl latency == latency)%Q -> 3 <= RiskFactor.severity f))
         /\ ((base == 0)%Q -> RiskFactor.severity f = 10))
  /\ (forall f,
         RiskAssessor.detectPRDelays (PRMetrics.mk 14 0 0 0) (Some (baseline 10)) = Some f ->
         RiskFactor.severity f = 3
         /\ Z.min 10 (Qfloor ((14 / 10 - 1) * 100 / 10)) = 4).
Proof.
  cbv zeta. split; [|split].
  - unfold RiskAssessor.detectPRDelays, JS.mul.
    change RiskAssessor.PR_DELAY_MULTIPLIER with (JS.fl (13 # 10)).
    set (latency := PRMetrics.averageLatency prMetrics).
    set (base := PRMetrics.averageLatency (HistoricalMetrics.prMetrics history)).
    destruct (JS.gtb latency (JS.fl (base * JS.fl (13 # 10)))) eqn:E.
    + apply gtb_gt in E. split; [intros _; exact E | intros _; eexists; reflexivity].
    + split; [intros [f Hf]; discriminate|]. intros H.
      apply gtb_gt in H. congruence.
  - unfold RiskAssessor.detectPRDelays, JS.mul, JS.sub, JS.div.
    set (latency := PRMetrics.averageLatency prMetrics).
    set (base := PRMetrics.averageLatency (HistoricalMetrics.prMetrics history)).
    destruct (JS.gtb latency (JS.fl (base * RiskAssessor.PR_DELAY_MULTIPLIER))) eqn:E;
      [|discriminate].
    apply gtb_gt in E.
    intros f Hf. inversion Hf; subst f; clear Hf.
    cbn [RiskFactor.category RiskFactor.severity].
    split; [reflexivity|].
    destruct (Qeq_bool base 0) eqn:Eb.
    + apply Qeq_bool_iff in Eb. split; [lia|]. split; [|reflexivity].
      intros Hpos. rewrite Eb in Hpos. exfalso. apply (Qlt_irrefl _ Hpos).
    + cbv beta iota zeta. split; [apply Z.le_min_l|]. split.
      * intros Hpos. split; [reflexivity|].
        destruct (above_threshold latency base Hpos E) as [H129 H13].
        fold (tenthOfIncrease (JS.fl (latency / base))).
        split.
        -- apply Z.min_glb; [lia|].
           apply (tenthOfIncrease_floor _ (129 # 100) 2);
             [now apply Qlt_le_weak | vm_compute; reflexivity].
        -- intros Hrep. apply Z.min_glb; [lia|].
           apply (tenthOfIncrease_floor _ (13 # 10) 3);
             [apply Qlt_le_weak; now apply H13 | vm_compute; reflexivity].
      * intros H0. apply Qeq_bool_iff in H0. congruence.
  - intros f Hf. vm_compute in Hf. inversion Hf; subst f; clear Hf.
    split; vm_compute; reflexivity.
Qed.

Lemma detectPRDelays_zero_baseline_sample :
  (exists f,
      RiskAssessor.detectPRDelays (PRMetrics.mk 2 1 1 1) (Some (baseline 0)) = Some f
      /\ RiskFactor.severity f = 10)
  /\ (exists f,
         RiskAssessor.detectPRDelays (PRMetrics.mk 14 0 0 0) (Some (baseline 10)) = Some f
         /\ RiskFactor.severity f = 3).
Proof.
  split.
  - destruct (proj2 (proj1 (detectPRDelays_against_baseline (PRMetrics.mk 2 1 1 1)
                                                            (baseline 0))))
      as [f Hf]; [vm_compute; reflexivity|].
    exists f. split; [exact Hf|].
    destruct (proj1 (proj2 (detectPRDelays_against_baseline (PRMetrics.mk 2 1 1 1)
                                                            (baseline 0))) f Hf)
      as [_ [_ [_ Hzero]]].
    apply Hzero. reflexivity.
  - destruct (proj2 (proj1 (detectPRDelays_against_baseline (PRMetrics.mk 14 0 0 0)
                                                            (baseline 10))))
      as [f Hf]; [vm_compute; reflexivity|].
    exists f. split; [exact Hf|].
    destruct (proj1 (proj2 (detectPRDelays_against_baseline (PRMetrics.mk 14 0 0 0)
                                                            (baseline 10))) f Hf)
      as [_ [_ [Hs _]]].
    destruct Hs as [Hs _]; [reflexivity|]. rewrite Hs. vm_compute. reflexivity.
Defined.

(* ================================================================== *)
(** ** RiskAssessor: the factors of a pass *)

(** Bounds on what each detector emits.  The lower bound of the PR-delay
    detector needs latencies that are not negative. *)
Lemma detector_severity_bounds (sprintMetrics : SprintMetrics.t) (prMetrics : PRMetrics.t)
      (historicalData : option HistoricalMetrics.t)
      (issues : option (list IssueData.t)) (prs : option (list PullRequestData.t)) :
  (forall f, RiskAssessor.detectPRDelays prMetrics historicalData = Some f ->
             RiskFactor.severity f <= 10
             /\ ((0 <= PRMetrics.averageLatency prMetrics)%Q ->
                 (forall h, historicalData = Some h ->
                            (0 <= PRMetrics.averageLatency (HistoricalMetrics.prMetrics h))%Q) ->
                 0 <= RiskFactor.severity f))
  /\ (forall f, RiskAssessor.detectHighWIP sprintMetrics issues = Some f ->
                3 <= RiskFactor.severity f <= 10)
  /\ (forall f, RiskAssessor.detectCarryOverRisk sprintMetrics = Some f ->
                3 <= RiskFactor.severity f <= 10)
  /\ (forall f, RiskAssessor.detectReviewerBottlenecks prs = Some f ->
                6 <= RiskFactor.severity f <= 10)
  /\ (forall f, RiskAssessor.detectLowCompletionRate sprintMetrics = Some f ->
                5 <= RiskFactor.severity f <= 10).
Proof.
  assert (Hfloor : forall base rate : Q, (rate < base)%Q -> 0 <= Qfloor ((base - rate) / 5)).
  { intros base rate H. apply Qfloor_lower. apply Qle_shift_div_l; [reflexivity|].
    change (inject_Z 0) with 0%Q. lra. }
  split; [|split; [|split; [|split]]]; intros f.
  - unfold RiskAssessor.detectPRDelays, JS.mul, JS.sub, JS.div.
    destruct historicalData as [h|].
    + set (latency := PRMetrics.averageLatency prMetrics).
      set (base := PRMetrics.averageLatency (HistoricalMetrics.prMetrics h)).
      destruct (JS.gtb latency (JS.fl (base * RiskAssessor.PR_DELAY_MULTIPLIER))) eqn:E;
        [|discriminate].
      intros H. injection H as H; subst f.
      cbn [RiskFactor.severity]. apply gtb_gt in E.
      destruct (Qeq_bool base 0) eqn:Eb; cbv beta iota zeta;
        [split; intros; lia|].
      split; [apply Z.le_min_l|]. intros Hlat Hbase.
      specialize (Hbase h eq_refl). fold base in Hbase.
      assert (Hpos : (0 < base)%Q).
      { apply Qle_lteq in Hbase. destruct Hbase as [Hb|Hb]; [exact Hb|].
        exfalso. symmetry in Hb. apply Qeq_bool_iff in Hb. congruence. }
      apply Z.min_glb; [lia|].
      destruct (above_threshold latency base Hpos E) as [H129 _].
      fold (tenthOfIncrease (JS.fl (latency / base))).
      apply Z.le_trans with (m := 2); [lia|].
      apply (tenthOfIncrease_floor _ (129 # 100) 2);
        [now apply Qlt_le_weak | vm_compute; reflexivity].
    + destruct (_ : bool); [|discriminate].
      intros H. injection H as H; subst f. cbn [RiskFactor.severity].
      split; [apply Z.le_min_l|]. intros Hlat _.
      apply Z.min_glb; [lia|].
      apply Qfloor_lower. change (inject_Z 0) with 0%Q. apply fl_nonneg.
      apply Qle_shift_div_l; [reflexivity | lra].
  - unfold RiskAssessor.detectHighWIP, RiskAssessor.HIGH_WIP_THRESHOLD.
    destruct issues as [l|].
    + destruct (filter _ _) as [|e0 rest] eqn:E; [discriminate|].
      intros H. injection H as H; subst f. cbn [RiskFactor.severity].
      pose proof (overloaded_first _ _ _ _ E).
      pose proof (maxZ_ge_first (snd e0) (map snd rest)). lia.
    + change (5 * 2) with 10.
      destruct (10 <=? SprintMetrics.wipCount sprintMetrics) eqn:E; [|discriminate].
      apply Z.leb_le in E.
      intros H. injection H as H; subst f. cbn [RiskFactor.severity].
      assert (3 <= SprintMetrics.wipCount sprintMetrics / 3)
        by (apply Z.div_le_lower_bound; lia).
      lia.
  - unfold RiskAssessor.detectCarryOverRisk, RiskAssessor.LOW_COMPLETION_RATE_THRESHOLD.
    destruct (JS.ltb _ 70) eqn:E; [|discriminate]. apply ltb_lt in E.
    intros H. injection H as H; subst f.
    change (3 <= Z.min 10 (Qfloor ((70 - SprintMetrics.completionRate sprintMetrics) / 5)
                           + 3) <= 10).
    pose proof (Hfloor 70%Q _ E). lia.
  - unfold RiskAssessor.detectReviewerBottlenecks,
      RiskAssessor.REVIEWER_OVERLOAD_THRESHOLD.
    destruct prs as [[|pr r]|]; try discriminate.
    destruct (filter _ _) as [|e0 rest] eqn:E; [discriminate|].
    intros H. injection H as H; subst f. cbn [RiskFactor.severity].
    pose proof (overloaded_first _ _ _ _ E).
    pose proof (maxZ_ge_first (snd e0) (map snd rest)).
    assert (0 <= (JS.maxZ (snd e0) (map snd rest) - 8) / 2) by (apply Z.div_pos; lia).
    lia.
  - unfold RiskAssessor.detectLowCompletionRate.
    destruct (JS.ltb _ 50) eqn:E; [|discriminate]. apply ltb_lt in E.
    destruct (JS.gtb _ 0); [|discriminate]. cbn [andb].
    intros H. injection H as H; subst f.
    change (5 <= Z.min 10 (Qfloor ((50 - SprintMetrics.completionRate sprintMetrics) / 5)
                           + 5) <= 10).
    pose proof (Hfloor 50%Q _ E). lia.
Qed.

Lemma push_opt_category (o : option RiskFactor.t) (c : RiskFactor.category_t) :
  (forall f, o = Some f -> RiskFactor.category f = c) ->
  categories (JS.push_opt o) = [] \/ categories (JS.push_opt o) = [c].
Proof.
  intros H. destruct o as [f|]; [right|left]; [|reflexivity].
  unfold categories. simpl. now rewrite (H f eq_refl).
Qed.

Lemma push_opt_Forall {A} (o : option A) (P : A -> Prop) :
  (forall x, o = Some x -> P x) -> Forall P (JS.push_opt o).
Proof.
  intros H. destruct o as [x|]; simpl; [|constructor].
  constructor; [now apply H | constructor].
Qed.

(** X10.  A pass holds at most five risk factors, at most one of each
    category, in the fixed order PR delays, WIP, carry-over, reviewer
    bottleneck, complexity; no severity exceeds 10, and the score never
    exceeds 100. *)
Theorem identifyRiskFactors_shape (sprintMetrics : SprintMetrics.t)
        (prMetrics : PRMetrics.t) (historicalData : option HistoricalMetrics.t)
        (issues : option (list IssueData.t)) (prs : option (list PullRequestData.t)) :
  let factors :=
    RiskAssessor.identifyRiskFactors sprintMetrics prMetrics historicalData issues prs in
  (List.length factors <= 5)%nat
  /\ NoDup (categories factors)
  /\ (exists keep : RiskFactor.category_t -> bool,
         categories factors
         = filter keep [ RiskFactor.PR_DELAYS; RiskFactor.HIGH_WIP; RiskFactor.CARRYOVER;
                         RiskFactor.BOTTLENECK; RiskFactor.COMPLEXITY ])
  /\ Forall (fun f => RiskFactor.severity f <= 10) factors
  /\ RiskAssessor.calculateRiskScore factors <= 100.
Proof.
  cbv zeta.
  destruct (detector_categories sprintMetrics prMetrics historicalData issues prs)
    as [C1 [C2 [C3 [C4 C5]]]].
  destruct (detector_severity_bounds sprintMetrics prMetrics historicalData issues prs)
    as [S1 [S2 [S3 [S4 S5]]]].
  assert (Hcats :
            exists keep : RiskFactor.category_t -> bool,
              categories (RiskAssessor.identifyRiskFactors sprintMetrics prMetrics
                                                           historicalData issues prs)
              = filter keep [ RiskFactor.PR_DELAYS; RiskFactor.HIGH_WIP;
                              RiskFactor.CARRYOVER; RiskFactor.BOTTLENECK;
                              RiskFactor.COMPLEXITY ]).
  { unfold RiskAssessor.identifyRiskFactors, categories. rewrite !map_app.
    fold (categories (JS.push_opt (RiskAssessor.detectPRDelays prMetrics historicalData))).
    fold (categories (JS.push_opt (RiskAssessor.detectHighWIP sprintMetrics issues))).
    fold (categories (JS.push_opt (RiskAssessor.detectCarryOverRisk sprintMetrics))).
    fold (categories (JS.push_opt (RiskAssessor.detectReviewerBottlenecks prs))).
    fold (categories (JS.push_opt (RiskAssessor.detectLowCompletionRate sprintMetrics))).
    destruct (push_opt_category _ _ C1) as [E1|E1];
      destruct (push_opt_category _ _ C2) as [E2|E2];
      destruct (push_opt_category _ _ C3) as [E3|E3];
      destruct (push_opt_category _ _ C4) as [E4|E4];
      destruct (push_opt_category _ _ C5) as [E5|E5];
      rewrite E1, E2, E3, E4, E5;
      match goal with
      | |- exists _, ?l = _ =>
          exists (fun c => existsb
                             (fun d => match c, d with
                                       | RiskFactor.PR_DELAYS, RiskFactor.PR_DELAYS
                                       | RiskFactor.HIGH_WIP, RiskFactor.HIGH_WIP
                                       | RiskFactor.CARRYOVER, RiskFactor.CARRYOVER
                                       | RiskFactor.BOTTLENECK, RiskFactor.BOTTLENECK
                                       | RiskFactor.COMPLEXITY, RiskFactor.COMPLEXITY => true
                                       | _, _ => false
                                       end) l)
      end; reflexivity. }
  destruct Hcats as [keep Hkeep].
  split.
  { rewrite <- (length_map RiskFactor.category). fold (categories
      (RiskAssessor.identifyRiskFactors sprintMetrics prMetrics historicalData issues prs)).
    rewrite Hkeep. apply (filter_length_le keep). }
  split.
  { rewrite Hkeep. apply NoDup_filter.
    repeat constructor; simpl; intuition discriminate. }
  split; [exists keep; exact Hkeep|].
  split.
  { unfold RiskAssessor.identifyRiskFactors. rewrite !Forall_app.
    repeat split; apply push_opt_Forall; intros f Hf.
    - apply (S1 f Hf).
    - apply (S2 f Hf).
    - apply (S3 f Hf).
    - apply (S4 f Hf).
    - apply (S5 f Hf). }
  apply calculateRiskScore_le_100.
Qed.

Lemma bySeverityDesc_graver (a b : RiskFactor.t) :
  RiskAssessor.bySeverityDesc a b = true <-> graver a b.
Proof. unfold RiskAssessor.bySeverityDesc, graver. rewrite Z.leb_le. lia. Qed.

(** X11.  The factor list of an assessment holds exactly the factors the
    detectors emitted, ordered by severity descending: building the
    justification sorts the list in place before it is returned. *)
Theorem assessSprintRisk_factors_sorted (sprintMetrics : SprintMetrics.t)
        (prMetrics : PRMetrics.t) (historicalData : option HistoricalMetrics.t)
        (issues : option (list IssueData.t)) (prs : option (list PullRequestData.t)) :
  let assessment :=
    RiskAssessor.assessSprintRisk sprintMetrics prMetrics historicalData issues prs in
  Permutation (RiskAssessment.factors assessment)
              (RiskAssessor.identifyRiskFactors sprintMetrics prMetrics historicalData
                                                issues prs)
  /\ StronglySorted graver (RiskAssessment.factors assessment).
Proof.
  cbv zeta. unfold RiskAssessor.assessSprintRisk.
  set (factors := RiskAssessor.identifyRiskFactors _ _ _ _ _).
  unfold RiskAssessor.generateJustification.
  destruct factors as [|f0 r] eqn:E.
  - cbn [RiskAssessment.factors]. split; constructor.
  - rewrite <- E. cbn [RiskAssessment.factors]. split; [apply sort_perm|].
    apply StronglySorted_weaken with (R := fun a b => RiskAssessor.bySeverityDesc a b = true).
    + intros a b. apply bySeverityDesc_graver.
    + apply sort_sorted.
      * intros a b. rewrite !bySeverityDesc_graver. unfold graver. lia.
      * intros a b c. rewrite !bySeverityDesc_graver. unfold graver. lia.
Qed.

Lemma total_nonneg (l : list Q) : Forall (fun x => (0 <= x)%Q) l -> (0 <= total l)%Q.
Proof.
  induction 1 as [|x r Hx _ IH]; simpl; [apply Qle_refl | lra].
Qed.

Lemma mean_nonneg (l : list Q) : Forall (fun x => (0 <= x)%Q) l -> (0 <= mean l)%Q.
Proof.
  intros H. unfold mean. destruct l as [|x r] eqn:E; [apply Qle_refl|].
  rewrite <- E in *. apply Qle_shift_div_l.
  - rewrite E. apply (lenQ_cons_pos x r).
  - rewrite Qmult_0_l. now apply total_nonneg.
Qed.

(** X12.  When the average PR latency and the baseline latency (if there is
    a baseline) are not negative, every severity of a pass lies between 0
    and 10 and the score between 0 and 100. *)
Theorem assessSprintRisk_ranges (sprintMetrics : SprintMetrics.t)
        (prMetrics : PRMetrics.t) (historicalData : option HistoricalMetrics.t)
        (issues : option (list IssueData.t)) (prs : option (list PullRequestData.t)) :
  (0 <= PRMetrics.averageLatency prMetrics)%Q ->
  (forall h, historicalData = Some h ->
             (0 <= PRMetrics.averageLatency (HistoricalMetrics.prMetrics h))%Q) ->
  let assessment :=
    RiskAssessor.assessSprintRisk sprintMetrics prMetrics historicalData issues prs in
  Forall (fun f => 0 <= RiskFactor.severity f <= 10) (RiskAssessment.factors assessment)
  /\ 0 <= RiskAssessment.score assessment <= 100.
Proof.
  intros Hlat Hbase. cbv zeta.
  destruct (detector_severity_bounds sprintMetrics prMetrics historicalData issues prs)
    as [S1 [S2 [S3 [S4 S5]]]].
  assert (Hall : Forall (fun f => 0 <= RiskFactor.severity f <= 10)
                        (RiskAssessor.identifyRiskFactors sprintMetrics prMetrics
                                                          historicalData issues prs)).
  { unfold RiskAssessor.identifyRiskFactors. rewrite !Forall_app.
    repeat split; apply push_opt_Forall; intros f Hf.
    - destruct (S1 f Hf) as [Hle Hge]. split; [now apply Hge | exact Hle].
    - pose proof (S2 f Hf). lia.
    - pose proof (S3 f Hf). lia.
    - pose proof (S4 f Hf). lia.
    - pose proof (S5 f Hf). lia. }
  assert (Hscore : 0 <= RiskAssessor.calculateRiskScore
                          (RiskAssessor.identifyRiskFactors sprintMetrics prMetrics
                                                            historicalData issues prs)
                   <= 100).
  { rewrite calculateRiskScore_computed. apply computedScore_bounds.
    apply mean_nonneg. unfold severities. apply Forall_map.
    eapply Forall_impl; [|exact Hall]. intros f [H0 _]. cbv beta.
    change 0%Q with (inject_Z 0). now rewrite <- Zle_Qle. }
  unfold RiskAssessor.assessSprintRisk.
  set (factors := RiskAssessor.identifyRiskFactors _ _ _ _ _) in *.
  unfold RiskAssessor.generateJustification.
  destruct factors as [|f0 r] eqn:E.
  - cbn [RiskAssessment.factors RiskAssessment.score]. split; [constructor | exact Hscore].
  - rewrite <- E in *. cbn [RiskAssessment.factors RiskAssessment.score].
    split; [|exact Hscore].
    apply (Permutation_Forall (Permutation_sym (sort_perm _ factors))). exact Hall.
Qed.

Lemma assessSprintRisk_ranges_sample :
  0 <= RiskAssessment.score
         (RiskAssessor.assessSprintRisk (metricsWithRate 40 8) (PRMetrics.mk 60 30 1 4)
                                        None (Some (fiveIssuesIn "In Progress"))
                                        (Some (openRequestsFor "alice" 10)))
    <= 100.
Proof.
  apply (assessSprintRisk_ranges (metricsWithRate 40 8) (PRMetrics.mk 60 30 1 4) None
                                 (Some (fiveIssuesIn "In Progress"))
                                 (Some (openRequestsFor "alice" 10))).
  - discriminate.
  - intros h Hh. discriminate.
Defined.

(* ================================================================== *)
(** ** PredictionEngine: dwell time and the reversed transitions *)

Lemma last_any_default {A} (l : list A) (x d d' : A) :
  last (x :: l) d = last (x :: l) d'.
Proof.
  revert x. induction l as [|y r IH]; intros x; [reflexivity|].
  change (last (y :: r) d = last (y :: r) d'). apply IH.
Qed.

Lemma hd_rev_last {A} (l : list A) (d : A) : hd d (rev l) = last l d.
Proof.
  induction l as [|x r _] using rev_ind; [reflexivity|].
  rewrite rev_unit, last_last. reflexivity.
Qed.

Lemma last_rev_hd {A} (l : list A) (d : A) : last (rev l) d = hd d l.
Proof.
  destruct l as [|x r]; [reflexivity|]. cbn [rev hd]. apply last_last.
Qed.

Lemma firstTimestamp_rev (ts : list StatusTransition.t) :
  firstTimestamp (rev ts) = lastTimestamp ts.
Proof.
  destruct ts as [|t0 rest]; [reflexivity|].
  unfold lastTimestamp. rewrite <- (hd_rev_last (t0 :: rest) t0).
  destruct (rev (t0 :: rest)) as [|r0 r] eqn:E; [|reflexivity].
  apply (f_equal (@List.length _)) in E. rewrite length_rev in E. discriminate.
Qed.

Lemma lastTimestamp_rev (ts : list StatusTransition.t) :
  lastTimestamp (rev ts) = firstTimestamp ts.
Proof.
  destruct ts as [|t0 rest]; [reflexivity|].
  destruct (rev (t0 :: rest)) as [|r0 r] eqn:E.
  - apply (f_equal (@List.length _)) in E. rewrite length_rev in E. discriminate.
  - unfold lastTimestamp. rewrite (last_any_default r r0 r0 t0), <- E, last_rev_hd.
    reflexivity.
Qed.

(** The loop of [calculateAverageStatusDwellTime] is the running sum of the
    intervals in hours. *)
Lemma totalDwell_intervals (ts : list StatusTransition.t) (acc : Q) :
  PredictionEngine.totalDwell acc ts
  = fold_left (fun sum x => JS.fl (sum + x)) (map inHours (intervals ts)) acc.
Proof.
  revert acc. induction ts as [|t0 rest IH]; intros acc; [reflexivity|].
  destruct rest as [|t1 rest']; [reflexivity|].
  change (PredictionEngine.totalDwell acc (t0 :: t1 :: rest'))
    with (PredictionEngine.totalDwell
            (JS.add acc (JS.hours (StatusTransition.timestamp t1
                                   - StatusTransition.timestamp t0)))
            (t1 :: rest')).
  rewrite IH. reflexivity.
Qed.

Lemma intervals_length (ts : list StatusTransition.t) :
  List.length (intervals ts) = (List.length ts - 1)%nat.
Proof.
  induction ts as [|t0 rest IH]; [reflexivity|].
  destruct rest as [|t1 rest']; [reflexivity|].
  change (intervals (t0 :: t1 :: rest'))
    with ((StatusTransition.timestamp t1 - StatusTransition.timestamp t0)
            :: intervals (t1 :: rest')).
  cbn [List.length] in *. lia.
Qed.

Lemma averageStatusDwellTime_computed (issue : IssueData.t) :
  PredictionEngine.calculateAverageStatusDwellTime issue
  = computedMean (map inHours (intervals (IssueData.statusTransitions issue))).
Proof.
  unfold PredictionEngine.calculateAverageStatusDwellTime.
  set (ts := IssueData.statusTransitions issue).
  pose proof (intervals_length ts) as Hlen.
  destruct (List.length ts <? 2)%nat eqn:E.
  - apply Nat.ltb_lt in E.
    assert (Hnil : intervals ts = []) by (apply length_zero_iff_nil; lia).
    rewrite Hnil. reflexivity.
  - apply Nat.ltb_ge in E.
    rewrite computedMean_nonempty.
    + unfold JS.div, runningSum. rewrite totalDwell_intervals, length_map.
      apply fl_comp.
      assert (Hn : (JS.lenQ ts - 1 == inject_Z (Z.of_nat (List.length (intervals ts))))%Q).
      { unfold JS.lenQ, Qminus. change (- (1))%Q with (inject_Z (-1)).
        rewrite <- inject_Z_plus, Hlen.
        replace (Z.of_nat (List.length ts) + -1) with (Z.of_nat (List.length ts - 1))
          by lia.
        reflexivity. }
      now rewrite Hn.
    + intros Hnil. apply (f_equal (@List.length _)) in Hnil.
      rewrite length_map, Hlen in Hnil. cbn [List.length] in Hnil. lia.
Qed.

Lemma exactHours_plus (a b : Z) : (exactHours a + exactHours b == exactHours (a + b))%Q.
Proof. unfold exactHours. rewrite inject_Z_plus. field. Qed.

(** The intervals add up to the span between the two ends. *)
Lemma intervals_span (ts : list StatusTransition.t) :
  (total (map exactHours (intervals ts))
   == exactHours (lastTimestamp ts - firstTimestamp ts))%Q.
Proof.
  destruct ts as [|t0 rest]; [reflexivity|].
  unfold lastTimestamp, firstTimestamp.
  revert t0. induction rest as [|t1 rest' IH]; intros t0.
  - cbn [intervals map total last]. rewrite Z.sub_diag. reflexivity.
  - change (intervals (t0 :: t1 :: rest'))
      with ((StatusTransition.timestamp t1 - StatusTransition.timestamp t0)
              :: intervals (t1 :: rest')).
    cbn [map total]. rewrite IH.
    assert (Hlast : last (t0 :: t1 :: rest') t0 = last (t1 :: rest') t1)
      by (change (last (t0 :: t1 :: rest') t0) with (last (t1 :: rest') t0);
          apply last_any_default).
    rewrite Hlast, exactHours_plus.
    match goal with
    | |- (exactHours ?a == exactHours ?b)%Q =>
        assert (Heq : a = b) by lia; rewrite Heq; reflexivity
    end.
Qed.

Lemma exactHours_nonneg (d : Z) : 0 <= d -> (0 <= exactHours d)%Q.
Proof.
  intros H. unfold exactHours. apply Qle_shift_div_l; [reflexivity|].
  rewrite Qmult_0_l. change 0%Q with (inject_Z 0). now rewrite <- Zle_Qle.
Qed.

Lemma chronological_abs (ts : list StatusTransition.t) :
  chronological ts ->
  map Qabs (map exactHours (intervals ts)) = map exactHours (intervals ts).
Proof.
  unfold chronological. induction 1 as [|d r Hd _ IH]; [reflexivity|].
  cbn [map]. rewrite IH. f_equal.
  pose proof (exactHours_nonneg d Hd) as Hq.
  destruct (exactHours d) as [[|p|p] q]; try reflexivity.
  exfalso. apply (Qlt_not_le _ _ (eq_refl : (Zneg p # q < 0)%Q) Hq).
Qed.

(** Reversing the array negates and reverses the intervals. *)
Lemma intervals_app (a : list StatusTransition.t) (x y : StatusTransition.t) :
  intervals (a ++ [x; y])
  = intervals (a ++ [x])
    ++ [ StatusTransition.timestamp y - StatusTransition.timestamp x ].
Proof.
  induction a as [|t0 rest IH]; [reflexivity|].
  destruct rest as [|t1 rest'].
  - reflexivity.
  - change (intervals ((t0 :: t1 :: rest') ++ [x; y]))
      with ((StatusTransition.timestamp t1 - StatusTransition.timestamp t0)
              :: intervals ((t1 :: rest') ++ [x; y])).
    rewrite IH. reflexivity.
Qed.

Lemma intervals_rev (ts : list StatusTransition.t) :
  intervals (rev ts) = map Z.opp (rev (intervals ts)).
Proof.
  induction ts as [|t0 rest IH]; [reflexivity|].
  destruct rest as [|t1 rest']; [reflexivity|].
  change (intervals (t0 :: t1 :: rest'))
    with ((StatusTransition.timestamp t1 - StatusTransition.timestamp t0)
            :: intervals (t1 :: rest')).
  change (rev (t0 :: t1 :: rest')) with ((rev rest' ++ [t1]) ++ [t0]).
  rewrite <- app_assoc. cbn [app]. rewrite intervals_app.
  change (rev rest' ++ [t1]) with (rev (t1 :: rest')). rewrite IH.
  cbn [rev]. rewrite map_app. cbn [map]. apply f_equal.
  apply (f_equal (fun d => [d])). lia.
Qed.

Lemma inHours_nonneg (d : Z) : 0 <= d -> (0 <= inHours d)%Q.
Proof. apply hours_nonneg. Qed.

Lemma inHours_nonpos (d : Z) : d <= 0 -> (inHours d <= 0)%Q.
Proof. apply hours_nonpositive. Qed.

(** X13.  [calculateAverageStatusDwellTime] is the mean, computed on
    binary64 numbers, of the hours between adjacent transitions; it is [0]
    with fewer than two transitions.  For transitions in chronological order
    it is never negative, and it is the exact span between the first and the
    last timestamp, divided by the number of intervals, up to the roundings
    of the computation: the timestamps in between cancel in the exact sum,
    but not in the computed one.  Four transitions at 0, 138298, 152068 and
    172800 seconds average 16.000000000000004 hours, not 16. *)
Theorem calculateAverageStatusDwellTime_telescopes (issue : IssueData.t) :
  let ts := IssueData.statusTransitions issue in
  let average := PredictionEngine.calculateAverageStatusDwellTime issue in
  let span := (exactHours (lastTimestamp ts - firstTimestamp ts)
               / inject_Z (Z.of_nat (List.length ts - 1)))%Q in
  average = computedMean (map inHours (intervals ts))
  /\ ((List.length ts < 2)%nat -> average = 0%Q)
  /\ (chronological ts -> (2 <= List.length ts)%nat ->
      (0 <= average)%Q
      /\ (Qabs (average - span) <= roundings (2 + List.length ts) * span)%Q)
  /\ PredictionEngine.calculateAverageStatusDwellTime unevenIssue
     = (4503599627370497 # 281474976710656)%Q.
Proof.
  cbv zeta. rewrite averageStatusDwellTime_computed.
  set (ts := IssueData.statusTransitions issue).
  pose proof (intervals_length ts) as Hlen.
  split; [reflexivity|].
  split.
  { intros Hshort. destruct (intervals ts) as [|d r]; [reflexivity|].
    cbn [List.length] in Hlen. lia. }
  split; [|vm_compute; reflexivity].
  intros Hchron Hlong. split.
  - apply computedMean_nonneg. apply Forall_map.
    eapply Forall_impl; [|exact Hchron]. intros d Hd. now apply inHours_nonneg.
  - pose proof (mean_hours_error (intervals ts)) as H.
    rewrite (chronological_abs ts Hchron) in H.
    assert (Hmean : (mean (map exactHours (intervals ts))
                     == exactHours (lastTimestamp ts - firstTimestamp ts)
                        / inject_Z (Z.of_nat (List.length ts - 1)))%Q).
    { unfold mean. destruct (map exactHours (intervals ts)) as [|y ys] eqn:E.
      - apply (f_equal (@List.length _)) in E. rewrite length_map, Hlen in E.
        cbn [List.length] in E. lia.
      - rewrite <- E, length_map, Hlen, intervals_span. reflexivity. }
    rewrite Hmean, Hlen in H.
    replace (S (S (S (List.length ts - 1)))) with (2 + List.length ts)%nat in H by lia.
    exact H.
Qed.

Lemma calculateAverageStatusDwellTime_sample :
  (0 <= PredictionEngine.calculateAverageStatusDwellTime unevenIssue)%Q
  /\ (Qabs (PredictionEngine.calculateAverageStatusDwellTime unevenIssue - 16)
      <= roundings 6 * 16)%Q
  /\ PredictionEngine.calculateAverageStatusDwellTime (issueAt "In Progress" [ 0 ]) = 0%Q.
Proof.
  destruct (proj1 (proj2 (proj2 (calculateAverageStatusDwellTime_telescopes unevenIssue))))
    as [H0 H1].
  - repeat constructor; vm_compute; discriminate.
  - cbn. lia.
  - split; [exact H0|]. split.
    + assert (Hspan : (exactHours (lastTimestamp (IssueData.statusTransitions unevenIssue)
                                   - firstTimestamp (IssueData.statusTransitions unevenIssue))
                       / inject_Z (Z.of_nat
                                     (List.length (IssueData.statusTransitions unevenIssue)
                                      - 1)) == 16)%Q) by reflexivity.
      rewrite Hspan in H1. exact H1.
    + apply (proj1 (proj2 (calculateAverageStatusDwellTime_telescopes
                             (issueAt "In Progress" [ 0 ])))).
      cbn. lia.
Defined.

Lemma dwell_of_reversed_nonpositive (issue : IssueData.t) :
  chronological (IssueData.statusTransitions issue) ->
  (PredictionEngine.calculateAverageStatusDwellTime
     (IssueData.with_transitions issue (rev (IssueData.statusTransitions issue)))
   <= 0)%Q.
Proof.
  intros Hchron. rewrite averageStatusDwellTime_computed.
  cbn [IssueData.with_transitions IssueData.statusTransitions].
  apply computedMean_nonpos. rewrite intervals_rev.
  apply Forall_map, Forall_map, Forall_rev.
  eapply Forall_impl; [|exact Hchron]. intros d Hd. cbv beta in Hd |- *.
  apply inHours_nonpos. lia.
Qed.

Lemma dwellFactor_skipped (s : PredictionEngine.Scoring) (issue : IssueData.t)
      (hoursPerStoryPoint : Q) :
  (PredictionEngine.calculateAverageStatusDwellTime issue <= 0)%Q ->
  (0 <= hoursPerStoryPoint)%Q ->
  PredictionEngine.dwellFactor s issue hoursPerStoryPoint = s.
Proof.
  intros Hd Hh. unfold PredictionEngine.dwellFactor.
  destruct (JS.gtb _ _) eqn:E; [|reflexivity].
  apply gtb_gt in E. exfalso.
  set (d := PredictionEngine.calculateAverageStatusDwellTime issue) in *.
  clearbody d. lra.
Qed.

Lemma calculateTimeInCurrentStatus_issue (now : Z) (issue : IssueData.t) :
  snd (PredictionEngine.calculateTimeInCurrentStatus now issue)
  = match IssueData.statusTransitions issue with
    | [] => issue
    | _ => IssueData.with_transitions issue (rev (IssueData.statusTransitions issue))
    end.
Proof.
  unfold PredictionEngine.calculateTimeInCurrentStatus.
  destruct (IssueData.statusTransitions issue) as [|t0 rest]; [reflexivity|].
  cbv zeta. destruct (find _ _); reflexivity.
Qed.

Lemma dwell_after_timeInCurrentStatus (now : Z) (issue : IssueData.t) :
  chronological (IssueData.statusTransitions issue) ->
  (PredictionEngine.calculateAverageStatusDwellTime
     (snd (PredictionEngine.calculateTimeInCurrentStatus now issue)) <= 0)%Q.
Proof.
  intros Hchron. rewrite calculateTimeInCurrentStatus_issue.
  destruct (IssueData.statusTransitions issue) as [|t0 rest] eqn:E.
  - unfold PredictionEngine.calculateAverageStatusDwellTime. rewrite E.
    apply Qle_refl.
  - rewrite <- E. apply dwell_of_reversed_nonpositive. rewrite E. exact Hchron.
Qed.

(** X14.  The dwell-time penalty (factor 3) never applies to an issue in
    progress whose transitions are in chronological order.  Factor 2 calls
    [calculateTimeInCurrentStatus] on such an issue, which reverses its
    transition array in place; factor 3 then averages the reversed array,
    whose intervals are all non-positive, so that the average never exceeds
    twice the (non-negative) hours per story point.  The result is the one
    of factors 1, 2, 4, 5 and 6 alone. *)
Theorem calculateCompletionProbability_in_progress_no_dwell_penalty
        (now : Z) (issue : IssueData.t) (daysRemaining hoursPerStoryPoint : Q)
        (sprintMetrics : option SprintMetrics.t) :
  PredictionEngine.isNotStartedStatus (IssueData.status issue) = false ->
  PredictionEngine.isInProgressStatus (IssueData.status issue) = true ->
  chronological (IssueData.statusTransitions issue) ->
  (0 <= hoursPerStoryPoint)%Q ->
  PredictionEngine.calculateCompletionProbability
    now issue daysRemaining hoursPerStoryPoint sprintMetrics
  = let storyPoints := JS.or_default (IssueData.storyPoints issue) 3 in
    let s1 :=
      PredictionEngine.timeFactor (PredictionEngine.mkScoring (1 # 2) [])
                                  (storyPoints * hoursPerStoryPoint)
                                  (daysRemaining * 8) in
    let (s2, issue') :=
      PredictionEngine.statusFactor now s1 issue hoursPerStoryPoint storyPoints
                                    sprintMetrics in
    let s6 :=
      PredictionEngine.linkedPRFactor
        (PredictionEngine.assigneeFactor
           (PredictionEngine.complexityFactor s2 storyPoints) issue')
        issue' in
    (PredictionEngine.mkScoring
       (PredictionEngine.clamp01 (PredictionEngine.probability s6))
       (PredictionEngine.reasons s6),
     issue').
Proof.
  intros Hns Hip Hchron Hh.
  unfold PredictionEngine.calculateCompletionProbability. cbv zeta.
  destruct (PredictionEngine.statusFactor _ _ _ _ _ _) as [s2 issue'] eqn:E.
  assert (Hissue : issue' = snd (PredictionEngine.calculateTimeInCurrentStatus now issue)).
  { unfold PredictionEngine.statusFactor in E. rewrite Hns, Hip in E.
    destruct (PredictionEngine.calculateTimeInCurrentStatus now issue) as [time i'].
    cbv zeta in E. destruct (JS.gtb _ _) in E; injection E as _ E; subst i'; reflexivity. }
  rewrite (dwellFactor_skipped s2 issue' hoursPerStoryPoint); [reflexivity| |exact Hh].
  rewrite Hissue. apply dwell_after_timeInCurrentStatus. exact Hchron.
Qed.

Lemma calculateCompletionProbability_slow_sample :
  PredictionEngine.calculateCompletionProbability
    720000000 (slowIssue "In Progress") 10 8 None
  = (let storyPoints := JS.or_default (IssueData.storyPoints (slowIssue "In Progress")) 3 in
     let s1 :=
       PredictionEngine.timeFactor (PredictionEngine.mkScoring (1 # 2) [])
                                   (storyPoints * 8) (10 * 8) in
     let (s2, issue') :=
       PredictionEngine.statusFactor 720000000 s1 (slowIssue "In Progress") 8 storyPoints
                                     None in
     let s6 :=
       PredictionEngine.linkedPRFactor
         (PredictionEngine.assigneeFactor
            (PredictionEngine.complexityFactor s2 storyPoints) issue')
         issue' in
     (PredictionEngine.mkScoring
        (PredictionEngine.clamp01 (PredictionEngine.probability s6))
        (PredictionEngine.reasons s6),
      issue')).
Proof.
  apply (calculateCompletionProbability_in_progress_no_dwell_penalty
           720000000 (slowIssue "In Progress") 10 8 None).
  - reflexivity.
  - reflexivity.
  - repeat constructor; vm_compute; discriminate.
  - vm_compute. discriminate.
Defined.

(** The order of the transitions matters.  When the last transition bears
    the timestamp of the first one again, the intervals of the reversed
    array cancel on the rationals, but their computed sum is positive: with
    no hours per story point the penalty applies. *)
Example dwell_penalty_out_of_order :
  firstTimestamp (IssueData.statusTransitions loopingIssue)
  <= lastTimestamp (IssueData.statusTransitions loopingIssue)
  /\ map (hd (JS.Lit EmptyString))
         (PredictionEngine.reasons
            (fst (PredictionEngine.calculateCompletionProbability
                    0 loopingIssue 10 0 None)))
     = [ JS.Lit "Estimated "; JS.Lit "Issue recently started (";
         JS.Lit "High status dwell time (" ].
Proof. split; [vm_compute; discriminate | vm_compute; reflexivity]. Qed.

(** The same transitions cost an issue that is neither waiting nor in
    progress the penalty, and cost an issue in progress nothing: the opening
    words of the reasons, and the completion probability. *)
Example dwell_penalty_depends_on_status :
  (let scoring :=
     fst (PredictionEngine.calculateCompletionProbability
            720000000 (slowIssue "Blocked") 10 8 None) in
   (map (hd (JS.Lit EmptyString)) (PredictionEngine.reasons scoring),
    Qred (PredictionEngine.probability scoring)))
  = ([ JS.Lit "Estimated "; JS.Lit "High status dwell time (" ], 13 # 20)
  /\ (let scoring :=
        fst (PredictionEngine.calculateCompletionProbability
               720000000 (slowIssue "In Progress") 10 8 None) in
      (map (hd (JS.Lit EmptyString)) (PredictionEngine.reasons scoring),
       Qred (PredictionEngine.probability scoring)))
     = ([ JS.Lit "Estimated "; JS.Lit "Issue in progress for " ], 1%Q).
Proof. split; vm_compute; reflexivity. Qed.

Lemma statusFactor_issue (now : Z) (s : PredictionEngine.Scoring) (issue : IssueData.t)
      (hoursPerStoryPoint storyPoints : Q) (sprintMetrics : option SprintMetrics.t) :
  sameButOrder issue
    (snd (PredictionEngine.statusFactor now s issue hoursPerStoryPoint storyPoints
                                        sprintMetrics)).
Proof.
  unfold PredictionEngine.statusFactor.
  destruct (PredictionEngine.isNotStartedStatus _); [left; reflexivity|].
  destruct (PredictionEngine.isInProgressStatus _); [|left; reflexivity].
  pose proof (calculateTimeInCurrentStatus_issue now issue) as H.
  destruct (PredictionEngine.calculateTimeInCurrentStatus now issue) as [time issue'].
  cbn [snd] in H. cbv zeta.
  assert (Hs : sameButOrder issue issue').
  { rewrite H. destruct (IssueData.statusTransitions issue) eqn:E;
      [left; reflexivity | right; rewrite E; reflexivity]. }
  destruct (JS.gtb _ _); exact Hs.
Qed.

(** X15.  What [predictSpillover] leaves of its argument.  The issues the
    scoring loop reaches (the sprint has days remaining and the issue is not
    completed) are afterwards the issues they were, except that their
    transition array may be reversed; every other issue is untouched, and the
    array keeps its length and order. *)
Theorem predictSpillover_issues_afterwards
        (now : Z) (issues : list IssueData.t) (sprint : SprintData.t) (currentDate : Z)
        (sprintMetrics : option SprintMetrics.t) :
  Forall2
    (fun before after =>
       afterScoring
         (negb (JS.leb (PredictionEngine.calculateDaysRemaining sprint currentDate) 0)
          && negb (PredictionEngine.isCompletedStatus (IssueData.status before)))
         before after)
    issues
    (PredictionEngine.issuesAfterPredictSpillover now issues sprint currentDate
                                                  sprintMetrics).
Proof.
  unfold PredictionEngine.issuesAfterPredictSpillover. cbv zeta.
  destruct (JS.leb _ _) eqn:Hd; cbn [negb andb].
  - induction issues as [|i r IH]; constructor; [reflexivity | exact IH].
  - induction issues as [|i r IH]; cbn [map]; constructor; [|exact IH].
    destruct (PredictionEngine.isCompletedStatus _); cbn [negb afterScoring];
      [reflexivity|].
    unfold PredictionEngine.calculateCompletionProbability. cbv zeta.
    match goal with
    | |- context [PredictionEngine.statusFactor ?n ?s ?i ?h ?p ?m] =>
        pose proof (statusFactor_issue n s i h p m) as H;
        destruct (PredictionEngine.statusFactor n s i h p m) as [s2 issue']
    end.
    exact H.
Qed.

(* ================================================================== *)
(** ** RecommendationGenerator: prioritisation and the generators *)

(** The insertion sort leaves a sorted array as it is. *)
Lemma sort_sorted_id {A} (le : A -> A -> bool) (l : list A) :
  StronglySorted (fun a b => le a b = true) l -> JS.sort le l = l.
Proof.
  induction 1 as [|x r Hr IH Hx]; [reflexivity|].
  cbn [JS.sort]. rewrite IH. destruct r as [|y r']; [reflexivity|].
  cbn [JS.insert]. inversion Hx as [|? ? Hxy _]; subst. rewrite Hxy. reflexivity.
Qed.

Lemma renumberFrom_above (l : list Recommendation.t) (i : Z) :
  Forall (fun rec => i < Recommendation.priority rec)
         (RecommendationGenerator.renumberFrom i l).
Proof.
  revert i. induction l as [|x r IH]; intros i; cbn [RecommendationGenerator.renumberFrom];
    constructor.
  - cbn. lia.
  - eapply Forall_impl; [|apply (IH (i + 1))]. cbn beta. intros rec H. lia.
Qed.

Lemma renumberFrom_increasing (l : list Recommendation.t) (i : Z) :
  StronglySorted (fun a b => Recommendation.priority a < Recommendation.priority b)
                 (RecommendationGenerator.renumberFrom i l).
Proof.
  revert i. induction l as [|x r IH]; intros i; cbn [RecommendationGenerator.renumberFrom];
    constructor; [apply IH|].
  eapply Forall_impl; [|apply (renumberFrom_above r (i + 1))]. cbn. intros rec H. exact H.
Qed.

Lemma renumberFrom_again (l : list Recommendation.t) (i : Z) :
  RecommendationGenerator.renumberFrom i (RecommendationGenerator.renumberFrom i l)
  = RecommendationGenerator.renumberFrom i l.
Proof.
  revert i. induction l as [|x r IH]; intros i; [reflexivity|].
  cbn [RecommendationGenerator.renumberFrom]. rewrite IH. reflexivity.
Qed.

Lemma prioritizeRecommendations_length (l : list Recommendation.t) :
  (List.length (RecommendationGenerator.prioritizeRecommendations l) <= 7)%nat.
Proof.
  unfold RecommendationGenerator.prioritizeRecommendations, JS.slice0.
  rewrite renumberFrom_length, length_firstn. apply Nat.le_min_l.
Qed.

Lemma calculateReviewerWorkload_countByReviewer (prs : list PullRequestData.t) :
  RecommendationGenerator.calculateReviewerWorkload prs = RiskAssessor.countByReviewer prs.
Proof.
  unfold RecommendationGenerator.calculateReviewerWorkload, RiskAssessor.countByReviewer.
  generalize (@nil (string * Z)). induction prs as [|pr r IH]; intros m; [reflexivity|].
  cbn [fold_left]. unfold RiskAssessor.isOpen at 2.
  destruct (PullRequestData.state pr); apply IH.
Qed.

Lemma byCountDesc_le (a b : string * Z) :
  RecommendationGenerator.byCountDesc a b = true <-> snd b <= snd a.
Proof. unfold RecommendationGenerator.byCountDesc. rewrite Z.leb_le. lia. Qed.

Lemma sort_byCountDesc_head (m : list (string * Z)) (e0 : string * Z)
      (rest : list (string * Z)) :
  JS.sort RecommendationGenerator.byCountDesc m = e0 :: rest ->
  In e0 m /\ forall e, In e m -> snd e <= snd e0.
Proof.
  intros H.
  assert (Hs : StronglySorted
                 (fun a b => RecommendationGenerator.byCountDesc a b = true)
                 (JS.sort RecommendationGenerator.byCountDesc m)).
  { apply sort_sorted.
    - intros a b. rewrite !byCountDesc_le. lia.
    - intros a b c. rewrite !byCountDesc_le. lia. }
  rewrite H in Hs. inversion Hs as [|? ? _ Hall]; subst.
  split.
  - apply (sort_In RecommendationGenerator.byCountDesc). rewrite H. now left.
  - intros e He. apply (sort_In RecommendationGenerator.byCountDesc) in He.
    rewrite H in He. destruct He as [<-|He]; [lia|].
    rewrite Forall_forall in Hall. apply byCountDesc_le, Hall, He.
Qed.

(** X16.  The reviewer recommendations.  A high-impact recommendation is
    issued exactly when some reviewer is on at least 8 open pull requests
    (the condition under which the risk assessor reports a reviewer
    bottleneck); a medium-impact one exactly when the average time to first
    review exceeds 24 hours; there is nothing else, and all are of the
    category REVIEWER.  When the text names a reviewer ([<name> has <n> pending
    PRs]), [n] is that reviewer's number of open requests and no reviewer
    has more. *)
Theorem generateReviewerRecommendations_overload
        (prs : list PullRequestData.t) (prMetrics : PRMetrics.t) :
  let recs := RecommendationGenerator.generateReviewerRecommendations prs prMetrics in
  (hasImpact ImpactHigh recs <-> exists a, 8 <= openReviewsOf a prs)
  /\ (hasImpact ImpactMedium recs
      <-> (24 < PRMetrics.averageTimeToFirstReview prMetrics)%Q)
  /\ Forall (fun rec => Recommendation.category rec = Recommendation.REVIEWER
                        /\ Recommendation.impact rec <> ImpactLow) recs
  /\ (List.length recs <= 2)%nat
  /\ Forall (fun rec =>
               match Recommendation.description rec with
               | JS.Lit top :: JS.Lit " has " :: JS.Int n :: _ =>
                   n = openReviewsOf top prs /\ forall b, openReviewsOf b prs <= n
               | _ => True
               end) recs.
Proof.
  cbv zeta. unfold RecommendationGenerator.generateReviewerRecommendations.
  rewrite calculateReviewerWorkload_countByReviewer.
  destruct (countByReviewer_counts prs) as [Hnd Hcount].
  set (m := RiskAssessor.countByReviewer prs) in *.
  pose proof (overloaded_spec 8 m ltac:(lia) Hnd) as Hov.
  unfold RecommendationGenerator.REVIEWER_OVERLOAD_THRESHOLD.
  set (over := filter (fun e => 8 <=? snd e) m) in *.
  cbv zeta.
  pose proof (gtb_gt (PRMetrics.averageTimeToFirstReview prMetrics) 24) as Hresp.
  destruct (JS.sort RecommendationGenerator.byCountDesc over) as [|[top n] others] eqn:Es.
  - (* nobody overloaded *)
    assert (Hover : over = []).
    { apply (f_equal (@List.length _)) in Es. rewrite sort_length in Es.
      destruct over; [reflexivity | discriminate]. }
    rewrite Hover in Hov. cbn [app].
    split; [|split; [|split; [|split]]].
    + split.
      * intros [rec [Hin Himp]].
        destruct (JS.gtb _ _); [|destruct Hin].
        destruct Hin as [<-|[]]. discriminate.
      * intros [a Ha]. specialize (Hov a). rewrite Hcount in Hov. lia.
    + split.
      * intros [rec [Hin Himp]]. apply Hresp.
        destruct (JS.gtb _ _); [reflexivity | destruct Hin].
      * intros H. apply Hresp in H. rewrite H. eexists. split; [now left | reflexivity].
    + destruct (JS.gtb _ _); repeat constructor; discriminate.
    + destruct (JS.gtb _ _); cbn; lia.
    + destruct (JS.gtb _ _); repeat constructor.
  - (* somebody is *)
    destruct (sort_byCountDesc_head over (top, n) others Es) as [Hin Hmax].
    cbn [snd] in Hmax.
    assert (Hinm : In (top, n) m /\ 8 <= n).
    { unfold over in Hin. apply filter_In in Hin. destruct Hin as [Hin H8].
      apply Z.leb_le in H8. split; assumption. }
    destruct Hinm as [Hinm H8].
    assert (Hn : n = openReviewsOf top prs)
      by (rewrite <- Hcount; symmetry; apply countIn_entry; assumption).
    assert (Hall : forall b, openReviewsOf b prs <= n).
    { intros b. rewrite <- Hcount.
      destruct (Z_lt_ge_dec (countIn b m) 8) as [Hlt|Hge]; [lia|].
      apply (Hmax (b, countIn b m)). unfold over. apply filter_In. split.
      - apply countIn_found. lia.
      - apply Z.leb_le. cbn [snd]. lia. }
    set (under := map fst (filter (fun e => snd e <? 3) m)).
    split; [|split; [|split; [|split]]].
    + split; [intros _; exists top; lia|]. intros _.
      destruct under; eexists; (split; [now left | reflexivity]).
    + split.
      * intros [rec [Hr Himp]]. apply Hresp.
        destruct (JS.gtb _ _); [reflexivity|].
        destruct under; destruct Hr as [<-|[]]; discriminate.
      * intros H. apply Hresp in H. rewrite H.
        destruct under; eexists; (split; [right; now left | reflexivity]).
    + destruct under; destruct (JS.gtb _ _); repeat constructor; discriminate.
    + destruct under; destruct (JS.gtb _ _); cbn; lia.
    + destruct under; destruct (JS.gtb _ _); repeat constructor; assumption.
Qed.

Lemma calculateWIPByDeveloper_groupByAssignee (issues : list IssueData.t) :
  RecommendationGenerator.calculateWIPByDeveloper issues
  = RiskAssessor.groupByAssignee
      (filter (fun issue => RiskAssessor.isWipStatus (IssueData.status issue)) issues).
Proof.
  unfold RecommendationGenerator.calculateWIPByDeveloper, RiskAssessor.groupByAssignee.
  cbv zeta. unfold RiskAssessor.isWipStatus.
  generalize (@nil (string * Z)).
  induction (filter _ issues) as [|issue r IH]; intros m; [reflexivity|].
  cbn [fold_left]. rewrite <- IH. f_equal.
  destruct (IssueData.assignee issue); reflexivity.
Qed.

Lemma bump_positive (k : string) (m : list (string * Z)) :
  Forall (fun e => 1 <= snd e) m -> Forall (fun e => 1 <= snd e) (JS.bump k m).
Proof.
  induction 1 as [|[k0 n] r Hn Hr IH]; cbn [JS.bump].
  - constructor; [cbn; lia | constructor].
  - destruct (String.eqb k0 k); constructor; cbn in *; try lia; assumption.
Qed.

Lemma groupByAssignee_positive (issues : list IssueData.t) :
  Forall (fun e => 1 <= snd e) (RiskAssessor.groupByAssignee issues).
Proof.
  unfold RiskAssessor.groupByAssignee.
  assert (H : Forall (fun e : string * Z => 1 <= snd e) []) by constructor.
  revert H. generalize (@nil (string * Z)).
  induction issues as [|issue r IH]; intros m Hm; [exact Hm|].
  cbn [fold_left]. apply IH.
  destruct (IssueData.assignee issue) as [a|]; [|exact Hm].
  destruct (JS.truthy_string (Some a)); [apply bump_positive|]; exact Hm.
Qed.

(** X17.  The work-in-progress recommendations.  The WIP-limit
    recommendation is issued exactly when some developer has at least 5
    issues whose status contains [progress] or [review], which is when the
    risk assessor reports high WIP from the same issues; the developer it
    names is such a developer, with their count (the first one met, not
    necessarily the most loaded).  The rebalancing recommendation is added
    exactly when, besides, some developer has exactly one such issue:
    developers without any are not in the map and do not count as
    underutilised.  A PROCESS recommendation is issued exactly when the first
    bottleneck passed in is of type STATUS. *)
Theorem generateWIPRecommendations_conditions
        (sprintMetrics : SprintMetrics.t) (issues : list IssueData.t)
        (bottlenecks : option (list BottleneckInfo.t)) :
  let recs :=
    RecommendationGenerator.generateWIPRecommendations sprintMetrics issues bottlenecks in
  (hasAdvice Recommendation.WIP recs <-> exists a, 5 <= wipOf a issues)
  /\ (hasAdvice Recommendation.WIP recs
      <-> RiskAssessor.detectHighWIP sprintMetrics (Some issues) <> None)
  /\ ((exists rec, In rec recs /\ Recommendation.category rec = Recommendation.WIP
                   /\ Recommendation.impact rec = ImpactMedium)
      <-> (exists a, 5 <= wipOf a issues) /\ exists b, wipOf b issues = 1)
  /\ (hasAdvice Recommendation.PROCESS recs
      <-> exists b rest, bottlenecks = Some (b :: rest)
                         /\ BottleneckInfo.type b = BottleneckInfo.STATUS)
  /\ Forall (fun rec =>
               match Recommendation.category rec, Recommendation.description rec with
               | Recommendation.WIP,
                 [ _; _; _; _; JS.Lit topDev; _; JS.Int wipCount; _ ] =>
                   wipCount = wipOf topDev issues /\ 5 <= wipCount
               | _, _ => True
               end) recs.
Proof.
  cbv zeta. unfold RecommendationGenerator.generateWIPRecommendations, hasAdvice.
  unfold RiskAssessor.detectHighWIP.
  rewrite calculateWIPByDeveloper_groupByAssignee.
  pose proof wipOf_counts as Hw.
  set (active := filter (fun issue => RiskAssessor.isWipStatus (IssueData.status issue))
                        issues) in *.
  destruct (groupByAssignee_counts active) as [Hnd _].
  pose proof (groupByAssignee_positive active) as Hpos.
  set (m := RiskAssessor.groupByAssignee active) in *.
  assert (Hcount : forall a, wipOf a issues = countIn a m) by (intros a; apply Hw).
  clear Hw.
  pose proof (overloaded_spec 5 m ltac:(lia) Hnd) as Hov.
  unfold RecommendationGenerator.HIGH_WIP_THRESHOLD, RiskAssessor.HIGH_WIP_THRESHOLD.
  cbv zeta.
  assert (Hunder : (exists e, In e (filter (fun e => snd e <? 2) m))
                   <-> exists b, wipOf b issues = 1).
  { split.
    - intros [[k n] He]. apply filter_In in He. destruct He as [Hin Hlt].
      apply Z.ltb_lt in Hlt. cbn in Hlt.
      rewrite Forall_forall in Hpos. specialize (Hpos _ Hin). cbn in Hpos.
      exists k. rewrite Hcount, (countIn_entry k n m Hnd Hin). lia.
    - intros [b Hb]. rewrite Hcount in Hb. exists (b, 1). apply filter_In. split.
      + rewrite <- Hb. apply countIn_found. lia.
      + reflexivity. }
  set (under := filter (fun e => snd e <? 2) m) in *.
  assert (Hbn :
             let bottleneck :=
               match bottlenecks with
               | Some (topBottleneck :: _) =>
                   match BottleneckInfo.type topBottleneck with
                   | BottleneckInfo.STATUS =>
                       [ Recommendation.mk 2 Recommendation.PROCESS
                           [ JS.Lit "Address bottleneck in "; JS.dq;
                             JS.Lit (BottleneckInfo.location topBottleneck); JS.dq;
                             JS.Lit " status" ]
                           ([ JS.Int (JS.lenZ (BottleneckInfo.affectedIssues topBottleneck));
                              JS.Lit " issues are delayed in "; JS.dq;
                              JS.Lit (BottleneckInfo.location topBottleneck); JS.dq;
                              JS.Lit ". " ]
                              ++ BottleneckInfo.description topBottleneck
                              ++ [ JS.Lit " Investigate and remove blockers to improve flow." ])
                           ImpactHigh ]
                   | _ => []
                   end
               | _ => []
               end in
             Forall (fun rec => Recommendation.category rec = Recommendation.PROCESS)
                    bottleneck
             /\ (bottleneck <> []
                 <-> exists b rest, bottlenecks = Some (b :: rest)
                                    /\ BottleneckInfo.type b = BottleneckInfo.STATUS)).
  { cbv zeta.
    destruct bottlenecks as [[|b rest]|].
    - split; [constructor|]. split; [congruence | intros (b & rest & H & _); discriminate].
    - destruct (BottleneckInfo.type b) eqn:Et.
      + split; [repeat constructor|]. split; [|discriminate].
        intros _. exists b, rest. split; [reflexivity | exact Et].
      + split; [constructor|]. split; [congruence|].
        intros (b' & rest' & H & Ht). injection H as -> ->. congruence.
      + split; [constructor|]. split; [congruence|].
        intros (b' & rest' & H & Ht). injection H as -> ->. congruence.
    - split; [constructor|]. split; [congruence | intros (b & rest & H & _); discriminate]. }
  cbv zeta in Hbn.
  match type of Hbn with
  | Forall _ ?b /\ _ => set (bottleneck := b) in *
  end.
  destruct Hbn as [Hbcat Hbne].
  assert (HnoWIP : forall rec, In rec bottleneck ->
                               Recommendation.category rec <> Recommendation.WIP).
  { intros rec Hin. rewrite Forall_forall in Hbcat. rewrite (Hbcat rec Hin). discriminate. }
  assert (Hbdesc : Forall (fun rec =>
               match Recommendation.category rec, Recommendation.description rec with
               | Recommendation.WIP,
                 [ _; _; _; _; JS.Lit topDev; _; JS.Int wipCount; _ ] =>
                   wipCount = wipOf topDev issues /\ 5 <= wipCount
               | _, _ => True
               end) bottleneck).
  { unfold bottleneck. destruct bottlenecks as [[|b rest]|]; try constructor.
    destruct (BottleneckInfo.type b); constructor; [|constructor].
    cbn [Recommendation.category]. exact I. }
  destruct (filter (fun e => 5 <=? snd e) m) as [|[topDev wipCount] others] eqn:Eover.
  - (* nobody at the limit *)
    cbn [app].
    assert (Hnone : ~ exists a, 5 <= wipOf a issues).
    { intros [a Ha]. specialize (Hov a). rewrite Hcount in Ha. lia. }
    split; [|split; [|split; [|split]]].
    + split; [|intros H; contradiction].
      intros [rec [Hin Hc]]. exfalso. exact (HnoWIP rec Hin Hc).
    + split; [|intros H; congruence].
      intros [rec [Hin Hc]]. exfalso. exact (HnoWIP rec Hin Hc).
    + split; [|intros [H _]; contradiction].
      intros [rec [Hin [Hc _]]]. exfalso. exact (HnoWIP rec Hin Hc).
    + rewrite <- Hbne. split.
      * intros [rec [Hin _]] E. rewrite E in Hin. destruct Hin.
      * intros Hne. destruct bottleneck as [|rec ?]; [congruence|].
        exists rec. split; [now left|]. now inversion Hbcat.
    + exact Hbdesc.
  - (* somebody is *)
    assert (Hin : In (topDev, wipCount) m /\ 5 <= wipCount).
    { assert (H : In (topDev, wipCount) (filter (fun e => 5 <=? snd e) m))
        by (rewrite Eover; now left).
      apply filter_In in H. destruct H as [H H5]. apply Z.leb_le in H5.
      split; assumption. }
    destruct Hin as [Hin H5].
    assert (Htop : wipCount = wipOf topDev issues)
      by (rewrite Hcount; symmetry; apply countIn_entry; assumption).
    assert (Hsome : exists a, 5 <= wipOf a issues) by (exists topDev; lia).
    split; [|split; [|split; [|split]]].
    + split; [intros _; exact Hsome|]. intros _.
      destruct under; eexists; (split; [now left | reflexivity]).
    + split; [intros _; discriminate|]. intros _.
      destruct under; eexists; (split; [now left | reflexivity]).
    + split.
      * intros [rec [Hr [Hc Hi]]]. split; [exact Hsome|]. apply Hunder.
        destruct under as [|e under']; [|exists e; now left].
        exfalso. destruct Hr as [<-|Hr]; [discriminate|].
        exact (HnoWIP rec Hr Hc).
      * intros [_ Hb]. apply Hunder in Hb. destruct Hb as [e He].
        destruct under as [|e' under']; [destruct He|].
        eexists. split; [right; now left|]. split; reflexivity.
    + rewrite <- Hbne. split.
      * intros [rec [Hr Hc]] E. rewrite E, app_nil_r in Hr.
        destruct under; [destruct Hr as [<-|[]] | destruct Hr as [<-|[<-|[]]]];
          discriminate.
      * intros Hne. destruct bottleneck as [|rec ?]; [congruence|].
        exists rec. split; [|now inversion Hbcat].
        apply in_or_app. right. now left.
    + apply Forall_app. split; [|exact Hbdesc].
      destruct under; repeat constructor; cbn [Recommendation.description]; try lia;
        try exact Htop.
Qed.

(* ================================================================== *)
(** ** RecommendationGenerator: the next-sprint suggestions *)

Lemma floor_le_round (q : Q) : Qfloor q <= JS.round q.
Proof. unfold JS.round. apply Qfloor_resp_le. lra. Qed.

Lemma round_le_ceil (q : Q) : JS.round q <= JS.ceil q.
Proof.
  unfold JS.round, JS.ceil.
  pose proof (Qle_ceiling q) as Hc.
  pose proof (Qfloor_le (q + (1 # 2))) as Hf.
  set (f := Qfloor (q + (1 # 2))) in *. set (c := Qceiling q) in *.
  assert (H : (inject_Z f < inject_Z (c + 1))%Q).
  { rewrite inject_Z_plus. change (inject_Z 1) with 1%Q. lra. }
  rewrite <- Zlt_Qlt in H. lia.
Qed.

Lemma ceil_le_floor_succ (q : Q) : JS.ceil q <= Qfloor q + 1.
Proof.
  unfold JS.ceil.
  pose proof (Qceiling_lt q) as Hc. pose proof (Qlt_floor q) as Hf.
  assert (H : (inject_Z (Qceiling q - 1) < inject_Z (Qfloor q + 1))%Q)
    by (eapply Qlt_trans; eassumption).
  rewrite <- Zlt_Qlt in H. lia.
Qed.

Lemma sumZ_nonneg (l : list Z) : Forall (fun n => 1 <= n) l -> 0 <= JS.sumZ l.
Proof.
  unfold JS.sumZ.
  assert (H : forall l a, Forall (fun n => 1 <= n) l -> 0 <= a -> 0 <= fold_left Z.add l a).
  { clear l. induction l as [|x r IH]; intros a Hl Ha; cbn [fold_left]; [exact Ha|].
    inversion Hl; subst. apply IH; [assumption | lia]. }
  intros Hl. apply H; [exact Hl | lia].
Qed.

Lemma countByReviewer_positive (prs : list PullRequestData.t) :
  Forall (fun e => 1 <= snd e) (RiskAssessor.countByReviewer prs).
Proof.
  unfold RiskAssessor.countByReviewer.
  assert (H : Forall (fun e : string * Z => 1 <= snd e) []) by constructor.
  revert H. generalize (@nil (string * Z)).
  induction prs as [|pr r IH]; intros m Hm; [exact Hm|].
  cbn [fold_left]. apply IH.
  destruct (RiskAssessor.isOpen pr); [|exact Hm].
  revert m Hm. induction (PullRequestData.reviewers pr) as [|rv rs IHr]; intros m Hm;
    [exact Hm|].
  cbn [fold_left]. apply IHr, bump_positive, Hm.
Qed.

Lemma averageWorkload_nonneg (m : list (string * Z)) :
  Forall (fun e => 1 <= snd e) m -> (0 <= NextSprint.averageWorkload m)%Q.
Proof.
  intros Hm. unfold NextSprint.averageWorkload.
  destruct m as [|e r] eqn:E; [apply Qle_refl|]. rewrite <- E in *.
  apply Qle_shift_div_l.
  - rewrite E. apply lenQ_cons_pos.
  - rewrite Qmult_0_l. change 0%Q with (inject_Z 0). rewrite <- Zle_Qle.
    apply sumZ_nonneg. apply Forall_forall. intros n Hn.
    apply in_map_iff in Hn. destruct Hn as [e' [<- He']].
    rewrite Forall_forall in Hm. now apply Hm.
Qed.

Lemma assignmentFor_count (avgPRs : Q) (entry : string * Z) :
  ReviewerAssignment.reviewer (NextSprint.assignmentFor avgPRs entry) = fst entry
  /\ Qfloor avgPRs
     <= ReviewerAssignment.recommendedPRCount (NextSprint.assignmentFor avgPRs entry)
     <= Qfloor avgPRs + 1.
Proof.
  destruct entry as [reviewer currentPRs]. unfold NextSprint.assignmentFor.
  pose proof (floor_le_round avgPRs). pose proof (round_le_ceil avgPRs).
  pose proof (ceil_le_floor_succ avgPRs).
  destruct (_ <=? currentPRs); [|destruct (JS.ltb _ _)];
    cbn [ReviewerAssignment.reviewer ReviewerAssignment.recommendedPRCount fst];
    (split; [reflexivity | lia]).
Qed.

Lemma NoDup_firstn {A} (n : nat) (l : list A) : NoDup l -> NoDup (firstn n l).
Proof.
  revert n. induction l as [|x r IH]; intros n Hnd; destruct n; cbn [firstn];
    try constructor.
  - inversion Hnd as [|? ? Hx _]; subst. intros Hin. apply Hx.
    rewrite <- (firstn_skipn n r). apply in_or_app. now left.
  - inversion Hnd; subst. now apply IH.
Qed.

Lemma firstn_incl {A} (n : nat) (l : list A) : incl (firstn n l) l.
Proof.
  intros x Hx. rewrite <- (firstn_skipn n l). apply in_or_app. now left.
Qed.

(** X18.  The next-sprint suggestions are bounded and come from the data.
    The target is at least 1 story point.  At most 5 tasks are included, all
    of them unfinished issues whose status contains [progress] or [review];
    at most 3 are postponed, all unfinished, and none unless the risk level
    is High or the completion rate below 70.  There are at most 5 reviewer
    assignments, for distinct reviewers, and the recommended counts are not
    negative and all lie between the floor of the average open-request load
    and one more: any two differ by at most 1. *)
Theorem generateNextSprintSuggestions_bounds
        (now : Z) (sprintMetrics : SprintMetrics.t) (historicalData : HistoricalMetrics.t)
        (riskAssessment : RiskAssessment.t) (issues : list IssueData.t)
        (prs : list PullRequestData.t) :
  let s :=
    NextSprint.generateNextSprintSuggestions now sprintMetrics historicalData
                                             riskAssessment issues prs in
  1 <= NextSprintSuggestions.targetStoryPoints s
  /\ (List.length (NextSprintSuggestions.tasksToInclude s) <= 5)%nat
  /\ incl (NextSprintSuggestions.tasksToInclude s)
          (map IssueData.key
               (filter (fun issue =>
                          unfinished issue
                          && RiskAssessor.isWipStatus (IssueData.status issue))
                       issues))
  /\ (List.length (NextSprintSuggestions.tasksToPostpone s) <= 3)%nat
  /\ incl (NextSprintSuggestions.tasksToPostpone s)
          (map IssueData.key (filter unfinished issues))
  /\ (NextSprintSuggestions.tasksToPostpone s <> [] ->
      RiskAssessment.level riskAssessment = High
      \/ (SprintMetrics.completionRate sprintMetrics < 70)%Q)
  /\ (List.length (NextSprintSuggestions.reviewerAssignments s) <= 5)%nat
  /\ NoDup (map ReviewerAssignment.reviewer (NextSprintSuggestions.reviewerAssignments s))
  /\ (forall a b,
         In a (NextSprintSuggestions.reviewerAssignments s) ->
         In b (NextSprintSuggestions.reviewerAssignments s) ->
         0 <= ReviewerAssignment.recommendedPRCount a
         /\ ReviewerAssignment.recommendedPRCount a
            - ReviewerAssignment.recommendedPRCount b <= 1).
Proof.
  cbv zeta. unfold NextSprint.generateNextSprintSuggestions.
  unfold NextSprint.identifyTaskAdjustments. cbv zeta.
  cbn [NextSprintSuggestions.targetStoryPoints NextSprintSuggestions.tasksToInclude
       NextSprintSuggestions.tasksToPostpone NextSprintSuggestions.reviewerAssignments].
  split; [unfold NextSprint.calculateTargetStoryPoints; cbv zeta; apply Z.le_max_l|].
  split; [rewrite length_map; unfold JS.slice0; rewrite length_firstn; apply Nat.le_min_l|].
  split.
  { intros k Hk. apply in_map_iff in Hk. destruct Hk as [issue [<- Hin]].
    apply in_map. apply firstn_incl in Hin.
    apply filter_In in Hin. destruct Hin as [Hin Hwip].
    apply filter_In in Hin. destruct Hin as [Hin Hunf].
    apply filter_In. split; [exact Hin|].
    unfold unfinished, RiskAssessor.isWipStatus. rewrite Hunf, Hwip. reflexivity. }
  assert (Hrisky : incl (RecommendationGenerator.identifyRiskyTasks now issues)
                        (filter unfinished issues)).
  { unfold RecommendationGenerator.identifyRiskyTasks. cbv zeta.
    intros issue Hin. apply filter_In in Hin. exact (proj1 Hin). }
  split.
  { destruct (_ || _); [|cbn; lia].
    rewrite length_map. unfold JS.slice0. rewrite length_firstn. apply Nat.le_min_l. }
  split.
  { destruct (_ || _); [|intros k []].
    intros k Hk. apply in_map_iff in Hk. destruct Hk as [issue [<- Hin]].
    apply in_map, Hrisky. exact (firstn_incl _ _ _ Hin). }
  split.
  { destruct (NextSprint.isHigh _) eqn:Eh; cbn [orb].
    - intros _. left. unfold NextSprint.isHigh in Eh.
      destruct (RiskAssessment.level riskAssessment); (reflexivity || discriminate).
    - destruct (JS.ltb _ _) eqn:El; [|congruence].
      intros _. right. now apply ltb_lt. }
  unfold NextSprint.generateReviewerAssignments. cbv zeta.
  rewrite calculateReviewerWorkload_countByReviewer.
  destruct (countByReviewer_counts prs) as [Hnd _].
  pose proof (countByReviewer_positive prs) as Hpos.
  set (m := RiskAssessor.countByReviewer prs) in *.
  pose proof (averageWorkload_nonneg m Hpos) as Havg.
  set (avg := NextSprint.averageWorkload m) in *.
  unfold JS.slice0.
  split; [rewrite length_firstn; apply Nat.le_min_l|].
  split.
  { rewrite <- firstn_map, map_map.
    apply NoDup_firstn.
    erewrite map_ext; [exact Hnd|].
    intros e. apply (proj1 (assignmentFor_count avg e)). }
  assert (Hrange : forall a, In a (firstn 5 (map (NextSprint.assignmentFor avg) m)) ->
                             Qfloor avg <= ReviewerAssignment.recommendedPRCount a
                             <= Qfloor avg + 1).
  { intros a Ha. apply firstn_incl in Ha. apply in_map_iff in Ha.
    destruct Ha as [e [<- _]]. apply (proj2 (assignmentFor_count avg e)). }
  intros a b Ha Hb. pose proof (Hrange a Ha). pose proof (Hrange b Hb).
  assert (0 <= Qfloor avg) by (apply Qfloor_lower; exact Havg).
  lia.
Qed.

Lemma scaled_monotone (a f g : Q) : (0 <= a)%Q -> (f <= g)%Q -> (a * f <= a * g)%Q.
Proof.
  intros Ha Hfg.
  assert (H : (0 <= a * (g - f))%Q) by (apply Qmult_le_0_compat; lra).
  setoid_replace (a * g)%Q with (a * f + a * (g - f))%Q by ring. lra.
Qed.

(** X19.  Risk lowers the target.  For velocities that are not negative, the
    target of [calculateTargetStoryPoints] under a High assessment is at most
    the one under a Medium assessment, which is at most the one under a Low
    assessment, the sprint metrics and the history being the same. *)
Theorem calculateTargetStoryPoints_risk_lowers
        (sprintMetrics : SprintMetrics.t) (historicalData : HistoricalMetrics.t)
        (high medium low : RiskAssessment.t) :
  RiskAssessment.level high = High ->
  RiskAssessment.level medium = Medium ->
  RiskAssessment.level low = Low ->
  (0 <= SprintMetrics.velocity sprintMetrics)%Q ->
  (0 <= SprintMetrics.velocity (HistoricalMetrics.metrics historicalData))%Q ->
  NextSprint.calculateTargetStoryPoints sprintMetrics historicalData high
  <= NextSprint.calculateTargetStoryPoints sprintMetrics historicalData medium
  /\ NextSprint.calculateTargetStoryPoints sprintMetrics historicalData medium
     <= NextSprint.calculateTargetStoryPoints sprintMetrics historicalData low.
Proof.
  intros Hh Hm Hl Hc Hb. unfold NextSprint.calculateTargetStoryPoints. cbv zeta.
  rewrite Hh, Hm, Hl.
  set (avg := ((SprintMetrics.velocity (HistoricalMetrics.metrics historicalData)
                + SprintMetrics.velocity sprintMetrics) / 2)%Q).
  assert (Havg : (0 <= avg)%Q).
  { unfold avg. apply Qle_shift_div_l; [reflexivity | lra]. }
  split; apply Z.max_le_compat_l, round_monotone, scaled_monotone; try exact Havg.
  - discriminate.
  - destruct (JS.gtb _ _); discriminate.
Qed.

Lemma calculateTargetStoryPoints_sample :
  NextSprint.calculateTargetStoryPoints (metricsWithRate 100 20) (pastSprint 30)
                                        (assessmentAt High)
  <= NextSprint.calculateTargetStoryPoints (metricsWithRate 100 20) (pastSprint 30)
                                           (assessmentAt Medium)
  /\ NextSprint.calculateTargetStoryPoints (metricsWithRate 100 20) (pastSprint 30)
                                           (assessmentAt Medium)
     <= NextSprint.calculateTargetStoryPoints (metricsWithRate 100 20) (pastSprint 30)
                                              (assessmentAt Low).
Proof.
  apply (calculateTargetStoryPoints_risk_lowers
           (metricsWithRate 100 20) (pastSprint 30)
           (assessmentAt High) (assessmentAt Medium) (assessmentAt Low));
    try reflexivity; vm_compute; discriminate.
Defined.

(** With velocities 20 and 30 the targets are 20, 23 and 28 story points;
    an issue in progress that is also complex is both included and
    postponed. *)
Example generateNextSprintSuggestions_sample :
  map (fun level =>
         NextSprint.calculateTargetStoryPoints (metricsWithRate 100 20) (pastSprint 30)
                                               (assessmentAt level))
      [ High; Medium; Low ]
  = [ 20; 23; 28 ]
  /\ (let s :=
        NextSprint.generateNextSprintSuggestions
          0 (metricsWithRate 50 20) (pastSprint 30) (assessmentAt High)
          [ IssueData.mk "1" "PROJ-1" "Issue 1" (Some "John") (Some 8%Q) "In Progress"
                         [] [] ]
          [] in
      (NextSprintSuggestions.tasksToInclude s, NextSprintSuggestions.tasksToPostpone s))
     = ([ "PROJ-1" ], [ "PROJ-1" ]).
Proof. split; vm_compute; reflexivity. Qed.

(* ================================================================== *)
(** ** ReportGenerator *)

Lemma generatePRFinding_some (prMetrics : PRMetrics.t) (prs : list PullRequestData.t) :
  isSome (ReportGenerator.generatePRFinding prMetrics prs) = true.
Proof.
  unfold ReportGenerator.generatePRFinding. cbv zeta.
  destruct (JS.gtb _ _); [reflexivity|].
  destruct (JS.gtb _ _); [reflexivity|].
  destruct (_ && _); reflexivity.
Qed.

Lemma push_opt_length {A} (o : option A) :
  List.length (JS.push_opt o) = indicator (isSome o).
Proof. destruct o; reflexivity. Qed.

Lemma generateKeyFindings_length
      (sprintMetrics : SprintMetrics.t) (prMetrics : PRMetrics.t)
      (issues : list IssueData.t) (prs : list PullRequestData.t)
      (bottlenecks : option (list BottleneckInfo.t)) :
  let findings :=
    ReportGenerator.generateKeyFindings sprintMetrics prMetrics issues prs bottlenecks in
  List.length findings
  = (1 + indicator (0 <? SprintMetrics.wipCount sprintMetrics)%Z
     + indicator (JS.gtb (SprintMetrics.cycleTime sprintMetrics) 0)
     + indicator (notEmpty prs)
     + indicator (hasBottleneck bottlenecks)
     + indicator (0 <? SprintMetrics.carryOverCount sprintMetrics)%Z
     + indicator (isSome (ReportGenerator.generateWorkloadFinding issues)))%nat
  /\ option_map opening (hd_error findings) = Some (JS.Lit "Completed ").
Proof.
  cbv zeta. unfold ReportGenerator.generateKeyFindings. cbv zeta. unfold JS.text.
  match goal with
  | |- context [JS.slice0 7 (?f1 ++ ?f2 ++ ?f3 ++ ?f4 ++ ?f5 ++ ?f6 ++ ?f7)] =>
      set (finding1 := f1); set (finding2 := f2); set (finding3 := f3);
      set (finding4 := f4); set (finding5 := f5); set (finding6 := f6);
      set (finding7 := f7)
  end.
  assert (H2 : List.length finding2
               = indicator (0 <? SprintMetrics.wipCount sprintMetrics)%Z)
    by (unfold finding2; destruct (0 <? SprintMetrics.wipCount sprintMetrics); reflexivity).
  assert (H3 : List.length finding3
               = indicator (JS.gtb (SprintMetrics.cycleTime sprintMetrics) 0))
    by (unfold finding3; destruct (JS.gtb (SprintMetrics.cycleTime sprintMetrics) 0);
        reflexivity).
  assert (H4 : List.length finding4 = indicator (notEmpty prs)).
  { unfold finding4. destruct prs as [|pr r]; [reflexivity|].
    rewrite push_opt_length, generatePRFinding_some. reflexivity. }
  assert (H5 : List.length finding5 = indicator (hasBottleneck bottlenecks))
    by (unfold finding5; destruct bottlenecks as [[|b r]|]; reflexivity).
  assert (H6 : List.length finding6
               = indicator (0 <? SprintMetrics.carryOverCount sprintMetrics)%Z)
    by (unfold finding6; destruct (0 <? SprintMetrics.carryOverCount sprintMetrics);
        reflexivity).
  assert (H7 : @List.length (list JS.frag) finding7
               = indicator (isSome (ReportGenerator.generateWorkloadFinding issues)))
    by apply push_opt_length.
  assert (Hlen : List.length (finding1 ++ finding2 ++ finding3 ++ finding4 ++ finding5
                                ++ finding6 ++ finding7)
                 = (1 + indicator (0 <? SprintMetrics.wipCount sprintMetrics)%Z
                    + indicator (JS.gtb (SprintMetrics.cycleTime sprintMetrics) 0)
                    + indicator (notEmpty prs)
                    + indicator (hasBottleneck bottlenecks)
                    + indicator (0 <? SprintMetrics.carryOverCount sprintMetrics)%Z
                    + indicator (isSome (ReportGenerator.generateWorkloadFinding issues)))%nat).
  { rewrite !length_app, H2, H3, H4, H5, H6, H7. unfold finding1. cbn [List.length]. lia. }
  assert (Hle : forall b, (indicator b <= 1)%nat) by (intros [|]; cbn; lia).
  assert (H7' : (List.length (finding1 ++ finding2 ++ finding3 ++ finding4 ++ finding5
                                ++ finding6 ++ finding7) <= 7)%nat).
  { rewrite Hlen.
    pose proof (Hle (0 <? SprintMetrics.wipCount sprintMetrics)%Z).
    pose proof (Hle (JS.gtb (SprintMetrics.cycleTime sprintMetrics) 0)).
    pose proof (Hle (notEmpty prs)). pose proof (Hle (hasBottleneck bottlenecks)).
    pose proof (Hle (0 <? SprintMetrics.carryOverCount sprintMetrics)%Z).
    pose proof (Hle (isSome (ReportGenerator.generateWorkloadFinding issues))).
    lia. }
  unfold JS.slice0. rewrite firstn_all2 by exact H7'.
  split; [exact Hlen | reflexivity].
Qed.

Lemma indicator_le (b : bool) : (indicator b <= 1)%nat.
Proof. destruct b; cbn; lia. Qed.

Lemma generateKeyFindings_bounds
      (sprintMetrics : SprintMetrics.t) (prMetrics : PRMetrics.t)
      (issues : list IssueData.t) (prs : list PullRequestData.t)
      (bottlenecks : option (list BottleneckInfo.t)) :
  (1 <= List.length (ReportGenerator.generateKeyFindings sprintMetrics prMetrics issues
                                                         prs bottlenecks) <= 7)%nat.
Proof.
  rewrite (proj1 (generateKeyFindings_length sprintMetrics prMetrics issues prs
                                             bottlenecks)).
  pose proof (indicator_le (0 <? SprintMetrics.wipCount sprintMetrics)%Z).
  pose proof (indicator_le (JS.gtb (SprintMetrics.cycleTime sprintMetrics) 0)).
  pose proof (indicator_le (notEmpty prs)).
  pose proof (indicator_le (hasBottleneck bottlenecks)).
  pose proof (indicator_le (0 <? SprintMetrics.carryOverCount sprintMetrics)%Z).
  pose proof (indicator_le (isSome (ReportGenerator.generateWorkloadFinding issues))).
  lia.
Qed.

(** X20.  The key findings.  [generateKeyFindings] returns between 1 and 7
    findings, and the cut at 7 never drops one: there is the completion
    finding, always and first, and one finding for each of: WIP above 0, a
    cycle time above 0, at least one pull request (the PR finding is never
    null), a bottleneck passed in, carry-overs above 0, and a workload
    imbalance. *)
Theorem generateKeyFindings_count
        (sprintMetrics : SprintMetrics.t) (prMetrics : PRMetrics.t)
        (issues : list IssueData.t) (prs : list PullRequestData.t)
        (bottlenecks : option (list BottleneckInfo.t)) :
  let findings :=
    ReportGenerator.generateKeyFindings sprintMetrics prMetrics issues prs bottlenecks in
  (1 <= List.length findings <= 7)%nat
  /\ List.length findings
     = (1 + indicator (0 <? SprintMetrics.wipCount sprintMetrics)%Z
        + indicator (JS.gtb (SprintMetrics.cycleTime sprintMetrics) 0)
        + indicator (notEmpty prs)
        + indicator (hasBottleneck bottlenecks)
        + indicator (0 <? SprintMetrics.carryOverCount sprintMetrics)%Z
        + indicator (isSome (ReportGenerator.generateWorkloadFinding issues)))%nat
  /\ option_map opening (hd_error findings) = Some (JS.Lit "Completed ").
Proof.
  cbv zeta. split; [apply generateKeyFindings_bounds|].
  apply generateKeyFindings_length.
Qed.

Lemma byPriority_increasing (l : list Recommendation.t) :
  StronglySorted (fun a b => Recommendation.priority a < Recommendation.priority b) l ->
  ReportGenerator.formatRecommendations l = l.
Proof.
  intros H. unfold ReportGenerator.formatRecommendations. apply sort_sorted_id.
  revert H. apply StronglySorted_weaken.
  intros a b Hab. unfold ReportGenerator.byPriority. apply Z.leb_le. lia.
Qed.

(** X21.  The prioritised list is stable.  The result of
    [prioritizeRecommendations], hence of [generateRecommendations], is
    already in the order it sorts into (priorities strictly increasing), no
    longer than 7 and numbered from 1: prioritising it again changes
    nothing, and [formatRecommendations] returns it as it is, so that the
    report shows the recommendations exactly as they were generated and the
    in-place sort leaves the generator's array as it was. *)
Theorem prioritizeRecommendations_stable (recommendations : list Recommendation.t) :
  RecommendationGenerator.prioritizeRecommendations
    (RecommendationGenerator.prioritizeRecommendations recommendations)
  = RecommendationGenerator.prioritizeRecommendations recommendations
  /\ ReportGenerator.formatRecommendations
       (RecommendationGenerator.prioritizeRecommendations recommendations)
     = RecommendationGenerator.prioritizeRecommendations recommendations.
Proof.
  pose proof (prioritizeRecommendations_length recommendations) as Hlen.
  assert (Hinc : StronglySorted
                   (fun a b => Recommendation.priority a < Recommendation.priority b)
                   (RecommendationGenerator.prioritizeRecommendations recommendations))
    by (unfold RecommendationGenerator.prioritizeRecommendations;
        apply renumberFrom_increasing).
  split; [|apply byPriority_increasing; exact Hinc].
  unfold RecommendationGenerator.prioritizeRecommendations at 1.
  set (r := RecommendationGenerator.prioritizeRecommendations recommendations) in *.
  assert (Hsorted : StronglySorted
                      (fun a b => RecommendationGenerator.byPriorityThenImpact a b = true) r).
  { revert Hinc. apply StronglySorted_weaken.
    intros a b Hab. apply byPriorityThenImpact_precedes. left. exact Hab. }
  rewrite (sort_sorted_id _ r Hsorted). unfold JS.slice0.
  rewrite firstn_all2 by exact Hlen.
  unfold r, RecommendationGenerator.prioritizeRecommendations.
  apply renumberFrom_again.
Qed.

Lemma minZ_spec (d : Z) (l : list Z) :
  In (ReportGenerator.minZ d l) (d :: l)
  /\ forall x, In x (d :: l) -> ReportGenerator.minZ d l <= x.
Proof.
  unfold ReportGenerator.minZ. revert d. induction l as [|y r IH]; intros d; simpl.
  - split; [now left | intros x [->|[]]; lia].
  - destruct (IH (Z.min d y)) as [IH1 IH2]. split.
    + destruct IH1 as [IH1|IH1]; [|right; right; exact IH1].
      rewrite <- IH1.
      destruct (Z.min_spec d y) as [[_ Hm]|[_ Hm]]; rewrite Hm;
        [left | right; left]; reflexivity.
    + intros x [->|[->|Hx]].
      * apply Z.le_trans with (Z.min x y); [apply IH2; now left | apply Z.le_min_l].
      * apply Z.le_trans with (Z.min d x); [apply IH2; now left | apply Z.le_min_r].
      * apply IH2. now right.
Qed.

Lemma sumZ_lower_bound (l : list Z) (b : Z) :
  Forall (fun x => b <= x) l -> b * Z.of_nat (List.length l) <= JS.sumZ l.
Proof.
  unfold JS.sumZ.
  assert (H : forall l a, Forall (fun x => b <= x) l ->
                          a + b * Z.of_nat (List.length l) <= fold_left Z.add l a).
  { clear l. induction l as [|x r IH]; intros a Hl; cbn [fold_left List.length].
    - lia.
    - inversion Hl; subst. specialize (IH (a + x) ltac:(assumption)). lia. }
  intros Hl. specialize (H l 0 Hl). lia.
Qed.

Lemma countByAssignee_groupByAssignee (issues : list IssueData.t) :
  ReportGenerator.countByAssignee issues = RiskAssessor.groupByAssignee issues.
Proof.
  unfold ReportGenerator.countByAssignee, RiskAssessor.groupByAssignee.
  generalize (@nil (string * Z)).
  induction issues as [|issue r IH]; intros m; [reflexivity|].
  cbn [fold_left]. rewrite <- IH. f_equal.
  destruct (IssueData.assignee issue); reflexivity.
Qed.

(** X22.  The workload finding reports a real imbalance only.  Whenever
    [generateWorkloadFinding] returns a finding, two different developers
    have different numbers of assigned issues, the smaller number being at
    least 1: there is no finding for a single developer, nor when every
    developer has the same number of issues. *)
Theorem generateWorkloadFinding_imbalance (issues : list IssueData.t) (finding : JS.text) :
  ReportGenerator.generateWorkloadFinding issues = Some finding ->
  exists a b,
    a <> b
    /\ 1 <= assignedCount a issues
    /\ assignedCount a issues < assignedCount b issues.
Proof.
  unfold ReportGenerator.generateWorkloadFinding. cbv zeta.
  rewrite countByAssignee_groupByAssignee.
  destruct (groupByAssignee_counts issues) as [Hnd Hcount].
  pose proof (groupByAssignee_positive issues) as Hpos.
  set (m := RiskAssessor.groupByAssignee issues) in *.
  destruct (map snd m) as [|c0 rest] eqn:Ec; [discriminate|].
  destruct (JS.gtb _ _) eqn:Eg; cbn [andb]; [|discriminate].
  intros _. apply gtb_gt in Eg.
  destruct (maxZ_spec c0 rest) as [Hmaxin _].
  destruct (minZ_spec c0 rest) as [Hminin Hmin].
  set (maxIssues := JS.maxZ c0 rest) in *.
  set (minIssues := ReportGenerator.minZ c0 rest) in *.
  assert (Hentry : forall n, In n (c0 :: rest) ->
                             exists k, In (k, n) m /\ assignedCount k issues = n /\ 1 <= n).
  { intros n Hn. rewrite <- Ec in Hn. apply in_map_iff in Hn.
    destruct Hn as [[k n'] [Hk Hin]]. cbn in Hk. subst n'.
    exists k. split; [exact Hin|]. split.
    - unfold assignedCount. rewrite <- Hcount. now apply countIn_entry.
    - rewrite Forall_forall in Hpos. apply (Hpos _ Hin). }
  destruct (Hentry _ Hminin) as [a [_ [Ha Ha1]]].
  destruct (Hentry _ Hmaxin) as [b [_ [Hb _]]].
  assert (Hsum : minIssues * Z.of_nat (List.length (c0 :: rest)) <= JS.sumZ (c0 :: rest)).
  { apply sumZ_lower_bound. apply Forall_forall. exact Hmin. }
  assert (Hlt : minIssues < maxIssues).
  { assert (Havg : (inject_Z minIssues
                    <= inject_Z (JS.sumZ (c0 :: rest)) / JS.lenQ (c0 :: rest))%Q).
    { apply Qle_shift_div_l; [apply lenQ_cons_pos|].
      unfold JS.lenQ. rewrite <- inject_Z_mult, <- Zle_Qle. exact Hsum. }
    set (avg := (inject_Z (JS.sumZ (c0 :: rest)) / JS.lenQ (c0 :: rest))%Q) in *.
    assert (H1 : (1 <= inject_Z minIssues)%Q)
      by (change 1%Q with (inject_Z 1); rewrite <- Zle_Qle; exact Ha1).
    assert (H : (inject_Z minIssues < inject_Z maxIssues)%Q).
    { clearbody avg. set (x := inject_Z minIssues) in *.
      set (y := inject_Z maxIssues) in *. clearbody x y. lra. }
    rewrite <- Zlt_Qlt in H. exact H. }
  exists a, b. rewrite Ha, Hb. split; [|split; [exact Ha1 | exact Hlt]].
  intros ->. lia.
Qed.

Lemma generateWorkloadFinding_sample :
  exists a b,
    a <> b
    /\ 1 <= assignedCount a (issuesOf "Ann" 1 ++ issuesOf "Bob" 1 ++ issuesOf "Cy" 5)
    /\ assignedCount a (issuesOf "Ann" 1 ++ issuesOf "Bob" 1 ++ issuesOf "Cy" 5)
       < assignedCount b (issuesOf "Ann" 1 ++ issuesOf "Bob" 1 ++ issuesOf "Cy" 5).
Proof.
  eapply (generateWorkloadFinding_imbalance
            (issuesOf "Ann" 1 ++ issuesOf "Bob" 1 ++ issuesOf "Cy" 5)).
  vm_compute. reflexivity.
Defined.

(* ================================================================== *)
(** ** AnalysisOrchestrator: which failures are contained *)

Section OrchestratorContainment.

Variable generateNextSprintSuggestions :
  SprintMetrics.t -> HistoricalMetrics.t -> RiskAssessment.t ->
  list IssueData.t -> list PullRequestData.t -> NextSprintSuggestions.t.

Variable generateReport :
  Z -> SprintData.t -> SprintMetrics.t -> PRMetrics.t -> RiskAssessment.t ->
  list Recommendation.t -> list IssueData.t -> list PullRequestData.t ->
  option (list BottleneckInfo.t) -> option NextSprintSuggestions.t -> SprintReport.t.

Variable c : AnalysisOrchestrator.Collaborators.

Lemma catchWith_twice {A} (m : AnalysisOrchestrator.outcome A) (d : A) :
  AnalysisOrchestrator.catchWith (AnalysisOrchestrator.catchWith m d) d
  = AnalysisOrchestrator.catchWith m d.
Proof. destruct m; reflexivity. Qed.

Lemma catchWith_unit (m : AnalysisOrchestrator.outcome unit) :
  AnalysisOrchestrator.catchWith m tt = AnalysisOrchestrator.Resolved tt.
Proof. destruct m as [[]|e]; reflexivity. Qed.

Lemma getHistoricalMetrics_tolerant (sprintId : string) :
  AnalysisOrchestrator.getHistoricalMetrics (tolerant c) sprintId
  = AnalysisOrchestrator.getHistoricalMetrics c sprintId.
Proof.
  unfold AnalysisOrchestrator.getHistoricalMetrics, tolerant.
  cbn [AnalysisOrchestrator.getHistoricalSprints AnalysisOrchestrator.getHistoricalMetric].
  destruct (AnalysisOrchestrator.getHistoricalSprints c) as [sprints|e];
    cbn [AnalysisOrchestrator.catchWith AnalysisOrchestrator.bind]; [|reflexivity].
  destruct (filter _ sprints) as [|s r]; [reflexivity|].
  apply catchWith_twice.
Qed.

Lemma collectData_tolerant (sprintId : string) (boardId : option string)
      (forceRefresh : bool) :
  AnalysisOrchestrator.collectData (tolerant c) sprintId boardId forceRefresh
  = AnalysisOrchestrator.collectData c sprintId boardId forceRefresh.
Proof.
  assert (Hh : AnalysisOrchestrator.historyFor (tolerant c) sprintId boardId
               = AnalysisOrchestrator.historyFor c sprintId boardId).
  { unfold AnalysisOrchestrator.historyFor.
    destruct (JS.truthy_string boardId); [apply getHistoricalMetrics_tolerant | reflexivity]. }
  assert (Hf : AnalysisOrchestrator.fetchAndCache (tolerant c) sprintId boardId
               = AnalysisOrchestrator.fetchAndCache c sprintId boardId).
  { unfold AnalysisOrchestrator.fetchAndCache. rewrite Hh.
    change (AnalysisOrchestrator.fetchJiraData (tolerant c))
      with (AnalysisOrchestrator.fetchJiraData c).
    destruct (AnalysisOrchestrator.all2 false _ _) as [[[sprint issues] history]|e];
      cbn [AnalysisOrchestrator.bind]; [|reflexivity].
    unfold AnalysisOrchestrator.fetchBitbucketData, tolerant.
    cbn [AnalysisOrchestrator.getPullRequestsForSprint AnalysisOrchestrator.cacheSprintData
         AnalysisOrchestrator.cachePRData AnalysisOrchestrator.cachePRSettlesFirst].
    rewrite catchWith_twice. reflexivity. }
  unfold AnalysisOrchestrator.collectData. rewrite Hf, Hh. reflexivity.
Qed.

(** X23.  The failures the orchestrator contains.  A pass gives the same
    report as a pass in which every failing read of the report cache, of
    the pull-request source, of the past sprints and of the stored metrics
    had answered with nothing instead (no cached report, no pull requests, no
    past sprints, no metrics), and in which storing the report and the
    historical metrics had succeeded: none of these failures reaches the
    report. *)
Theorem analyzeSprint_tolerated_failures
        (sprintId : string) (boardId : option string) (forceRefresh : bool) :
  AnalysisOrchestrator.analyzeSprint generateNextSprintSuggestions generateReport
                                     c sprintId boardId forceRefresh
  = AnalysisOrchestrator.analyzeSprint generateNextSprintSuggestions generateReport
                                       (tolerant c) sprintId boardId forceRefresh.
Proof.
  assert (Hfresh :
            AnalysisOrchestrator.analyzeFresh generateNextSprintSuggestions generateReport
                                              (tolerant c) sprintId boardId forceRefresh
            = AnalysisOrchestrator.analyzeFresh generateNextSprintSuggestions generateReport
                                                c sprintId boardId forceRefresh).
  { unfold AnalysisOrchestrator.analyzeFresh. rewrite collectData_tolerant.
    destruct (AnalysisOrchestrator.collectData c sprintId boardId forceRefresh) as [d|e];
      cbn [AnalysisOrchestrator.bind]; [|reflexivity].
    change (AnalysisOrchestrator.buildReport generateNextSprintSuggestions generateReport
                                             (tolerant c) d)
      with (AnalysisOrchestrator.buildReport generateNextSprintSuggestions generateReport
                                             c d).
    destruct (AnalysisOrchestrator.buildReport _ _ c d) as [[report sm] pm].
    unfold AnalysisOrchestrator.cacheReport, AnalysisOrchestrator.storeHistory.
    rewrite !catchWith_unit. reflexivity. }
  unfold AnalysisOrchestrator.analyzeSprint, AnalysisOrchestrator.analyzeSprintBody.
  rewrite Hfresh.
  unfold AnalysisOrchestrator.getCachedReport.
  change (AnalysisOrchestrator.getReport (tolerant c))
    with (AnalysisOrchestrator.catchWith (AnalysisOrchestrator.getReport c) None).
  rewrite catchWith_twice. reflexivity.
Qed.

(** X24.  A failing cache write is not contained.  When the pass fetches
    fresh data (forced, or nothing cached), the issue tracker answers both
    requests, and writing the sprint data to the cache fails while writing
    the pull-request data succeeds, the analysis that could have been
    computed is dropped: the result is the degraded report carrying the
    error of the cache. *)
Theorem analyzeSprint_cache_write_failure
        (sprintId : string) (boardId : option string) (forceRefresh : bool)
        (sprint : SprintData.t) (issues : list IssueData.t)
        (error : AnalysisOrchestrator.thrown) :
  servedFromCache c forceRefresh = false ->
  (forceRefresh = false ->
   (exists d, AnalysisOrchestrator.getCachedSprintData c = AnalysisOrchestrator.Resolved d)
   /\ (exists p, AnalysisOrchestrator.getCachedPRData c = AnalysisOrchestrator.Resolved p)) ->
  AnalysisOrchestrator.getSprintData c = AnalysisOrchestrator.Resolved sprint ->
  AnalysisOrchestrator.getSprintIssues c = AnalysisOrchestrator.Resolved issues ->
  AnalysisOrchestrator.cacheSprintData c = AnalysisOrchestrator.Rejected error ->
  AnalysisOrchestrator.cachePRData c = AnalysisOrchestrator.Resolved tt ->
  AnalysisOrchestrator.analyzeSprint generateNextSprintSuggestions generateReport
                                     c sprintId boardId forceRefresh
  = AnalysisOrchestrator.handleAnalysisError (AnalysisOrchestrator.clock c) error sprintId.
Proof.
  intros Hserved Hreads Hs Hi Hw Hp.
  assert (Hfetch : AnalysisOrchestrator.fetchAndCache c sprintId boardId
                   = AnalysisOrchestrator.Rejected error).
  { unfold AnalysisOrchestrator.fetchAndCache, AnalysisOrchestrator.fetchJiraData.
    rewrite Hs, Hi. cbn [AnalysisOrchestrator.all2].
    destruct (historyFor_resolves c sprintId boardId) as [h Hh]. rewrite Hh.
    cbn [AnalysisOrchestrator.all2 AnalysisOrchestrator.bind].
    unfold AnalysisOrchestrator.fetchBitbucketData.
    destruct (AnalysisOrchestrator.getPullRequestsForSprint c _) as [prs|e];
      cbn [AnalysisOrchestrator.catchWith AnalysisOrchestrator.bind];
      rewrite Hw, Hp; reflexivity. }
  assert (Hcollect : AnalysisOrchestrator.collectData c sprintId boardId forceRefresh
                     = AnalysisOrchestrator.Rejected error).
  { unfold AnalysisOrchestrator.collectData.
    destruct forceRefresh; cbn [negb]; [exact Hfetch|].
    destruct (Hreads eq_refl) as [[d Hd] [p Hpr]].
    unfold servedFromCache in Hserved. cbn [negb andb] in Hserved.
    apply orb_false_iff in Hserved. destruct Hserved as [_ Hdata].
    unfold dataCached in Hdata. rewrite Hd, Hpr in *.
    cbn [AnalysisOrchestrator.bind].
    destruct d as [[s i]|]; destruct p as [p|]; try discriminate; exact Hfetch. }
  unfold AnalysisOrchestrator.analyzeSprint, AnalysisOrchestrator.analyzeSprintBody,
    AnalysisOrchestrator.analyzeFresh.
  rewrite Hcollect. cbn [AnalysisOrchestrator.bind].
  destruct forceRefresh; cbn [negb]; [reflexivity|].
  unfold servedFromCache in Hserved. cbn [negb andb] in Hserved.
  apply orb_false_iff in Hserved. destruct Hserved as [Hr _].
  unfold reportCached in Hr. unfold AnalysisOrchestrator.getCachedReport.
  destruct (AnalysisOrchestrator.getReport c) as [[r|]|e]; try discriminate; reflexivity.
Qed.

(** X25.  What a pass does not consult.  With [forceRefresh] the report
    does not depend on what the report cache and the two raw-data caches
    hold, or on whether reading them fails.  Without it, when both raw-data
    caches hold an entry, the pass asks neither the issue tracker nor the
    pull-request source and writes no raw data: the report does not depend
    on what the sources would answer or on the outcome of the cache
    writes. *)
Theorem analyzeSprint_unconsulted_collaborators
        (sprintId : string) (boardId : option string) :
  (forall report sprintData prData,
      AnalysisOrchestrator.analyzeSprint generateNextSprintSuggestions generateReport
                                         (withCaches report sprintData prData c)
                                         sprintId boardId true
      = AnalysisOrchestrator.analyzeSprint generateNextSprintSuggestions generateReport
                                           c sprintId boardId true)
  /\ (dataCached c = true ->
      forall sprintData sprintIssues pullRequests cacheWrites,
        AnalysisOrchestrator.analyzeSprint
          generateNextSprintSuggestions generateReport
          (withSources sprintData sprintIssues pullRequests cacheWrites c)
          sprintId boardId false
        = AnalysisOrchestrator.analyzeSprint generateNextSprintSuggestions generateReport
                                             c sprintId boardId false).
Proof.
  split; [reflexivity|].
  intros Hd sprintData sprintIssues pullRequests cacheWrites. unfold dataCached in Hd.
  unfold AnalysisOrchestrator.analyzeSprint, AnalysisOrchestrator.analyzeSprintBody,
    AnalysisOrchestrator.analyzeFresh, AnalysisOrchestrator.collectData.
  cbn [negb].
  change (AnalysisOrchestrator.getCachedReport
            (withSources sprintData sprintIssues pullRequests cacheWrites c))
    with (AnalysisOrchestrator.getCachedReport c).
  change (AnalysisOrchestrator.getCachedSprintData
            (withSources sprintData sprintIssues pullRequests cacheWrites c))
    with (AnalysisOrchestrator.getCachedSprintData c).
  change (AnalysisOrchestrator.getCachedPRData
            (withSources sprintData sprintIssues pullRequests cacheWrites c))
    with (AnalysisOrchestrator.getCachedPRData c).
  destruct (AnalysisOrchestrator.getCachedSprintData c) as [[[s i]|]|e1];
    try discriminate.
  destruct (AnalysisOrchestrator.getCachedPRData c) as [[p|]|e2]; try discriminate.
  reflexivity.
Qed.

End OrchestratorContainment.

Lemma analyzeSprint_cache_write_failure_sample :
  AnalysisOrchestrator.analyzeSprint noSuggestions plainReport cacheWriteFails
                                     "7" None true
  = AnalysisOrchestrator.handleAnalysisError
      (AnalysisOrchestrator.clock cacheWriteFails)
      (AnalysisOrchestrator.Error "Storage quota exceeded") "7".
Proof.
  apply (analyzeSprint_cache_write_failure
           noSuggestions plainReport cacheWriteFails "7" None true
           (SprintData.mk "7" "Sprint 7" SprintData.active 0 1209600000 None)
           sampleIssues);
    try reflexivity.
  intros H. discriminate.
Defined.

Lemma analyzeSprint_cached_data_sample :
  AnalysisOrchestrator.analyzeSprint
    noSuggestions plainReport
    (withSources (AnalysisOrchestrator.Rejected AnalysisOrchestrator.NotAnError)
                 (AnalysisOrchestrator.Rejected AnalysisOrchestrator.NotAnError)
                 (fun _ => AnalysisOrchestrator.Rejected AnalysisOrchestrator.NotAnError)
                 (AnalysisOrchestrator.Rejected AnalysisOrchestrator.NotAnError)
                 rawDataCached)
    "7" None false
  = AnalysisOrchestrator.analyzeSprint noSuggestions plainReport rawDataCached
                                       "7" None false.
Proof.
  apply (proj2 (analyzeSprint_unconsulted_collaborators
                  noSuggestions plainReport rawDataCached "7" None)).
  reflexivity.
Defined.

(* ================================================================== *)
(** ** The pipeline, end to end *)

(** X26.  The report of a successful pass.  When the report cache does not
    answer and the data is collected, the wired orchestrator returns a report
    that carries the sprint and pull-request metrics computed from the
    collected data, the level and justification of the risk assessment made
    from them, at most 7 recommendations numbered 1, 2, ... without gaps,
    between 1 and 7 key findings, next-sprint suggestions exactly when
    historical metrics were found (with a target of at least 1 story point),
    and the time of the pass; storing the report cannot change it. *)
Theorem runAnalysis_report_of_collected_data
        (c : AnalysisOrchestrator.Collaborators) (sprintId : string)
        (boardId : option string) (forceRefresh : bool)
        (d : AnalysisOrchestrator.Collected) :
  negb forceRefresh && reportCached c = false ->
  AnalysisOrchestrator.collectData c sprintId boardId forceRefresh
  = AnalysisOrchestrator.Resolved d ->
  let now := AnalysisOrchestrator.clock c in
  let report := runAnalysis c sprintId boardId forceRefresh in
  let sprintMetrics :=
    MetricsCalculator.calculateSprintMetrics now (AnalysisOrchestrator.issues d)
                                             (AnalysisOrchestrator.sprint d) in
  let prMetrics := MetricsCalculator.calculatePRMetrics (AnalysisOrchestrator.prs d) in
  let riskAssessment :=
    RiskAssessor.assessSprintRisk sprintMetrics prMetrics
                                  (AnalysisOrchestrator.historicalMetrics d)
                                  (Some (AnalysisOrchestrator.issues d))
                                  (Some (AnalysisOrchestrator.prs d)) in
  SprintReport.metrics report = SprintReport.mkMetrics sprintMetrics prMetrics
  /\ SprintReport.riskAssessment report
     = SprintReport.mkRisk (RiskAssessment.level riskAssessment)
                           (RiskAssessment.justification riskAssessment)
  /\ (List.length (SprintReport.recommendations report) <= 7)%nat
  /\ map Recommendation.priority (SprintReport.recommendations report)
     = oneTo (List.length (SprintReport.recommendations report))
  /\ (1 <= List.length (SprintReport.keyFindings report) <= 7)%nat
  /\ isSome (SprintReport.nextSprintSuggestions report)
     = isSome (AnalysisOrchestrator.historicalMetrics d)
  /\ Forall (fun s => 1 <= NextSprintSuggestions.targetStoryPoints s)
            (JS.push_opt (SprintReport.nextSprintSuggestions report))
  /\ SprintReport.generatedAt report = now.
Proof.
  intros Hcache Hcollect. cbv zeta.
  assert (Hrun : runAnalysis c sprintId boardId forceRefresh
                 = fst (fst (AnalysisOrchestrator.buildReport
                               (NextSprint.generateNextSprintSuggestions
                                  (AnalysisOrchestrator.clock c))
                               ReportGenerator.generateReport c d))).
  { unfold runAnalysis, AnalysisOrchestrator.analyzeSprint,
      AnalysisOrchestrator.analyzeSprintBody, AnalysisOrchestrator.analyzeFresh.
    rewrite Hcollect. cbn [AnalysisOrchestrator.bind].
    destruct (AnalysisOrchestrator.buildReport _ _ c d) as [[report sm] pm].
    unfold AnalysisOrchestrator.cacheReport, AnalysisOrchestrator.storeHistory.
    rewrite !catchWith_unit. cbn [AnalysisOrchestrator.bind fst].
    assert (Hrest : AnalysisOrchestrator.bind
                      (if AnalysisOrchestrator.isClosed (AnalysisOrchestrator.sprint d)
                       then AnalysisOrchestrator.Resolved tt
                       else AnalysisOrchestrator.Resolved tt)
                      (fun _ => AnalysisOrchestrator.Resolved report)
                    = AnalysisOrchestrator.Resolved report)
      by (destruct (AnalysisOrchestrator.isClosed _); reflexivity).
    destruct forceRefresh; cbn [negb andb] in *.
    - rewrite Hrest. reflexivity.
    - unfold reportCached in Hcache. unfold AnalysisOrchestrator.getCachedReport.
      destruct (AnalysisOrchestrator.getReport c) as [[r|]|e]; try discriminate;
        cbn [AnalysisOrchestrator.catchWith AnalysisOrchestrator.bind];
        rewrite Hrest; reflexivity. }
  rewrite Hrun. unfold AnalysisOrchestrator.buildReport. cbv zeta. cbn [fst].
  unfold ReportGenerator.generateReport. cbv zeta.
  cbn [SprintReport.metrics SprintReport.riskAssessment SprintReport.recommendations
       SprintReport.keyFindings SprintReport.nextSprintSuggestions
       SprintReport.generatedAt].
  split; [reflexivity|]. split; [reflexivity|].
  match goal with
  | |- context [ReportGenerator.formatRecommendations ?r] =>
      assert (Hfmt : ReportGenerator.formatRecommendations r = r)
        by (apply byPriority_increasing;
            unfold RecommendationGenerator.generateRecommendations,
              RecommendationGenerator.prioritizeRecommendations; cbv zeta;
            apply renumberFrom_increasing);
      rewrite Hfmt
  end.
  split.
  { unfold RecommendationGenerator.generateRecommendations. cbv zeta.
    apply prioritizeRecommendations_length. }
  split.
  { unfold RecommendationGenerator.generateRecommendations,
      RecommendationGenerator.prioritizeRecommendations. cbv zeta.
    unfold oneTo. rewrite renumberFrom_length.
    apply (renumberFrom_priorities _ 0). }
  split; [apply generateKeyFindings_bounds|].
  split; [destruct (AnalysisOrchestrator.historicalMetrics d); reflexivity|].
  split; [|reflexivity].
  destruct (AnalysisOrchestrator.historicalMetrics d) as [h|]; cbn [option_map JS.push_opt];
    [|constructor].
  constructor; [|constructor].
  unfold NextSprint.generateNextSprintSuggestions. cbv zeta.
  destruct (NextSprint.identifyTaskAdjustments _ _ _ _) as [inc post].
  cbn [NextSprintSuggestions.targetStoryPoints].
  unfold NextSprint.calculateTargetStoryPoints. cbv zeta. apply Z.le_max_l.
Qed.

Lemma runAnalysis_cached_data_sample :
  let now := AnalysisOrchestrator.clock rawDataCached in
  let report := runAnalysis rawDataCached "7" None false in
  let sprintMetrics :=
    MetricsCalculator.calculateSprintMetrics now (AnalysisOrchestrator.issues cachedData)
                                             (AnalysisOrchestrator.sprint cachedData) in
  let prMetrics :=
    MetricsCalculator.calculatePRMetrics (AnalysisOrchestrator.prs cachedData) in
  let riskAssessment :=
    RiskAssessor.assessSprintRisk sprintMetrics prMetrics
                                  (AnalysisOrchestrator.historicalMetrics cachedData)
                                  (Some (AnalysisOrchestrator.issues cachedData))
                                  (Some (AnalysisOrchestrator.prs cachedData)) in
  SprintReport.metrics report = SprintReport.mkMetrics sprintMetrics prMetrics
  /\ SprintReport.riskAssessment report
     = SprintReport.mkRisk (RiskAssessment.level riskAssessment)
                           (RiskAssessment.justification riskAssessment)
  /\ (List.length (SprintReport.recommendations report) <= 7)%nat
  /\ map Recommendation.priority (SprintReport.recommendations report)
     = oneTo (List.length (SprintReport.recommendations report))
  /\ (1 <= List.length (SprintReport.keyFindings report) <= 7)%nat
  /\ isSome (SprintReport.nextSprintSuggestions report)
     = isSome (AnalysisOrchestrator.historicalMetrics cachedData)
  /\ Forall (fun s => 1 <= NextSprintSuggestions.targetStoryPoints s)
            (JS.push_opt (SprintReport.nextSprintSuggestions report))
  /\ SprintReport.generatedAt report = now.
Proof.
  apply (runAnalysis_report_of_collected_data rawDataCached "7" None false cachedData);
    reflexivity.
Defined.

(* ================================================================== *)
(** ** StorageService *)

Lemma lookup_put_same (k : string) (v : StorageService.value)
      (es : list (string * StorageService.value)) :
  StorageService.lookup k (StorageService.put k v es) = Some v.
Proof.
  unfold StorageService.lookup, StorageService.put. cbn [find fst].
  rewrite String.eqb_refl. reflexivity.
Qed.

Lemma lookup_remove_same (k : string) (es : list (string * StorageService.value)) :
  StorageService.lookup k (StorageService.remove k es) = None.
Proof.
  unfold StorageService.lookup, StorageService.remove.
  induction es as [|[k0 v0] r IH]; [reflexivity|].
  cbn [filter fst]. destruct (String.eqb k0 k) eqn:E; cbn [negb]; [exact IH|].
  cbn [find fst]. rewrite E. exact IH.
Qed.

Lemma lookup_remove_other (k k' : string) (es : list (string * StorageService.value)) :
  k <> k' ->
  StorageService.lookup k (StorageService.remove k' es) = StorageService.lookup k es.
Proof.
  intros Hne. unfold StorageService.lookup, StorageService.remove.
  induction es as [|[k0 v0] r IH]; [reflexivity|].
  cbn [filter find fst]. destruct (String.eqb k0 k') eqn:E; cbn [negb].
  - apply String.eqb_eq in E. subst k0.
    assert (En : String.eqb k' k = false)
      by (apply String.eqb_neq; intros H; apply Hne; now symmetry).
    rewrite En. exact IH.
  - cbn [find fst]. destruct (String.eqb k0 k); [reflexivity | exact IH].
Qed.

Lemma lookup_put_other (k k' : string) (v : StorageService.value)
      (es : list (string * StorageService.value)) :
  k <> k' ->
  StorageService.lookup k (StorageService.put k' v es) = StorageService.lookup k es.
Proof.
  intros Hne. unfold StorageService.put.
  rewrite <- (lookup_remove_other k k' es Hne).
  unfold StorageService.lookup. cbn [find fst].
  assert (En : String.eqb k' k = false)
    by (apply String.eqb_neq; intros H; apply Hne; now symmetry).
  rewrite En. reflexivity.
Qed.

Lemma metaKeyOf_injective (k k' : string) : metaKeyOf k = metaKeyOf k' -> k = k'.
Proof. unfold metaKeyOf. cbn. intros H. now injection H. Qed.

Lemma dataKey_not_meta (k k' : string) : dataKey k -> k <> metaKeyOf k'.
Proof. intros [id|id|id|id] H; cbn in H; discriminate H. Qed.

Lemma getCachedData_answer (now : Z) (key : string)
      (es : list (string * StorageService.value)) :
  StorageService.getCachedData now key (StorageService.mkForge es true)
  = match StorageService.lookup key es, StorageService.lookup (metaKeyOf key) es with
    | Some cacheEntry, Some metadata =>
        if StorageService.expired now metadata then
          (AnalysisOrchestrator.Resolved None,
           StorageService.mkForge
             (StorageService.remove (metaKeyOf key) (StorageService.remove key es)) true)
        else (AnalysisOrchestrator.Resolved (StorageService.dataOf cacheEntry),
              StorageService.mkForge es true)
    | _, _ => (AnalysisOrchestrator.Resolved None, StorageService.mkForge es true)
    end.
Proof.
  unfold StorageService.getCachedData, StorageService.tryCatch, StorageService.bind,
    StorageService.storage_get, metaKeyOf.
  cbn [StorageService.available StorageService.entries].
  destruct (StorageService.lookup key es) as [e|];
    destruct (StorageService.lookup (StorageService.CACHE_METADATA_PREFIX ++ key)%string es)
      as [m|]; try reflexivity.
  destruct (StorageService.expired now m); reflexivity.
Qed.

Lemma getStored_answer (now : Z) (key : string)
      (es : list (string * StorageService.value)) :
  StorageService.getStored now key (StorageService.mkForge es true)
  = match StorageService.lookup key es, StorageService.lookup (metaKeyOf key) es with
    | Some stored, Some metadata =>
        if StorageService.expired now metadata then
          (AnalysisOrchestrator.Resolved None,
           StorageService.mkForge
             (StorageService.remove (metaKeyOf key) (StorageService.remove key es)) true)
        else (AnalysisOrchestrator.Resolved (Some stored), StorageService.mkForge es true)
    | Some stored, None =>
        (AnalysisOrchestrator.Resolved (Some stored), StorageService.mkForge es true)
    | None, _ => (AnalysisOrchestrator.Resolved None, StorageService.mkForge es true)
    end.
Proof.
  unfold StorageService.getStored, StorageService.tryCatch, StorageService.bind,
    StorageService.storage_get, metaKeyOf.
  cbn [StorageService.available StorageService.entries].
  destruct (StorageService.lookup key es) as [e|];
    destruct (StorageService.lookup (StorageService.CACHE_METADATA_PREFIX ++ key)%string es)
      as [m|]; try reflexivity.
  destruct (StorageService.expired now m); reflexivity.
Qed.

(** The storage after a key and its metadata were written. *)
Lemma written (key : string) (v : StorageService.value) (expiresAt : Z)
      (es : list (string * StorageService.value)) :
  dataKey key ->
  let es' :=
    StorageService.put (metaKeyOf key) (StorageService.Metadata expiresAt)
                       (StorageService.put key v es) in
  StorageService.lookup key es' = Some v
  /\ StorageService.lookup (metaKeyOf key) es' = Some (StorageService.Metadata expiresAt).
Proof.
  intros Hk. cbv zeta. split.
  - rewrite lookup_put_other by (apply dataKey_not_meta; exact Hk).
    apply lookup_put_same.
  - apply lookup_put_same.
Qed.

Lemma cleared (key : string) (es : list (string * StorageService.value)) :
  dataKey key ->
  let es' := StorageService.remove (metaKeyOf key) (StorageService.remove key es) in
  StorageService.lookup key es' = None.
Proof.
  intros Hk. cbv zeta.
  rewrite lookup_remove_other by (apply dataKey_not_meta; exact Hk).
  apply lookup_remove_same.
Qed.

Lemma expired_metadata (now ttl later : Z) :
  StorageService.expired later (StorageService.Metadata (now + ttl))
  = negb (later <=? now + ttl).
Proof.
  cbn [StorageService.expired].
  destruct (Z.ltb_spec (now + ttl) later), (Z.leb_spec later (now + ttl));
    (reflexivity || lia).
Qed.

Lemma cacheData_round_trip (now later ttl : Z) (key : string)
      (data : StorageService.payload) (es : list (string * StorageService.value)) :
  dataKey key ->
  let written := StorageService.cacheData now key data ttl (StorageService.mkForge es true) in
  let read := StorageService.getCachedData later key (storageAfter written) in
  answer written = AnalysisOrchestrator.Resolved tt
  /\ answer read = AnalysisOrchestrator.Resolved (unlessExpired now ttl later data)
  /\ (later <= now + ttl -> storageAfter read = storageAfter written)
  /\ (now + ttl < later ->
      forall t, answer (StorageService.getCachedData t key (storageAfter read))
                = AnalysisOrchestrator.Resolved None).
Proof.
  intros Hk. cbv zeta.
  unfold StorageService.cacheData, StorageService.bind, StorageService.storage_set.
  cbn [StorageService.available StorageService.entries answer storageAfter fst snd].
  split; [reflexivity|].
  fold (metaKeyOf key).
  destruct (written key (StorageService.Entry data now ttl) (now + ttl) es Hk)
    as [Hentry Hmeta].
  cbv zeta in Hentry, Hmeta.
  rewrite getCachedData_answer, Hentry, Hmeta, expired_metadata.
  unfold unlessExpired.
  destruct (Z.leb_spec later (now + ttl)) as [Hle|Hgt]; cbn [negb answer storageAfter fst snd].
  - split; [reflexivity|]. split; [reflexivity | intros H; lia].
  - split; [reflexivity|]. split; [intros H; lia|].
    intros _ t. rewrite getCachedData_answer, cleared by exact Hk. reflexivity.
Qed.

Lemma store_round_trip (later expiresAt : Z) (key : string) (v : StorageService.value)
      (es : list (string * StorageService.value)) :
  dataKey key ->
  let written :=
    StorageService.mkForge
      (StorageService.put (metaKeyOf key) (StorageService.Metadata expiresAt)
                          (StorageService.put key v es)) true in
  let read := StorageService.getStored later key written in
  answer read
  = AnalysisOrchestrator.Resolved (if later <=? expiresAt then Some v else None)
  /\ (expiresAt < later ->
      forall t, answer (StorageService.getStored t key (storageAfter read))
                = AnalysisOrchestrator.Resolved None).
Proof.
  intros Hk. cbv zeta.
  destruct (written key v expiresAt es Hk) as [Hentry Hmeta].
  cbv zeta in Hentry, Hmeta.
  rewrite getStored_answer, Hentry, Hmeta. cbn [StorageService.expired].
  destruct (Z.ltb_spec expiresAt later) as [Hlt|Hge];
    destruct (Z.leb_spec later expiresAt) as [Hle|Hgt]; try lia;
    cbn [answer storageAfter fst snd].
  - split; [reflexivity|]. intros _ t.
    rewrite getStored_answer, cleared by exact Hk. reflexivity.
  - split; [reflexivity | intros H; lia].
Qed.

(** X27.  What is cached comes back until it expires.  On a storage that
    answers, sprint data cached at [now] is returned by every read up to 15
    minutes later, pull-request data up to 10 minutes later, a report up to
    an hour later and historical metrics up to 24 hours later, the bound
    included.  The first read after that returns null and deletes the entry,
    so that every read after it returns null too, whatever the clock then
    says. *)
Theorem StorageService_round_trips
        (s : StorageService.Forge) (now later : Z) (sprintId : string)
        (sprint : SprintData.t) (issues : list IssueData.t)
        (prs : list PullRequestData.t) (report : SprintReport.t)
        (sprintName : string) (completedAt : Z) (metrics : SprintMetrics.t)
        (prMetrics : PRMetrics.t) :
  StorageService.available s = true ->
  (let written := StorageService.cacheSprintData now sprintId sprint issues s in
   let read := StorageService.getCachedSprintData later sprintId (storageAfter written) in
   answer read
   = AnalysisOrchestrator.Resolved
       (unlessExpired now (15 * 60 * 1000) later
                      (StorageService.SprintPayload sprint issues))
   /\ (now + 15 * 60 * 1000 < later ->
       forall t, answer (StorageService.getCachedSprintData t sprintId (storageAfter read))
                 = AnalysisOrchestrator.Resolved None))
  /\ (let written := StorageService.cachePRData now sprintId prs s in
      let read := StorageService.getCachedPRData later sprintId (storageAfter written) in
      answer read
      = AnalysisOrchestrator.Resolved
          (unlessExpired now (10 * 60 * 1000) later (StorageService.PRPayload prs))
      /\ (now + 10 * 60 * 1000 < later ->
          forall t, answer (StorageService.getCachedPRData t sprintId (storageAfter read))
                    = AnalysisOrchestrator.Resolved None))
  /\ (let written := StorageService.storeReport now sprintId report s in
      let read := StorageService.getReport later sprintId (storageAfter written) in
      answer read
      = AnalysisOrchestrator.Resolved
          (unlessExpired now (60 * 60 * 1000) later (StorageService.Report report))
      /\ (now + 60 * 60 * 1000 < later ->
          forall t, answer (StorageService.getReport t sprintId (storageAfter read))
                    = AnalysisOrchestrator.Resolved None))
  /\ (let written :=
        StorageService.storeHistoricalMetrics now sprintId sprintName completedAt
                                              metrics prMetrics s in
      let read := StorageService.getHistoricalMetric later sprintId (storageAfter written) in
      answer read
      = AnalysisOrchestrator.Resolved
          (unlessExpired now (24 * 60 * 60 * 1000) later
             (StorageService.Metric
                (HistoricalMetrics.mk sprintId sprintName completedAt metrics prMetrics)))
      /\ (now + 24 * 60 * 60 * 1000 < later ->
          forall t, answer (StorageService.getHistoricalMetric t sprintId
                                                               (storageAfter read))
                    = AnalysisOrchestrator.Resolved None)).
Proof.
  destruct s as [es av]. cbn [StorageService.available]. intros ->. cbv zeta.
  split; [|split; [|split]].
  - destruct (cacheData_round_trip
                now later StorageService.SPRINT_DATA_TTL
                (StorageService.SPRINT_DATA_PREFIX ++ sprintId)%string
                (StorageService.SprintPayload sprint issues) es (SprintDataKey sprintId))
      as (_ & Hread & _ & Hafter).
    split; [exact Hread | exact Hafter].
  - destruct (cacheData_round_trip
                now later StorageService.PR_DATA_TTL
                (StorageService.PR_DATA_PREFIX ++ sprintId)%string
                (StorageService.PRPayload prs) es (PRDataKey sprintId))
      as (_ & Hread & _ & Hafter).
    split; [exact Hread | exact Hafter].
  - exact (store_round_trip later (now + StorageService.REPORT_TTL)
                            (StorageService.REPORT_PREFIX ++ sprintId)%string
                            (StorageService.Report report) es (ReportKey sprintId)).
  - exact (store_round_trip
             later (now + StorageService.HISTORICAL_METRICS_TTL)
             (StorageService.HISTORICAL_METRICS_PREFIX ++ sprintId)%string
             (StorageService.Metric
                (HistoricalMetrics.mk sprintId sprintName completedAt metrics prMetrics))
             es (MetricKey sprintId)).
Qed.

Lemma StorageService_round_trip_sample :
  answer (StorageService.getCachedSprintData
            900000 "7"
            (storageAfter (StorageService.cacheSprintData 0 "7" sprintSeven sampleIssues
                                                          emptyStorage)))
  = AnalysisOrchestrator.Resolved (Some (StorageService.SprintPayload sprintSeven sampleIssues))
  /\ answer (StorageService.getCachedSprintData
               900001 "7"
               (storageAfter (StorageService.cacheSprintData 0 "7" sprintSeven sampleIssues
                                                             emptyStorage)))
     = AnalysisOrchestrator.Resolved None.
Proof.
  split.
  - exact (proj1 (proj1 (StorageService_round_trips
                           emptyStorage 0 900000 "7" sprintSeven sampleIssues []
                           (AnalysisOrchestrator.handleAnalysisError
                              0 AnalysisOrchestrator.NotAnError "7")
                           "Sprint 7" 0 quietSprint (PRMetrics.mk 0 0 0 0) eq_refl))).
  - exact (proj1 (proj1 (StorageService_round_trips
                           emptyStorage 0 900001 "7" sprintSeven sampleIssues []
                           (AnalysisOrchestrator.handleAnalysisError
                              0 AnalysisOrchestrator.NotAnError "7")
                           "Sprint 7" 0 quietSprint (PRMetrics.mk 0 0 0 0) eq_refl))).
Defined.

Lemma append_injective (p a b : string) : (p ++ a)%string = (p ++ b)%string -> a = b.
Proof.
  induction p as [|ch p IH]; cbn; [trivial|]. intros H. injection H as H. exact (IH H).
Qed.

(** Two reads that find the same objects under the key and under its
    metadata key answer the same. *)
Lemma getCachedData_depends_on (t : Z) (key : string)
      (es es' : list (string * StorageService.value)) :
  StorageService.lookup key es' = StorageService.lookup key es ->
  StorageService.lookup (metaKeyOf key) es' = StorageService.lookup (metaKeyOf key) es ->
  answer (StorageService.getCachedData t key (StorageService.mkForge es' true))
  = answer (StorageService.getCachedData t key (StorageService.mkForge es true)).
Proof.
  intros Hk Hm. rewrite !getCachedData_answer, Hk, Hm.
  destruct (StorageService.lookup key es) as [e|];
    destruct (StorageService.lookup (metaKeyOf key) es) as [m|]; try reflexivity.
  destruct (StorageService.expired t m); reflexivity.
Qed.

Lemma getStored_depends_on (t : Z) (key : string)
      (es es' : list (string * StorageService.value)) :
  StorageService.lookup key es' = StorageService.lookup key es ->
  StorageService.lookup (metaKeyOf key) es' = StorageService.lookup (metaKeyOf key) es ->
  answer (StorageService.getStored t key (StorageService.mkForge es' true))
  = answer (StorageService.getStored t key (StorageService.mkForge es true)).
Proof.
  intros Hk Hm. rewrite !getStored_answer, Hk, Hm.
  destruct (StorageService.lookup key es) as [e|];
    destruct (StorageService.lookup (metaKeyOf key) es) as [m|]; try reflexivity.
  destruct (StorageService.expired t m); reflexivity.
Qed.

Lemma clearCacheEntry_answer (key : string) (es : list (string * StorageService.value)) :
  StorageService.clearCacheEntry key (metaKeyOf key) (StorageService.mkForge es true)
  = (AnalysisOrchestrator.Resolved tt,
     StorageService.mkForge
       (StorageService.remove (metaKeyOf key) (StorageService.remove key es)) true).
Proof. reflexivity. Qed.

Lemma invalidateSprintCache_storage (sprintId : string)
      (es : list (string * StorageService.value)) :
  let sprintDataKey := (StorageService.SPRINT_DATA_PREFIX ++ sprintId)%string in
  let prDataKey := (StorageService.PR_DATA_PREFIX ++ sprintId)%string in
  let reportKey := (StorageService.REPORT_PREFIX ++ sprintId)%string in
  StorageService.invalidateSprintCache sprintId (StorageService.mkForge es true)
  = (AnalysisOrchestrator.Resolved tt,
     StorageService.mkForge
       (StorageService.remove (metaKeyOf reportKey)
          (StorageService.remove reportKey
             (StorageService.remove (metaKeyOf prDataKey)
                (StorageService.remove prDataKey
                   (StorageService.remove (metaKeyOf sprintDataKey)
                      (StorageService.remove sprintDataKey es))))))
       true).
Proof. reflexivity. Qed.

Lemma lookup_after_six (k k1 k2 k3 k4 k5 k6 : string)
      (es : list (string * StorageService.value)) :
  k <> k1 -> k <> k2 -> k <> k3 -> k <> k4 -> k <> k5 -> k <> k6 ->
  StorageService.lookup
    k (StorageService.remove k6
         (StorageService.remove k5
            (StorageService.remove k4
               (StorageService.remove k3
                  (StorageService.remove k2 (StorageService.remove k1 es))))))
  = StorageService.lookup k es.
Proof.
  intros H1 H2 H3 H4 H5 H6.
  now rewrite !lookup_remove_other by assumption.
Qed.

Lemma lookup_removed (k k' : string) (es : list (string * StorageService.value)) :
  StorageService.lookup k es = None ->
  StorageService.lookup k (StorageService.remove k' es) = None.
Proof.
  intros H. destruct (string_dec k k') as [->|Hne].
  - apply lookup_remove_same.
  - rewrite lookup_remove_other by exact Hne. exact H.
Qed.

Ltac keys_differ :=
  let H := fresh "H" in
  intros H; unfold metaKeyOf in H;
  first [ discriminate H
        | apply append_injective in H; first [ discriminate H | congruence ]
        | apply append_injective in H; apply append_injective in H; congruence ].

(** X28.  Invalidating a sprint.  On a storage that answers,
    [invalidateSprintCache] leaves no sprint data, no pull-request data and
    no report of the sprint: reading them afterwards answers null at any
    time.  It does not touch the historical metrics, of this sprint or of any
    other, and every read for another sprint answers what it answered
    before. *)
Theorem invalidateSprintCache_clears_one_sprint
        (s : StorageService.Forge) (sprintId : string) :
  StorageService.available s = true ->
  let s' := storageAfter (StorageService.invalidateSprintCache sprintId s) in
  (forall t,
      answer (StorageService.getCachedSprintData t sprintId s')
      = AnalysisOrchestrator.Resolved None
      /\ answer (StorageService.getCachedPRData t sprintId s')
         = AnalysisOrchestrator.Resolved None
      /\ answer (StorageService.getReport t sprintId s')
         = AnalysisOrchestrator.Resolved None)
  /\ (forall t other,
         answer (StorageService.getHistoricalMetric t other s')
         = answer (StorageService.getHistoricalMetric t other s))
  /\ (forall t other,
         other <> sprintId ->
         answer (StorageService.getCachedSprintData t other s')
         = answer (StorageService.getCachedSprintData t other s)
         /\ answer (StorageService.getCachedPRData t other s')
            = answer (StorageService.getCachedPRData t other s)
         /\ answer (StorageService.getReport t other s')
            = answer (StorageService.getReport t other s)).
Proof.
  destruct s as [es av]. cbn [StorageService.available]. intros ->. cbv zeta.
  rewrite invalidateSprintCache_storage. cbv zeta. cbn [storageAfter snd].
  set (k1 := (StorageService.SPRINT_DATA_PREFIX ++ sprintId)%string).
  set (k2 := (StorageService.PR_DATA_PREFIX ++ sprintId)%string).
  set (k3 := (StorageService.REPORT_PREFIX ++ sprintId)%string).
  split; [|split].
  - match goal with
    | |- context [StorageService.mkForge ?l true] => set (es' := l)
    end.
    assert (H1 : StorageService.lookup k1 es' = None)
      by (unfold es'; do 5 apply lookup_removed; apply lookup_remove_same).
    assert (H2 : StorageService.lookup k2 es' = None)
      by (unfold es'; do 3 apply lookup_removed; apply lookup_remove_same).
    assert (H3 : StorageService.lookup k3 es' = None)
      by (unfold es'; apply lookup_removed; apply lookup_remove_same).
    intros t. split; [|split].
    + unfold StorageService.getCachedSprintData.
      change (StorageService.SPRINT_DATA_PREFIX ++ sprintId)%string with k1.
      rewrite getCachedData_answer, H1. reflexivity.
    + unfold StorageService.getCachedPRData.
      change (StorageService.PR_DATA_PREFIX ++ sprintId)%string with k2.
      rewrite getCachedData_answer, H2. reflexivity.
    + unfold StorageService.getReport.
      change (StorageService.REPORT_PREFIX ++ sprintId)%string with k3.
      rewrite getStored_answer, H3. reflexivity.
  - intros t other. unfold StorageService.getHistoricalMetric.
    apply getStored_depends_on; apply lookup_after_six; subst k1 k2 k3; keys_differ.
  - intros t other Hother.
    split; [|split].
    + unfold StorageService.getCachedSprintData.
      apply getCachedData_depends_on; apply lookup_after_six; subst k1 k2 k3; keys_differ.
    + unfold StorageService.getCachedPRData.
      apply getCachedData_depends_on; apply lookup_after_six; subst k1 k2 k3; keys_differ.
    + unfold StorageService.getReport.
      apply getStored_depends_on; apply lookup_after_six; subst k1 k2 k3; keys_differ.
Qed.

Lemma invalidateSprintCache_sample :
  let s' := storageAfter (StorageService.invalidateSprintCache "7" sampleStorage) in
  (forall t,
      answer (StorageService.getCachedSprintData t "7" s')
      = AnalysisOrchestrator.Resolved None
      /\ answer (StorageService.getCachedPRData t "7" s')
         = AnalysisOrchestrator.Resolved None
      /\ answer (StorageService.getReport t "7" s')
         = AnalysisOrchestrator.Resolved None)
  /\ (forall t other,
         answer (StorageService.getHistoricalMetric t other s')
         = answer (StorageService.getHistoricalMetric t other sampleStorage))
  /\ (forall t other,
         other <> "7" ->
         answer (StorageService.getCachedSprintData t other s')
         = answer (StorageService.getCachedSprintData t other sampleStorage)
         /\ answer (StorageService.getCachedPRData t other s')
            = answer (StorageService.getCachedPRData t other sampleStorage)
         /\ answer (StorageService.getReport t other s')
            = answer (StorageService.getReport t other sampleStorage)).
Proof.
  apply (invalidateSprintCache_clears_one_sprint sampleStorage "7"). reflexivity.
Defined.

(** Sprint 8 is still served after sprint 7 was invalidated. *)
Example invalidateSprintCache_keeps_other_sprint :
  answer (StorageService.getCachedSprintData
            60000 "8"
            (storageAfter (StorageService.invalidateSprintCache "7" sampleStorage)))
  = AnalysisOrchestrator.Resolved (Some (StorageService.SprintPayload sprintSeven []))
  /\ answer (StorageService.getCachedSprintData
               60000 "7"
               (storageAfter (StorageService.invalidateSprintCache "7" sampleStorage)))
     = AnalysisOrchestrator.Resolved None
  /\ answer (StorageService.getCachedSprintData 60000 "7" sampleStorage)
     = AnalysisOrchestrator.Resolved (Some (StorageService.SprintPayload sprintSeven sampleIssues)).
Proof. repeat split; vm_compute; reflexivity. Qed.

(* ================================================================== *)
(** ** BitbucketDataCollector: the batch fetch *)

Lemma batchesOf_concat {A} (fuel : nat) (l : list A) :
  (List.length l <= fuel)%nat ->
  List.concat (BitbucketDataCollector.batchesOf fuel l) = l.
Proof.
  revert l. induction fuel as [|fuel IH]; intros l Hlen.
  - destruct l; [reflexivity | cbn in Hlen; lia].
  - destruct l as [|x r]; [reflexivity|].
    cbn [BitbucketDataCollector.batchesOf List.concat].
    rewrite IH, firstn_skipn; [reflexivity|].
    rewrite length_skipn. cbn [List.length] in *. lia.
Qed.

Lemma batchesOf_sizes {A} (fuel : nat) (l : list A) :
  Forall (fun batch => (1 <= List.length batch <= 5)%nat)
         (BitbucketDataCollector.batchesOf fuel l).
Proof.
  revert l. induction fuel as [|fuel IH]; intros l.
  - destruct l; constructor.
  - destruct l as [|x r]; [constructor|].
    cbn [BitbucketDataCollector.batchesOf]. constructor; [|apply IH].
    rewrite length_firstn. cbn [List.length]. lia.
Qed.


Lemma seen_In (x : string) (seen : list string) :
  existsb (String.eqb x) seen = true <-> In x seen.
Proof.
  rewrite existsb_exists. split.
  - intros [y [Hy E]]. apply String.eqb_eq in E. now subst y.
  - intros H. exists x. split; [exact H | apply String.eqb_refl].
Qed.

Lemma collect_all (prs : list PullRequestData.t) (seen : list string)
      (allPRs : list PullRequestData.t) :
  fold_left BitbucketDataCollector.collect prs (seen, allPRs)
  = (seenAfter seen prs, allPRs ++ firstById seen prs).
Proof.
  revert seen allPRs. induction prs as [|pr rest IH]; intros seen allPRs.
  - cbn. now rewrite app_nil_r.
  - cbn [fold_left seenAfter firstById BitbucketDataCollector.collect].
    destruct (existsb _ seen); rewrite IH; [reflexivity|].
    now rewrite <- app_assoc.
Qed.

Lemma seenAfter_app (seen : list string) (a b : list PullRequestData.t) :
  seenAfter seen (a ++ b) = seenAfter (seenAfter seen a) b.
Proof.
  revert seen. induction a as [|pr rest IH]; intros seen; [reflexivity|].
  cbn [app seenAfter]. destruct (existsb _ seen); apply IH.
Qed.

Lemma firstById_app (seen : list string) (a b : list PullRequestData.t) :
  firstById seen (a ++ b) = firstById seen a ++ firstById (seenAfter seen a) b.
Proof.
  revert seen. induction a as [|pr rest IH]; intros seen; [reflexivity|].
  cbn [app seenAfter firstById]. destruct (existsb _ seen); [apply IH|].
  cbn [app]. now rewrite IH.
Qed.

Lemma collect_batches (results : list (list PullRequestData.t)) (seen : list string)
      (allPRs : list PullRequestData.t) :
  fold_left (fun c prs => fold_left BitbucketDataCollector.collect prs c) results
            (seen, allPRs)
  = (seenAfter seen (List.concat results), allPRs ++ firstById seen (List.concat results)).
Proof.
  revert seen allPRs. induction results as [|prs rest IH]; intros seen allPRs.
  - cbn. now rewrite app_nil_r.
  - cbn [fold_left List.concat]. rewrite collect_all, IH, seenAfter_app, firstById_app.
    now rewrite <- app_assoc.
Qed.

Lemma processBatch_unavailable (collected : list string * list PullRequestData.t)
      (batch : list (string * BitbucketDataCollector.issueResult)) :
  BitbucketDataCollector.processBatch (false, collected) batch = (false, collected).
Proof.
  unfold BitbucketDataCollector.processBatch,
    BitbucketDataCollector.getPullRequestsForIssue. cbn [negb].
  rewrite andb_false_r. f_equal.
  induction batch as [|a rest IH]; [reflexivity|]. cbn [map fst fold_left]. exact IH.
Qed.

Lemma processBatch_available (seen : list string) (allPRs : list PullRequestData.t)
      (batch : list (string * BitbucketDataCollector.issueResult)) :
  BitbucketDataCollector.processBatch (true, (seen, allPRs)) batch
  = (forallb (fun asked => BitbucketDataCollector.stillAvailable (snd asked)) batch,
     (seenAfter seen (returnedBy batch), allPRs ++ firstById seen (returnedBy batch))).
Proof.
  unfold BitbucketDataCollector.processBatch,
    BitbucketDataCollector.getPullRequestsForIssue. cbn [negb].
  rewrite andb_true_r, collect_batches, !map_map. cbn [fst snd].
  unfold returnedBy. rewrite flat_map_concat_map. f_equal.
  induction batch as [|a rest IH]; [reflexivity|]. cbn [map forallb]. now rewrite IH.
Qed.

Lemma batches_unavailable (collected : list string * list PullRequestData.t)
      (batches : list (list (string * BitbucketDataCollector.issueResult))) :
  fold_left BitbucketDataCollector.processBatch batches (false, collected)
  = (false, collected).
Proof.
  induction batches as [|b rest IH]; [reflexivity|].
  cbn [fold_left]. rewrite processBatch_unavailable. exact IH.
Qed.

Lemma returnedBy_app (a b : list (string * BitbucketDataCollector.issueResult)) :
  returnedBy (a ++ b) = returnedBy a ++ returnedBy b.
Proof. unfold returnedBy. apply flat_map_app. Qed.

Lemma batches_available (batches : list (list (string * BitbucketDataCollector.issueResult)))
      (seen : list string) (allPRs : list PullRequestData.t) :
  fold_left BitbucketDataCollector.processBatch batches (true, (seen, allPRs))
  = (forallb (fun asked => BitbucketDataCollector.stillAvailable (snd asked))
             (reached batches),
     (seenAfter seen (returnedBy (reached batches)),
      allPRs ++ firstById seen (returnedBy (reached batches)))).
Proof.
  revert seen allPRs. induction batches as [|b rest IH]; intros seen allPRs.
  - cbn. now rewrite app_nil_r.
  - cbn [fold_left reached]. rewrite processBatch_available.
    destruct (forallb _ b) eqn:Eb.
    + rewrite IH, forallb_app, Eb, returnedBy_app, seenAfter_app, firstById_app.
      cbn [andb]. now rewrite <- app_assoc.
    + rewrite batches_unavailable, !app_nil_r, Eb. reflexivity.
Qed.

Lemma firstById_distinct (prs : list PullRequestData.t) (seen : list string) :
  NoDup (map PullRequestData.id (firstById seen prs))
  /\ forall pr, In pr (firstById seen prs) ->
                In pr prs /\ ~ In (PullRequestData.id pr) seen.
Proof.
  revert seen. induction prs as [|pr rest IH]; intros seen.
  - split; [constructor | intros pr []].
  - cbn [firstById]. destruct (existsb _ seen) eqn:E.
    + destruct (IH seen) as [IH1 IH2]. split; [exact IH1|].
      intros p Hp. destruct (IH2 p Hp). split; [now right | assumption].
    + destruct (IH (PullRequestData.id pr :: seen)) as [IH1 IH2].
      assert (Hnew : ~ In (PullRequestData.id pr) seen).
      { intros H. apply seen_In in H. congruence. }
      split.
      * cbn [map]. constructor; [|exact IH1].
        intros Hin. apply in_map_iff in Hin. destruct Hin as [p [Hid Hp]].
        destruct (IH2 p Hp) as [_ Hns]. apply Hns. left. now symmetry.
      * intros p [<-|Hp]; [split; [now left | exact Hnew]|].
        destruct (IH2 p Hp) as [Hin Hns]. split; [now right|].
        intros H. apply Hns. now right.
Qed.

Lemma firstById_covers (prs : list PullRequestData.t) (seen : list string)
      (pr : PullRequestData.t) :
  In pr prs ->
  In (PullRequestData.id pr) seen
  \/ In (PullRequestData.id pr) (map PullRequestData.id (firstById seen prs)).
Proof.
  revert seen. induction prs as [|p rest IH]; intros seen; [intros []|].
  intros [->|Hin]; cbn [firstById].
  - destruct (existsb _ seen) eqn:E; [left; now apply seen_In|].
    right. now left.
  - destruct (existsb _ seen) eqn:E; [now apply IH|].
    destruct (IH (PullRequestData.id p :: seen) Hin) as [[Heq|Hs]|Hr].
    + right. left. exact Heq.
    + left. exact Hs.
    + right. right. exact Hr.
Qed.

Lemma reached_incl (batches : list (list (string * BitbucketDataCollector.issueResult))) :
  incl (reached batches) (List.concat batches).
Proof.
  induction batches as [|b rest IH]; [intros a []|].
  cbn [reached List.concat]. intros a Ha. apply in_app_or in Ha.
  apply in_or_app. destruct Ha as [Ha|Ha]; [now left|].
  destruct (forallb _ b); [right; now apply IH | destruct Ha].
Qed.

Lemma reached_all (batches : list (list (string * BitbucketDataCollector.issueResult))) :
  forallb (fun asked => BitbucketDataCollector.stillAvailable (snd asked))
          (List.concat batches) = true ->
  reached batches = List.concat batches.
Proof.
  induction batches as [|b rest IH]; [reflexivity|].
  cbn [reached List.concat]. rewrite forallb_app. intros H.
  apply andb_true_iff in H. destruct H as [Hb Hr]. rewrite Hb, (IH Hr). reflexivity.
Qed.

Lemma returnedBy_In (asked : list (string * BitbucketDataCollector.issueResult))
      (pr : PullRequestData.t) :
  In pr (returnedBy asked)
  <-> exists a, In a asked /\ In pr (BitbucketDataCollector.pullRequests (snd a)).
Proof. unfold returnedBy. apply in_flat_map. Qed.

(** X29.  The batch fetch of pull requests.  [getPullRequestsForSprint]
    never fails: it returns the first pull request of every id, in the order
    the calls returned them, for the calls that run, which are those of every
    batch of 5 issue keys up to and including the first batch in which a call
    clears the availability flag; the flag stays set exactly when no such
    call does.  Hence the ids returned are distinct, every pull request
    returned was returned by a call, the first batch always contributes,
    every call contributes when none clears the flag, and nothing is asked
    when the flag is clear from the start. *)
Theorem getPullRequestsForSprint_first_of_every_id
        (asked : list (string * BitbucketDataCollector.issueResult)) :
  let calls := reached (BitbucketDataCollector.batchesOf (List.length asked) asked) in
  let result := fst (BitbucketDataCollector.getPullRequestsForSprint true asked) in
  BitbucketDataCollector.getPullRequestsForSprint true asked
  = (firstById [] (returnedBy calls),
     forallb (fun a => BitbucketDataCollector.stillAvailable (snd a)) calls)
  /\ NoDup (map PullRequestData.id result)
  /\ (forall pr, In pr result ->
                 exists a, In a asked /\ In pr (BitbucketDataCollector.pullRequests (snd a)))
  /\ (forall a pr,
         In a (firstn 5 asked) ->
         In pr (BitbucketDataCollector.pullRequests (snd a)) ->
         In (PullRequestData.id pr) (map PullRequestData.id result))
  /\ (forallb (fun a => BitbucketDataCollector.stillAvailable (snd a)) asked = true ->
      calls = asked)
  /\ BitbucketDataCollector.getPullRequestsForSprint false asked = ([], false).
Proof.
  cbv zeta.
  assert (Hrun : BitbucketDataCollector.getPullRequestsForSprint true asked
                 = (firstById [] (returnedBy
                                    (reached (BitbucketDataCollector.batchesOf
                                                (List.length asked) asked))),
                    forallb (fun a => BitbucketDataCollector.stillAvailable (snd a))
                            (reached (BitbucketDataCollector.batchesOf
                                        (List.length asked) asked)))).
  { unfold BitbucketDataCollector.getPullRequestsForSprint. cbn [negb].
    rewrite batches_available. reflexivity. }
  pose proof (batchesOf_concat (List.length asked) asked (Nat.le_refl _)) as Hconcat.
  set (batches := BitbucketDataCollector.batchesOf (List.length asked) asked) in *.
  rewrite Hrun. cbn [fst].
  destruct (firstById_distinct (returnedBy (reached batches)) []) as [Hnd Hin].
  split; [reflexivity|]. split; [exact Hnd|]. split; [|split; [|split]].
  - intros pr Hpr. destruct (Hin pr Hpr) as [Hret _].
    apply returnedBy_In in Hret. destruct Hret as [a [Ha Hp]].
    exists a. split; [|exact Hp]. rewrite <- Hconcat. now apply reached_incl.
  - intros a pr Ha Hp.
    assert (Hreached : In a (reached batches)).
    { unfold batches. destruct asked as [|a0 rest]; [destruct Ha|].
      cbn [List.length BitbucketDataCollector.batchesOf reached].
      apply in_or_app. left. exact Ha. }
    destruct (firstById_covers (returnedBy (reached batches)) [] pr) as [[]|H];
      [|exact H].
    apply returnedBy_In. exists a. split; assumption.
  - intros Hall. transitivity (List.concat batches); [|exact Hconcat].
    apply reached_all. rewrite Hconcat. exact Hall.
  - reflexivity.
Qed.

(** Six issues, the second failing: the first batch of five is asked in
    full, the sixth issue is not; the pull request linked to two issues comes
    once. *)
Example getPullRequestsForSprint_sample :
  BitbucketDataCollector.getPullRequestsForSprint
    true
    [ ("PROJ-1", BitbucketDataCollector.mkIssueResult [ prNamed "1" "A" ] true);
      ("PROJ-2", BitbucketDataCollector.mkIssueResult [] false);
      ("PROJ-3", BitbucketDataCollector.mkIssueResult
                   [ prNamed "1" "A"; prNamed "2" "B" ] true);
      ("PROJ-4", BitbucketDataCollector.mkIssueResult [] true);
      ("PROJ-5", BitbucketDataCollector.mkIssueResult [ prNamed "3" "C" ] true);
      ("PROJ-6", BitbucketDataCollector.mkIssueResult [ prNamed "4" "D" ] true) ]
  = ([ prNamed "1" "A"; prNamed "2" "B"; prNamed "3" "C" ], false).
Proof. reflexivity. Qed.

(* ================================================================== *)
(** ** JiraDataCollector: requests with retries *)

Lemma attemptsFrom_bounds (remaining attempt : nat)
      (lastError : option AnalysisOrchestrator.thrown)
      (api : nat -> JiraDataCollector.reply) :
  (JiraDataCollector.requests
     (JiraDataCollector.attemptsFrom remaining attempt lastError api) <= remaining)%nat
  /\ (List.length (JiraDataCollector.waits
                     (JiraDataCollector.attemptsFrom remaining attempt lastError api))
      <= remaining)%nat.
Proof.
  revert attempt lastError.
  induction remaining as [|n IH]; intros attempt lastError; [cbn; lia|].
  cbn [JiraDataCollector.attemptsFrom].
  assert (Hafter : forall w e,
             (List.length w <= 1)%nat ->
             (JiraDataCollector.requests
                (JiraDataCollector.after w
                   (JiraDataCollector.attemptsFrom n (S attempt) e api)) <= S n)%nat
             /\ (List.length
                   (JiraDataCollector.waits
                      (JiraDataCollector.after w
                         (JiraDataCollector.attemptsFrom n (S attempt) e api)))
                 <= S n)%nat).
  { intros w e Hw. destruct (IH (S attempt) e) as [H1 H2].
    cbn [JiraDataCollector.after JiraDataCollector.requests JiraDataCollector.waits].
    rewrite length_app. lia. }
  assert (Hcaught : forall error,
             let t :=
               if JiraDataCollector.isClientError error then
                 JiraDataCollector.mkTrace (AnalysisOrchestrator.Rejected error) [] 1
               else if (attempt <? JiraDataCollector.MAX_RETRIES - 1)%nat then
                 JiraDataCollector.after
                   [ Some (JiraDataCollector.calculateBackoff attempt) ]
                   (JiraDataCollector.attemptsFrom n (S attempt) (Some error) api)
               else JiraDataCollector.after
                      [] (JiraDataCollector.attemptsFrom n (S attempt) (Some error) api) in
             (JiraDataCollector.requests t <= S n)%nat
             /\ (List.length (JiraDataCollector.waits t) <= S n)%nat).
  { intros error. cbv zeta.
    destruct (JiraDataCollector.isClientError error); [cbn; lia|].
    destruct (attempt <? _)%nat; apply Hafter; cbn; lia. }
  destruct (api attempt) as [r|error]; [|apply Hcaught].
  destruct (JiraDataCollector.status r =? 429); [apply Hafter; cbn; lia|].
  destruct (negb (JiraDataCollector.ok r)); [|cbn; lia].
  destruct (JiraDataCollector.text r); apply Hcaught.
Qed.

Lemma includes_four_after (p r : string) :
  JS.includes (p ++ String "4" r)%string "4" = true.
Proof.
  induction p as [|c p IH]; cbn [String.append JS.includes].
  - destruct r; reflexivity.
  - destruct (String.prefix "4" (String c (p ++ String "4" r))); [reflexivity | exact IH].
Qed.

Lemma firstThreeDigits_after (p : string) (a b c : ascii) (tail : string) :
  (forall ch, In ch (list_ascii_of_string p) -> JiraDataCollector.isDigit ch = false) ->
  JiraDataCollector.isDigit a = true ->
  JiraDataCollector.isDigit b = true ->
  JiraDataCollector.isDigit c = true ->
  JiraDataCollector.firstThreeDigits (p ++ String a (String b (String c tail)))%string
  = Some (String a (String b (String c EmptyString))).
Proof.
  intros Hp Ha Hb Hc. induction p as [|x p IH].
  - cbn. rewrite Ha, Hb, Hc. reflexivity.
  - assert (Hx : JiraDataCollector.isDigit x = false) by (apply Hp; now left).
    assert (IH' : JiraDataCollector.firstThreeDigits
                    (p ++ String a (String b (String c tail)))%string
                  = Some (String a (String b (String c EmptyString))))
      by (apply IH; intros ch Hch; apply Hp; now right).
    cbn [String.append JiraDataCollector.firstThreeDigits].
    destruct p as [|y [|z p']]; cbn [String.append] in *; rewrite Hx; cbn [andb];
      exact IH'.
Qed.

Lemma statuses_render (s : Z) :
  100 <= s <= 999 -> rendersAsStatus s = true.
Proof.
  intros Hs.
  assert (Hall : forallb rendersAsStatus (map Z.of_nat (seq 100 900)) = true)
    by (vm_compute; reflexivity).
  rewrite forallb_forall in Hall. apply Hall.
  apply in_map_iff. exists (Z.to_nat s). split; [lia|].
  apply in_seq. lia.
Qed.

Lemma httpError_is_client_error (r : JiraDataCollector.response) (errorBody : string) :
  100 <= JiraDataCollector.status r <= 999 ->
  JiraDataCollector.status r <> 429 ->
  JiraDataCollector.isClientError
    (AnalysisOrchestrator.Error (httpErrorMessage r errorBody))
  = JS.includes (httpErrorMessage r errorBody) "4"
  /\ (400 <= JiraDataCollector.status r <= 499 ->
      JS.includes (httpErrorMessage r errorBody) "4" = true).
Proof.
  intros Hs H429. pose proof (statuses_render _ Hs) as Hr.
  unfold rendersAsStatus in Hr. unfold httpErrorMessage.
  destruct (JiraDataCollector.toString (JiraDataCollector.status r))
    as [|a [|b [|c [|d rest]]]] eqn:Es; try discriminate.
  apply andb_true_iff in Hr. destruct Hr as [Hr H4].
  apply andb_true_iff in Hr. destruct Hr as [Hr Hne].
  apply andb_true_iff in Hr. destruct Hr as [Hr Hc].
  apply andb_true_iff in Hr. destruct Hr as [Ha Hb].
  assert (Hdigits : JiraDataCollector.firstThreeDigits
                      ("Jira API error: "
                       ++ String a (String b (String c EmptyString)) ++ " "
                       ++ JiraDataCollector.statusText r ++ " - " ++ errorBody)%string
                    = Some (String a (String b (String c EmptyString)))).
  { change ("Jira API error: "
            ++ String a (String b (String c EmptyString)) ++ " "
            ++ JiraDataCollector.statusText r ++ " - " ++ errorBody)%string
      with ("Jira API error: "
            ++ String a (String b (String c
                 (" " ++ JiraDataCollector.statusText r ++ " - " ++ errorBody))))%string.
    apply firstThreeDigits_after; try assumption.
    intros ch Hch. cbn in Hch.
    repeat (destruct Hch as [<-|Hch]; [reflexivity|]). destruct Hch. }
  split.
  - unfold JiraDataCollector.isClientError. rewrite Hdigits.
    destruct (JS.includes _ "4"); [|reflexivity].
    apply orb_true_iff in Hne. destruct Hne as [Hne|Hne]; [|exact Hne].
    apply Z.eqb_eq in Hne. contradiction.
  - intros H4xx. apply orb_true_iff in H4. destruct H4 as [H4|H4].
    + apply negb_true_iff, andb_false_iff in H4.
      destruct H4 as [H4|H4]; apply Z.leb_gt in H4; lia.
    + apply Ascii.eqb_eq in H4. subst a.
      change ("Jira API error: "
              ++ String "4" (String b (String c EmptyString)) ++ " "
              ++ JiraDataCollector.statusText r ++ " - " ++ errorBody)%string
        with ("Jira API error: "
              ++ String "4" (String b (String c
                   (" " ++ JiraDataCollector.statusText r ++ " - " ++ errorBody))))%string.
      apply includes_four_after.
Qed.

Lemma attemptsFrom_sends (n attempt : nat)
      (lastError : option AnalysisOrchestrator.thrown)
      (api : nat -> JiraDataCollector.reply) :
  (1 <= JiraDataCollector.requests
          (JiraDataCollector.attemptsFrom (S n) attempt lastError api))%nat.
Proof.
  cbn [JiraDataCollector.attemptsFrom].
  assert (Hcaught : forall error,
             (1 <= JiraDataCollector.requests
                     (if JiraDataCollector.isClientError error then
                        JiraDataCollector.mkTrace (AnalysisOrchestrator.Rejected error) [] 1
                      else if (attempt <? JiraDataCollector.MAX_RETRIES - 1)%nat then
                        JiraDataCollector.after
                          [ Some (JiraDataCollector.calculateBackoff attempt) ]
                          (JiraDataCollector.attemptsFrom n (S attempt) (Some error) api)
                      else JiraDataCollector.after
                             []
                             (JiraDataCollector.attemptsFrom n (S attempt) (Some error)
                                                             api)))%nat).
  { intros error. destruct (JiraDataCollector.isClientError error); [cbn; lia|].
    destruct (attempt <? _)%nat; cbn; lia. }
  destruct (api attempt) as [r|error]; [|apply Hcaught].
  destruct (JiraDataCollector.status r =? 429); [cbn; lia|].
  destruct (negb (JiraDataCollector.ok r)); [|cbn; lia].
  destruct (JiraDataCollector.text r); apply Hcaught.
Qed.

Lemma makeRequest_http_error (api : nat -> JiraDataCollector.reply)
      (r : JiraDataCollector.response) (errorBody : string) :
  api 0%nat = JiraDataCollector.Responds r ->
  100 <= JiraDataCollector.status r <= 999 ->
  JiraDataCollector.status r <> 429 ->
  JiraDataCollector.ok r = false ->
  JiraDataCollector.text r = AnalysisOrchestrator.Resolved errorBody ->
  if JS.includes (httpErrorMessage r errorBody) "4" then
    JiraDataCollector.makeRequest api
    = thrownAtOnce (AnalysisOrchestrator.Error (httpErrorMessage r errorBody))
  else retriedAfter 1000 (JiraDataCollector.makeRequest api).
Proof.
  intros Hapi Hs H429 Hok Htext.
  destruct (httpError_is_client_error r errorBody Hs H429) as [Hclient _].
  unfold JiraDataCollector.makeRequest, JiraDataCollector.MAX_RETRIES.
  cbn [JiraDataCollector.attemptsFrom]. rewrite Hapi.
  apply Z.eqb_neq in H429. rewrite H429, Hok, Htext. cbn [negb].
  fold (httpErrorMessage r errorBody). rewrite Hclient.
  destruct (JS.includes (httpErrorMessage r errorBody) "4"); [reflexivity|].
  change (0 <? JiraDataCollector.MAX_RETRIES - 1)%nat with true. cbv iota.
  split; [reflexivity|].
  cbn [JiraDataCollector.after JiraDataCollector.requests].
  apply le_n_S.
  exact (attemptsFrom_sends
           1 1 (Some (AnalysisOrchestrator.Error (httpErrorMessage r errorBody))) api).
Qed.

(** X30.  Which requests to the issue tracker are retried.  [makeRequest]
    sends between 1 and 3 requests.  A response that is [ok] is returned at
    once.  For a response that is not [ok], with a three-digit status other
    than 429, the decision rests on the text of the error message: if the
    message (status, status text and body) contains the digit 4 anywhere, the
    error is raised at once, which is the case of every 4xx status, and also
    of a 504 or of a 500 whose body holds a 4; if it does not, the request is
    sent again after 1000 ms.  Three rate-limited responses (429) in a row
    end in the error [Failed to fetch from Jira after 3 attempts: undefined],
    after three requests and three waits.  Three errors raised by the
    request itself whose messages hold no 4 end in that error with the last
    message, after three requests and waits of 1000 and 2000 ms. *)
Theorem makeRequest_retry_policy (api : nat -> JiraDataCollector.reply) :
  let t := JiraDataCollector.makeRequest api in
  (1 <= JiraDataCollector.requests t <= 3)%nat
  /\ (forall r,
         api 0%nat = JiraDataCollector.Responds r ->
         JiraDataCollector.status r <> 429 -> JiraDataCollector.ok r = true ->
         t = JiraDataCollector.mkTrace (AnalysisOrchestrator.Resolved r) [] 1)
  /\ (forall r errorBody,
         api 0%nat = JiraDataCollector.Responds r ->
         100 <= JiraDataCollector.status r <= 999 ->
         JiraDataCollector.status r <> 429 ->
         JiraDataCollector.ok r = false ->
         JiraDataCollector.text r = AnalysisOrchestrator.Resolved errorBody ->
         (if JS.includes (httpErrorMessage r errorBody) "4" then
            t = thrownAtOnce (AnalysisOrchestrator.Error (httpErrorMessage r errorBody))
          else retriedAfter 1000 t)
         /\ (400 <= JiraDataCollector.status r <= 499 ->
             t = thrownAtOnce (AnalysisOrchestrator.Error (httpErrorMessage r errorBody))))
  /\ ((forall i, (i < 3)%nat -> rateLimited (api i)) ->
      JiraDataCollector.outcome t
      = AnalysisOrchestrator.Rejected
          (AnalysisOrchestrator.Error
             "Failed to fetch from Jira after 3 attempts: undefined")
      /\ JiraDataCollector.requests t = 3%nat
      /\ List.length (JiraDataCollector.waits t) = 3%nat)
  /\ (forall m0 m1 m2,
         api 0%nat = JiraDataCollector.Throws (AnalysisOrchestrator.Error m0) ->
         api 1%nat = JiraDataCollector.Throws (AnalysisOrchestrator.Error m1) ->
         api 2%nat = JiraDataCollector.Throws (AnalysisOrchestrator.Error m2) ->
         JS.includes m0 "4" = false -> JS.includes m1 "4" = false ->
         JS.includes m2 "4" = false ->
         t = JiraDataCollector.mkTrace
               (AnalysisOrchestrator.Rejected
                  (AnalysisOrchestrator.Error
                     ("Failed to fetch from Jira after 3 attempts: " ++ m2)%string))
               [ Some 1000; Some 2000 ] 3).
Proof.
  cbv zeta. split; [|split; [|split; [|split]]].
  - split.
    + apply attemptsFrom_sends.
    + apply (attemptsFrom_bounds 3 0 None api).
  - intros r Hapi H429 Hok.
    unfold JiraDataCollector.makeRequest, JiraDataCollector.MAX_RETRIES.
    cbn [JiraDataCollector.attemptsFrom]. rewrite Hapi.
    apply Z.eqb_neq in H429. rewrite H429, Hok. reflexivity.
  - intros r errorBody Hapi Hs H429 Hok Htext.
    pose proof (makeRequest_http_error api r errorBody Hapi Hs H429 Hok Htext) as H.
    split; [exact H|]. intros H4xx.
    destruct (httpError_is_client_error r errorBody Hs H429) as [_ H4].
    rewrite (H4 H4xx) in H. exact H.
  - intros Hall.
    destruct (Hall 0%nat ltac:(lia)) as [r0 [H0 S0]].
    destruct (Hall 1%nat ltac:(lia)) as [r1 [H1 S1]].
    destruct (Hall 2%nat ltac:(lia)) as [r2 [H2 S2]].
    unfold JiraDataCollector.makeRequest, JiraDataCollector.MAX_RETRIES.
    cbn [JiraDataCollector.attemptsFrom]. rewrite H0, H1, H2, S0, S1, S2.
    cbn [Z.eqb Pos.eqb]. repeat split.
  - intros m0 m1 m2 H0 H1 H2 I0 I1 I2.
    unfold JiraDataCollector.makeRequest, JiraDataCollector.MAX_RETRIES.
    cbn [JiraDataCollector.attemptsFrom]. rewrite H0, H1, H2.
    unfold JiraDataCollector.isClientError. rewrite I0, I1, I2. reflexivity.
Qed.

(** A gateway timeout is not tried again, an internal error is; a
    [Retry-After] of 2 seconds is obeyed. *)
Example makeRequest_samples :
  JiraDataCollector.makeRequest
    (alwaysReplies (JiraDataCollector.Responds (httpError 504 "Gateway Timeout" "busy")))
  = thrownAtOnce (AnalysisOrchestrator.Error "Jira API error: 504 Gateway Timeout - busy")
  /\ JiraDataCollector.makeRequest
       (alwaysReplies
          (JiraDataCollector.Responds (httpError 500 "Internal Server Error" "oops")))
     = JiraDataCollector.mkTrace
         (AnalysisOrchestrator.Rejected
            (AnalysisOrchestrator.Error
               "Failed to fetch from Jira after 3 attempts: Jira API error: 500 Internal Server Error - oops"))
         [ Some 1000; Some 2000 ] 3
  /\ JiraDataCollector.waits
       (JiraDataCollector.makeRequest
          (alwaysReplies
             (JiraDataCollector.Responds
                (JiraDataCollector.mkResponse
                   429 "Too Many Requests" false (Some "2")
                   (AnalysisOrchestrator.Resolved EmptyString)))))
     = [ Some 2000; Some 2000; Some 2000 ].
Proof. repeat split; vm_compute; reflexivity. Qed.
